(** * VTKReporter: per-frame scene synchronisation

    A shallow embedding of [auxiliary/src/VTKReporter.cpp] (class
    [VTKReporterRep] and its handle [VTKReporter]) together with the
    properties of its three geometry stores (persistent decorations,
    rubber-band lines, ephemeral geometry), of style resolution, of the
    report cycle and of teardown.

    Conventions.
    - [Real] (a C++ [double]) is idealised by exact rationals [Q].  Nothing
      proved below depends on rounding: the code only moves numbers around,
      compares them with the sentinel [-1], and hands them to SimTK or VTK.
    - Pointers are [option nat]: [None] is the null pointer, [Some h] the
      address of a VTK object.
    - A member function is a computation over a [World]: the reporter
      object plus the VTK object heap it points into.
    - The source is read as compiled without [_WIN32]; the one place where
      that matters, the end of [report], is there for both builds
      ([report] and [report_WIN32]). *)

From Stdlib Require Import QArith Qabs ZArith List Bool Lia Sorted.
From stdpp Require Import base option list gmap.

Local Open Scope Z_scope.

(** ** SimTK numeric types (SimTKcommon, used by value) *)

Abbreviation Real := Q (only parsing).

Record Vec3 := mkVec3 { vx : Real; vy : Real; vz : Real }.
Record Vec4 := mkVec4 { av0 : Real; av1 : Real; av2 : Real; av3 : Real }.
Record Mat33 := mkMat33 { row0 : Vec3; row1 : Vec3; row2 : Vec3 }.

(** [Vec3(x)]: all three components equal to [x]. *)
Definition Vec3_of (x : Real) : Vec3 := mkVec3 x x x.
(** [Mat33(d)]: [d] on the diagonal, zero elsewhere. *)
Definition Mat33_of (d : Real) : Mat33 :=
  mkMat33 (mkVec3 d 0 0) (mkVec3 0 d 0) (mkVec3 0 0 d).

Definition vadd (a b : Vec3) : Vec3 :=
  mkVec3 (vx a + vx b)%Q (vy a + vy b)%Q (vz a + vz b)%Q.
Definition vdot (a b : Vec3) : Real :=
  (vx a * vx b + vy a * vy b + vz a * vz b)%Q.
Definition mulMV (m : Mat33) (v : Vec3) : Vec3 :=
  mkVec3 (vdot (row0 m) v) (vdot (row1 m) v) (vdot (row2 m) v).
Definition col0 (m : Mat33) := mkVec3 (vx (row0 m)) (vx (row1 m)) (vx (row2 m)).
Definition col1 (m : Mat33) := mkVec3 (vy (row0 m)) (vy (row1 m)) (vy (row2 m)).
Definition col2 (m : Mat33) := mkVec3 (vz (row0 m)) (vz (row1 m)) (vz (row2 m)).
Definition mulMM (a b : Mat33) : Mat33 :=
  let r (x : Vec3) := mkVec3 (vdot x (col0 b)) (vdot x (col1 b)) (vdot x (col2 b)) in
  mkMat33 (r (row0 a)) (r (row1 a)) (r (row2 a)).

(** Comparison of doubles, componentwise for vectors and matrices. *)
Definition Real_eqb (a b : Real) : bool := Qeq_bool a b.
Definition Vec3_eqb (a b : Vec3) : bool :=
  Real_eqb (vx a) (vx b) && Real_eqb (vy a) (vy b) && Real_eqb (vz a) (vz b).
Definition Mat33_eqb (a b : Mat33) : bool :=
  Vec3_eqb (row0 a) (row0 b) && Vec3_eqb (row1 a) (row1 b) && Vec3_eqb (row2 a) (row2 b).

(** [Transform]: rotation [R()] and translation [T()] of a frame in its
    base frame. *)
Record Transform := mkTransform { R : Mat33; T : Vec3 }.

(** [Transform()] *)
Definition Transform_id : Transform := mkTransform (Mat33_of 1) (Vec3_of 0).
(** [Transform(p)]: translation only. *)
Definition Transform_at (p : Vec3) : Transform := mkTransform (Mat33_of 1) p.
(** [X_AB * X_BC] *)
Definition composeTransform (x y : Transform) : Transform :=
  mkTransform (mulMM (R x) (R y)) (vadd (T x) (mulMV (R x) (T y))).
(** [X_GB * station]: re-express a station of B in G. *)
Definition transformPoint (x : Transform) (p : Vec3) : Vec3 :=
  vadd (T x) (mulMV (R x) p).

(** Named colours of SimTKcommon. *)
Definition Black  : Vec3 := mkVec3 0 0 0.
Definition Green  : Vec3 := mkVec3 0 1 0.
Definition Red    : Vec3 := mkVec3 1 0 0.
Definition Gray   : Vec3 := mkVec3 (1#2) (1#2) (1#2).
Definition Purple : Vec3 := mkVec3 (1#2) 0 (1#2).

Definition DefaultGroundBodyColor : Vec3 := Green.
Definition DefaultBaseBodyColor   : Vec3 := Red.
Definition DefaultBodyColor       : Vec3 := Gray.

(** ** Geometry descriptors ([DecorativeGeometry]) *)

(** [DecorativeGeometry::Representation]; [DrawDefault] is the "unset"
    enumerator, with value [-1]. *)
Inductive Representation := DrawPoints | DrawWireframe | DrawSurface | DrawDefault.

Definition repValue (r : Representation) : Z :=
  match r with
  | DrawPoints => 1 | DrawWireframe => 2 | DrawSurface => 3 | DrawDefault => -1
  end.

Inductive Shape :=
| Line (point1 point2 : Vec3)
| Circle (radius : Real)
| Sphere (radius : Real)
| Ellipsoid (radii : Vec3)
| Brick (halfLengths : Vec3)
| Cylinder (radius halfHeight : Real)
| Frame (axisLength : Real).

Record DecorativeGeometry := mkGeom {
  shape          : Shape;
  transform      : Transform;       (* getTransform / setTransform *)
  colorRGB       : Vec3;            (* getColor; first component -1 when unset *)
  opacity        : Real;            (* getOpacity; -1 when unset *)
  lineThickness  : Real;            (* getLineThickness; -1 when unset *)
  representation : Representation;  (* getRepresentation *)
  bodyId         : Z                (* getBodyId *)
}.

Definition setTransform (x : Transform) (g : DecorativeGeometry) :=
  mkGeom (shape g) x (colorRGB g) (opacity g) (lineThickness g) (representation g) (bodyId g).
Definition setColor (c : Vec3) (g : DecorativeGeometry) :=
  mkGeom (shape g) (transform g) c (opacity g) (lineThickness g) (representation g) (bodyId g).
Definition setLineThickness (t : Real) (g : DecorativeGeometry) :=
  mkGeom (shape g) (transform g) (colorRGB g) (opacity g) t (representation g) (bodyId g).
Definition setRepresentation (r : Representation) (g : DecorativeGeometry) :=
  mkGeom (shape g) (transform g) (colorRGB g) (opacity g) (lineThickness g) r (bodyId g).
(** [DecorativeLine::setEndpoints] *)
Definition setEndpoints (p1 p2 : Vec3) (g : DecorativeGeometry) :=
  mkGeom (Line p1 p2) (transform g) (colorRGB g) (opacity g) (lineThickness g)
         (representation g) (bodyId g).

(** A freshly constructed descriptor: identity placement, every style
    field unset, attached to ground. *)
Definition newGeometry (sh : Shape) : DecorativeGeometry :=
  mkGeom sh Transform_id (Vec3_of (-1)) (-1) (-1) DrawDefault 0%Z.

Definition DecorativeFrame (len : Real) := newGeometry (Frame len).
Definition DecorativeLine (p1 p2 : Vec3) := newGeometry (Line p1 p2).
Definition DecorativeSphere (r : Real) := newGeometry (Sphere r).

(** ** Style resolution

    The four conditional expressions that [addDecoration],
    [addRubberBandLine] and [displayEphemeralGeometry] each spell out
    before configuring an actor's property.  [fallback] is the colour used
    when the descriptor has none. *)

Definition colorIsSet (g : DecorativeGeometry) : bool :=
  negb (Real_eqb (vx (colorRGB g)) (-1)).
Definition opacityIsSet (g : DecorativeGeometry) : bool :=
  negb (Real_eqb (opacity g) (-1)).
Definition lineThicknessIsSet (g : DecorativeGeometry) : bool :=
  negb (Real_eqb (lineThickness g) (-1)).
Definition representationIsSet (g : DecorativeGeometry) : bool :=
  negb (repValue (representation g) =? -1).

Definition resolveColor (g : DecorativeGeometry) (fallback : Vec3) : Vec3 :=
  if colorIsSet g then colorRGB g else fallback.
Definition resolveOpacity (g : DecorativeGeometry) : Real :=
  if opacityIsSet g then opacity g else 1%Q.
Definition resolveLineWidth (g : DecorativeGeometry) : Real :=
  if lineThicknessIsSet g then lineThickness g else 1%Q.
Definition resolveRepresentation (g : DecorativeGeometry) : Representation :=
  if representationIsSet g then representation g else DrawSurface.

(** VTK's representation codes ([vtkProperty.h]). *)
Definition VTK_POINTS    : Z := 0.
Definition VTK_WIREFRAME : Z := 1.
Definition VTK_SURFACE   : Z := 2.

(** The [default:] branch only asserts; with assertions compiled out the
    initial value [-1] is returned. *)
Definition convertToVTKRepresentation (drawMode : Representation) : Z :=
  match drawMode with
  | DrawPoints    => VTK_POINTS
  | DrawWireframe => VTK_WIREFRAME
  | DrawSurface   => VTK_SURFACE
  | DrawDefault   => -1
  end.

(** ** Computation stages ([Stage])

    Modelled from the spec: SimTKcommon's [Stage] enumeration is declared
    outside src/.  The spec speaks of computation stages ordered from a
    lowest defined stage up to the stage realized in a state; the source
    names [Stage::Topology], [Stage::Model] and [Stage::Position] and
    steps through stages with [++] and [<=].  A stage is represented by
    its level. *)

Abbreviation Stage := Z (only parsing).

Definition Stage_Empty        : Stage := 0.
Definition Stage_Topology     : Stage := 1.
Definition Stage_Model        : Stage := 2.
Definition Stage_Instance     : Stage := 3.
Definition Stage_Time         : Stage := 4.
Definition Stage_Position     : Stage := 5.
Definition Stage_Velocity     : Stage := 6.
Definition Stage_Dynamics     : Stage := 7.
Definition Stage_Acceleration : Stage := 8.
Definition Stage_Report       : Stage := 9.

(** The lowest stage the enumeration defines. *)
Definition Stage_Lowest : Stage := Stage_Empty.

(** [MobilizedBodyId]: an integer index; ground is body 0. *)
Abbreviation MobilizedBodyId := Z (only parsing).
Definition GroundId : MobilizedBodyId := 0.

(** ** External collaborators

    The reporter calls into three libraries whose code is not part of this
    file.  Each is an interface here; the theorems hold for every
    implementation of it. *)

(** SimTKcommon numerics used by the reporter. *)
Class SimTKcommon := {
  (** [Rotation::convertToAngleAxis]: angle (radians) then axis. *)
  convertToAngleAxis : Mat33 -> Vec4;
  (** [Vec3::norm] *)
  norm : Vec3 -> Real;
  (** [SimTK_RADIAN_TO_DEGREE] *)
  RadiansToDegrees : Real
}.

(** The part of VTK whose results the reporter stores but never inspects. *)
Class VTK := {
  (** orientation of a [vtkProp3D] *)
  Orientation : Type;
  (** [SetOrientation(x,y,z)]: an absolute orientation *)
  SetOrientation : Real -> Real -> Real -> Orientation;
  (** [RotateWXYZ(deg,x,y,z)]: rotate the current orientation *)
  RotateWXYZ : Real -> Real -> Real -> Real -> Orientation -> Orientation;
  PolyData : Type;
  (** [g.implementGeometry(vgeom); vgeom.getVTKPolyData()] *)
  getVTKPolyData : DecorativeGeometry -> PolyData
}.

(** [MultibodySystem] with its [SimbodyMatterSubsystem]. *)
Class MultibodySystem := {
  State : Type;
  (** [State()] *)
  defaultState : State;
  systemTopologyHasBeenRealized : bool;
  (** [getNBodies()] *)
  getNBodies : nat;
  (** [getMobilizedBody(i).getParentMobilizedBody().getMobilizedBodyId()] *)
  getParentMobilizedBodyId : MobilizedBodyId -> MobilizedBodyId;
  getDefaultOutboardFrame : MobilizedBodyId -> Transform;
  getDefaultInboardFrame : MobilizedBodyId -> Transform;
  (** [getDefaultMassProperties().getMassCenter()] *)
  getMassCenter : MobilizedBodyId -> Vec3;
  (** [realize(s, stage)]: [None] when realization throws, otherwise the
      state with its cache realized through [stage]. *)
  realize : State -> Stage -> option State;
  getSystemStage : State -> Stage;
  (** [getMobilizedBody(i).getBodyTransform(s)] for a body of the system *)
  getBodyTransform : State -> MobilizedBodyId -> Transform;
  (** what [calcDecorativeGeometryAndAppend(s, stage, geom)] appends *)
  calcDecorativeGeometry : State -> Stage -> list DecorativeGeometry
}.

Section Model.

Context `{SimTKcommon} `{VTK} `{MultibodySystem}.

(** ** The VTK object heap (a resource-accounting backend)

    Every object ever created stays in the heap and counts the [Delete()]
    calls it has received, so that leaks and double releases show. *)

Record vtkActor := mkActor {
  position           : Vec3;
  orientation        : Orientation;
  propColor          : Vec3;
  propOpacity        : Real;
  propLineWidth      : Real;
  propRepresentation : Z;
  (** [None]: no mapper; [Some None]: a mapper without input *)
  mapperInput        : option (option PolyData);
  actorDeletes       : nat
}.

Record vtkRenderer := mkRenderer {
  sceneActors     : list nat;   (* AddActor / RemoveActor *)
  resetCameraCalls : nat;       (* ResetCamera() *)
  rendererDeletes : nat
}.

Record vtkRenderWindow := mkRenderWindow {
  windowRenderers : list nat;   (* AddRenderer *)
  renderCalls     : nat;        (* Render() *)
  windowDeletes   : nat
}.

Record VTKHeap := mkHeap {
  actors        : gmap nat vtkActor;
  renderers     : gmap nat vtkRenderer;
  renderWindows : gmap nat vtkRenderWindow;
  nextAddress   : nat
}.

Definition emptyHeap : VTKHeap := mkHeap ∅ ∅ ∅ 0.

(** [vtkActor::New()]: at the origin, unrotated, VTK's default property. *)
Definition newActor : vtkActor :=
  mkActor (Vec3_of 0) (SetOrientation 0 0 0) (mkVec3 1 1 1) 1 1 VTK_SURFACE None 0.

Definition actor_SetPosition (p : Vec3) (a : vtkActor) : vtkActor :=
  mkActor p (orientation a) (propColor a) (propOpacity a) (propLineWidth a)
          (propRepresentation a) (mapperInput a) (actorDeletes a).
Definition actor_SetOrientation (x y z : Real) (a : vtkActor) : vtkActor :=
  mkActor (position a) (SetOrientation x y z) (propColor a) (propOpacity a)
          (propLineWidth a) (propRepresentation a) (mapperInput a) (actorDeletes a).
Definition actor_RotateWXYZ (w x y z : Real) (a : vtkActor) : vtkActor :=
  mkActor (position a) (RotateWXYZ w x y z (orientation a)) (propColor a) (propOpacity a)
          (propLineWidth a) (propRepresentation a) (mapperInput a) (actorDeletes a).
(** [GetProperty()->SetColor/SetOpacity/SetLineWidth/SetRepresentation] *)
Definition actor_SetProperty (c : Vec3) (o lw : Real) (r : Z) (a : vtkActor) : vtkActor :=
  mkActor (position a) (orientation a) c o lw r (mapperInput a) (actorDeletes a).
(** [SetMapper(mapper)] with the mapper's input as it stands *)
Definition actor_SetMapper (input : option PolyData) (a : vtkActor) : vtkActor :=
  mkActor (position a) (orientation a) (propColor a) (propOpacity a) (propLineWidth a)
          (propRepresentation a) (Some input) (actorDeletes a).
Definition actor_Delete (a : vtkActor) : vtkActor :=
  mkActor (position a) (orientation a) (propColor a) (propOpacity a) (propLineWidth a)
          (propRepresentation a) (mapperInput a) (S (actorDeletes a)).

Definition renderer_AddActor (h : nat) (r : vtkRenderer) : vtkRenderer :=
  mkRenderer (sceneActors r ++ [h]) (resetCameraCalls r) (rendererDeletes r).
Definition renderer_RemoveActor (h : nat) (r : vtkRenderer) : vtkRenderer :=
  mkRenderer (filter (λ x, x ≠ h) (sceneActors r)) (resetCameraCalls r) (rendererDeletes r).
Definition renderer_ResetCamera (r : vtkRenderer) : vtkRenderer :=
  mkRenderer (sceneActors r) (S (resetCameraCalls r)) (rendererDeletes r).
Definition renderer_Delete (r : vtkRenderer) : vtkRenderer :=
  mkRenderer (sceneActors r) (resetCameraCalls r) (S (rendererDeletes r)).

Definition window_AddRenderer (h : nat) (w : vtkRenderWindow) : vtkRenderWindow :=
  mkRenderWindow (windowRenderers w ++ [h]) (renderCalls w) (windowDeletes w).
Definition window_Render (w : vtkRenderWindow) : vtkRenderWindow :=
  mkRenderWindow (windowRenderers w) (S (renderCalls w)) (windowDeletes w).
Definition window_Delete (w : vtkRenderWindow) : vtkRenderWindow :=
  mkRenderWindow (windowRenderers w) (renderCalls w) (S (windowDeletes w)).

Definition heap_setActors (m : gmap nat vtkActor) (h : VTKHeap) : VTKHeap :=
  mkHeap m (renderers h) (renderWindows h) (nextAddress h).
Definition heap_setRenderers (m : gmap nat vtkRenderer) (h : VTKHeap) : VTKHeap :=
  mkHeap (actors h) m (renderWindows h) (nextAddress h).
Definition heap_setRenderWindows (m : gmap nat vtkRenderWindow) (h : VTKHeap) : VTKHeap :=
  mkHeap (actors h) (renderers h) m (nextAddress h).

(** ** The reporter object *)

Record PerBodyInfo := mkBody {
  aList           : list (option nat);
  gList           : list DecorativeGeometry;
  defaultColorRGB : Vec3;
  scale           : Real
}.

(** [PerBodyInfo()] *)
Definition newPerBodyInfo : PerBodyInfo := mkBody [] [] Black 1.

Record PerDynamicGeomInfo := mkDyn {
  actor    : option nat;
  line     : DecorativeGeometry;
  body1    : MobilizedBodyId;
  body2    : MobilizedBodyId;
  station1 : Vec3;
  station2 : Vec3
}.

Record VTKReporterRep := mkRep {
  myHandle                        : option nat;
  cameraNeedsToBeReset            : bool;
  defaultBodyScaleForAutoGeometry : Real;
  bodies                          : list PerBodyInfo;
  dynamicGeom                     : list PerDynamicGeomInfo;
  ephemeralGeometry               : list DecorativeGeometry;
  ephemeralActors                 : list (option nat);
  renWin                          : option nat;
  renderer                        : option nat
}.

Definition rep_setMyHandle (x : option nat) (r : VTKReporterRep) :=
  mkRep x (cameraNeedsToBeReset r) (defaultBodyScaleForAutoGeometry r) (bodies r)
        (dynamicGeom r) (ephemeralGeometry r) (ephemeralActors r) (renWin r) (renderer r).
Definition rep_setCameraNeedsToBeReset (x : bool) (r : VTKReporterRep) :=
  mkRep (myHandle r) x (defaultBodyScaleForAutoGeometry r) (bodies r)
        (dynamicGeom r) (ephemeralGeometry r) (ephemeralActors r) (renWin r) (renderer r).
Definition rep_setDefaultScale (x : Real) (r : VTKReporterRep) :=
  mkRep (myHandle r) (cameraNeedsToBeReset r) x (bodies r)
        (dynamicGeom r) (ephemeralGeometry r) (ephemeralActors r) (renWin r) (renderer r).
Definition rep_setBodies (x : list PerBodyInfo) (r : VTKReporterRep) :=
  mkRep (myHandle r) (cameraNeedsToBeReset r) (defaultBodyScaleForAutoGeometry r) x
        (dynamicGeom r) (ephemeralGeometry r) (ephemeralActors r) (renWin r) (renderer r).
Definition rep_setDynamicGeom (x : list PerDynamicGeomInfo) (r : VTKReporterRep) :=
  mkRep (myHandle r) (cameraNeedsToBeReset r) (defaultBodyScaleForAutoGeometry r) (bodies r)
        x (ephemeralGeometry r) (ephemeralActors r) (renWin r) (renderer r).
Definition rep_setEphemeralGeometry (x : list DecorativeGeometry) (r : VTKReporterRep) :=
  mkRep (myHandle r) (cameraNeedsToBeReset r) (defaultBodyScaleForAutoGeometry r) (bodies r)
        (dynamicGeom r) x (ephemeralActors r) (renWin r) (renderer r).
Definition rep_setEphemeralActors (x : list (option nat)) (r : VTKReporterRep) :=
  mkRep (myHandle r) (cameraNeedsToBeReset r) (defaultBodyScaleForAutoGeometry r) (bodies r)
        (dynamicGeom r) (ephemeralGeometry r) x (renWin r) (renderer r).
Definition rep_setRenWin (x : option nat) (r : VTKReporterRep) :=
  mkRep (myHandle r) (cameraNeedsToBeReset r) (defaultBodyScaleForAutoGeometry r) (bodies r)
        (dynamicGeom r) (ephemeralGeometry r) (ephemeralActors r) x (renderer r).
Definition rep_setRenderer (x : option nat) (r : VTKReporterRep) :=
  mkRep (myHandle r) (cameraNeedsToBeReset r) (defaultBodyScaleForAutoGeometry r) (bodies r)
        (dynamicGeom r) (ephemeralGeometry r) (ephemeralActors r) (renWin r) x.

(** A reporter together with the heap its pointers refer to. *)
Record World := mkWorld { rep : VTKReporterRep; vtk : VTKHeap }.

(** ** Computations

    A member function either returns, throws a C++ exception (the world is
    left as it was when the exception was raised), or has undefined
    behaviour: an unchecked [std::vector] index out of range, or a call
    through a null or dangling pointer. *)

Inductive Exn :=
| Exception_Cant             (* SimTK_THROW1(Exception::Cant, ...) *)
| Exception_Realize          (* raised inside mbs.realize *)
| Exception_IndexOutOfRange. (* body id rejected by the matter subsystem *)

Inductive Outcome (A : Type) :=
| Returns (a : A) (w : World)
| Throws (e : Exn) (w : World)
| Undefined.
Arguments Returns {A} a w.
Arguments Throws {A} e w.
Arguments Undefined {A}.

Definition M (A : Type) : Type := World -> Outcome A.

#[global] Instance M_ret : MRet M := λ A a w, Returns a w.
#[global] Instance M_bind : MBind M := λ A B f m w,
  match m w with
  | Returns a w' => f a w'
  | Throws e w' => Throws e w'
  | Undefined => Undefined
  end.

Definition undefined {A} : M A := λ _, Undefined.
Definition throw {A} (e : Exn) : M A := λ w, Throws e w.
Definition getRep : M VTKReporterRep := λ w, Returns (rep w) w.
Definition modifyRep (f : VTKReporterRep -> VTKReporterRep) : M unit :=
  λ w, Returns tt (mkWorld (f (rep w)) (vtk w)).
Definition modifyHeap (f : VTKHeap -> VTKHeap) : M unit :=
  λ w, Returns tt (mkWorld (rep w) (f (vtk w))).
(** the value behind an [option], undefined behaviour when there is none *)
Definition defined {A} (o : option A) : M A :=
  match o with Some a => mret a | None => undefined end.

Fixpoint forEach {X} (l : list X) (body : X -> M unit) : M unit :=
  match l with
  | [] => mret tt
  | x :: l' => body x;; forEach l' body
  end.

(** *** VTK calls *)

Definition vtkActor_New : M nat := λ w,
  let h := vtk w in
  Returns (nextAddress h)
    (mkWorld (rep w) (mkHeap (<[nextAddress h := newActor]> (actors h)) (renderers h)
                             (renderWindows h) (S (nextAddress h)))).
Definition vtkRenderer_New : M nat := λ w,
  let h := vtk w in
  Returns (nextAddress h)
    (mkWorld (rep w) (mkHeap (actors h) (<[nextAddress h := mkRenderer [] 0 0]> (renderers h))
                             (renderWindows h) (S (nextAddress h)))).
Definition vtkRenderWindow_New : M nat := λ w,
  let h := vtk w in
  Returns (nextAddress h)
    (mkWorld (rep w) (mkHeap (actors h) (renderers h)
                             (<[nextAddress h := mkRenderWindow [] 0 0]> (renderWindows h))
                             (S (nextAddress h)))).

(** [p->f(...)] on an actor, a renderer, a window *)
Definition onActor (p : option nat) (f : vtkActor -> vtkActor) : M unit := λ w,
  match p with
  | None => Undefined
  | Some a =>
      match actors (vtk w) !! a with
      | None => Undefined
      | Some o => Returns tt (mkWorld (rep w) (heap_setActors (<[a := f o]> (actors (vtk w))) (vtk w)))
      end
  end.
Definition onRenderer (p : option nat) (f : vtkRenderer -> vtkRenderer) : M unit := λ w,
  match p with
  | None => Undefined
  | Some a =>
      match renderers (vtk w) !! a with
      | None => Undefined
      | Some o =>
          Returns tt (mkWorld (rep w) (heap_setRenderers (<[a := f o]> (renderers (vtk w))) (vtk w)))
      end
  end.
Definition onRenderWindow (p : option nat) (f : vtkRenderWindow -> vtkRenderWindow) : M unit :=
  λ w,
  match p with
  | None => Undefined
  | Some a =>
      match renderWindows (vtk w) !! a with
      | None => Undefined
      | Some o =>
          Returns tt (mkWorld (rep w)
                        (heap_setRenderWindows (<[a := f o]> (renderWindows (vtk w))) (vtk w)))
      end
  end.

(** [renderer->AddActor(a)] and [renderer->RemoveActor(p)] *)
Definition AddActor (a : nat) : M unit :=
  r ← getRep; onRenderer (renderer r) (renderer_AddActor a).
Definition RemoveActor (p : option nat) : M unit :=
  r ← getRep;
  onRenderer (renderer r) (match p with Some a => renderer_RemoveActor a | None => id end).

(** [vtkPolyDataMapper::SafeDownCast(actor->GetMapper())->SetInput(poly)] *)
Definition mapper_SetInput (p : option nat) (poly : PolyData) : M unit := λ w,
  match p with
  | None => Undefined
  | Some a =>
      match actors (vtk w) !! a with
      | None => Undefined
      | Some o =>
          match mapperInput o with
          | None => Undefined
          | Some _ =>
              Returns tt (mkWorld (rep w)
                            (heap_setActors (<[a := actor_SetMapper (Some poly) o]> (actors (vtk w)))
                                            (vtk w)))
          end
      end
  end.

(** *** Calls into the multibody system *)

Definition realizeM (s : State) (stage : Stage) : M State :=
  match realize s stage with
  | Some s' => mret s'
  | None => throw Exception_Realize
  end.

Definition isBodyOfSystem (id : MobilizedBodyId) : bool :=
  (0 <=? id) && (id <? Z.of_nat getNBodies).

(** Modelled from the spec: [getMobilizedBody] is implemented outside src/.
    "Any out-of-range body id encountered while applying a transform is a
    fatal programming error ... surfaced immediately": the lookup of a
    body the system does not have raises. *)
Definition getMobilizedBodyTransform (s : State) (id : MobilizedBodyId) : M Transform :=
  if isBodyOfSystem id then mret (getBodyTransform s id)
  else throw Exception_IndexOutOfRange.

(** *** Unchecked vector indexing *)

(** [v[i]] for reading: [None] when [i] is outside [0 .. size-1]. *)
Definition vectorIndex {A} (v : list A) (i : Z) : option A :=
  if 0 <=? i then v !! Z.to_nat i else None.

(** [bodies[bodyNum]] as an rvalue and as an lvalue *)
Definition getBody (bodyNum : MobilizedBodyId) : M PerBodyInfo :=
  r ← getRep; defined (vectorIndex (bodies r) bodyNum).
Definition modifyBody (bodyNum : MobilizedBodyId) (f : PerBodyInfo -> PerBodyInfo) : M unit :=
  b ← getBody bodyNum;
  modifyRep (λ r, rep_setBodies (<[Z.to_nat bodyNum := f b]> (bodies r)) r).

Definition body_setColor (rgb : Vec3) (b : PerBodyInfo) : PerBodyInfo :=
  mkBody (aList b) (gList b) rgb (scale b).
Definition body_setScale (x : Real) (b : PerBodyInfo) : PerBodyInfo :=
  mkBody (aList b) (gList b) (defaultColorRGB b) x.
Definition body_setAList (l : list (option nat)) (b : PerBodyInfo) : PerBodyInfo :=
  mkBody l (gList b) (defaultColorRGB b) (scale b).
Definition dyn_setLine (l : DecorativeGeometry) (d : PerDynamicGeomInfo) : PerDynamicGeomInfo :=
  mkDyn (actor d) l (body1 d) (body2 d) (station1 d) (station2 d).
Definition dyn_setActor (p : option nat) (d : PerDynamicGeomInfo) : PerDynamicGeomInfo :=
  mkDyn p (line d) (body1 d) (body2 d) (station1 d) (station2 d).

(** ** Member functions of [VTKReporterRep] *)

Definition disableDefaultGeometry : M unit := modifyRep (rep_setDefaultScale 0).

Definition resetCamera : M unit := modifyRep (rep_setCameraNeedsToBeReset true).

Definition setDefaultBodyColor (bodyNum : MobilizedBodyId) (rgb : Vec3) : M unit :=
  modifyBody bodyNum (body_setColor rgb).

Definition getDefaultBodyColor (body : MobilizedBodyId) : M Vec3 :=
  b ← getBody body; mret (defaultColorRGB b).

Definition setBodyScale (bodyNum : MobilizedBodyId) (x : Real) : M unit :=
  modifyBody bodyNum (body_setScale x).

(** [new VTKReporterRep] from [this], with the compiler-generated copy
    constructor: every member is copied, pointers included. *)
Definition clone (r : VTKReporterRep) : VTKReporterRep := rep_setMyHandle None r.

Definition setMyHandle (h : nat) : M unit := modifyRep (rep_setMyHandle (Some h)).
Definition clearMyHandle : M unit := modifyRep (rep_setMyHandle None).

(** The colour expression [getColor()[0] != -1 ? getColor() : fallback];
    the fallback is evaluated only when needed. *)
Definition colorOr (g : DecorativeGeometry) (fallback : M Vec3) : M Vec3 :=
  if colorIsSet g then mret (colorRGB g) else fallback.

Definition addDecoration (body : MobilizedBodyId) (X_GD : Transform) (g : DecorativeGeometry)
  : M unit :=
  a ← vtkActor_New;
  let dgeom := setTransform (composeTransform X_GD (transform g)) g in
  modifyBody body (λ b, mkBody (aList b ++ [Some a]) (gList b ++ [dgeom])
                               (defaultColorRGB b) (scale b));;
  let poly := getVTKPolyData dgeom in
  color ← colorOr dgeom (getDefaultBodyColor body);
  onActor (Some a)
    (actor_SetProperty color (resolveOpacity dgeom) (resolveLineWidth dgeom)
       (convertToVTKRepresentation (resolveRepresentation dgeom)));;
  onActor (Some a) (actor_SetMapper (Some poly));;
  AddActor a;;
  modifyRep (rep_setCameraNeedsToBeReset true).

Definition addRubberBandLine (b1 : MobilizedBodyId) (st1 : Vec3)
    (b2 : MobilizedBodyId) (st2 : Vec3) (g : DecorativeGeometry) : M unit :=
  a ← vtkActor_New;
  let info := mkDyn (Some a) g b1 b2 st1 st2 in
  modifyRep (λ r, rep_setDynamicGeom (dynamicGeom r ++ [info]) r);;
  color ← colorOr (line info) (mret Black);
  onActor (actor info)
    (actor_SetProperty color (resolveOpacity (line info)) (resolveLineWidth (line info))
       (convertToVTKRepresentation (resolveRepresentation (line info))));;
  onActor (actor info) (actor_SetMapper None);;
  AddActor a;;
  modifyRep (rep_setCameraNeedsToBeReset true).

Definition addEphemeralDecoration (g : DecorativeGeometry) : M unit :=
  modifyRep (λ r, rep_setEphemeralGeometry (ephemeralGeometry r ++ [g]) r).

(** [std::vector::resize(n)] on a vector of pointers *)
Definition resizePointers (n : nat) (v : list (option nat)) : list (option nat) :=
  take n v ++ replicate (n - length v) None.

(** one turn of the "in with the new" loop *)
Definition displayEphemeralItem (s : State) (i : nat) : M unit :=
  r ← getRep;
  dgeom0 ← defined (ephemeralGeometry r !! i);
  a ← vtkActor_New;
  modifyRep (λ r, rep_setEphemeralActors (<[i := Some a]> (ephemeralActors r)) r);;
  let body := bodyId dgeom0 in
  X_GB ← getMobilizedBodyTransform s body;
  let dgeom := setTransform (composeTransform X_GB (transform dgeom0)) dgeom0 in
  modifyRep (λ r, rep_setEphemeralGeometry (<[i := dgeom]> (ephemeralGeometry r)) r);;
  color ← colorOr dgeom (getDefaultBodyColor body);
  onActor (Some a)
    (actor_SetProperty color (resolveOpacity dgeom) (resolveLineWidth dgeom)
       (convertToVTKRepresentation (resolveRepresentation dgeom)));;
  let poly := getVTKPolyData dgeom in
  onActor (Some a) (actor_SetMapper (Some poly));;
  AddActor a.

Definition displayEphemeralGeometry (s : State) : M unit :=
  r ← getRep;
  (* Out with the old ... *)
  forEach (ephemeralActors r) (λ p, RemoveActor p;; onActor p actor_Delete);;
  (* And in with the new ... *)
  modifyRep (λ r, rep_setEphemeralActors
                    (resizePointers (length (ephemeralGeometry r)) (ephemeralActors r)) r);;
  forEach (seq 0 (length (ephemeralGeometry r))) (displayEphemeralItem s);;
  modifyRep (rep_setEphemeralGeometry []).

Definition setConfiguration (bodyNum : MobilizedBodyId) (X_GB : Transform) : M unit :=
  b ← getBody bodyNum;
  forEach (aList b) (λ p,
    let av := convertToAngleAxis (R X_GB) in
    onActor p (λ a,
      actor_RotateWXYZ (av0 av * RadiansToDegrees) (av1 av) (av2 av) (av3 av)
        (actor_SetOrientation 0 0 0 (actor_SetPosition (T X_GB) a)))).

Definition setRubberBandLine (dgeom : nat) (p1 p2 : Vec3) : M unit :=
  r ← getRep;
  info ← defined (dynamicGeom r !! dgeom);
  let line' := setEndpoints p1 p2 (line info) in
  modifyRep (λ r, rep_setDynamicGeom (<[dgeom := dyn_setLine line' info]> (dynamicGeom r)) r);;
  mapper_SetInput (actor info) (getVTKPolyData line').

(** [for (MobilizedBodyId i(1); i < n; ++i)] *)
Definition bodyIdsFrom (first n : nat) : list MobilizedBodyId :=
  map Z.of_nat (seq first (n - first)).

(** [for (Stage stage = lo; stage <= hi; ++stage)] *)
Definition stagesFromTo (lo hi : Stage) : list Stage :=
  map (λ k, lo + Z.of_nat k) (seq 0 (Z.to_nat (hi - lo + 1))).

(** [VTKReporterRep::report] as it is compiled where [_WIN32] is not
    defined: the function ends with [renWin->Render()].  Where [_WIN32]
    is defined the function goes on to drain the window's message queue
    and can give up the window there; that build is [report_WIN32]
    below.  [mbs.realize] leaves the caller's state realized; the
    realized state is [s']. *)
Definition report (s : State) : M unit :=
  r ← getRep;
  match renWin r with
  | None => mret tt
  | Some _ =>
      s' ← realizeM s Stage_Position;
      forEach (bodyIdsFrom 1 getNBodies) (λ i,
        config ← getMobilizedBodyTransform s' i;
        setConfiguration i config);;
      r ← getRep;
      forEach (seq 0 (length (dynamicGeom r))) (λ i,
        r ← getRep;
        info ← defined (dynamicGeom r !! i);
        X_GB1 ← getMobilizedBodyTransform s' (body1 info);
        X_GB2 ← getMobilizedBodyTransform s' (body2 info);
        setRubberBandLine i (transformPoint X_GB1 (station1 info))
                            (transformPoint X_GB2 (station2 info)));;
      forEach (stagesFromTo Stage_Model (getSystemStage s')) (λ stage,
        modifyRep (λ r, rep_setEphemeralGeometry
                          (ephemeralGeometry r ++ calcDecorativeGeometry s' stage) r));;
      displayEphemeralGeometry s';;
      r ← getRep;
      (if cameraNeedsToBeReset r
       then onRenderer (renderer r) renderer_ResetCamera;;
            modifyRep (rep_setCameraNeedsToBeReset false)
       else mret tt);;
      r ← getRep;
      onRenderWindow (renWin r) window_Render
  end.

(** *** The message loop of the [_WIN32] build

    What [PeekMessage] hands over, as far as the loop looks at it:
    whether the message is [WM_QUIT]. *)
Inductive Message := WM_QUIT | WM_OTHER.

#[global] Instance Message_eq_dec : EqDecision Message.
Proof. solve_decision. Defined.

(** [while (PeekMessage(&msg, NULL, 0, 0, PM_REMOVE))] over the messages
    [msgs] waiting in the queue, oldest first.  On [WM_QUIT] a line is
    printed, the window is released, [renWin] is set to null and the loop
    is left; the messages behind it stay in the queue.  Any other message
    goes to [TranslateMessage] and [DispatchMessage], that is to the
    window procedure of the interactor, which like the camera is not part
    of the heap. *)
Fixpoint processWindowMessages (msgs : list Message) : M unit :=
  match msgs with
  | [] => mret tt
  | WM_QUIT :: _ =>
      r ← getRep;
      onRenderWindow (renWin r) window_Delete;;
      modifyRep (rep_setRenWin None)
  | WM_OTHER :: msgs' => processWindowMessages msgs'
  end.

(** [VTKReporterRep::report] as it is compiled where [_WIN32] is defined,
    when [msgs] are the messages waiting at the end of the call.  The
    early return of a reporter without a window skips the loop too. *)
Definition report_WIN32 (msgs : list Message) (s : State) : M unit :=
  r ← getRep;
  match renWin r with
  | None => mret tt
  | Some _ => report s;; processWindowMessages msgs
  end.

Definition zeroPointers : M unit :=
  modifyRep (λ r, rep_setRenderer None (rep_setRenWin None r)).

Definition deletePointers : M unit :=
  r ← getRep;
  forEach (bodies r) (λ b, forEach (aList b) (λ p, onActor p actor_Delete));;
  modifyRep (λ r, rep_setBodies
                    (map (λ b, body_setAList (map (λ _, None) (aList b)) b) (bodies r)) r);;
  forEach (dynamicGeom r) (λ d, onActor (actor d) actor_Delete);;
  modifyRep (λ r, rep_setDynamicGeom (map (dyn_setActor None) (dynamicGeom r)) r);;
  forEach (ephemeralActors r) (λ p, RemoveActor p;; onActor p actor_Delete);;
  modifyRep (λ r, rep_setEphemeralActors (map (λ _, None) (ephemeralActors r)) r);;
  r ← getRep;
  (match renderer r with Some _ => onRenderer (renderer r) renderer_Delete | None => mret tt end);;
  (match renWin r with Some _ => onRenderWindow (renWin r) window_Delete | None => mret tt end);;
  zeroPointers.

(** *** Construction *)

Definition Real_gtb (a b : Real) : bool := negb (Qle_bool a b).

(** The members as the initialiser list leaves them; the pointers are
    set by the constructor body. *)
Definition initialMembers (bodyScaleDefault : Real) : VTKReporterRep :=
  mkRep None true bodyScaleDefault [] [] [] [] None None.

(** the scaling pass over bodies [1 .. n-1] *)
Definition scaleBody (i : MobilizedBodyId) : M unit :=
  let parent := getParentMobilizedBodyId i in
  (if parent =? GroundId
   then setDefaultBodyColor i DefaultBaseBodyColor
   else setDefaultBodyColor i DefaultBodyColor);;
  let Mo := getDefaultOutboardFrame i in
  bi ← getBody i;
  (if Real_gtb (norm (T Mo)) (scale bi)
   then modifyBody i (body_setScale (norm (T Mo))) else mret tt);;
  let Mb := getDefaultInboardFrame i in
  bp ← getBody parent;
  (if Real_gtb (norm (T Mb)) (scale bp)
   then modifyBody parent (body_setScale (norm (T Mb))) else mret tt).

(** default geometry of body [i]: body frame, joint frames, mass centre *)
Definition defaultGeometry (i : MobilizedBodyId) : M unit :=
  bi ← getBody i;
  let bscale := scale bi in
  addDecoration i Transform_id (setLineThickness 2 (DecorativeFrame (bscale * (1#2))));;
  (if 0 <? i then
     let parent := getParentMobilizedBodyId i in
     bp ← getBody parent;
     let pscale := scale bp in
     let Mo := getDefaultOutboardFrame i in
     (if negb (Vec3_eqb (T Mo) (Vec3_of 0)) || negb (Mat33_eqb (R Mo) (Mat33_of 1)) then
        addDecoration i Mo (DecorativeFrame (bscale * (1#4)));;
        (if negb (Vec3_eqb (T Mo) (Vec3_of 0))
         then addDecoration i Transform_id (DecorativeLine (Vec3_of 0) (T Mo))
         else mret tt)
      else mret tt);;
     let Mb := getDefaultInboardFrame i in
     c ← getDefaultBodyColor i;
     addDecoration parent Mb (setColor c (DecorativeFrame (pscale * (1#4))));;
     (if negb (Vec3_eqb (T Mb) (Vec3_of 0))
      then addDecoration parent Transform_id (DecorativeLine (Vec3_of 0) (T Mb))
      else mret tt)
   else mret tt);;
  let com := setRepresentation DrawPoints (setColor Purple (DecorativeSphere (bscale * (1#20)))) in
  let comPos_B := getMassCenter i in
  addDecoration i (Transform_at comPos_B) com;;
  (if negb (Vec3_eqb comPos_B (Vec3_of 0))
   then addDecoration i Transform_id (DecorativeLine (Vec3_of 0) comPos_B)
   else mret tt).

(** The constructor body.  The interactor, the camera and the three
    lights it also creates belong to the window and the renderer and are
    not part of the heap model. *)
Definition construct (reporter : option nat) : M unit :=
  if negb systemTopologyHasBeenRealized then throw Exception_Cant else
  modifyRep (rep_setMyHandle reporter);;
  zeroPointers;;
  win ← vtkRenderWindow_New;
  modifyRep (rep_setRenWin (Some win));;
  rend ← vtkRenderer_New;
  modifyRep (rep_setRenderer (Some rend));;
  onRenderWindow (Some win) (window_AddRenderer rend);;
  modifyRep (rep_setBodies (replicate getNBodies newPerBodyInfo));;
  r ← getRep;
  forEach (bodyIdsFrom 0 (length (bodies r))) (λ i,
    modifyBody i (body_setScale (defaultBodyScaleForAutoGeometry r)));;
  setDefaultBodyColor GroundId DefaultGroundBodyColor;;
  forEach (bodyIdsFrom 1 (length (bodies r))) scaleBody;;
  (if negb (Real_eqb (defaultBodyScaleForAutoGeometry r) 0)
   then forEach (bodyIdsFrom 0 (length (bodies r))) defaultGeometry
   else mret tt);;
  forEach (calcDecorativeGeometry defaultState Stage_Topology) (λ g,
    addDecoration (bodyId g) Transform_id g);;
  r ← getRep;
  onRenderer (renderer r) renderer_ResetCamera;;
  onRenderWindow (renWin r) window_Render.

(** [new VTKReporterRep(m, defaultScaleForAutoGeometry, reporter)] on a
    given heap *)
Definition VTKReporterRep_new (bodyScaleDefault : Real) (reporter : option nat)
    (h : VTKHeap) : Outcome unit :=
  construct reporter (mkWorld (initialMembers bodyScaleDefault) h).

(** ** The handle class [VTKReporter]

    A handle owns the rep it points to ([None]: empty handle). *)

(** [~VTKReporterRep]: the heap after [delete rep], [None] on undefined
    behaviour *)
Definition destroyRep (r : VTKReporterRep) (h : VTKHeap) : option VTKHeap :=
  match deletePointers (mkWorld r h) with
  | Returns _ w => Some (vtk w)
  | _ => None
  end.

(** copy constructor of the handle at address [this] *)
Definition VTKReporter_copy (src : option VTKReporterRep) (this : nat)
  : option VTKReporterRep :=
  match src with
  | Some r => Some (rep_setMyHandle (Some this) (clone r))
  | None => None
  end.

(** [~VTKReporter] *)
Definition VTKReporter_destroy (v : option VTKReporterRep) (h : VTKHeap) : option VTKHeap :=
  match v with
  | Some r => destroyRep r h
  | None => Some h
  end.

(** copy assignment [dst = src] between distinct handles *)
Definition VTKReporter_assign (dst src : option VTKReporterRep) (this : nat) (h : VTKHeap)
  : option (option VTKReporterRep * VTKHeap) :=
  match VTKReporter_destroy dst h with
  | Some h' => Some (VTKReporter_copy src this, h')
  | None => None
  end.

(** ** Expected results, stated without the monad *)

(** what [addDecoration] and [displayEphemeralGeometry] make of a new
    actor for descriptor [dgeom] when [fallback] is the body's colour *)
Definition styledActor (dgeom : DecorativeGeometry) (fallback : Vec3) : vtkActor :=
  actor_SetMapper (Some (getVTKPolyData dgeom))
    (actor_SetProperty (resolveColor dgeom fallback) (resolveOpacity dgeom)
       (resolveLineWidth dgeom) (convertToVTKRepresentation (resolveRepresentation dgeom))
       newActor).

(** the actor [addRubberBandLine] creates: styled, with a mapper that has
    no input yet *)
Definition rubberBandActor (g : DecorativeGeometry) : vtkActor :=
  actor_SetMapper None
    (actor_SetProperty (resolveColor g Black) (resolveOpacity g) (resolveLineWidth g)
       (convertToVTKRepresentation (resolveRepresentation g)) newActor).

(** the pose [setConfiguration] gives an actor of a body at [X_GB] *)
Definition configured (X_GB : Transform) (a : vtkActor) : vtkActor :=
  let av := convertToAngleAxis (R X_GB) in
  actor_RotateWXYZ (av0 av * RadiansToDegrees) (av1 av) (av2 av) (av3 av)
    (actor_SetOrientation 0 0 0 (actor_SetPosition (T X_GB) a)).

(** a pending ephemeral item re-expressed in ground *)
Definition placedInGround (s : State) (g : DecorativeGeometry) : DecorativeGeometry :=
  setTransform (composeTransform (getBodyTransform s (bodyId g)) (transform g)) g.

(** everything the system contributes to a report of the realized state
    [s], in the order the stage loop visits it *)
Definition contributedGeometry (s : State) : list DecorativeGeometry :=
  concat (map (calcDecorativeGeometry s) (stagesFromTo Stage_Model (getSystemStage s))).

(** [f] applied to the actor behind each pointer of [ps], in order *)
Definition applyAll (f : vtkActor -> vtkActor) (ps : list (option nat))
    (m : gmap nat vtkActor) : gmap nat vtkActor :=
  foldl (λ m p, match p with Some a => alter f a m | None => m end) m ps.

(** the scene after [RemoveActor] of each pointer of [ps] *)
Definition removeAll (ps : list (option nat)) (scene : list nat) : list nat :=
  foldl (λ sc p, match p with Some a => filter (λ x, x ≠ a) sc | None => sc end) scene ps.

(** the actors of [l] stored at consecutive fresh addresses from [n] on *)
Fixpoint insertFrom (n : nat) (l : list vtkActor) (m : gmap nat vtkActor)
  : gmap nat vtkActor :=
  match l with
  | [] => m
  | a :: l' => insertFrom (S n) l' (<[n := a]> m)
  end.

(** the actor built for pending item [g]; the body's colour is looked up
    only when [g] has none *)
Definition builtActor (s : State) (bs : list PerBodyInfo) (g : DecorativeGeometry)
  : vtkActor :=
  styledActor (placedInGround s g)
              (from_option defaultColorRGB Black (vectorIndex bs (bodyId g))).

(** The world [displayEphemeralGeometry] leaves: the previous
    generation released and out of the scene, one new actor per pending
    item, the queue empty. *)
Definition displayedWorld (s : State) (w : World) : World :=
  let olds := ephemeralActors (rep w) in
  let pending := ephemeralGeometry (rep w) in
  let n0 := nextAddress (vtk w) in
  mkWorld
    (rep_setEphemeralGeometry [] (rep_setEphemeralActors (map Some (seq n0 (length pending)))
                                    (rep w)))
    (mkHeap
       (insertFrom n0 (map (builtActor s (bodies (rep w))) pending)
                   (applyAll actor_Delete olds (actors (vtk w))))
       (match renderer (rep w) with
        | Some rd =>
            alter (λ r, mkRenderer (removeAll olds (sceneActors r) ++ seq n0 (length pending))
                                   (resetCameraCalls r) (rendererDeletes r))
                  rd (renderers (vtk w))
        | None => renderers (vtk w)
        end)
       (renderWindows (vtk w))
       (n0 + length pending)).

(** the world after [k] turns of the "in with the new" loop started in
    [w] *)
Definition itemsDisplayed (s : State) (w : World) (k : nat) : World :=
  let pending := ephemeralGeometry (rep w) in
  let n0 := nextAddress (vtk w) in
  mkWorld
    (rep_setEphemeralGeometry (map (placedInGround s) (take k pending) ++ drop k pending)
       (rep_setEphemeralActors (map Some (seq n0 k) ++ drop k (ephemeralActors (rep w)))
          (rep w)))
    (mkHeap
       (insertFrom n0 (map (builtActor s (bodies (rep w))) (take k pending)) (actors (vtk w)))
       (match renderer (rep w) with
        | Some rd =>
            alter (λ r, mkRenderer (sceneActors r ++ seq n0 k)
                                   (resetCameraCalls r) (rendererDeletes r))
                  rd (renderers (vtk w))
        | None => renderers (vtk w)
        end)
       (renderWindows (vtk w))
       (n0 + k)).

(** *** The phases of [report], as functions on worlds *)

(** the actors after [setConfiguration] of each body of [ids] *)
Definition configureBodies (s : State) (bs : list PerBodyInfo) (ids : list MobilizedBodyId)
    (m : gmap nat vtkActor) : gmap nat vtkActor :=
  foldl (λ m i, applyAll (configured (getBodyTransform s i))
                         (from_option aList [] (vectorIndex bs i)) m) m ids.

Definition configuredWorld (s : State) (w : World) : World :=
  mkWorld (rep w)
    (heap_setActors
       (configureBodies s (bodies (rep w)) (bodyIdsFrom 1 getNBodies) (actors (vtk w)))
       (vtk w)).

(** a rubber-band entry with its line stretched between its stations *)
Definition stretched (s : State) (d : PerDynamicGeomInfo) : PerDynamicGeomInfo :=
  dyn_setLine
    (setEndpoints (transformPoint (getBodyTransform s (body1 d)) (station1 d))
                  (transformPoint (getBodyTransform s (body2 d)) (station2 d))
                  (line d)) d.

(** the actors after each entry of [ds] has pushed its new shape into
    its mapper *)
Definition remapAll (s : State) (ds : list PerDynamicGeomInfo) (m : gmap nat vtkActor)
  : gmap nat vtkActor :=
  foldl (λ m d, match actor d with
                | Some a => alter (actor_SetMapper (Some (getVTKPolyData (line (stretched s d)))))
                                  a m
                | None => m
                end) m ds.

Definition stretchedWorld (s : State) (w : World) : World :=
  mkWorld (rep_setDynamicGeom (map (stretched s) (dynamicGeom (rep w))) (rep w))
          (heap_setActors (remapAll s (dynamicGeom (rep w)) (actors (vtk w))) (vtk w)).

Definition collectedWorld (s : State) (w : World) : World :=
  mkWorld (rep_setEphemeralGeometry (ephemeralGeometry (rep w) ++ contributedGeometry s) (rep w))
          (vtk w).

Definition reframedWorld (w : World) : World :=
  if cameraNeedsToBeReset (rep w) then
    mkWorld (rep_setCameraNeedsToBeReset false (rep w))
            (match renderer (rep w) with
             | Some rd => heap_setRenderers (alter renderer_ResetCamera rd (renderers (vtk w)))
                                            (vtk w)
             | None => vtk w
             end)
  else w.

Definition renderedWorld (w : World) : World :=
  mkWorld (rep w)
          (match renWin (rep w) with
           | Some win => heap_setRenderWindows (alter window_Render win (renderWindows (vtk w)))
                                               (vtk w)
           | None => vtk w
           end).

(** the world a completed [report] of the realized state [s] leaves *)
Definition reportedWorld (s : State) (w : World) : World :=
  renderedWorld (reframedWorld (displayedWorld s (collectedWorld s
    (stretchedWorld s (configuredWorld s w))))).

(** *** Where a failing [report] stops *)

(** the world in which the rubber-band loop stops at entry [n]: the
    entries before it stretched and shown, entry [n] and those behind it
    as they were *)
Definition stretchedUpTo (s : State) (n : nat) (w : World) : World :=
  let ds := dynamicGeom (rep w) in
  mkWorld (rep_setDynamicGeom (map (stretched s) (take n ds) ++ drop n ds) (rep w))
          (heap_setActors (remapAll s (take n ds) (actors (vtk w))) (vtk w)).

(** the world after "out with the old" and the resize of the pointer
    vector: the previous generation released and out of the scene *)
Definition clearedWorld (w : World) : World :=
  let olds := ephemeralActors (rep w) in
  mkWorld
    (rep_setEphemeralActors (resizePointers (length (ephemeralGeometry (rep w))) olds) (rep w))
    (mkHeap
       (applyAll actor_Delete olds (actors (vtk w)))
       (match renderer (rep w) with
        | Some rd =>
            alter (λ r, mkRenderer (removeAll olds (sceneActors r))
                                   (resetCameraCalls r) (rendererDeletes r))
                  rd (renderers (vtk w))
        | None => renderers (vtk w)
        end)
       (renderWindows (vtk w))
       (nextAddress (vtk w))).

(** the world in which the display loop stops at item [n]: the items
    before it displayed, and for item [n] an actor that has been created
    and stored, but has no style, no mapper and no place in the scene *)
Definition displayedUpTo (s : State) (n : nat) (w : World) : World :=
  let wn := itemsDisplayed s (clearedWorld w) n in
  let a := nextAddress (vtk wn) in
  mkWorld (rep_setEphemeralActors (<[n := Some a]> (ephemeralActors (rep wn))) (rep wn))
          (mkHeap (<[a := newActor]> (actors (vtk wn))) (renderers (vtk wn))
                  (renderWindows (vtk wn)) (S a)).

(** every pointer of [ps] is the address of an actor of [m] *)
Definition isAllocated (m : gmap nat vtkActor) (p : option nat) : Prop :=
  match p with Some a => is_Some (m !! a) | None => False end.
Definition allocated (m : gmap nat vtkActor) (ps : list (option nat)) : Prop :=
  Forall (isAllocated m) ps.

(** ** Well-formed worlds *)

Definition persistentActors (r : VTKReporterRep) : list (option nat) :=
  mjoin (aList <$> bodies r).
Definition dynamicActors (r : VTKReporterRep) : list (option nat) :=
  actor <$> dynamicGeom r.
Definition ownedActors (r : VTKReporterRep) : list (option nat) :=
  persistentActors r ++ dynamicActors r ++ ephemeralActors r.

(** [p] points to an actor that has not been released *)
Definition liveActor (h : VTKHeap) (p : option nat) : Prop :=
  match p with
  | Some a =>
      match actors h !! a with
      | Some k => actorDeletes k = 0%nat
      | None => False
      end
  | None => False
  end.

(** [p] points to an actor that has a mapper *)
Definition hasMapper (h : VTKHeap) (p : option nat) : Prop :=
  match p with
  | Some a =>
      match actors h !! a with
      | Some k => is_Some (mapperInput k)
      | None => False
      end
  | None => False
  end.

(** the renderer and the window are there (state Ready) *)
Definition Ready (w : World) : Prop :=
  match renWin (rep w), renderer (rep w) with
  | Some win, Some rd =>
      is_Some (renderWindows (vtk w) !! win) ∧ is_Some (renderers (vtk w) !! rd)
  | _, _ => False
  end.

(** The invariant of a reporter that has its heap to itself: one record
    per body of the system; each proxy is owned once, by one store, and
    is live; rubber-band proxies have their mapper; addresses at or above
    [nextAddress] are unused; and a proxy no store owns any more has been
    released exactly once. *)
Definition Inv (w : World) : Prop :=
  Ready w
  ∧ length (bodies (rep w)) = getNBodies
  ∧ NoDup (ownedActors (rep w))
  ∧ Forall (liveActor (vtk w)) (ownedActors (rep w))
  ∧ Forall (hasMapper (vtk w)) (dynamicActors (rep w))
  ∧ map_Forall (λ a _, (a < nextAddress (vtk w))%nat) (actors (vtk w))
  ∧ map_Forall (λ a k, Some a ∉ ownedActors (rep w) -> actorDeletes k = 1%nat) (actors (vtk w)).

(** what the operations need in order to run: the renderer and the
    window, one record per body, and live pointers in all three stores *)
Definition Operable (w : World) : Prop :=
  Ready w
  ∧ length (bodies (rep w)) = getNBodies
  ∧ allocated (actors (vtk w)) (ownedActors (rep w))
  ∧ Forall (hasMapper (vtk w)) (dynamicActors (rep w)).

(** the pose [setConfiguration] leaves, whatever the actor was before:
    positioned at the translation, and oriented by one rotation, about
    the axis and by the angle of the rotation, of the reset orientation *)
Definition posedAt (X_GB : Transform) (k : vtkActor) : Prop :=
  position k = T X_GB
  ∧ orientation k =
    RotateWXYZ (av0 (convertToAngleAxis (R X_GB)) * RadiansToDegrees)
               (av1 (convertToAngleAxis (R X_GB))) (av2 (convertToAngleAxis (R X_GB)))
               (av3 (convertToAngleAxis (R X_GB))) (SetOrientation 0 0 0).

(** every pointer of [ps] is a live actor posed at [X_GB] *)
Definition allPosedAt (h : VTKHeap) (X_GB : Transform) (ps : list (option nat)) : Prop :=
  Forall (λ p, ∃ a k, p = Some a ∧ actors h !! a = Some k ∧ posedAt X_GB k) ps.

(** The property of actor [k] holds the style of descriptor [g] resolved
    against the colour [c]: each field is the descriptor's when the
    descriptor has one; otherwise the colour is [c], opacity and line
    width are 1 and the representation is surface. *)
Definition resolvedStyle (g : DecorativeGeometry) (c : Vec3) (k : vtkActor) : Prop :=
  propColor k = (if colorIsSet g then colorRGB g else c)
  ∧ propOpacity k = (if opacityIsSet g then opacity g else 1%Q)
  ∧ propLineWidth k = (if lineThicknessIsSet g then lineThickness g else 1%Q)
  ∧ propRepresentation k =
    convertToVTKRepresentation
      (if representationIsSet g then representation g else DrawSurface).

(** The same in the spec's own terms, without the tests and the encoder
    of the code: "the explicit value when set; otherwise, for color, the
    owning body's current default color, and for the other fields the
    fixed constants opacity = 1, line width = 1, representation =
    surface".  A field is unset when it is -1 (for a colour, when its
    first component is); VTK shows points, wireframe and surface under the
    codes 0, 1 and 2. *)
Definition specifiedStyle (g : DecorativeGeometry) (c : Vec3) (k : vtkActor) : Prop :=
  propColor k = (if Qeq_bool (vx (colorRGB g)) (-1) then c else colorRGB g)
  ∧ propOpacity k = (if Qeq_bool (opacity g) (-1) then 1%Q else opacity g)
  ∧ propLineWidth k = (if Qeq_bool (lineThickness g) (-1) then 1%Q else lineThickness g)
  ∧ propRepresentation k =
    match representation g with
    | DrawPoints => 0
    | DrawWireframe => 1
    | DrawSurface | DrawDefault => 2
    end.

(** [transform(A) · S] in the spec's terms, by components: the
    translation of the frame plus its rotation matrix applied to the
    station. *)
Definition stationInGround (X : Transform) (p : Vec3) : Vec3 :=
  mkVec3
    (vx (T X) + (vx (row0 (R X)) * vx p + vy (row0 (R X)) * vy p + vz (row0 (R X)) * vz p))%Q
    (vy (T X) + (vx (row1 (R X)) * vx p + vy (row1 (R X)) * vy p + vz (row1 (R X)) * vz p))%Q
    (vz (T X) + (vx (row2 (R X)) * vx p + vy (row2 (R X)) * vy p + vz (row2 (R X)) * vz p))%Q.

(** [hoare P m Q]: whenever [m] returns from a world satisfying [P], the
    result satisfies [Q]. *)
Definition hoare {A} (P : World -> Prop) (m : M A) (Q : A -> World -> Prop) : Prop :=
  ∀ w a w', P w -> m w = Returns a w' -> Q a w'.

(** A report that is atomic with respect to failure: it completes, or
    it raises with the world as it found it. *)
Definition atomicReport (s : State) (w : World) : Prop :=
  (∃ w', report s w = Returns tt w') ∨ (∃ e, report s w = Throws e w).

(** the stages from the lowest defined one up to the one realized in [s] *)
Definition stagesFromLowest (s : State) : list Stage :=
  stagesFromTo Stage_Lowest (getSystemStage s).

(** The world [deletePointers] leaves: every owned actor released, the
    ephemeral ones taken out of the scene first, the renderer and the
    window released, every pointer null. *)
Definition disposedWorld (w : World) : World :=
  let r := rep w in
  mkWorld
    (rep_setRenderer None (rep_setRenWin None
       (rep_setEphemeralActors (map (λ _, None) (ephemeralActors r))
          (rep_setDynamicGeom (map (dyn_setActor None) (dynamicGeom r))
             (rep_setBodies (map (λ b, body_setAList (map (λ _, None) (aList b)) b) (bodies r))
                r)))))
    (mkHeap
       (applyAll actor_Delete (ownedActors r) (actors (vtk w)))
       (match renderer r with
        | Some rd =>
            alter (λ x, mkRenderer (removeAll (ephemeralActors r) (sceneActors x))
                                   (resetCameraCalls x) (S (rendererDeletes x)))
                  rd (renderers (vtk w))
        | None => renderers (vtk w)
        end)
       (match renWin r with
        | Some win => alter window_Delete win (renderWindows (vtk w))
        | None => renderWindows (vtk w)
        end)
       (nextAddress (vtk w))).

(** the camera-reset flag has value [b] *)
Definition flagIs (b : bool) (r : VTKReporterRep) : Prop := cameraNeedsToBeReset r = b.

(** [a] is not among the actors of the reporter's renderer *)
Definition outOfScene (w : World) (a : nat) : Prop :=
  ∀ rd r, renderer (rep w) = Some rd -> renderers (vtk w) !! rd = Some r ->
          a ∉ sceneActors r.

(** [p] points to an actor posed as [vtkActor::New()] left it *)
Definition atCreationPose (h : VTKHeap) (p : option nat) : Prop :=
  match p with
  | Some a =>
      match actors h !! a with
      | Some k => position k = position newActor ∧ orientation k = orientation newActor
      | None => False
      end
  | None => False
  end.

(** ground's proxies have never been moved *)
Definition groundUntouched (w : World) : Prop :=
  Forall (atCreationPose (vtk w)) (from_option aList [] (bodies (rep w) !! 0%nat)).

(** Ground's frame is the reference frame: posing a new actor at
    ground's transform leaves it where it was created. *)
Definition groundIsReference (s : State) : Prop :=
  position (configured (getBodyTransform s GroundId) newActor) = position newActor
  ∧ orientation (configured (getBodyTransform s GroundId) newActor) = orientation newActor.

Definition validBodyId (w : World) (id : MobilizedBodyId) : Prop :=
  0 ≤ id < Z.of_nat (length (bodies (rep w))).

(** the body ids stored with rubber-band lines and with ephemeral items
    name bodies of the system *)
Definition validItems (l : list DecorativeGeometry) : Prop :=
  Forall (λ g, isBodyOfSystem (bodyId g) = true) l.
Definition validLines (r : VTKReporterRep) : Prop :=
  Forall (λ d, isBodyOfSystem (body1 d) = true ∧ isBodyOfSystem (body2 d) = true)
         (dynamicGeom r).

#[global] Instance liveActor_dec h p : Decision (liveActor h p).
Proof. unfold liveActor. destruct p as [a |]; [destruct (actors h !! a) |]; apply _. Defined.
#[global] Instance hasMapper_dec h p : Decision (hasMapper h p).
Proof. unfold hasMapper. destruct p as [a |]; [destruct (actors h !! a) |]; apply _. Defined.
#[global] Instance Ready_dec w : Decision (Ready w).
Proof.
  unfold Ready. destruct (renWin (rep w)); [destruct (renderer (rep w)) |]; apply _.
Defined.
#[global] Instance Inv_dec w : Decision (Inv w).
Proof. unfold Inv. apply _. Defined.
#[global] Instance isAllocated_dec m p : Decision (isAllocated m p).
Proof. unfold isAllocated. destruct p; apply _. Defined.
#[global] Instance Operable_dec w : Decision (Operable w).
Proof. unfold Operable, allocated. apply _. Defined.
#[global] Instance validItems_dec l : Decision (validItems l).
Proof. unfold validItems. apply _. Defined.
#[global] Instance validLines_dec r : Decision (validLines r).
Proof. unfold validLines. apply _. Defined.


(** * The rest of the reporter

    The camera zoom and the ownership tests of the handle, what a test
    double can count, the constructor, and the reporter over its whole
    life. *)

(** ** More of the handle class *)

(** [VTKReporter::zoomCameraToIncludeAllGeometry], for a handle that has
    a rep: the camera is reset at once, unless there is no renderer. *)
Definition zoomCameraToIncludeAllGeometry : M unit :=
  r ← getRep;
  match renderer r with
  | None => mret tt
  | Some _ => onRenderer (renderer r) renderer_ResetCamera
  end.

(** [VTKReporter::isOwnerHandle] and [isEmptyHandle], for the handle at
    address [this] whose rep pointer is [v] *)
Definition isOwnerHandle (v : option VTKReporterRep) (this : nat) : bool :=
  match v with
  | None => true
  | Some r => bool_decide (myHandle r = Some this)
  end.
Definition isEmptyHandle (v : option VTKReporterRep) : bool :=
  match v with None => true | Some _ => false end.

(** ** What can be observed of a reporter *)

(** the number of [Render()] calls the reporter's window has seen *)
Definition framesDrawn (w : World) : nat :=
  match renWin (rep w) with
  | Some win => from_option renderCalls 0%nat (renderWindows (vtk w) !! win)
  | None => 0%nat
  end.

(** the number of [ResetCamera()] calls the reporter's renderer has seen *)
Definition cameraResets (w : World) : nat :=
  match renderer (rep w) with
  | Some rd => from_option resetCameraCalls 0%nat (renderers (vtk w) !! rd)
  | None => 0%nat
  end.

(** how often the reporter's window and its renderer have been released *)
Definition windowReleases (w : World) : nat :=
  match renWin (rep w) with
  | Some win => from_option windowDeletes 0%nat (renderWindows (vtk w) !! win)
  | None => 0%nat
  end.
Definition rendererReleases (w : World) : nat :=
  match renderer (rep w) with
  | Some rd => from_option rendererDeletes 0%nat (renderers (vtk w) !! rd)
  | None => 0%nat
  end.

(** the actors in the reporter's scene, in the order they were added *)
Definition scene (w : World) : list nat :=
  match renderer (rep w) with
  | Some rd => from_option sceneActors [] (renderers (vtk w) !! rd)
  | None => []
  end.

(** a state that can be reported: it can be realized through the
    Position stage, and what the system then contributes names bodies of
    the system *)
Definition reportable (s : State) : Prop :=
  match realize s Stage_Position with
  | Some s' => validItems (contributedGeometry s')
  | None => False
  end.

#[global] Instance reportable_dec s : Decision (reportable s).
Proof. unfold reportable. destruct (realize s Stage_Position); apply _. Defined.

(** ** Construction *)

(** A heap in which a reporter can be constructed and have its actors
    to itself: the actors already there are below the next address and
    have been released. *)
Definition vacantHeap (h : VTKHeap) : Prop :=
  map_Forall (λ a _, (a < nextAddress h)%nat) (actors h)
  ∧ map_Forall (λ _ k, actorDeletes k = 1%nat) (actors h).

(** What the constructor relies on without checking it: the topology
    has been realized (this it does check), there is a ground body, the
    parent of every other body is a body of the system, and so is the
    body of every item the system contributes at the Topology stage. *)
Definition wellFormedSystem : Prop :=
  systemTopologyHasBeenRealized = true
  ∧ (0 < getNBodies)%nat
  ∧ Forall (λ i, isBodyOfSystem (getParentMobilizedBodyId i) = true) (bodyIdsFrom 1 getNBodies)
  ∧ validItems (calcDecorativeGeometry defaultState Stage_Topology).

(** the default colour the constructor gives body [i]: by its place in
    the tree *)
Definition constructedColor (i : MobilizedBodyId) : Vec3 :=
  if i =? GroundId then DefaultGroundBodyColor
  else if getParentMobilizedBodyId i =? GroundId then DefaultBaseBodyColor
       else DefaultBodyColor.

(** the default colours of the bodies, by body id *)
Definition colorsOf (w : World) : list Vec3 := defaultColorRGB <$> bodies (rep w).

(** a descriptor as [addDecoration(body, Transform(), g)] stores it *)
Definition placedOnBody (g : DecorativeGeometry) : DecorativeGeometry :=
  setTransform (composeTransform Transform_id (transform g)) g.

(** [w'] is [w] with more decorations registered: the members other
    than the body records and the camera flag, the window, the camera
    and every actor of [w] are as they were, and the scene has grown by
    the actors created since, in address order. *)
Definition grownFrom (w w' : World) : Prop :=
  myHandle (rep w') = myHandle (rep w)
  ∧ defaultBodyScaleForAutoGeometry (rep w') = defaultBodyScaleForAutoGeometry (rep w)
  ∧ dynamicGeom (rep w') = dynamicGeom (rep w)
  ∧ ephemeralGeometry (rep w') = ephemeralGeometry (rep w)
  ∧ ephemeralActors (rep w') = ephemeralActors (rep w)
  ∧ renWin (rep w') = renWin (rep w)
  ∧ renderer (rep w') = renderer (rep w)
  ∧ renderWindows (vtk w') = renderWindows (vtk w)
  ∧ (nextAddress (vtk w) ≤ nextAddress (vtk w'))%nat
  ∧ (∀ a, (a < nextAddress (vtk w))%nat -> actors (vtk w') !! a = actors (vtk w) !! a)
  ∧ cameraResets w' = cameraResets w
  ∧ scene w' = scene w ++ seq (nextAddress (vtk w))
                              (nextAddress (vtk w') - nextAddress (vtk w))
  ∧ rendererReleases w' = rendererReleases w.

(** the world the constructor has set up when it starts on the bodies:
    a window at the first free address, a renderer at the next, one
    fresh record per body *)
Definition setupWorld (bodyScaleDefault : Real) (reporter : option nat) (h : VTKHeap)
  : World :=
  let win := nextAddress h in
  mkWorld
    (mkRep reporter true bodyScaleDefault (replicate getNBodies newPerBodyInfo) [] [] []
           (Some win) (Some (S win)))
    (mkHeap (actors h)
            (<[S win := mkRenderer [] 0 0]> (renderers h))
            (<[win := mkRenderWindow [S win] 0 0]> (renderWindows h))
            (S (S win))).

(** the constructor at work on the body records of the world [w1] it
    has set up: no actor created yet, the default colours [cs] *)
Definition settingUp (w1 : World) (cs : list Vec3) (w : World) : Prop :=
  Inv w ∧ grownFrom w1 w ∧ vtk w = vtk w1
  ∧ cameraNeedsToBeReset (rep w) = true ∧ colorsOf w = cs.

(** the constructor at work on the decorations *)
Definition decorating (w1 : World) (cs : list Vec3) (w : World) : Prop :=
  Inv w ∧ grownFrom w1 w ∧ cameraNeedsToBeReset (rep w) = true ∧ colorsOf w = cs.

(** the decoration the reporter holds for descriptor [g] registered with
    [addDecoration(bodyId g, Transform(), g)], its proxy at address [a]:
    proxy and descriptor are in the lists of [g]'s body, and the proxy
    is styled with the body's default colour where [g] has none *)
Definition decorates (w : World) (a : nat) (g : DecorativeGeometry) : Prop :=
  ∃ b, vectorIndex (bodies (rep w)) (bodyId g) = Some b
     ∧ Some a ∈ aList b
     ∧ placedOnBody g ∈ gList b
     ∧ actors (vtk w) !! a = Some (styledActor (placedOnBody g) (defaultColorRGB b)).

#[global] Instance vacantHeap_dec h : Decision (vacantHeap h).
Proof. unfold vacantHeap. apply _. Defined.
#[global] Instance wellFormedSystem_dec : Decision wellFormedSystem.
Proof. unfold wellFormedSystem. apply _. Defined.

(** instance search looks for these predicates by name *)
#[global] Typeclasses Opaque reportable vacantHeap wellFormedSystem.

(** ** The reporter in use *)

(** The operations a program performs on a reporter between its
    construction and its destruction: the public member functions of
    the rep, and the zoom of the handle. *)
Inductive Command :=
| AddDecoration (body : MobilizedBodyId) (X_GD : Transform) (g : DecorativeGeometry)
| AddRubberBandLine (b1 : MobilizedBodyId) (station1 : Vec3)
                    (b2 : MobilizedBodyId) (station2 : Vec3) (g : DecorativeGeometry)
| AddEphemeralDecoration (g : DecorativeGeometry)
| SetDefaultBodyColor (bodyNum : MobilizedBodyId) (rgb : Vec3)
| SetBodyScale (bodyNum : MobilizedBodyId) (x : Real)
| ResetCamera
| DisableDefaultGeometry
| ZoomCameraToIncludeAllGeometry
| Report (s : State).

Definition perform (c : Command) : M unit :=
  match c with
  | AddDecoration body X_GD g => addDecoration body X_GD g
  | AddRubberBandLine b1 station1 b2 station2 g => addRubberBandLine b1 station1 b2 station2 g
  | AddEphemeralDecoration g => addEphemeralDecoration g
  | SetDefaultBodyColor bodyNum rgb => setDefaultBodyColor bodyNum rgb
  | SetBodyScale bodyNum x => setBodyScale bodyNum x
  | ResetCamera => resetCamera
  | DisableDefaultGeometry => disableDefaultGeometry
  | ZoomCameraToIncludeAllGeometry => zoomCameraToIncludeAllGeometry
  | Report s => report s
  end.

(** what the caller owes: body ids that name bodies of the system, and
    states that can be reported *)
Definition admissible (c : Command) : Prop :=
  match c with
  | AddDecoration body _ _ => isBodyOfSystem body = true
  | AddRubberBandLine b1 _ b2 _ _ => isBodyOfSystem b1 = true ∧ isBodyOfSystem b2 = true
  | AddEphemeralDecoration g => isBodyOfSystem (bodyId g) = true
  | SetDefaultBodyColor bodyNum _ | SetBodyScale bodyNum _ => isBodyOfSystem bodyNum = true
  | Report s => reportable s
  | ResetCamera | DisableDefaultGeometry | ZoomCameraToIncludeAllGeometry => True
  end.

(** a reporter in service: well-formed, every stored body id valid, its
    window and renderer not released *)
Definition inService (w : World) : Prop :=
  Inv w ∧ validLines (rep w) ∧ validItems (ephemeralGeometry (rep w))
  ∧ windowReleases w = 0%nat ∧ rendererReleases w = 0%nat.

(** The life of a reporter object: constructed, used, destroyed. *)
Definition lifetime (reporter : option nat) (cs : list Command) : M unit :=
  construct reporter;; forEach cs perform;; deletePointers.

(** [k] carries one of VTK's representation codes, not the [-1] that
    [convertToVTKRepresentation] returns for a mode it does not know *)
Definition recognized (k : vtkActor) : Prop :=
  propRepresentation k = VTK_POINTS ∨ propRepresentation k = VTK_WIREFRAME
  ∨ propRepresentation k = VTK_SURFACE.

#[global] Instance admissible_dec c : Decision (admissible c).
Proof. destruct c; simpl; apply _. Defined.

#[global] Instance inService_dec w : Decision (inService w).
Proof. unfold inService. apply _. Defined.
#[global] Instance recognized_dec k : Decision (recognized k).
Proof. unfold recognized. apply _. Defined.

#[global] Typeclasses Opaque admissible inService recognized.
End Model.

Arguments Returns {_ _} a w.
Arguments Throws {_ _} e w.
Arguments Undefined {_ _}.

(** ** A worked system: the chain ground -> A -> B

    Body A (id 1) slides along x below ground, body B (id 2) hangs one
    unit below A; no body rotates.  The system contributes a brick on
    ground at the Topology stage and, while A is at [x >= 0], a sphere on
    B at the Position stage. *)

Record ChainState := mkChainState { chain_q : Real; chain_stage : Stage }.

Definition chain_simtk : SimTKcommon := {|
  (* exact on the identity, the only rotation of the chain *)
  convertToAngleAxis := λ m, if Mat33_eqb m (Mat33_of 1) then mkVec4 0 1 0 0 else mkVec4 1 0 0 1;
  (* exact on axis-aligned vectors *)
  norm := λ v, (Qabs (vx v) + Qabs (vy v) + Qabs (vz v))%Q;
  RadiansToDegrees := 5729577951308232 # 100000000000000
|}.

(** An orientation is recorded as the Euler triple last set and the
    non-zero rotations applied since; rotating by a zero angle changes
    nothing. *)
Definition chain_vtk : VTK := {|
  Orientation := Vec3 * list Vec4;
  SetOrientation := λ x y z, (mkVec3 x y z, []);
  RotateWXYZ := λ w x y z o, if Real_eqb w 0 then o else (fst o, snd o ++ [mkVec4 w x y z]);
  PolyData := DecorativeGeometry;
  getVTKPolyData := λ g, g
|}.

Definition chain_brick : DecorativeGeometry :=
  newGeometry (Brick (mkVec3 (1#10) (1#15) (1#20))).
Definition chain_sphere : DecorativeGeometry :=
  mkGeom (Sphere (1#10)) Transform_id (Vec3_of (-1)) (-1) (-1) DrawDefault 2%Z.

Definition chain_system : MultibodySystem := {|
  State := ChainState;
  defaultState := mkChainState 0 Stage_Topology;
  systemTopologyHasBeenRealized := true;
  getNBodies := 3;
  getParentMobilizedBodyId := λ i, if i =? 2 then 1 else 0;
  getDefaultOutboardFrame := λ _, Transform_id;
  getDefaultInboardFrame := λ _, Transform_at (mkVec3 0 (-1) 0);
  getMassCenter := λ _, Vec3_of 0;
  realize := λ s stage, Some (mkChainState (chain_q s) (Z.max (chain_stage s) stage));
  getSystemStage := chain_stage;
  getBodyTransform := λ s i,
    if i =? 1 then Transform_at (mkVec3 (chain_q s) (-1) 0)
    else if i =? 2 then Transform_at (mkVec3 (chain_q s) (-2) 0)
    else Transform_id;
  calcDecorativeGeometry := λ s stage,
    if stage =? Stage_Topology then [chain_brick]
    else if (stage =? Stage_Position) && Qle_bool 0 (chain_q s) then [chain_sphere]
    else []
|}.

(** The world a computation leaves behind (the empty world after
    undefined behaviour). *)
Definition worldAfter `{VTK} {A} (o : Outcome A) : World :=
  match o with
  | Returns _ w | Throws _ w => w
  | Undefined => mkWorld (initialMembers 0) emptyHeap
  end.

(** the chain's reporter as constructed with default geometry disabled *)
Definition chain_world : @World chain_vtk :=
  worldAfter (@VTKReporterRep_new chain_simtk chain_vtk chain_system 0 (Some 100%nat) emptyHeap).

(** a state of the chain with A at x = 3, and the same state realized
    through the Position stage *)
Definition chain_state : ChainState := mkChainState 3 Stage_Model.
Definition chain_realized : ChainState := mkChainState 3 Stage_Position.

(** A moved on to x = 5 *)
Definition chain_moved : ChainState := mkChainState 5 Stage_Model.
Definition chain_moved_realized : ChainState := mkChainState 5 Stage_Position.
(** A drawn back to x = -1, where the system contributes no sphere *)
Definition chain_retracted : ChainState := mkChainState (-1) Stage_Model.
Definition chain_retracted_realized : ChainState := mkChainState (-1) Stage_Position.

(** the reporter with a sphere attached to A *)
Definition chain_decorated : @World chain_vtk :=
  worldAfter (@addDecoration chain_vtk 1 Transform_id (DecorativeSphere (1#10)) chain_world).

(** ... and a rubber-band line from A's origin to a point of B *)
Definition chain_lined : @World chain_vtk :=
  worldAfter (@addRubberBandLine chain_vtk 1 (Vec3_of 0) 2 (mkVec3 0 (-1) 0)
                (DecorativeLine (Vec3_of 0) (Vec3_of 1)) chain_decorated).

(** ... or instead a rubber-band line from body 7, which the chain does
    not have *)
Definition chain_misaddressed : @World chain_vtk :=
  worldAfter (@addRubberBandLine chain_vtk 7 (Vec3_of 0) 2 (Vec3_of 0)
                (DecorativeLine (Vec3_of 0) (Vec3_of 1)) chain_decorated).

(** the reporter of [chain_lined] after its destructor has run *)
Definition chain_disposed : @World chain_vtk :=
  worldAfter (@deletePointers chain_vtk chain_lined).

(** the reporter of [chain_lined] after one report *)
Definition chain_reported : @World chain_vtk :=
  worldAfter (@report chain_simtk chain_vtk chain_system chain_state chain_lined).

(** one session with the chain's reporter *)
Definition chain_session : list (@Command chain_system) :=
  [ AddDecoration 1 Transform_id (DecorativeSphere (1#10));
    AddRubberBandLine 1 (Vec3_of 0) 2 (mkVec3 0 (-1) 0) (DecorativeLine (Vec3_of 0) (Vec3_of 1));
    @Report chain_system chain_state;
    AddEphemeralDecoration chain_sphere;
    SetDefaultBodyColor 2 (mkVec3 0 0 1);
    ZoomCameraToIncludeAllGeometry;
    @Report chain_system chain_moved;
    ResetCamera;
    @Report chain_system chain_retracted ].


(** a sphere with every style field set: red, half transparent, line
    width 4, drawn as a wireframe, attached to B *)
Definition chain_styled : DecorativeGeometry :=
  mkGeom (Sphere (1#10)) Transform_id (mkVec3 1 0 0) (1#2) 4 DrawWireframe 2%Z.

(** the reporter of [chain_reported] with that sphere and a plain one
    pending *)
Definition chain_queued : @World chain_vtk :=
  worldAfter (@forEach chain_vtk _ [chain_styled; chain_sphere]
                (@addEphemeralDecoration chain_vtk) chain_reported).

(** reports on the [_WIN32] build, each with the messages it finds
    waiting: a quiet report and one that finds two ordinary messages;
    then one that finds the window closed, and one more after that *)
Definition chain_quiet_frames : list (list Message * @State chain_system) :=
  [([], chain_state); ([WM_OTHER; WM_OTHER], chain_moved)].
Definition chain_closing_frame : list Message * @State chain_system :=
  ([WM_OTHER; WM_QUIT; WM_OTHER], chain_retracted).
Definition chain_frames : list (list Message * @State chain_system) :=
  chain_quiet_frames ++ [chain_closing_frame; ([], chain_state)].

(** ** A second worked system: two sliders

    Bodies A (id 1) and B (id 2) slide along x on two rails below ground,
    each on its own; no body rotates.  A state in which a slider has left
    its rail ([|x| > 10]) cannot be realized.  The system contributes no
    geometry. *)

Record SliderState := mkSliderState {
  slider_a : Real; slider_b : Real; slider_stage : Stage
}.

Definition slider_system : MultibodySystem := {|
  State := SliderState;
  defaultState := mkSliderState 0 0 Stage_Topology;
  systemTopologyHasBeenRealized := true;
  getNBodies := 3;
  getParentMobilizedBodyId := λ _, 0;
  getDefaultOutboardFrame := λ _, Transform_id;
  getDefaultInboardFrame := λ i,
    if i =? 2 then Transform_at (mkVec3 0 (-2) 0) else Transform_at (mkVec3 0 (-1) 0);
  getMassCenter := λ _, Vec3_of 0;
  realize := λ s stage,
    if Qle_bool (Qabs (slider_a s)) 10 && Qle_bool (Qabs (slider_b s)) 10
    then Some (mkSliderState (slider_a s) (slider_b s) (Z.max (slider_stage s) stage))
    else None;
  getSystemStage := slider_stage;
  getBodyTransform := λ s i,
    if i =? 1 then Transform_at (mkVec3 (slider_a s) (-1) 0)
    else if i =? 2 then Transform_at (mkVec3 (slider_b s) (-2) 0)
    else Transform_id;
  calcDecorativeGeometry := λ _ _, []
|}.

(** A at x = 3 and B at x = 4; then A alone moved on to x = 5; and A off
    its rail *)
Definition slider_state : SliderState := mkSliderState 3 4 Stage_Model.
Definition slider_realized : SliderState := mkSliderState 3 4 Stage_Position.
Definition slider_moved : SliderState := mkSliderState 5 4 Stage_Model.
Definition slider_moved_realized : SliderState := mkSliderState 5 4 Stage_Position.
Definition slider_derailed : SliderState := mkSliderState 11 4 Stage_Model.

(** the sliders' reporter, without default geometry *)
Definition slider_world : @World chain_vtk :=
  worldAfter (@VTKReporterRep_new chain_simtk chain_vtk slider_system 0 (Some 100%nat) emptyHeap).

(** ... with a sphere on A (actor 2) and one on B (actor 3) *)
Definition slider_decorated : @World chain_vtk :=
  worldAfter (@forEach chain_vtk _ [1; 2]
                (λ i, @addDecoration chain_vtk i Transform_id (DecorativeSphere (1#10)))
                slider_world).

(** ... and a rubber-band line from A's origin to the point of B one unit
    below B's origin (actor 4) *)
Definition slider_lined : @World chain_vtk :=
  worldAfter (@addRubberBandLine chain_vtk 1 (Vec3_of 0) 2 (mkVec3 0 (-1) 0)
                (DecorativeLine (Vec3_of 0) (Vec3_of 1)) slider_decorated).

(** ... and behind it a line from A to body 7, which the system does not
    have (actor 5) *)
Definition slider_mislined : @World chain_vtk :=
  worldAfter (@addRubberBandLine chain_vtk 1 (Vec3_of 0) 7 (Vec3_of 0)
                (DecorativeLine (Vec3_of 0) (Vec3_of 1)) slider_lined).

(** the reporter of [slider_lined] after a report that displayed one
    ephemeral sphere (actor 5) ... *)
Definition slider_reported : @World chain_vtk :=
  worldAfter (@report chain_simtk chain_vtk slider_system slider_state
                (worldAfter (@addEphemeralDecoration chain_vtk chain_sphere slider_lined))).

(** ... and then with a sphere on B and a sphere on body 9, which the
    system does not have, pending *)
Definition slider_misqueued : @World chain_vtk :=
  worldAfter (@forEach chain_vtk _
                [chain_sphere;
                 mkGeom (Sphere (1#10)) Transform_id (Vec3_of (-1)) (-1) (-1) DrawDefault 9%Z]
                (@addEphemeralDecoration chain_vtk) slider_reported).

(** * Properties *)

Section Proofs.

Context `{simtk : SimTKcommon} `{vtkLib : VTK} `{mbs : MultibodySystem}.

(** ** Reasoning about computations *)

Lemma bind_Returns {A B} (m : M A) (f : A -> M B) w b w' :
  (m ≫= f) w = Returns b w' -> ∃ a w1, m w = Returns a w1 ∧ f a w1 = Returns b w'.
Proof.
  unfold mbind, M_bind. destruct (m w) as [a w1 | e w1 |]; [eauto | discriminate..].
Qed.

Lemma hoare_ret {A} (P : World -> Prop) (a : A) : hoare P (mret a) (λ _ w, P w).
Proof. intros w a' w' HP [= _ <-]. exact HP. Qed.

Lemma hoare_bind {A B} (P : World -> Prop) (m : M A) (f : A -> M B) Q R :
  hoare P m Q -> (∀ a, hoare (Q a) (f a) R) -> hoare P (m ≫= f) R.
Proof.
  intros Hm Hf w b w' HP Hrun. apply bind_Returns in Hrun as (a & w1 & Hrun1 & Hrun2).
  eapply Hf; [| exact Hrun2]. eapply Hm; eassumption.
Qed.

Lemma hoare_conseq {A} (P P' : World -> Prop) (m : M A) (Q Q' : A -> World -> Prop) :
  hoare P' m Q' -> (∀ w, P w -> P' w) -> (∀ a w, Q' a w -> Q a w) -> hoare P m Q.
Proof. intros Hm HP HQ w a w' Hw Hrun. apply HQ. eapply Hm; eauto. Qed.

Lemma hoare_forEach {X} (I : World -> Prop) (l : list X) (body : X -> M unit) :
  (∀ x, x ∈ l -> hoare I (body x) (λ _, I)) -> hoare I (forEach l body) (λ _, I).
Proof.
  induction l as [| x l IH]; intros Hbody.
  - apply hoare_ret.
  - cbn [forEach]. eapply hoare_bind; [apply Hbody; left |].
    intros u. apply IH. intros y Hy. apply Hbody. right. exact Hy.
Qed.

Lemma hoare_if {A} (c : bool) (P : World -> Prop) (m1 m2 : M A) Q :
  hoare P m1 Q -> hoare P m2 Q -> hoare P (if c then m1 else m2) Q.
Proof. destruct c; auto. Qed.

Lemma hoare_modifyRep (Q : World -> Prop) f :
  hoare (λ w, Q (mkWorld (f (rep w)) (vtk w))) (modifyRep f) (λ _, Q).
Proof. intros w a w' HQ [= _ <-]. exact HQ. Qed.

Lemma hoare_getRep (P : World -> Prop) : hoare P getRep (λ r w, P w ∧ r = rep w).
Proof. intros w a w' HP [= <- <-]. auto. Qed.

(** ** Unchecked indexing *)

Lemma vectorIndex_Some {A} (v : list A) (i : Z) (x : A) :
  vectorIndex v i = Some x <-> 0 ≤ i ∧ v !! Z.to_nat i = Some x.
Proof.
  unfold vectorIndex. destruct (Z.leb_spec 0 i); split.
  - intros Hx. auto.
  - intros [_ Hx]. exact Hx.
  - discriminate.
  - intros [Hi _]. lia.
Qed.

Lemma vectorIndex_None {A} (v : list A) (i : Z) :
  vectorIndex v i = None <-> ¬ (0 ≤ i < Z.of_nat (length v)).
Proof.
  unfold vectorIndex. destruct (Z.leb_spec 0 i); split.
  - intros Hn. apply lookup_ge_None in Hn. lia.
  - intros Hn. apply lookup_ge_None. lia.
  - lia.
  - reflexivity.
Qed.

Lemma vectorIndex_is_Some {A} (v : list A) (i : Z) :
  is_Some (vectorIndex v i) <-> 0 ≤ i < Z.of_nat (length v).
Proof.
  destruct (vectorIndex v i) as [x |] eqn:E.
  - split; [intros _ | eauto].
    apply vectorIndex_Some in E as [Hi Hx]. apply lookup_lt_Some in Hx. lia.
  - split; [intros [? ?]; discriminate |].
    intros Hr. apply vectorIndex_None in E. contradiction.
Qed.

(** ** The registry operations *)

Lemma getBody_Some w bodyNum b :
  vectorIndex (bodies (rep w)) bodyNum = Some b -> getBody bodyNum w = Returns b w.
Proof. intros Hb. unfold getBody, mbind, M_bind, getRep, defined. rewrite Hb. reflexivity. Qed.

Lemma getBody_None w bodyNum :
  vectorIndex (bodies (rep w)) bodyNum = None -> getBody bodyNum w = Undefined.
Proof. intros Hb. unfold getBody, mbind, M_bind, getRep, defined. rewrite Hb. reflexivity. Qed.

Lemma modifyBody_Some w bodyNum f b :
  vectorIndex (bodies (rep w)) bodyNum = Some b ->
  modifyBody bodyNum f w =
  Returns tt (mkWorld (rep_setBodies (<[Z.to_nat bodyNum := f b]> (bodies (rep w))) (rep w)) (vtk w)).
Proof.
  intros Hb. unfold modifyBody, mbind, M_bind. rewrite (getBody_Some _ _ _ Hb). reflexivity.
Qed.

Lemma modifyBody_None w bodyNum f :
  vectorIndex (bodies (rep w)) bodyNum = None -> modifyBody bodyNum f w = Undefined.
Proof.
  intros Hb. unfold modifyBody, mbind, M_bind. rewrite (getBody_None _ _ Hb). reflexivity.
Qed.

Lemma colorOr_resolve g (fallback : M Vec3) c w :
  fallback w = Returns c w -> colorOr g fallback w = Returns (resolveColor g c) w.
Proof. intros Hf. unfold colorOr, resolveColor. destruct (colorIsSet g); [reflexivity | exact Hf]. Qed.

(** ** [addDecoration] *)

Lemma addDecoration_returns w body X_GD g b rd r :
  vectorIndex (bodies (rep w)) body = Some b ->
  renderer (rep w) = Some rd ->
  renderers (vtk w) !! rd = Some r ->
  let n := nextAddress (vtk w) in
  let dgeom := setTransform (composeTransform X_GD (transform g)) g in
  addDecoration body X_GD g w =
  Returns tt
    (mkWorld
       (rep_setCameraNeedsToBeReset true
          (rep_setBodies
             (<[Z.to_nat body := mkBody (aList b ++ [Some n]) (gList b ++ [dgeom])
                                        (defaultColorRGB b) (scale b)]> (bodies (rep w)))
             (rep w)))
       (mkHeap (<[n := styledActor dgeom (defaultColorRGB b)]> (actors (vtk w)))
               (<[rd := renderer_AddActor n r]> (renderers (vtk w)))
               (renderWindows (vtk w)) (S n))).
Proof.
  intros Hb Hrd Hr n dgeom.
  apply vectorIndex_Some in Hb as Hb'. destruct Hb' as [Hi Hlk].
  unfold addDecoration, mbind at 1, M_bind at 1. simpl.
  fold n. fold dgeom.
  unfold mbind at 1, M_bind at 1.
  rewrite (modifyBody_Some _ _ _ b) by exact Hb.
  unfold mbind at 1, M_bind at 1.
  erewrite colorOr_resolve; cycle 1.
  { unfold getDefaultBodyColor, mbind, M_bind.
    erewrite getBody_Some; [reflexivity |].
    apply vectorIndex_Some. split; [exact Hi |]. simpl.
    apply list_lookup_insert_eq. eapply lookup_lt_Some, Hlk. }
  simpl.
  unfold mbind, M_bind, onActor, AddActor, modifyRep, getRep, onRenderer, mbind, M_bind. simpl.
  repeat (rewrite lookup_insert_eq; simpl). rewrite Hrd. simpl. rewrite Hr.
  unfold heap_setActors, heap_setRenderers, rep_setCameraNeedsToBeReset. simpl.
  rewrite !insert_insert_eq. reflexivity.
Qed.


(** ** Loops over actors *)

Lemma World_eta (w : World) :
  mkWorld (rep w) (mkHeap (actors (vtk w)) (renderers (vtk w)) (renderWindows (vtk w))
                          (nextAddress (vtk w))) = w.
Proof. destruct w as [r [? ? ? ?]]. reflexivity. Qed.

Lemma onActor_alter w a f :
  is_Some (actors (vtk w) !! a) ->
  onActor (Some a) f w =
  Returns tt (mkWorld (rep w) (heap_setActors (alter f a (actors (vtk w))) (vtk w))).
Proof.
  intros [o Ho]. unfold onActor. rewrite Ho. do 3 f_equal.
  rewrite <- (insert_id _ _ _ Ho) at 2. rewrite alter_insert_eq. reflexivity.
Qed.

Lemma onRenderer_alter w rd f :
  is_Some (renderers (vtk w) !! rd) ->
  onRenderer (Some rd) f w =
  Returns tt (mkWorld (rep w) (heap_setRenderers (alter f rd (renderers (vtk w))) (vtk w))).
Proof.
  intros [o Ho]. unfold onRenderer. rewrite Ho. do 3 f_equal.
  rewrite <- (insert_id _ _ _ Ho) at 2. rewrite alter_insert_eq. reflexivity.
Qed.

Lemma onRenderWindow_alter w win f :
  is_Some (renderWindows (vtk w) !! win) ->
  onRenderWindow (Some win) f w =
  Returns tt (mkWorld (rep w)
                (heap_setRenderWindows (alter f win (renderWindows (vtk w))) (vtk w))).
Proof.
  intros [o Ho]. unfold onRenderWindow. rewrite Ho. do 3 f_equal.
  rewrite <- (insert_id _ _ _ Ho) at 2. rewrite alter_insert_eq. reflexivity.
Qed.

Lemma allocated_alter m ps f a : allocated m ps -> allocated (alter f a m) ps.
Proof.
  unfold allocated. intros Hall. eapply Forall_impl; [exact Hall |]. intros [b |]; [| trivial].
  unfold isAllocated. intros [o Ho]. rewrite lookup_alter. case_decide; subst; rewrite Ho; eauto.
Qed.

Lemma allocated_insert m ps a k : allocated m ps -> allocated (<[a := k]> m) ps.
Proof.
  unfold allocated. intros Hall. eapply Forall_impl; [exact Hall |]. intros [b |]; [| trivial].
  unfold isAllocated. intros [o Ho]. rewrite lookup_insert. case_decide; subst; [| rewrite Ho]; eauto.
Qed.

Lemma forEach_onActor f ps w :
  allocated (actors (vtk w)) ps ->
  forEach ps (λ p, onActor p f) w =
  Returns tt (mkWorld (rep w) (heap_setActors (applyAll f ps (actors (vtk w))) (vtk w))).
Proof.
  revert w. induction ps as [| p ps IH]; intros w Hall.
  - simpl. unfold heap_setActors. rewrite World_eta. reflexivity.
  - apply Forall_cons in Hall as [Hp Hall]. destruct p as [a |]; [| contradiction].
    cbn [forEach]. unfold mbind at 1, M_bind at 1.
    rewrite onActor_alter by exact Hp.
    rewrite IH by (apply allocated_alter, Hall). reflexivity.
Qed.

Lemma filter_eq_nil {A} (P : A -> Prop) `{∀ x, Decision (P x)} (l : list A) :
  (∀ x, x ∈ l -> ¬ P x) -> filter P l = [].
Proof.
  induction l as [| x l IH]; intros Hl; [reflexivity |].
  rewrite filter_cons_False by (apply Hl; left).
  apply IH. intros y Hy. apply Hl. right. exact Hy.
Qed.

Lemma applyAll_cons f p ps m :
  applyAll f (p :: ps) m =
  applyAll f ps (match p with Some a => alter f a m | None => m end).
Proof. reflexivity. Qed.

(** The actor found at [a] after [applyAll] has had [f] applied once per
    occurrence of [a] among the pointers. *)
Lemma lookup_applyAll f ps m a :
  applyAll f ps m !! a =
  Nat.iter (length (filter (λ p, p = Some a) ps)) f <$> (m !! a).
Proof.
  revert m. induction ps as [| p ps IH]; intros m.
  - simpl. destruct (m !! a); reflexivity.
  - rewrite applyAll_cons, filter_cons.
    destruct p as [b |].
    + rewrite IH. rewrite lookup_alter. case_decide as Hd.
      * subst b. rewrite decide_True by reflexivity. cbn [length].
        destruct (m !! a); [| reflexivity]. cbn [fmap option_fmap option_map].
        f_equal. rewrite Nat.iter_succ_r. reflexivity.
      * rewrite decide_False by congruence. reflexivity.
    + rewrite decide_False by discriminate. apply IH.
Qed.

Lemma lookup_applyAll_notin f ps m a : Some a ∉ ps -> applyAll f ps m !! a = m !! a.
Proof.
  intros Hn. rewrite lookup_applyAll.
  assert (filter (λ p, p = Some a) ps = []) as ->.
  { apply filter_eq_nil. intros p Hp ->. contradiction. }
  destruct (m !! a); reflexivity.
Qed.

Lemma lookup_applyAll_once f ps m a :
  NoDup ps -> Some a ∈ ps -> applyAll f ps m !! a = f <$> (m !! a).
Proof.
  intros Hnd Hin. rewrite lookup_applyAll.
  assert (length (filter (λ p, p = Some a) ps) = 1%nat) as ->; [| reflexivity].
  clear m. induction Hnd as [| p ps Hp Hnd IH]; [inversion Hin |].
  rewrite filter_cons. apply elem_of_cons in Hin as [<- | Hin].
  - rewrite decide_True by reflexivity. cbn [length]. f_equal.
    rewrite filter_eq_nil; [reflexivity |]. intros q Hq ->. contradiction.
  - rewrite decide_False by (intros ->; contradiction). auto.
Qed.

Lemma lookup_applyAll_idem f ps m a :
  (∀ k, f (f k) = f k) -> Some a ∈ ps -> applyAll f ps m !! a = f <$> (m !! a).
Proof.
  intros Hidem Hin. rewrite lookup_applyAll.
  destruct (length (filter (λ p, p = Some a) ps)) as [| n] eqn:E.
  - apply length_zero_iff_nil in E.
    assert (Some a ∈ filter (λ p, p = Some a) ps) as Hf by (apply list_elem_of_filter; auto).
    rewrite E in Hf. inversion Hf.
  - destruct (m !! a) as [k |]; [| reflexivity]. cbn [fmap option_fmap option_map]. f_equal.
    clear E. induction n as [| n IHn]; [reflexivity |].
    rewrite Nat.iter_succ, IHn. apply Hidem.
Qed.


(** ** The ephemeral display pass *)

Lemma renderer_eta (r : vtkRenderer) :
  mkRenderer (sceneActors r) (resetCameraCalls r) (rendererDeletes r) = r.
Proof. destruct r. reflexivity. Qed.

Lemma RemoveActor_returns w rd p :
  renderer (rep w) = Some rd ->
  is_Some (renderers (vtk w) !! rd) ->
  RemoveActor p w =
  Returns tt (mkWorld (rep w)
    (heap_setRenderers
       (alter (match p with Some a => renderer_RemoveActor a | None => id end) rd
              (renderers (vtk w))) (vtk w))).
Proof.
  intros Hrd Hr. unfold RemoveActor, mbind, M_bind, getRep. rewrite Hrd.
  apply onRenderer_alter, Hr.
Qed.

Lemma AddActor_returns w rd a :
  renderer (rep w) = Some rd ->
  is_Some (renderers (vtk w) !! rd) ->
  AddActor a w =
  Returns tt (mkWorld (rep w)
    (heap_setRenderers (alter (renderer_AddActor a) rd (renderers (vtk w))) (vtk w))).
Proof.
  intros Hrd Hr. unfold AddActor, mbind, M_bind, getRep. rewrite Hrd.
  apply onRenderer_alter, Hr.
Qed.

Lemma is_Some_alter {A} (f : A -> A) (m : gmap nat A) i j :
  is_Some (m !! j) -> is_Some (alter f i m !! j).
Proof.
  intros [x Hx]. rewrite lookup_alter. case_decide; subst; rewrite Hx; eauto.
Qed.

(** "Out with the old": the loop that removes and releases each actor. *)
Lemma releaseLoop_returns ps w rd :
  renderer (rep w) = Some rd ->
  is_Some (renderers (vtk w) !! rd) ->
  allocated (actors (vtk w)) ps ->
  forEach ps (λ p, RemoveActor p;; onActor p actor_Delete) w =
  Returns tt
    (mkWorld (rep w)
       (mkHeap (applyAll actor_Delete ps (actors (vtk w)))
               (alter (λ r, mkRenderer (removeAll ps (sceneActors r))
                                       (resetCameraCalls r) (rendererDeletes r))
                      rd (renderers (vtk w)))
               (renderWindows (vtk w)) (nextAddress (vtk w)))).
Proof.
  revert w. induction ps as [| p ps IH]; intros w Hrd Hr Hall.
  - simpl. rewrite alter_id by (intros; apply renderer_eta). rewrite World_eta. reflexivity.
  - apply Forall_cons in Hall as [Hp Hall]. destruct p as [a |]; [| contradiction].
    cbn [forEach]. unfold mbind at 1, M_bind at 1. unfold mbind at 1, M_bind at 1.
    rewrite (RemoveActor_returns _ rd) by assumption.
    rewrite onActor_alter by exact Hp.
    rewrite IH; cycle 1.
    { exact Hrd. } { simpl. apply is_Some_alter, Hr. } { simpl. apply allocated_alter, Hall. }
    simpl. do 3 f_equal.
    rewrite alter_alter_eq. apply alter_ext. intros r _. reflexivity.
Qed.

Lemma insertFrom_snoc n l a (m : gmap nat vtkActor) :
  insertFrom n (l ++ [a]) m = <[(n + length l)%nat := a]> (insertFrom n l m).
Proof.
  revert n m. induction l as [| b l IH]; intros n m; simpl.
  - rewrite Nat.add_0_r. reflexivity.
  - rewrite IH. f_equal. lia.
Qed.

Lemma lookup_insertFrom n l (m : gmap nat vtkActor) j :
  insertFrom n l m !! j =
  if decide (n ≤ j < n + length l)%nat then l !! (j - n)%nat else m !! j.
Proof.
  revert n m. induction l as [| b l IH]; intros n m; simpl.
  - rewrite decide_False by lia. reflexivity.
  - rewrite IH. destruct (decide (S n ≤ j < S n + length l)%nat) as [Hj | Hj].
    + rewrite decide_True by lia. replace (j - n)%nat with (S (j - S n)) by lia. reflexivity.
    + destruct (decide (j = n)) as [-> | Hne].
      * rewrite decide_True by lia. rewrite lookup_insert_eq, Nat.sub_diag. reflexivity.
      * rewrite decide_False by lia. apply lookup_insert_ne. congruence.
Qed.

Lemma insert_prefix_drop {A} (pre l : list A) k x :
  length pre = k -> (k < length l)%nat ->
  <[k := x]> (pre ++ drop k l) = (pre ++ [x]) ++ drop (S k) l.
Proof.
  intros Hpre Hk. destruct (lookup_lt_is_Some_2 l k Hk) as [y Hy].
  rewrite (drop_S _ _ _ Hy).
  rewrite insert_app_r_alt by lia. rewrite Hpre, Nat.sub_diag. simpl.
  rewrite <- app_assoc. reflexivity.
Qed.

Lemma lookup_prefix_drop {A} (pre l : list A) k :
  length pre = k -> (pre ++ drop k l) !! k = l !! k.
Proof.
  intros Hpre. rewrite lookup_app_r by lia. rewrite Hpre, Nat.sub_diag, lookup_drop.
  f_equal. lia.
Qed.

Lemma placedInGround_colorIsSet s g : colorIsSet (placedInGround s g) = colorIsSet g.
Proof. reflexivity. Qed.

(** One turn of "in with the new". *)
Lemma displayEphemeralItem_returns s i w g rd :
  ephemeralGeometry (rep w) !! i = Some g ->
  isBodyOfSystem (bodyId g) = true ->
  (colorIsSet g = false -> is_Some (vectorIndex (bodies (rep w)) (bodyId g))) ->
  renderer (rep w) = Some rd ->
  is_Some (renderers (vtk w) !! rd) ->
  let n := nextAddress (vtk w) in
  displayEphemeralItem s i w =
  Returns tt
    (mkWorld
       (rep_setEphemeralGeometry (<[i := placedInGround s g]> (ephemeralGeometry (rep w)))
          (rep_setEphemeralActors (<[i := Some n]> (ephemeralActors (rep w))) (rep w)))
       (mkHeap (<[n := builtActor s (bodies (rep w)) g]> (actors (vtk w)))
               (alter (renderer_AddActor n) rd (renderers (vtk w)))
               (renderWindows (vtk w)) (S n))).
Proof.
  intros Hg Hvalid Hbody Hrd Hr n.
  unfold displayEphemeralItem, mbind at 1, M_bind at 1. simpl.
  unfold mbind at 1, M_bind at 1. rewrite Hg. simpl.
  unfold mbind at 1, M_bind at 1. simpl. fold n.
  unfold mbind at 1, M_bind at 1. simpl.
  unfold mbind at 1, M_bind at 1, getMobilizedBodyTransform. rewrite Hvalid. simpl.
  unfold mbind at 1, M_bind at 1. simpl.
  unfold mbind at 1, M_bind at 1.
  fold (placedInGround s g).
  assert (Hcolor : ∀ w1, bodies (rep w1) = bodies (rep w) ->
            colorOr (placedInGround s g) (getDefaultBodyColor (bodyId g)) w1 =
            Returns (resolveColor (placedInGround s g)
                       (from_option defaultColorRGB Black
                          (vectorIndex (bodies (rep w)) (bodyId g)))) w1).
  { intros w1 Hbs. unfold colorOr, resolveColor. rewrite placedInGround_colorIsSet.
    destruct (colorIsSet g) eqn:Hset; [reflexivity |].
    destruct (Hbody eq_refl) as [b Hb]. rewrite Hb. simpl.
    unfold getDefaultBodyColor, mbind, M_bind.
    rewrite (getBody_Some _ _ b) by (rewrite Hbs; exact Hb). reflexivity. }
  rewrite Hcolor by reflexivity.
  unfold mbind, M_bind, onActor. simpl.
  repeat (rewrite lookup_insert_eq; simpl).
  rewrite (AddActor_returns _ rd) by (simpl; assumption).
  simpl. unfold heap_setActors, heap_setRenderers. simpl.
  rewrite !insert_insert_eq. reflexivity.
Qed.


Lemma isBodyOfSystem_index (bs : list PerBodyInfo) id :
  length bs = getNBodies -> isBodyOfSystem id = true -> is_Some (vectorIndex bs id).
Proof.
  intros Hlen Hid. apply vectorIndex_is_Some. rewrite Hlen.
  unfold isBodyOfSystem in Hid. apply andb_true_iff in Hid as [Hlo Hhi].
  apply Z.leb_le in Hlo. apply Z.ltb_lt in Hhi. lia.
Qed.

Lemma rep_eta_ephemeral (r : VTKReporterRep) :
  rep_setEphemeralGeometry (ephemeralGeometry r) (rep_setEphemeralActors (ephemeralActors r) r)
  = r.
Proof. destruct r. reflexivity. Qed.

Lemma itemsDisplayed_0 s w : itemsDisplayed s w 0 = w.
Proof.
  destruct w as [r [ma mr mw n]]. unfold itemsDisplayed. simpl.
  rewrite !drop_0, rep_eta_ephemeral, Nat.add_0_r. do 2 f_equal.
  destruct (renderer r) as [rd |]; [| reflexivity].
  apply alter_id. intros x _. rewrite app_nil_r. apply renderer_eta.
Qed.

Lemma itemsDisplayed_step s w k rd :
  renderer (rep w) = Some rd ->
  is_Some (renderers (vtk w) !! rd) ->
  length (bodies (rep w)) = getNBodies ->
  validItems (ephemeralGeometry (rep w)) ->
  length (ephemeralActors (rep w)) = length (ephemeralGeometry (rep w)) ->
  (k < length (ephemeralGeometry (rep w)))%nat ->
  displayEphemeralItem s k (itemsDisplayed s w k) = Returns tt (itemsDisplayed s w (S k)).
Proof.
  intros Hrd Hr Hlen Hvalid Hsize Hk.
  destruct (lookup_lt_is_Some_2 _ _ Hk) as [g Hg].
  assert (Hgv : isBodyOfSystem (bodyId g) = true).
  { unfold validItems in Hvalid. rewrite Forall_forall in Hvalid.
    apply Hvalid. eapply list_elem_of_lookup_2, Hg. }
  assert (Hpre : length (map (placedInGround s) (take k (ephemeralGeometry (rep w)))) = k).
  { rewrite length_map, length_take. lia. }
  assert (Hpre' : length (map Some (seq (nextAddress (vtk w)) k)) = k).
  { rewrite length_map, length_seq. reflexivity. }
  rewrite (displayEphemeralItem_returns s k _ g rd); cycle 1.
  { simpl. rewrite lookup_prefix_drop by exact Hpre. exact Hg. }
  { exact Hgv. }
  { intros _. simpl. apply isBodyOfSystem_index; assumption. }
  { simpl. exact Hrd. }
  { simpl. rewrite Hrd. apply is_Some_alter, Hr. }
  unfold itemsDisplayed. cbn -[seq take drop]. rewrite Hrd.
  rewrite insert_prefix_drop by (assumption || lia).
  rewrite insert_prefix_drop by (assumption || lia).
  rewrite (take_S_r _ _ _ Hg), !map_app. cbn -[seq take drop].
  rewrite insertFrom_snoc, length_map, length_take.
  rewrite Nat.min_l by lia.
  rewrite seq_S, map_app. cbn -[seq take drop].
  rewrite alter_alter_eq.
  unfold rep_setEphemeralGeometry, rep_setEphemeralActors. cbn -[seq take drop].
  do 3 f_equal; [| lia].
  apply alter_ext. intros r _. unfold renderer_AddActor. cbn -[seq].
  rewrite <- app_assoc. reflexivity.
Qed.

(** "In with the new": the whole loop. *)
Lemma itemLoop_returns s w rd :
  renderer (rep w) = Some rd ->
  is_Some (renderers (vtk w) !! rd) ->
  length (bodies (rep w)) = getNBodies ->
  validItems (ephemeralGeometry (rep w)) ->
  length (ephemeralActors (rep w)) = length (ephemeralGeometry (rep w)) ->
  forEach (seq 0 (length (ephemeralGeometry (rep w)))) (displayEphemeralItem s) w =
  Returns tt (itemsDisplayed s w (length (ephemeralGeometry (rep w)))).
Proof.
  intros Hrd Hr Hlen Hvalid Hsize.
  set (N := length (ephemeralGeometry (rep w))).
  assert (Hgen : ∀ j k, (k + j = N)%nat ->
            forEach (seq k j) (displayEphemeralItem s) (itemsDisplayed s w k) =
            Returns tt (itemsDisplayed s w N)).
  { induction j as [| j IH]; intros k Hkj.
    - simpl. replace k with N by lia. reflexivity.
    - cbn [seq forEach]. unfold mbind, M_bind.
      rewrite (itemsDisplayed_step s w k rd) by (assumption || (fold N; lia)).
      apply IH. lia. }
  rewrite <- (itemsDisplayed_0 s w) at 1. apply Hgen. lia.
Qed.

Lemma length_resizePointers n v : length (resizePointers n v) = n.
Proof. unfold resizePointers. rewrite length_app, length_take, length_replicate. lia. Qed.

Theorem displayEphemeralGeometry_returns s w rd :
  renderer (rep w) = Some rd ->
  is_Some (renderers (vtk w) !! rd) ->
  length (bodies (rep w)) = getNBodies ->
  allocated (actors (vtk w)) (ephemeralActors (rep w)) ->
  validItems (ephemeralGeometry (rep w)) ->
  displayEphemeralGeometry s w = Returns tt (displayedWorld s w).
Proof.
  intros Hrd Hr Hlen Hall Hvalid.
  unfold displayEphemeralGeometry, mbind at 1, M_bind at 1. simpl.
  unfold mbind at 1, M_bind at 1.
  rewrite (releaseLoop_returns _ _ rd) by assumption.
  unfold mbind at 1, M_bind at 1. simpl.
  unfold mbind at 1, M_bind at 1.
  match goal with
  | |- context [forEach _ _ ?w1] => set (wB := w1)
  end.
  pose proof (itemLoop_returns s wB rd) as Hloop. simpl in Hloop.
  rewrite Hloop; cycle 1.
  { exact Hrd. } { apply is_Some_alter, Hr. } { exact Hlen. } { exact Hvalid. }
  { apply length_resizePointers. }
  unfold modifyRep. f_equal. unfold itemsDisplayed, displayedWorld. simpl. rewrite Hrd.
  rewrite firstn_all, drop_all, app_nil_r.
  rewrite drop_ge by (rewrite length_resizePointers; lia). rewrite app_nil_r.
  rewrite alter_alter_eq. do 3 f_equal.
Qed.


(** ** [report], phase by phase *)

Lemma is_Some_applyAll f ps m a : is_Some (applyAll f ps m !! a) <-> is_Some (m !! a).
Proof. rewrite lookup_applyAll. apply fmap_is_Some. Qed.

Lemma allocated_applyAll f qs m ps : allocated m ps -> allocated (applyAll f qs m) ps.
Proof.
  unfold allocated. intros Hall. eapply Forall_impl; [exact Hall |].
  intros [a |]; [| trivial]. unfold isAllocated. apply is_Some_applyAll.
Qed.

Lemma aList_persistent (r : VTKReporterRep) i b p :
  vectorIndex (bodies r) i = Some b -> p ∈ aList b -> p ∈ persistentActors r.
Proof.
  intros Hb Hp. apply vectorIndex_Some in Hb as [_ Hb].
  unfold persistentActors. apply list_elem_of_join. exists (aList b). split; [exact Hp |].
  apply list_elem_of_fmap. exists b. split; [reflexivity |].
  eapply list_elem_of_lookup_2, Hb.
Qed.

Lemma allocated_aList m (r : VTKReporterRep) i b :
  allocated m (persistentActors r) -> vectorIndex (bodies r) i = Some b ->
  allocated m (aList b).
Proof.
  unfold allocated. rewrite !Forall_forall. intros Hall Hb p Hp.
  apply Hall. eapply aList_persistent; eassumption.
Qed.

Lemma setConfiguration_returns w bodyNum X_GB b :
  vectorIndex (bodies (rep w)) bodyNum = Some b ->
  allocated (actors (vtk w)) (aList b) ->
  setConfiguration bodyNum X_GB w =
  Returns tt (mkWorld (rep w)
                (heap_setActors (applyAll (configured X_GB) (aList b) (actors (vtk w))) (vtk w))).
Proof.
  intros Hb Hall. unfold setConfiguration, mbind, M_bind.
  rewrite (getBody_Some _ _ b Hb).
  apply (forEach_onActor (configured X_GB)). exact Hall.
Qed.

Lemma configureLoop_returns s ids w :
  Forall (λ i, isBodyOfSystem i = true) ids ->
  length (bodies (rep w)) = getNBodies ->
  allocated (actors (vtk w)) (persistentActors (rep w)) ->
  forEach ids (λ i, config ← getMobilizedBodyTransform s i; setConfiguration i config) w =
  Returns tt (mkWorld (rep w)
                (heap_setActors (configureBodies s (bodies (rep w)) ids (actors (vtk w)))
                                (vtk w))).
Proof.
  revert w. induction ids as [| i ids IH]; intros w Hids Hlen Hall.
  - simpl. unfold heap_setActors. rewrite World_eta. reflexivity.
  - apply Forall_cons in Hids as [Hi Hids].
    destruct (isBodyOfSystem_index _ _ Hlen Hi) as [b Hb].
    cbn [forEach]. unfold mbind at 1, M_bind at 1. unfold mbind at 1, M_bind at 1.
    unfold getMobilizedBodyTransform. rewrite Hi. simpl.
    rewrite (setConfiguration_returns _ _ _ b Hb) by (eapply allocated_aList; eassumption).
    rewrite IH; [| exact Hids | exact Hlen | apply allocated_applyAll, Hall].
    simpl. unfold configureBodies. simpl. rewrite Hb. reflexivity.
Qed.

Lemma bodyIdsFrom_valid first : Forall (λ i, isBodyOfSystem i = true) (bodyIdsFrom first getNBodies).
Proof.
  unfold bodyIdsFrom. apply Forall_forall. intros i Hi.
  apply list_elem_of_In, in_map_iff in Hi as (k & <- & Hk). apply in_seq in Hk.
  unfold isBodyOfSystem. apply andb_true_iff. split; [apply Z.leb_le | apply Z.ltb_lt]; lia.
Qed.

Lemma configuredWorld_returns s w :
  length (bodies (rep w)) = getNBodies ->
  allocated (actors (vtk w)) (persistentActors (rep w)) ->
  forEach (bodyIdsFrom 1 getNBodies)
          (λ i, config ← getMobilizedBodyTransform s i; setConfiguration i config) w =
  Returns tt (configuredWorld s w).
Proof. intros Hlen Hall. apply configureLoop_returns; auto using bodyIdsFrom_valid. Qed.

(** *** Rubber-band lines *)

Lemma mapper_SetInput_returns w a poly :
  hasMapper (vtk w) (Some a) ->
  mapper_SetInput (Some a) poly w =
  Returns tt (mkWorld (rep w)
                (heap_setActors (alter (actor_SetMapper (Some poly)) a (actors (vtk w))) (vtk w))).
Proof.
  unfold hasMapper, mapper_SetInput. destruct (actors (vtk w) !! a) as [o |] eqn:Ho; [| tauto].
  intros [i Hi]. rewrite Hi. do 3 f_equal.
  rewrite <- (insert_id _ _ _ Ho) at 2. rewrite alter_insert_eq. reflexivity.
Qed.

Lemma hasMapper_alter_SetMapper h a poly p :
  hasMapper h p ->
  hasMapper (heap_setActors (alter (actor_SetMapper poly) a (actors h)) h) p.
Proof.
  unfold hasMapper. destruct p as [b |]; [| trivial]. simpl.
  rewrite lookup_alter. case_decide as Hd.
  - subst b. destruct (actors h !! a); simpl; [eauto | trivial].
  - trivial.
Qed.

Lemma hasMapper_remapAll s l h p :
  hasMapper h p -> hasMapper (heap_setActors (remapAll s l (actors h)) h) p.
Proof.
  revert h. induction l as [| d l IH]; intros h Hp.
  - destruct h. exact Hp.
  - unfold remapAll. cbn [foldl]. fold (remapAll s l).
    destruct (actor d) as [b |]; [| apply IH, Hp].
    apply (hasMapper_alter_SetMapper _ b (Some (getVTKPolyData (line (stretched s d))))) in Hp.
    apply IH in Hp. exact Hp.
Qed.

Lemma remapAll_snoc s l d m :
  remapAll s (l ++ [d]) m =
  match actor d with
  | Some a => alter (actor_SetMapper (Some (getVTKPolyData (line (stretched s d))))) a
                    (remapAll s l m)
  | None => remapAll s l m
  end.
Proof. unfold remapAll. rewrite foldl_app. reflexivity. Qed.

Lemma stretchLoop_returns s w :
  validLines (rep w) ->
  Forall (hasMapper (vtk w)) (dynamicActors (rep w)) ->
  forEach (seq 0 (length (dynamicGeom (rep w)))) (λ i,
    r ← getRep;
    info ← defined (dynamicGeom r !! i);
    X_GB1 ← getMobilizedBodyTransform s (body1 info);
    X_GB2 ← getMobilizedBodyTransform s (body2 info);
    setRubberBandLine i (transformPoint X_GB1 (station1 info))
                        (transformPoint X_GB2 (station2 info))) w =
  Returns tt (stretchedWorld s w).
Proof.
  intros Hvalid Hmap.
  set (ds := dynamicGeom (rep w)). set (N := length ds).
  set (W := λ k, mkWorld (rep_setDynamicGeom (map (stretched s) (take k ds) ++ drop k ds) (rep w))
                         (heap_setActors (remapAll s (take k ds) (actors (vtk w))) (vtk w))).
  assert (Hgen : ∀ j k, (k + j = N)%nat ->
            forEach (seq k j) (λ i,
              r ← getRep;
              info ← defined (dynamicGeom r !! i);
              X_GB1 ← getMobilizedBodyTransform s (body1 info);
              X_GB2 ← getMobilizedBodyTransform s (body2 info);
              setRubberBandLine i (transformPoint X_GB1 (station1 info))
                                  (transformPoint X_GB2 (station2 info))) (W k) =
            Returns tt (W N)).
  { induction j as [| j IH]; intros k Hkj.
    - simpl. replace k with N by lia. reflexivity.
    - assert (Hk : (k < length ds)%nat) by (fold N; lia).
      destruct (lookup_lt_is_Some_2 _ _ Hk) as [d Hd].
      assert (Hpre : length (map (stretched s) (take k ds)) = k).
      { rewrite length_map, length_take. lia. }
      assert (Hin : d ∈ ds) by (eapply list_elem_of_lookup_2, Hd).
      unfold validLines in Hvalid. rewrite Forall_forall in Hvalid.
      destruct (Hvalid d Hin) as [Hb1 Hb2].
      assert (Hm : hasMapper (vtk w) (actor d)).
      { rewrite Forall_forall in Hmap. apply Hmap. unfold dynamicActors.
        apply list_elem_of_fmap. eauto. }
      destruct (actor d) as [a |] eqn:Ha; [| contradiction].
      assert (Hm' : hasMapper (vtk (W k)) (Some a)).
      { exact (hasMapper_remapAll s (take k ds) (vtk w) (Some a) Hm). }
      cbn [seq forEach]. unfold mbind at 1, M_bind at 1.
      unfold mbind at 1, M_bind at 1. unfold getRep at 1.
      unfold mbind at 1, M_bind at 1.
      replace (dynamicGeom (rep (W k)) !! k) with (Some d)
        by (unfold W; simpl; rewrite lookup_prefix_drop by exact Hpre; symmetry; exact Hd).
      simpl.
      unfold getMobilizedBodyTransform. rewrite Hb1, Hb2.
      unfold mbind at 1, M_bind at 1. simpl. unfold mbind at 1, M_bind at 1. simpl.
      unfold setRubberBandLine. unfold mbind at 1, M_bind at 1. simpl.
      unfold mbind at 1, M_bind at 1.
      rewrite lookup_prefix_drop by exact Hpre. fold ds. rewrite Hd. simpl.
      unfold mbind at 1, M_bind at 1. simpl. rewrite Ha.
      rewrite mapper_SetInput_returns by exact Hm'.
      rewrite <- (IH (S k)) by lia. f_equal. unfold W. simpl.
      rewrite insert_prefix_drop by (assumption || lia).
      rewrite (take_S_r _ _ _ Hd), map_app. simpl.
      rewrite remapAll_snoc, Ha. reflexivity. }
  specialize (Hgen N 0%nat eq_refl).
  assert (HW0 : W 0%nat = w).
  { unfold W, ds. simpl. rewrite drop_0.
    destruct w as [r [ma mr mw n]]. destruct r. reflexivity. }
  assert (HWN : W N = stretchedWorld s w).
  { unfold W, N, stretchedWorld. rewrite firstn_all, drop_all, app_nil_r. reflexivity. }
  rewrite HW0, HWN in Hgen. exact Hgen.
Qed.


(** *** Collection of the system's geometry *)

Lemma collectLoop_returns s stages w :
  forEach stages (λ stage,
    modifyRep (λ r, rep_setEphemeralGeometry
                      (ephemeralGeometry r ++ calcDecorativeGeometry s stage) r)) w =
  Returns tt
    (mkWorld (rep_setEphemeralGeometry
                (ephemeralGeometry (rep w) ++ concat (map (calcDecorativeGeometry s) stages))
                (rep w))
             (vtk w)).
Proof.
  revert w. induction stages as [| st stages IH]; intros w.
  - simpl. rewrite app_nil_r. destruct w as [r h]. destruct r. reflexivity.
  - cbn [forEach]. unfold mbind, M_bind. unfold modifyRep at 1. rewrite IH.
    simpl. rewrite <- app_assoc. reflexivity.
Qed.

(** *** What the first two phases leave alone *)

Lemma iter_preserves {A} (P : A -> Prop) (f : A -> A) n x :
  (∀ y, P y -> P (f y)) -> P x -> P (Nat.iter n f x).
Proof. intros Hf Hx. induction n as [| n IH]; simpl; auto. Qed.

Lemma configureBodies_cons s bs i ids m :
  configureBodies s bs (i :: ids) m =
  configureBodies s bs ids
    (applyAll (configured (getBodyTransform s i)) (from_option aList [] (vectorIndex bs i)) m).
Proof. reflexivity. Qed.

(** [setConfiguration] touches the pose of an actor and nothing else. *)
Lemma lookup_configureBodies s bs ids m a :
  ∃ f, configureBodies s bs ids m !! a = f <$> (m !! a)
       ∧ ∀ k, mapperInput (f k) = mapperInput k ∧ actorDeletes (f k) = actorDeletes k.
Proof.
  revert m. induction ids as [| i ids IH]; intros m.
  - exists id. split; [| auto].
    change (configureBodies s bs [] m) with m. destruct (m !! a); reflexivity.
  - rewrite configureBodies_cons.
    destruct (IH (applyAll (configured (getBodyTransform s i))
                           (from_option aList [] (vectorIndex bs i)) m)) as (f & Hf & Hfr).
    rewrite Hf, lookup_applyAll.
    eexists (λ k, f (Nat.iter _ (configured (getBodyTransform s i)) k)). split.
    + destruct (m !! a); reflexivity.
    + intros k. destruct (Hfr (Nat.iter
          (length (filter (λ p, p = Some a) (from_option aList [] (vectorIndex bs i))))
          (configured (getBodyTransform s i)) k)) as [-> ->].
      split; apply (iter_preserves (λ y, _ y = _ k)); auto.
Qed.

Lemma hasMapper_configureBodies s bs ids h p :
  hasMapper h p -> hasMapper (heap_setActors (configureBodies s bs ids (actors h)) h) p.
Proof.
  unfold hasMapper. destruct p as [a |]; [| trivial]. simpl.
  destruct (lookup_configureBodies s bs ids (actors h) a) as (f & -> & Hf).
  destruct (actors h !! a) as [k |]; [| trivial]. simpl.
  destruct (Hf k) as [-> _]. trivial.
Qed.

Lemma allocated_configureBodies s bs ids m ps :
  allocated m ps -> allocated (configureBodies s bs ids m) ps.
Proof.
  unfold allocated. intros Hall. eapply Forall_impl; [exact Hall |].
  intros [a |]; [| trivial]. unfold isAllocated.
  destruct (lookup_configureBodies s bs ids m a) as (f & -> & _). apply fmap_is_Some.
Qed.

(** The rubber-band phase touches the mapper input of an actor and
    nothing else, and never takes a mapper away. *)
Lemma lookup_remapAll s ds m a :
  ∃ f, remapAll s ds m !! a = f <$> (m !! a)
       ∧ ∀ k, position (f k) = position k ∧ orientation (f k) = orientation k
              ∧ actorDeletes (f k) = actorDeletes k
              ∧ (is_Some (mapperInput k) -> is_Some (mapperInput (f k))).
Proof.
  induction ds as [| d ds IH] using rev_ind.
  - exists id. split; [| auto].
    change (remapAll s [] m) with m. destruct (m !! a); reflexivity.
  - rewrite remapAll_snoc. destruct IH as (f & Hf & Hfr).
    destruct (actor d) as [b |]; [| eauto].
    rewrite lookup_alter. case_decide; [| eauto]. subst b. rewrite Hf.
    eexists (λ k, actor_SetMapper _ (f k)). split.
    + destruct (m !! a); reflexivity.
    + intros k. simpl. destruct (Hfr k) as (? & ? & ? & ?). eauto.
Qed.

Lemma allocated_remapAll s ds m ps : allocated m ps -> allocated (remapAll s ds m) ps.
Proof.
  unfold allocated. intros Hall. eapply Forall_impl; [exact Hall |].
  intros [a |]; [| trivial]. unfold isAllocated.
  destruct (lookup_remapAll s ds m a) as (f & -> & _). apply fmap_is_Some.
Qed.

Lemma allocated_app m ps qs : allocated m (ps ++ qs) <-> allocated m ps ∧ allocated m qs.
Proof. apply Forall_app. Qed.

(** *** The whole cycle *)

Theorem report_returns s s' w :
  Operable w ->
  validLines (rep w) ->
  realize s Stage_Position = Some s' ->
  validItems (ephemeralGeometry (rep w) ++ contributedGeometry s') ->
  report s w = Returns tt (reportedWorld s' w).
Proof.
  intros (Hready & Hlen & Hall & Hmap) Hlines Hrealize Hitems.
  unfold Ready in Hready.
  destruct (renWin (rep w)) as [win |] eqn:Hwin; [| contradiction].
  destruct (renderer (rep w)) as [rd |] eqn:Hrd; [| contradiction].
  destruct Hready as [Hwin' Hrd'].
  unfold ownedActors in Hall. apply allocated_app in Hall as [Hpers Hall].
  apply allocated_app in Hall as [Hdyn Heph].
  (* the guard and the realization *)
  unfold report, mbind at 1, M_bind at 1. simpl. rewrite Hwin.
  unfold mbind at 1, M_bind at 1, realizeM. rewrite Hrealize. simpl.
  (* bodies *)
  unfold mbind at 1, M_bind at 1.
  rewrite (configuredWorld_returns s' w Hlen Hpers).
  unfold mbind at 1, M_bind at 1. unfold getRep at 1.
  (* rubber-band lines *)
  unfold mbind at 1, M_bind at 1.
  change (dynamicGeom (rep (configuredWorld s' w))) with (dynamicGeom (rep w)).
  pose proof (stretchLoop_returns s' (configuredWorld s' w)) as Hstretch.
  change (dynamicGeom (rep (configuredWorld s' w))) with (dynamicGeom (rep w)) in Hstretch.
  rewrite Hstretch; cycle 1.
  { exact Hlines. }
  { eapply Forall_impl; [exact Hmap |]. intros p. apply hasMapper_configureBodies. }
  clear Hstretch.
  (* stages *)
  unfold mbind at 1, M_bind at 1.
  rewrite collectLoop_returns.
  fold (contributedGeometry s').
  fold (collectedWorld s' (stretchedWorld s' (configuredWorld s' w))).
  (* ephemeral geometry *)
  unfold mbind at 1, M_bind at 1.
  rewrite (displayEphemeralGeometry_returns s' _ rd); cycle 1.
  { exact Hrd. } { exact Hrd'. } { exact Hlen. }
  { simpl. apply allocated_remapAll, allocated_configureBodies, Heph. }
  { exact Hitems. }
  (* camera and redraw *)
  unfold mbind at 1, M_bind at 1. unfold getRep at 1.
  unfold reportedWorld.
  set (w4 := displayedWorld s' (collectedWorld s' (stretchedWorld s' (configuredWorld s' w)))).
  assert (Hrd4 : renderer (rep w4) = Some rd) by exact Hrd.
  assert (Hwin4 : renWin (rep w4) = Some win) by exact Hwin.
  assert (Hr4 : is_Some (renderers (vtk w4) !! rd)).
  { unfold w4, displayedWorld. cbn -[seq]. rewrite Hrd. apply is_Some_alter, Hrd'. }
  assert (Hw4 : is_Some (renderWindows (vtk w4) !! win)) by exact Hwin'.
  unfold mbind at 1, M_bind at 1.
  assert (Hcam : (if cameraNeedsToBeReset (rep w4)
                  then onRenderer (renderer (rep w4)) renderer_ResetCamera;;
                       modifyRep (rep_setCameraNeedsToBeReset false)
                  else mret tt) w4 = Returns tt (reframedWorld w4)).
  { unfold reframedWorld. destruct (cameraNeedsToBeReset (rep w4)); [| reflexivity].
    unfold mbind, M_bind. rewrite Hrd4. rewrite onRenderer_alter by exact Hr4. reflexivity. }
  rewrite Hcam. unfold mbind at 1, M_bind at 1. unfold getRep at 1.
  assert (Hwin5 : renWin (rep (reframedWorld w4)) = Some win).
  { unfold reframedWorld. destruct (cameraNeedsToBeReset (rep w4)); exact Hwin4. }
  assert (Hw5 : is_Some (renderWindows (vtk (reframedWorld w4)) !! win)).
  { unfold reframedWorld. destruct (cameraNeedsToBeReset (rep w4)); [| exact Hw4].
    cbn [vtk]. rewrite Hrd4. exact Hw4. }
  unfold renderedWorld. rewrite Hwin5.
  destruct Hw5 as [o Ho]. unfold onRenderWindow. rewrite Ho. do 3 f_equal.
  rewrite <- (insert_id _ _ _ Ho) at 2. rewrite alter_insert_eq. reflexivity.
Qed.


(** ** Reading the reported world *)

Lemma reportedWorld_rep s w :
  rep (reportedWorld s w) =
  mkRep (myHandle (rep w)) false (defaultBodyScaleForAutoGeometry (rep w)) (bodies (rep w))
        (map (stretched s) (dynamicGeom (rep w))) []
        (map Some (seq (nextAddress (vtk w))
                       (length (ephemeralGeometry (rep w) ++ contributedGeometry s))))
        (renWin (rep w)) (renderer (rep w)).
Proof.
  unfold reportedWorld, renderedWorld, reframedWorld. cbn -[seq].
  destruct (cameraNeedsToBeReset (rep w)) eqn:Hflag; cbn -[seq];
    unfold rep_setEphemeralGeometry, rep_setEphemeralActors, rep_setDynamicGeom,
           rep_setCameraNeedsToBeReset; cbn -[seq]; rewrite ?Hflag; reflexivity.
Qed.

Lemma reportedWorld_actors s w :
  actors (vtk (reportedWorld s w)) =
  insertFrom (nextAddress (vtk w))
    (map (builtActor s (bodies (rep w))) (ephemeralGeometry (rep w) ++ contributedGeometry s))
    (applyAll actor_Delete (ephemeralActors (rep w))
       (remapAll s (dynamicGeom (rep w))
          (configureBodies s (bodies (rep w)) (bodyIdsFrom 1 getNBodies) (actors (vtk w))))).
Proof.
  unfold reportedWorld, renderedWorld, reframedWorld. cbn -[seq].
  destruct (cameraNeedsToBeReset (rep w)); cbn -[seq];
    destruct (renWin (rep w)); destruct (renderer (rep w)); reflexivity.
Qed.

Lemma reportedWorld_nextAddress s w :
  nextAddress (vtk (reportedWorld s w)) =
  (nextAddress (vtk w) + length (ephemeralGeometry (rep w) ++ contributedGeometry s))%nat.
Proof.
  unfold reportedWorld, renderedWorld, reframedWorld. cbn -[seq].
  destruct (cameraNeedsToBeReset (rep w)); cbn -[seq];
    destruct (renWin (rep w)); destruct (renderer (rep w)); reflexivity.
Qed.

Lemma reportedWorld_renderWindows s w :
  renderWindows (vtk (reportedWorld s w)) =
  match renWin (rep w) with
  | Some win => alter window_Render win (renderWindows (vtk w))
  | None => renderWindows (vtk w)
  end.
Proof.
  unfold reportedWorld, renderedWorld, reframedWorld. cbn -[seq].
  destruct (cameraNeedsToBeReset (rep w)); cbn -[seq];
    destruct (renWin (rep w)); destruct (renderer (rep w)); reflexivity.
Qed.

(** the renderer after a report: the old generation out of the scene,
    the new one in, the camera reframed when the flag was set *)
Lemma reportedWorld_renderers s w rd :
  renderer (rep w) = Some rd ->
  renderers (vtk (reportedWorld s w)) =
  alter (λ r, mkRenderer
                (removeAll (ephemeralActors (rep w)) (sceneActors r) ++
                 seq (nextAddress (vtk w))
                     (length (ephemeralGeometry (rep w) ++ contributedGeometry s)))
                (if cameraNeedsToBeReset (rep w) then S (resetCameraCalls r)
                 else resetCameraCalls r)
                (rendererDeletes r))
        rd (renderers (vtk w)).
Proof.
  intros Hrd. unfold reportedWorld, renderedWorld, reframedWorld. cbn -[seq]. rewrite Hrd.
  destruct (cameraNeedsToBeReset (rep w)); cbn -[seq]; rewrite ?Hrd;
    destruct (renWin (rep w)); cbn -[seq]; rewrite ?alter_alter_eq; reflexivity.
Qed.


(** ** The disposed state *)

(** C9. Once the window pointer is null (state Disposed), [report] is a
    silent no-op: it returns without raising, and the world is the one it
    started from: the scene, the three geometry stores and the
    camera-reset flag are untouched. *)
Theorem report_after_disposal_is_noop (s : State) (w : World) :
  renWin (rep w) = None -> report s w = Returns tt w.
Proof. intros Hw. unfold report, mbind, M_bind. simpl. rewrite Hw. reflexivity. Qed.

(** ** Body ids out of range *)

Lemma addDecoration_None w body X_GD g :
  vectorIndex (bodies (rep w)) body = None -> addDecoration body X_GD g w = Undefined.
Proof.
  intros Hid. unfold addDecoration, mbind at 1, M_bind at 1. simpl.
  unfold mbind at 1, M_bind at 1. rewrite modifyBody_None by exact Hid. reflexivity.
Qed.

(** C7 (as the code has it). The registry operations index the body
    vector without a range check: for an id that is negative or at least
    the body count, [setDefaultBodyColor], [getDefaultBodyColor],
    [setBodyScale] and [addDecoration] have undefined behaviour; none of
    them raises an out-of-range error. *)
Theorem registry_operations_unchecked (w : World) (id : MobilizedBodyId) :
  ¬ validBodyId w id ->
  (∀ rgb, setDefaultBodyColor id rgb w = Undefined)
  ∧ getDefaultBodyColor id w = Undefined
  ∧ (∀ x, setBodyScale id x w = Undefined)
  ∧ (∀ X_GD g, addDecoration id X_GD g w = Undefined).
Proof.
  intros Hid. apply vectorIndex_None in Hid. repeat split.
  - intros rgb. apply modifyBody_None, Hid.
  - unfold getDefaultBodyColor, mbind, M_bind. rewrite getBody_None by exact Hid. reflexivity.
  - intros x. apply modifyBody_None, Hid.
  - intros X_GD g. unfold addDecoration, mbind at 1, M_bind at 1. simpl.
    unfold mbind at 1, M_bind at 1. rewrite modifyBody_None by exact Hid. reflexivity.
Qed.

(** For a body of the registry the same operations are plain field
    accesses. *)
Lemma registry_operations_valid (w : World) (id : MobilizedBodyId) :
  validBodyId w id ->
  ∃ b, vectorIndex (bodies (rep w)) id = Some b
    ∧ getDefaultBodyColor id w = Returns (defaultColorRGB b) w
    ∧ (∀ rgb, setDefaultBodyColor id rgb w =
              Returns tt (mkWorld (rep_setBodies (<[Z.to_nat id := body_setColor rgb b]>
                                                    (bodies (rep w))) (rep w)) (vtk w)))
    ∧ (∀ x, setBodyScale id x w =
            Returns tt (mkWorld (rep_setBodies (<[Z.to_nat id := body_setScale x b]>
                                                  (bodies (rep w))) (rep w)) (vtk w))).
Proof.
  intros Hid. apply vectorIndex_is_Some in Hid as [b Hb]. exists b. repeat split.
  - exact Hb.
  - unfold getDefaultBodyColor, mbind, M_bind. rewrite (getBody_Some _ _ b Hb). reflexivity.
  - intros rgb. apply modifyBody_Some, Hb.
  - intros x. apply modifyBody_Some, Hb.
Qed.


(** ** The invariant *)

Lemma Inv_Operable w : Inv w -> Operable w.
Proof.
  intros (Hready & Hlen & Hnd & Hlive & Hmap & Hfresh & Hdead).
  repeat split; try assumption.
  unfold allocated. eapply Forall_impl; [exact Hlive |].
  intros [a |]; [| trivial]. unfold liveActor, isAllocated.
  destruct (actors (vtk w) !! a); [eauto | contradiction].
Qed.

Lemma liveActor_fresh w p :
  map_Forall (λ a _, (a < nextAddress (vtk w))%nat) (actors (vtk w)) ->
  liveActor (vtk w) p -> ∃ a, p = Some a ∧ (a < nextAddress (vtk w))%nat.
Proof.
  intros Hfresh Hlive. destruct p as [a |]; [| contradiction]. exists a. split; [reflexivity |].
  unfold liveActor in Hlive. destruct (actors (vtk w) !! a) as [k |] eqn:Hk; [| contradiction].
  exact (Hfresh a k Hk).
Qed.

Lemma Inv_owned_fresh w p :
  Inv w -> p ∈ ownedActors (rep w) -> ∃ a, p = Some a ∧ (a < nextAddress (vtk w))%nat.
Proof.
  intros (_ & _ & _ & Hlive & _ & Hfresh & _) Hp.
  rewrite Forall_forall in Hlive. eapply liveActor_fresh; eauto.
Qed.

Lemma Inv_next_not_owned w : Inv w -> Some (nextAddress (vtk w)) ∉ ownedActors (rep w).
Proof.
  intros HI Hin. destruct (Inv_owned_fresh w _ HI Hin) as (a & [= <-] & Hlt). lia.
Qed.

(** Appending a pointer to one body's list adds it to the persistent
    actors. *)
Lemma persistent_insert_snoc (bs : list PerBodyInfo) i b b' x :
  bs !! i = Some b -> aList b' = aList b ++ [x] ->
  mjoin (aList <$> <[i := b']> bs) ≡ₚ x :: mjoin (aList <$> bs).
Proof.
  intros Hb Hb'.
  transitivity (x :: mjoin (aList <$> (take i bs ++ b :: drop (S i) bs)));
    [| rewrite take_drop_middle by exact Hb; reflexivity].
  rewrite insert_take_drop by (eapply lookup_lt_Some, Hb).
  rewrite !fmap_app, !fmap_cons, !join_app. simpl. rewrite Hb'.
  rewrite <- !app_assoc. simpl. symmetry.
  etransitivity; [apply Permutation_middle |].
  apply Permutation_app_head. apply Permutation_middle.
Qed.

Lemma persistent_insert_same (bs : list PerBodyInfo) i b b' :
  bs !! i = Some b -> aList b' = aList b ->
  mjoin (aList <$> <[i := b']> bs) = mjoin (aList <$> bs).
Proof.
  intros Hb Hb'. rewrite list_fmap_insert, Hb'.
  rewrite list_insert_id; [reflexivity |]. rewrite list_lookup_fmap, Hb. reflexivity.
Qed.


(** Creating one actor at the next free address and giving it to a store
    keeps the invariant. *)
Lemma Inv_new_actor w w' k :
  Inv w ->
  Ready w' ->
  length (bodies (rep w')) = length (bodies (rep w)) ->
  ownedActors (rep w') ≡ₚ Some (nextAddress (vtk w)) :: ownedActors (rep w) ->
  (∀ p, p ∈ dynamicActors (rep w') ->
        p ∈ dynamicActors (rep w) ∨ (p = Some (nextAddress (vtk w)) ∧ is_Some (mapperInput k))) ->
  actors (vtk w') = <[nextAddress (vtk w) := k]> (actors (vtk w)) ->
  actorDeletes k = 0%nat ->
  nextAddress (vtk w') = S (nextAddress (vtk w)) ->
  Inv w'.
Proof.
  intros HI Hready' Hlen' Hperm Hdyn Hact Hk Hnext.
  pose proof (Inv_next_not_owned w HI) as Hnew.
  destruct HI as (Hready & Hlen & Hnd & Hlive & Hmap & Hfresh & Hdead).
  set (n := nextAddress (vtk w)) in *.
  assert (Hold : ∀ a, Some a ∈ ownedActors (rep w) -> a ≠ n).
  { intros a Ha ->. contradiction. }
  repeat split.
  - exact Hready'.
  - congruence.
  - rewrite Hperm. apply NoDup_cons. split; assumption.
  - rewrite Hperm. apply Forall_cons. split.
    + unfold liveActor. rewrite Hact, lookup_insert_eq. exact Hk.
    + rewrite Forall_forall in Hlive |- *. intros [a |] Hp; [| destruct (Hlive _ Hp)].
      unfold liveActor. rewrite Hact, lookup_insert_ne by (symmetry; apply Hold, Hp).
      exact (Hlive _ Hp).
  - rewrite Forall_forall in Hmap |- *. intros p Hp.
    destruct (Hdyn p Hp) as [Hin | [-> Hm]].
    + assert (Hown : p ∈ ownedActors (rep w)).
      { unfold ownedActors. rewrite !elem_of_app. auto. }
      destruct p as [a |]; [| destruct (Hmap _ Hin)].
      unfold hasMapper. rewrite Hact, lookup_insert_ne by (symmetry; apply Hold, Hown).
      exact (Hmap _ Hin).
    + unfold hasMapper. rewrite Hact, lookup_insert_eq. exact Hm.
  - rewrite Hact, Hnext. apply map_Forall_insert_2; [lia |].
    eapply map_Forall_impl; [exact Hfresh |]. simpl. intros. lia.
  - rewrite Hact. intros a k' Hlk Hnot.
    rewrite lookup_insert in Hlk. case_decide as Hd.
    + subst a. exfalso. apply Hnot. rewrite Hperm. left.
    + apply (Hdead a k' Hlk). intros Hin. apply Hnot. rewrite Hperm. right. exact Hin.
Qed.

Lemma Ready_same w w' :
  renWin (rep w') = renWin (rep w) ->
  renderer (rep w') = renderer (rep w) ->
  (∀ a, is_Some (renderWindows (vtk w) !! a) -> is_Some (renderWindows (vtk w') !! a)) ->
  (∀ a, is_Some (renderers (vtk w) !! a) -> is_Some (renderers (vtk w') !! a)) ->
  Ready w -> Ready w'.
Proof.
  unfold Ready. intros -> -> Hw Hr.
  destruct (renWin (rep w)); [| trivial]. destruct (renderer (rep w)); [| trivial].
  intros [? ?]. auto.
Qed.

Lemma Inv_renderer w : Inv w -> ∃ rd r, renderer (rep w) = Some rd ∧ renderers (vtk w) !! rd = Some r.
Proof.
  intros (Hready & _). unfold Ready in Hready.
  destruct (renWin (rep w)); [| contradiction].
  destruct (renderer (rep w)) as [rd |]; [| contradiction].
  destruct Hready as [_ [r Hr]]. eauto.
Qed.

(** [addDecoration] keeps the invariant. *)
Lemma addDecoration_Inv w w' body X_GD g :
  Inv w -> addDecoration body X_GD g w = Returns tt w' -> Inv w'.
Proof.
  intros HI Hrun.
  destruct (vectorIndex (bodies (rep w)) body) as [b |] eqn:Hb; cycle 1.
  { rewrite (addDecoration_None _ _ _ _ Hb) in Hrun. discriminate. }
  destruct (Inv_renderer w HI) as (rd & r & Hrd & Hr).
  rewrite (addDecoration_returns w body X_GD g b rd r Hb Hrd Hr) in Hrun.
  injection Hrun as <-.
  apply vectorIndex_Some in Hb as [Hi Hb].
  eapply (Inv_new_actor w); try reflexivity; try exact HI.
  - apply (Ready_same w); try reflexivity; [auto | | apply HI].
    simpl. intros a Ha. rewrite lookup_insert. case_decide; eauto.
  - simpl. apply length_insert.
  - unfold ownedActors, persistentActors. simpl.
    rewrite (persistent_insert_snoc _ _ b _ (Some (nextAddress (vtk w))) Hb) by reflexivity.
    reflexivity.
  - simpl. auto.
Qed.


(** ** [addRubberBandLine] and [addEphemeralDecoration] *)

Lemma addRubberBandLine_returns w b1 st1 b2 st2 g rd r :
  renderer (rep w) = Some rd ->
  renderers (vtk w) !! rd = Some r ->
  let n := nextAddress (vtk w) in
  addRubberBandLine b1 st1 b2 st2 g w =
  Returns tt
    (mkWorld
       (rep_setCameraNeedsToBeReset true
          (rep_setDynamicGeom (dynamicGeom (rep w) ++ [mkDyn (Some n) g b1 b2 st1 st2]) (rep w)))
       (mkHeap (<[n := rubberBandActor g]> (actors (vtk w)))
               (<[rd := renderer_AddActor n r]> (renderers (vtk w)))
               (renderWindows (vtk w)) (S n))).
Proof.
  intros Hrd Hr n.
  unfold addRubberBandLine, mbind at 1, M_bind at 1. simpl. fold n.
  unfold mbind at 1, M_bind at 1. simpl.
  unfold mbind at 1, M_bind at 1.
  rewrite (colorOr_resolve g (mret Black) Black) by reflexivity.
  unfold mbind, M_bind, onActor, AddActor, modifyRep, getRep, onRenderer, mbind, M_bind. simpl.
  repeat (rewrite lookup_insert_eq; simpl). rewrite Hrd. simpl. rewrite Hr.
  unfold heap_setActors, heap_setRenderers, rep_setCameraNeedsToBeReset. simpl.
  rewrite !insert_insert_eq. reflexivity.
Qed.

Lemma addRubberBandLine_Inv w w' b1 st1 b2 st2 g :
  Inv w -> addRubberBandLine b1 st1 b2 st2 g w = Returns tt w' -> Inv w'.
Proof.
  intros HI Hrun.
  destruct (Inv_renderer w HI) as (rd & r & Hrd & Hr).
  rewrite (addRubberBandLine_returns w b1 st1 b2 st2 g rd r Hrd Hr) in Hrun.
  injection Hrun as <-.
  eapply (Inv_new_actor w); try reflexivity; try exact HI.
  - apply (Ready_same w); try reflexivity; [auto | | apply HI].
    simpl. intros a Ha. rewrite lookup_insert. case_decide; eauto.
  - unfold ownedActors, dynamicActors. simpl. rewrite fmap_app. simpl.
    rewrite <- !app_assoc. simpl.
    etransitivity; [| symmetry; apply Permutation_middle].
    apply Permutation_app_head. symmetry. apply Permutation_middle.
  - unfold dynamicActors. simpl. intros p Hp. rewrite fmap_app in Hp.
    apply elem_of_app in Hp as [Hp | Hp]; [auto |].
    apply list_elem_of_singleton in Hp. right. split; [exact Hp | simpl; eauto].
Qed.

Lemma addEphemeralDecoration_returns g w :
  addEphemeralDecoration g w =
  Returns tt (mkWorld (rep_setEphemeralGeometry (ephemeralGeometry (rep w) ++ [g]) (rep w))
                      (vtk w)).
Proof. reflexivity. Qed.

(** The invariant does not look at the pending queue, the flag, the
    colours or the scales. *)
Lemma Inv_same_pointers w w' :
  vtk w' = vtk w ->
  renWin (rep w') = renWin (rep w) ->
  renderer (rep w') = renderer (rep w) ->
  length (bodies (rep w')) = length (bodies (rep w)) ->
  persistentActors (rep w') = persistentActors (rep w) ->
  dynamicActors (rep w') = dynamicActors (rep w) ->
  ephemeralActors (rep w') = ephemeralActors (rep w) ->
  Inv w -> Inv w'.
Proof.
  unfold Inv, Ready, ownedActors. intros -> -> -> -> -> -> ->. trivial.
Qed.

Lemma addEphemeralDecoration_Inv g w w' :
  Inv w -> addEphemeralDecoration g w = Returns tt w' -> Inv w'.
Proof.
  intros HI Hrun. rewrite addEphemeralDecoration_returns in Hrun. injection Hrun as <-.
  revert HI. apply Inv_same_pointers; reflexivity.
Qed.

Lemma modifyBody_Inv w w' bodyNum f :
  (∀ b, aList (f b) = aList b) ->
  Inv w -> modifyBody bodyNum f w = Returns tt w' -> Inv w'.
Proof.
  intros Hf HI Hrun.
  destruct (vectorIndex (bodies (rep w)) bodyNum) as [b |] eqn:Hb;
    [| rewrite modifyBody_None in Hrun by exact Hb; discriminate].
  rewrite (modifyBody_Some _ _ _ b Hb) in Hrun. injection Hrun as <-.
  apply vectorIndex_Some in Hb as [_ Hb].
  revert HI. apply Inv_same_pointers; try reflexivity.
  - simpl. apply length_insert.
  - unfold persistentActors. simpl. apply (persistent_insert_same _ _ b); auto.
Qed.


(** ** [report] keeps the invariant *)

Lemma map_fmap {A B} (f : A -> B) (l : list A) : map f l = f <$> l.
Proof. reflexivity. Qed.

Lemma iter_Delete n k :
  actorDeletes (Nat.iter n actor_Delete k) = (n + actorDeletes k)%nat
  ∧ position (Nat.iter n actor_Delete k) = position k
  ∧ orientation (Nat.iter n actor_Delete k) = orientation k
  ∧ mapperInput (Nat.iter n actor_Delete k) = mapperInput k.
Proof.
  induction n as [| n (IH1 & IH2 & IH3 & IH4)]; [auto |].
  simpl. rewrite IH1. auto.
Qed.


Lemma elem_of_map_Some_seq (p : option nat) n0 N :
  p ∈ map Some (seq n0 N) <-> ∃ a, p = Some a ∧ (n0 ≤ a < n0 + N)%nat.
Proof.
  rewrite list_elem_of_In, in_map_iff. split.
  - intros (a & <- & Ha). apply in_seq in Ha. eauto.
  - intros (a & -> & Ha). exists a. split; [reflexivity |]. apply in_seq. exact Ha.
Qed.

Lemma NoDup_map_Some_seq n0 N : NoDup (map Some (seq n0 N)).
Proof.
  rewrite map_fmap. apply NoDup_fmap_2; [apply _ | apply NoDup_seq].
Qed.

Lemma dynamicActors_stretched s (ds : list PerDynamicGeomInfo) :
  actor <$> map (stretched s) ds = actor <$> ds.
Proof.
  induction ds as [| d ds IH]; [reflexivity |].
  cbn [map]. rewrite !fmap_cons, IH. reflexivity.
Qed.

(** An actor that existed before the report is still there; it has been
    released once per occurrence among the old ephemeral actors, and has
    otherwise kept its release count and its mapper. *)
Lemma reported_lookup_below s w a :
  (a < nextAddress (vtk w))%nat ->
  ∃ f, actors (vtk (reportedWorld s w)) !! a =
       (λ k, Nat.iter (length (filter (λ p, p = Some a) (ephemeralActors (rep w))))
                      actor_Delete (f k)) <$> (actors (vtk w) !! a)
     ∧ ∀ k, actorDeletes (f k) = actorDeletes k
            ∧ (is_Some (mapperInput k) -> is_Some (mapperInput (f k))).
Proof.
  intros Ha. rewrite reportedWorld_actors, lookup_insertFrom.
  rewrite decide_False by lia. rewrite lookup_applyAll.
  destruct (lookup_remapAll s (dynamicGeom (rep w))
              (configureBodies s (bodies (rep w)) (bodyIdsFrom 1 getNBodies) (actors (vtk w))) a)
    as (f1 & -> & Hf1).
  destruct (lookup_configureBodies s (bodies (rep w)) (bodyIdsFrom 1 getNBodies)
              (actors (vtk w)) a) as (f2 & -> & Hf2).
  exists (λ k, f1 (f2 k)). split.
  - destruct (actors (vtk w) !! a); reflexivity.
  - intros k. destruct (Hf1 (f2 k)) as (_ & _ & -> & Hm1). destruct (Hf2 k) as [Hm2 ->].
    split; [reflexivity |]. intros Hm. apply Hm1. rewrite Hm2. exact Hm.
Qed.

Lemma reported_lookup_new s w i g :
  (ephemeralGeometry (rep w) ++ contributedGeometry s) !! i = Some g ->
  actors (vtk (reportedWorld s w)) !! (nextAddress (vtk w) + i)%nat =
  Some (builtActor s (bodies (rep w)) g).
Proof.
  intros Hg. rewrite reportedWorld_actors, lookup_insertFrom.
  apply lookup_lt_Some in Hg as Hlt.
  rewrite decide_True by (rewrite length_map; lia).
  replace (nextAddress (vtk w) + i - nextAddress (vtk w))%nat with i by lia.
  rewrite map_fmap, list_lookup_fmap, Hg. reflexivity.
Qed.

Lemma reported_lookup_fresh s w a k :
  map_Forall (λ a _, (a < nextAddress (vtk w))%nat) (actors (vtk w)) ->
  actors (vtk (reportedWorld s w)) !! a = Some k ->
  (a < nextAddress (vtk (reportedWorld s w)))%nat.
Proof.
  intros Hfresh Hk. rewrite reportedWorld_nextAddress.
  rewrite reportedWorld_actors, lookup_insertFrom in Hk.
  case_decide as Hd; [rewrite length_map in Hd; lia |].
  rewrite lookup_applyAll in Hk.
  destruct (lookup_remapAll s (dynamicGeom (rep w))
              (configureBodies s (bodies (rep w)) (bodyIdsFrom 1 getNBodies) (actors (vtk w))) a)
    as (f1 & Hf1 & _).
  destruct (lookup_configureBodies s (bodies (rep w)) (bodyIdsFrom 1 getNBodies)
              (actors (vtk w)) a) as (f2 & Hf2 & _).
  rewrite Hf1, Hf2 in Hk.
  destruct (actors (vtk w) !! a) as [k0 |] eqn:Hk0; [| discriminate].
  pose proof (Hfresh a k0 Hk0). simpl in *. lia.
Qed.


Lemma count_absent {A} `{EqDecision A} (x : A) (l : list A) :
  x ∉ l -> length (filter (λ p, p = x) l) = 0%nat.
Proof. intros Hx. rewrite filter_eq_nil; [reflexivity |]. intros p Hp ->. contradiction. Qed.

Lemma count_once {A} `{EqDecision A} (x : A) (l : list A) :
  NoDup l -> x ∈ l -> length (filter (λ p, p = x) l) = 1%nat.
Proof.
  intros Hnd Hin. induction Hnd as [| p l Hp Hnd IH]; [inversion Hin |].
  rewrite filter_cons. apply elem_of_cons in Hin as [<- | Hin].
  - rewrite decide_True by reflexivity. cbn [length]. rewrite count_absent; auto.
  - rewrite decide_False by (intros ->; contradiction). auto.
Qed.

Lemma reportedWorld_owned s w :
  ownedActors (rep (reportedWorld s w)) =
  persistentActors (rep w) ++ dynamicActors (rep w) ++
  map Some (seq (nextAddress (vtk w))
                (length (ephemeralGeometry (rep w) ++ contributedGeometry s))).
Proof.
  unfold ownedActors, persistentActors, dynamicActors. rewrite reportedWorld_rep.
  cbn -[seq]. rewrite dynamicActors_stretched. reflexivity.
Qed.

Theorem reportedWorld_Inv s w : Inv w -> Inv (reportedWorld s w).
Proof.
  intros HI.
  pose proof (λ p, Inv_owned_fresh w p HI) as Hof.
  destruct HI as (Hready & Hlen & Hnd & Hlive & Hmap & Hfresh & Hdead).
  set (n0 := nextAddress (vtk w)) in *.
  set (items := ephemeralGeometry (rep w) ++ contributedGeometry s).
  set (olds := ephemeralActors (rep w)) in *.
  set (PD := persistentActors (rep w) ++ dynamicActors (rep w)).
  assert (Hown : ownedActors (rep w) = PD ++ olds).
  { unfold ownedActors, PD. rewrite app_assoc. reflexivity. }
  assert (Hown' : ownedActors (rep (reportedWorld s w)) = PD ++ map Some (seq n0 (length items))).
  { rewrite reportedWorld_owned. unfold PD. rewrite app_assoc. reflexivity. }
  rewrite Hown in Hnd, Hlive, Hof, Hdead.
  apply NoDup_app in Hnd as (HndPD & Hdisj & Hndolds).
  apply Forall_app in Hlive as [HlivePD Hliveolds].
  rewrite Forall_forall in HlivePD, Hliveolds.
  (* an actor of the persistent or rubber-band store is below [n0], is not an
     old ephemeral actor, and is found unreleased after the report *)
  assert (HPD : ∀ p, p ∈ PD ->
            ∃ a k f, p = Some a ∧ actors (vtk w) !! a = Some k ∧ actorDeletes k = 0%nat
                     ∧ actors (vtk (reportedWorld s w)) !! a = Some (f k)
                     ∧ actorDeletes (f k) = 0%nat
                     ∧ (is_Some (mapperInput k) -> is_Some (mapperInput (f k)))).
  { intros p Hp.
    destruct (Hof p) as (a & -> & Ha); [apply elem_of_app; auto |].
    pose proof (HlivePD _ Hp) as Hl. unfold liveActor in Hl.
    destruct (actors (vtk w) !! a) as [k |] eqn:Hk; [| contradiction].
    destruct (reported_lookup_below s w a Ha) as (f & Hlk & Hf).
    rewrite Hk in Hlk. fold olds in Hlk.
    rewrite (count_absent (Some a) olds) in Hlk by (apply Hdisj, Hp).
    destruct (Hf k) as [Hd Hm].
    exists a, k, f. repeat split; auto. congruence. }
  assert (Hnew : ∀ a, (n0 ≤ a < n0 + length items)%nat ->
            ∃ g, actors (vtk (reportedWorld s w)) !! a = Some (builtActor s (bodies (rep w)) g)).
  { intros a Ha.
    destruct (lookup_lt_is_Some_2 items (a - n0)) as [g Hg]; [lia |].
    exists g. rewrite <- (reported_lookup_new s w (a - n0) g Hg). f_equal. fold n0. lia. }
  repeat split.
  - apply (Ready_same w); [| | | | exact Hready].
    + rewrite reportedWorld_rep. reflexivity.
    + rewrite reportedWorld_rep. reflexivity.
    + intros a Ha. rewrite reportedWorld_renderWindows.
      destruct (renWin (rep w)); [apply is_Some_alter |]; exact Ha.
    + intros a Ha. unfold Ready in Hready.
      destruct (renWin (rep w)); [| contradiction].
      destruct (renderer (rep w)) as [rd |] eqn:Hrd; [| contradiction].
      rewrite (reportedWorld_renderers s w rd Hrd). apply is_Some_alter, Ha.
  - rewrite reportedWorld_rep. exact Hlen.
  - rewrite Hown'. apply NoDup_app. repeat split.
    + exact HndPD.
    + intros p Hp Hin. apply elem_of_map_Some_seq in Hin as (a & -> & Ha).
      destruct (Hof (Some a)) as (a' & [= <-] & Ha'); [apply elem_of_app; auto |]. lia.
    + apply NoDup_map_Some_seq.
  - rewrite Hown'. apply Forall_app. split; apply Forall_forall; intros p Hp.
    + destruct (HPD p Hp) as (a & k & f & -> & _ & _ & Hlk & Hd & _).
      unfold liveActor. rewrite Hlk. exact Hd.
    + apply elem_of_map_Some_seq in Hp as (a & -> & Ha).
      destruct (Hnew a Ha) as [g Hg]. unfold liveActor. rewrite Hg. reflexivity.
  - apply Forall_forall. intros p Hp.
    assert (Hp0 : p ∈ dynamicActors (rep w)).
    { revert Hp. unfold dynamicActors. rewrite reportedWorld_rep. cbn -[seq].
      rewrite dynamicActors_stretched. trivial. }
    destruct (HPD p) as (a & k & f & -> & Hk & _ & Hlk & _ & Hm);
      [unfold PD; apply elem_of_app; auto |].
    rewrite Forall_forall in Hmap. specialize (Hmap _ Hp0).
    unfold hasMapper in Hmap |- *. rewrite Hk in Hmap. rewrite Hlk. auto.
  - intros a k Hk. eapply reported_lookup_fresh; eassumption.
  - intros a k' Hk' Hnot. rewrite Hown' in Hnot.
    pose proof (reported_lookup_fresh s w a k' Hfresh Hk') as Hlt.
    rewrite reportedWorld_nextAddress in Hlt. fold n0 items in Hlt.
    destruct (decide (a < n0)%nat) as [Ha | Ha]; cycle 1.
    { exfalso. apply Hnot, elem_of_app. right. apply elem_of_map_Some_seq.
      exists a. split; [reflexivity | lia]. }
    destruct (reported_lookup_below s w a Ha) as (f & Hlk & Hf).
    rewrite Hk' in Hlk. fold olds in Hlk.
    destruct (actors (vtk w) !! a) as [k |] eqn:Hk; [| discriminate].
    injection Hlk as ->. destruct (Hf k) as [Hd _].
    destruct (iter_Delete (length (filter (λ p, p = Some a) olds)) (f k)) as [-> _].
    rewrite Hd.
    assert (HnPD : Some a ∉ PD) by (intros Hin; apply Hnot, elem_of_app; auto).
    destruct (decide (Some a ∈ olds)) as [Hin | Hnin].
    + rewrite (count_once _ _ Hndolds Hin).
      pose proof (Hliveolds _ Hin) as Hl. unfold liveActor in Hl. rewrite Hk in Hl.
      rewrite Hl. reflexivity.
    + rewrite (count_absent _ _ Hnin).
      apply (Hdead a k Hk). intros Hin. apply elem_of_app in Hin as [? | ?]; contradiction.
Qed.


(** ** Where a report leaves the persistent proxies *)

Lemma NoDup_join_disjoint {A} (ls : list (list A)) i j li lj x :
  NoDup (mjoin ls) -> ls !! i = Some li -> ls !! j = Some lj -> i ≠ j ->
  x ∈ li -> x ∉ lj.
Proof.
  revert i j. induction ls as [| l ls IH]; intros i j Hnd Hi Hj Hij Hx Hx'; [discriminate |].
  simpl in Hnd. apply NoDup_app in Hnd as (_ & Hdisj & Hnd).
  destruct i as [| i], j as [| j]; simpl in Hi, Hj.
  - contradiction.
  - injection Hi as ->. apply (Hdisj x Hx). apply list_elem_of_join. exists lj.
    split; [exact Hx' |]. eapply list_elem_of_lookup_2, Hj.
  - injection Hj as ->. apply (Hdisj x Hx'). apply list_elem_of_join. exists li.
    split; [exact Hx |]. eapply list_elem_of_lookup_2, Hi.
  - eapply (IH i j); eauto.
Qed.

(** the lists of two different bodies share no proxy *)
Lemma aList_disjoint (bs : list PerBodyInfo) (i j : MobilizedBodyId) bi p :
  NoDup (mjoin (aList <$> bs)) ->
  vectorIndex bs i = Some bi -> i ≠ j -> p ∈ aList bi ->
  p ∉ from_option aList [] (vectorIndex bs j).
Proof.
  intros Hnd Hi Hij Hp.
  destruct (vectorIndex bs j) as [bj |] eqn:Hj; [| simpl; apply not_elem_of_nil].
  apply vectorIndex_Some in Hi as [Hi0 Hi]. apply vectorIndex_Some in Hj as [Hj0 Hj].
  simpl. eapply (NoDup_join_disjoint _ (Z.to_nat i) (Z.to_nat j)); eauto.
  - rewrite list_lookup_fmap, Hi. reflexivity.
  - rewrite list_lookup_fmap, Hj. reflexivity.
  - lia.
Qed.

Lemma configured_posedAt X_GB k : posedAt X_GB (configured X_GB k).
Proof. split; reflexivity. Qed.

Lemma iter_configured_posedAt X_GB n k : posedAt X_GB (Nat.iter (S n) (configured X_GB) k).
Proof. apply configured_posedAt. Qed.

Lemma configureBodies_untouched s bs ids m a :
  (∀ j, j ∈ ids -> Some a ∉ from_option aList [] (vectorIndex bs j)) ->
  configureBodies s bs ids m !! a = m !! a.
Proof.
  revert m. induction ids as [| j ids IH]; intros m Hout; [reflexivity |].
  rewrite configureBodies_cons, IH by (intros; apply Hout; right; assumption).
  apply lookup_applyAll_notin, Hout. left.
Qed.

Lemma configureBodies_posedAt s bs ids i m a k0 :
  m !! a = Some k0 ->
  (∀ j, j ∈ ids -> j ≠ i -> Some a ∉ from_option aList [] (vectorIndex bs j)) ->
  Some a ∈ from_option aList [] (vectorIndex bs i) ->
  posedAt (getBodyTransform s i) k0 ∨ i ∈ ids ->
  ∃ k, configureBodies s bs ids m !! a = Some k ∧ posedAt (getBodyTransform s i) k.
Proof.
  revert m k0. induction ids as [| j ids IH]; intros m k0 Hk0 Hdisj Hin Hor.
  - destruct Hor as [HP | Hi]; [| inversion Hi]. exists k0. auto.
  - rewrite configureBodies_cons.
    assert (Hdisj' : ∀ j', j' ∈ ids -> j' ≠ i ->
              Some a ∉ from_option aList [] (vectorIndex bs j'))
      by (intros; apply Hdisj; [right |]; assumption).
    destruct (decide (j = i)) as [-> | Hne].
    + eapply (IH _ (configured (getBodyTransform s i) k0)); [| exact Hdisj' | exact Hin |].
      * rewrite lookup_applyAll_idem, Hk0; [reflexivity | reflexivity | exact Hin].
      * left. apply configured_posedAt.
    + eapply (IH _ k0); [| exact Hdisj' | exact Hin |].
      * rewrite lookup_applyAll_notin; [exact Hk0 |]. apply Hdisj; [left | exact Hne].
      * destruct Hor as [HP | Hi]; [auto |]. right.
        apply elem_of_cons in Hi as [-> | Hi]; [contradiction | exact Hi].
Qed.

(** what survives of an old actor's pose through the rest of the cycle *)
Lemma reported_lookup_pose s w a k1 :
  (a < nextAddress (vtk w))%nat ->
  configureBodies s (bodies (rep w)) (bodyIdsFrom 1 getNBodies) (actors (vtk w)) !! a = Some k1 ->
  ∃ k, actors (vtk (reportedWorld s w)) !! a = Some k
       ∧ position k = position k1 ∧ orientation k = orientation k1.
Proof.
  intros Ha Hk1. rewrite reportedWorld_actors, lookup_insertFrom.
  rewrite decide_False by lia. rewrite lookup_applyAll.
  destruct (lookup_remapAll s (dynamicGeom (rep w))
              (configureBodies s (bodies (rep w)) (bodyIdsFrom 1 getNBodies) (actors (vtk w))) a)
    as (f1 & -> & Hf1).
  rewrite Hk1. eexists. split; [reflexivity |].
  destruct (iter_Delete (length (filter (λ p, p = Some a) (ephemeralActors (rep w)))) (f1 k1))
    as (_ & -> & -> & _).
  destruct (Hf1 k1) as (-> & -> & _). auto.
Qed.

Lemma elem_of_bodyIdsFrom first n (i : MobilizedBodyId) :
  i ∈ bodyIdsFrom first n <-> Z.of_nat first ≤ i < Z.of_nat n.
Proof.
  unfold bodyIdsFrom. rewrite list_elem_of_In, in_map_iff. split.
  - intros (k & <- & Hk). apply in_seq in Hk. lia.
  - intros Hi. exists (Z.to_nat i). split; [lia |]. apply in_seq. lia.
Qed.

(** A report poses every proxy of a non-ground body at that body's
    transform. *)
Lemma reported_pose s w (i : MobilizedBodyId) bi a :
  Inv w ->
  1 ≤ i ->
  vectorIndex (bodies (rep w)) i = Some bi ->
  Some a ∈ aList bi ->
  ∃ k, actors (vtk (reportedWorld s w)) !! a = Some k ∧ posedAt (getBodyTransform s i) k.
Proof.
  intros HI Hi Hbi Ha.
  assert (Hown : Some a ∈ ownedActors (rep w)).
  { unfold ownedActors. apply elem_of_app. left. eapply aList_persistent; eassumption. }
  destruct (Inv_owned_fresh w _ HI Hown) as (a' & [= <-] & Hlt).
  destruct HI as (_ & Hlen & Hnd & Hlive & _).
  rewrite Forall_forall in Hlive. pose proof (Hlive _ Hown) as Hl. unfold liveActor in Hl.
  destruct (actors (vtk w) !! a) as [k0 |] eqn:Hk0; [| contradiction].
  unfold ownedActors in Hnd. apply NoDup_app in Hnd as (Hnd & _).
  destruct (configureBodies_posedAt s (bodies (rep w)) (bodyIdsFrom 1 getNBodies) i
              (actors (vtk w)) a k0 Hk0) as (k1 & Hk1 & HP).
  - intros j _ Hne. eapply aList_disjoint; eauto.
  - rewrite Hbi. exact Ha.
  - right. apply elem_of_bodyIdsFrom. split; [lia |].
    apply vectorIndex_Some in Hbi as [_ Hbi]. apply lookup_lt_Some in Hbi. lia.
  - destruct (reported_lookup_pose s w a k1 Hlt Hk1) as (k & Hk & Hpos & Hor).
    exists k. split; [exact Hk |]. unfold posedAt in *. rewrite Hpos, Hor. exact HP.
Qed.

(** A report leaves ground's proxies where they are. *)
Lemma reported_ground s w b0 a k0 :
  Inv w ->
  vectorIndex (bodies (rep w)) GroundId = Some b0 ->
  Some a ∈ aList b0 ->
  actors (vtk w) !! a = Some k0 ->
  ∃ k, actors (vtk (reportedWorld s w)) !! a = Some k
       ∧ position k = position k0 ∧ orientation k = orientation k0.
Proof.
  intros HI Hb0 Ha Hk0.
  assert (Hown : Some a ∈ ownedActors (rep w)).
  { unfold ownedActors. apply elem_of_app. left. eapply aList_persistent; eassumption. }
  destruct (Inv_owned_fresh w _ HI Hown) as (a' & [= <-] & Hlt).
  destruct HI as (_ & Hlen & Hnd & _).
  unfold ownedActors in Hnd. apply NoDup_app in Hnd as (Hnd & _).
  apply (reported_lookup_pose s w a k0 Hlt).
  rewrite configureBodies_untouched; [exact Hk0 |].
  intros j Hj. apply elem_of_bodyIdsFrom in Hj.
  eapply aList_disjoint; eauto. unfold GroundId. lia.
Qed.


Lemma addDecoration_groundUntouched w w' body X_GD g :
  Inv w -> groundUntouched w ->
  addDecoration body X_GD g w = Returns tt w' -> groundUntouched w'.
Proof.
  intros HI Hg Hrun.
  destruct (vectorIndex (bodies (rep w)) body) as [b |] eqn:Hb; cycle 1.
  { rewrite (addDecoration_None _ _ _ _ Hb) in Hrun. discriminate. }
  destruct (Inv_renderer w HI) as (rd & r & Hrd & Hr).
  rewrite (addDecoration_returns w body X_GD g b rd r Hb Hrd Hr) in Hrun.
  injection Hrun as <-.
  apply vectorIndex_Some in Hb as [Hi Hb].
  unfold groundUntouched in *. simpl.
  assert (Hold : ∀ p, p ∈ from_option aList [] (bodies (rep w) !! 0%nat) ->
            atCreationPose
              (mkHeap (<[nextAddress (vtk w) := styledActor
                           (setTransform (composeTransform X_GD (transform g)) g)
                           (defaultColorRGB b)]> (actors (vtk w)))
                      (<[rd := renderer_AddActor (nextAddress (vtk w)) r]> (renderers (vtk w)))
                      (renderWindows (vtk w)) (S (nextAddress (vtk w)))) p).
  { intros p Hp. rewrite Forall_forall in Hg. pose proof (Hg p Hp) as Hpose.
    destruct (bodies (rep w) !! 0%nat) as [b0 |] eqn:Hb0; [| inversion Hp].
    assert (Hown : p ∈ ownedActors (rep w)).
    { unfold ownedActors. apply elem_of_app. left.
      apply (aList_persistent _ 0 b0); [apply vectorIndex_Some; auto with lia | exact Hp]. }
    destruct (Inv_owned_fresh w p HI Hown) as (a & -> & Ha).
    unfold atCreationPose in *. simpl. rewrite lookup_insert_ne by lia. exact Hpose. }
  apply Forall_forall. intros p Hp.
  destruct (decide (Z.to_nat body = 0%nat)) as [Hz | Hnz].
  - rewrite Hz in Hp, Hb. rewrite list_lookup_insert_eq in Hp by (eapply lookup_lt_Some, Hb).
    simpl in Hp. apply elem_of_app in Hp as [Hp | Hp].
    + apply Hold. rewrite Hb. exact Hp.
    + apply list_elem_of_singleton in Hp as ->.
      unfold atCreationPose. simpl. rewrite lookup_insert_eq. split; reflexivity.
  - rewrite list_lookup_insert_ne in Hp by exact Hnz. apply Hold, Hp.
Qed.

(** C1. In a well-formed world, [addDecoration] on a valid body followed
    by [report] both return, and afterwards every proxy of that body's
    decoration list (the new one included) is positioned at the body's
    translation in the reported state and oriented by resetting the
    orientation and rotating once by the angle and about the axis
    extracted from the body's rotation; the same holds for the proxies of
    every non-ground body.  Ground is skipped by the update loop: its
    proxies stay as created, which is ground's pose because ground is the
    reference frame. *)
Theorem decoration_follows_body w (b : MobilizedBodyId) X_GD g s s' :
  Inv w ->
  validLines (rep w) ->
  validBodyId w b ->
  realize s Stage_Position = Some s' ->
  validItems (ephemeralGeometry (rep w) ++ contributedGeometry s') ->
  (b = GroundId -> groundUntouched w ∧ groundIsReference s') ->
  ∃ w1 w2 bi,
    addDecoration b X_GD g w = Returns tt w1
    ∧ report s w1 = Returns tt w2
    ∧ vectorIndex (bodies (rep w2)) b = Some bi
    ∧ Some (nextAddress (vtk w)) ∈ aList bi
    ∧ allPosedAt (vtk w2) (getBodyTransform s' b) (aList bi)
    ∧ ∀ (i : MobilizedBodyId) bi', 1 ≤ i -> vectorIndex (bodies (rep w2)) i = Some bi' ->
        allPosedAt (vtk w2) (getBodyTransform s' i) (aList bi').
Proof.
  intros HI Hlines Hb Hrealize Hitems Hground.
  apply vectorIndex_is_Some in Hb as [b0 Hb0].
  destruct (Inv_renderer w HI) as (rd & r & Hrd & Hr).
  pose proof (addDecoration_returns w b X_GD g b0 rd r Hb0 Hrd Hr) as Hadd.
  cbv zeta in Hadd.
  match type of Hadd with _ = Returns tt ?w => set (w1 := w) in * end.
  pose proof (addDecoration_Inv w w1 b X_GD g HI Hadd) as HI1.
  assert (Hrep : report s w1 = Returns tt (reportedWorld s' w1)).
  { apply report_returns; [apply Inv_Operable, HI1 | exact Hlines | exact Hrealize | exact Hitems]. }
  assert (Hbodies : bodies (rep (reportedWorld s' w1)) = bodies (rep w1))
    by (rewrite reportedWorld_rep; reflexivity).
  assert (Hall : ∀ (i : MobilizedBodyId) bi', 1 ≤ i ->
            vectorIndex (bodies (rep (reportedWorld s' w1))) i = Some bi' ->
            allPosedAt (vtk (reportedWorld s' w1)) (getBodyTransform s' i) (aList bi')).
  { intros i bi' Hi Hbi'. rewrite Hbodies in Hbi'. apply Forall_forall. intros p Hp.
    assert (Hown : p ∈ ownedActors (rep w1)).
    { unfold ownedActors. apply elem_of_app. left. eapply aList_persistent; eassumption. }
    destruct (Inv_owned_fresh w1 p HI1 Hown) as (a & -> & _).
    destruct (reported_pose s' w1 i bi' a HI1 Hi Hbi' Hp) as (k & Hk & HP). eauto. }
  apply vectorIndex_Some in Hb0 as Hb0'. destruct Hb0' as [Hb_pos Hb_lk].
  set (bi := mkBody (aList b0 ++ [Some (nextAddress (vtk w))])
                    (gList b0 ++ [setTransform (composeTransform X_GD (transform g)) g])
                    (defaultColorRGB b0) (scale b0)).
  assert (Hbi : vectorIndex (bodies (rep (reportedWorld s' w1))) b = Some bi).
  { rewrite Hbodies. apply vectorIndex_Some. split; [exact Hb_pos |].
    unfold w1. simpl. apply list_lookup_insert_eq. eapply lookup_lt_Some, Hb_lk. }
  exists w1, (reportedWorld s' w1), bi. repeat split; try assumption.
  - unfold bi. simpl. apply elem_of_app. right. left.
  - destruct (decide (b = GroundId)) as [-> | Hne].
    + destruct (Hground eq_refl) as [Hgu Href].
      pose proof (addDecoration_groundUntouched w w1 GroundId X_GD g HI Hgu Hadd) as Hgu1.
      rewrite Hbodies in Hbi.
      apply Forall_forall. intros p Hp.
      assert (Hown : p ∈ ownedActors (rep w1)).
      { unfold ownedActors. apply elem_of_app. left. eapply aList_persistent; eassumption. }
      destruct (Inv_owned_fresh w1 p HI1 Hown) as (a & -> & _).
      unfold groundUntouched in Hgu1. apply vectorIndex_Some in Hbi as Hbi'.
      destruct Hbi' as [_ Hbi']. change (Z.to_nat GroundId) with 0%nat in Hbi'.
      rewrite Hbi' in Hgu1. cbn [from_option] in Hgu1. rewrite Forall_forall in Hgu1.
      pose proof (Hgu1 _ Hp) as Hpose. unfold atCreationPose in Hpose.
      destruct (actors (vtk w1) !! a) as [k0 |] eqn:Hk0; [| contradiction].
      destruct (reported_ground s' w1 bi a k0 HI1 Hbi Hp Hk0) as (k & Hk & Hpos & Hor).
      exists a, k. repeat split; [exact Hk | |].
      * rewrite Hpos. destruct Hpose as [-> _]. destruct Href as [<- _]. reflexivity.
      * rewrite Hor. destruct Hpose as [_ ->]. destruct Href as [_ <-]. reflexivity.
    + apply Hall; [unfold GroundId in Hne; lia | exact Hbi].
Qed.


(** ** Where a report leaves the rubber-band lines *)

Lemma remapAll_untouched s ds m a :
  Some a ∉ actor <$> ds -> remapAll s ds m !! a = m !! a.
Proof.
  induction ds as [| d ds IH] using rev_ind; intros Hout; [reflexivity |].
  rewrite fmap_app in Hout. rewrite remapAll_snoc.
  assert (Hds : Some a ∉ actor <$> ds) by (intros Hin; apply Hout, elem_of_app; auto).
  destruct (actor d) as [b |] eqn:Hd; [| auto].
  rewrite lookup_alter_ne; [auto |]. intros ->. apply Hout, elem_of_app. right.
  simpl. rewrite Hd. left.
Qed.

Lemma remapAll_exact s ds m i d a :
  NoDup (actor <$> ds) -> ds !! i = Some d -> actor d = Some a ->
  remapAll s ds m !! a =
  actor_SetMapper (Some (getVTKPolyData (line (stretched s d)))) <$> (m !! a).
Proof.
  revert i. induction ds as [| e ds IH] using rev_ind; intros i Hnd Hi Ha; [discriminate |].
  rewrite fmap_app in Hnd. apply NoDup_app in Hnd as (Hnd & Hdisj & _).
  rewrite remapAll_snoc.
  destruct (decide (i < length ds)%nat) as [Hlt | Hge].
  - rewrite lookup_app_l in Hi by exact Hlt.
    assert (Hne : actor e ≠ Some a).
    { intros He. apply (Hdisj (Some a)).
      - apply list_elem_of_fmap. exists d. split; [auto |]. eapply list_elem_of_lookup_2, Hi.
      - simpl. rewrite He. left. }
    destruct (actor e) as [b |]; [| eauto].
    rewrite lookup_alter_ne by congruence. eauto.
  - apply lookup_lt_Some in Hi as Hlen. rewrite length_app in Hlen. simpl in Hlen.
    assert (i = length ds) as -> by lia.
    rewrite lookup_app_r, Nat.sub_diag in Hi by lia. injection Hi as ->.
    rewrite Ha, lookup_alter_eq. rewrite remapAll_untouched; [reflexivity |].
    intros Hin. apply (Hdisj _ Hin). simpl. rewrite Ha. left.
Qed.

Lemma validLines_stretched s (ds : list PerDynamicGeomInfo) :
  Forall (λ d, isBodyOfSystem (body1 d) = true ∧ isBodyOfSystem (body2 d) = true) ds ->
  Forall (λ d, isBodyOfSystem (body1 d) = true ∧ isBodyOfSystem (body2 d) = true)
         (map (stretched s) ds).
Proof. induction 1; simpl; constructor; auto. Qed.

Lemma reportedWorld_validLines s w : validLines (rep w) -> validLines (rep (reportedWorld s w)).
Proof.
  unfold validLines. rewrite reportedWorld_rep. cbn -[seq]. apply validLines_stretched.
Qed.

(** After a report, entry [i] is the same entry with its line stretched
    between the two stations, and its proxy shows that line. *)
Lemma reported_line_entry s w i d :
  Inv w -> dynamicGeom (rep w) !! i = Some d ->
  ∃ a k, actor d = Some a
         ∧ dynamicGeom (rep (reportedWorld s w)) !! i = Some (stretched s d)
         ∧ actors (vtk (reportedWorld s w)) !! a = Some k
         ∧ mapperInput k = Some (Some (getVTKPolyData (line (stretched s d)))).
Proof.
  intros HI Hd.
  assert (Hdyn : actor d ∈ dynamicActors (rep w)).
  { unfold dynamicActors. apply list_elem_of_fmap. exists d. split; [reflexivity |].
    eapply list_elem_of_lookup_2, Hd. }
  assert (Hown : actor d ∈ ownedActors (rep w)).
  { unfold ownedActors. rewrite !elem_of_app. auto. }
  destruct (Inv_owned_fresh w _ HI Hown) as (a & Ha & Hlt).
  destruct HI as (_ & _ & Hnd & Hlive & _).
  rewrite Forall_forall in Hlive. pose proof (Hlive _ Hown) as Hl.
  rewrite Ha in Hl. unfold liveActor in Hl.
  destruct (actors (vtk w) !! a) as [k0 |] eqn:Hk0; [| contradiction].
  unfold ownedActors in Hnd. apply NoDup_app in Hnd as (_ & _ & Hnd).
  apply NoDup_app in Hnd as (Hnd & _).
  destruct (lookup_configureBodies s (bodies (rep w)) (bodyIdsFrom 1 getNBodies)
              (actors (vtk w)) a) as (f2 & Hf2 & _).
  rewrite Hk0 in Hf2.
  exists a. eexists. split; [exact Ha |]. split; [| split].
  - rewrite reportedWorld_rep. cbn -[seq]. rewrite map_fmap, list_lookup_fmap, Hd. reflexivity.
  - rewrite reportedWorld_actors, lookup_insertFrom. rewrite decide_False by lia.
    rewrite lookup_applyAll. rewrite (remapAll_exact s _ _ i d a Hnd Hd Ha), Hf2. reflexivity.
  - match goal with |- mapperInput (Nat.iter ?n _ ?x) = _ =>
      destruct (iter_Delete n x) as (_ & _ & _ & ->) end.
    reflexivity.
Qed.

(** [X_GB * station] is the spec's [transform(B) · S] *)
Lemma transformPoint_stationInGround X p : transformPoint X p = stationInGround X p.
Proof. reflexivity. Qed.

(** C2. In a well-formed world, two successive reports (of any two
    states) both return.  After each, every rubber-band entry still has
    its proxy, bodies and stations, its line runs from
    [transform(A) · S1] to [transform(B) · S2] as of the state just
    reported (translation plus rotation applied to the station), and the
    proxy's mapper holds the shape rebuilt from that line.  If B's
    transform is the same in both states, the second endpoint is the same
    after both reports, while the first follows A. *)
Theorem rubber_band_lines_track_bodies w s s' t t' :
  Inv w ->
  validLines (rep w) ->
  realize s Stage_Position = Some s' ->
  validItems (ephemeralGeometry (rep w) ++ contributedGeometry s') ->
  realize t Stage_Position = Some t' ->
  validItems (contributedGeometry t') ->
  ∃ w1 w2,
    report s w = Returns tt w1
    ∧ report t w1 = Returns tt w2
    ∧ ∀ i d, dynamicGeom (rep w) !! i = Some d ->
        ∃ a d1 d2 k1 k2,
          actor d = Some a
          ∧ dynamicGeom (rep w1) !! i = Some d1 ∧ dynamicGeom (rep w2) !! i = Some d2
          ∧ (actor d1 = Some a ∧ body1 d1 = body1 d ∧ body2 d1 = body2 d
             ∧ station1 d1 = station1 d ∧ station2 d1 = station2 d)
          ∧ (actor d2 = Some a ∧ body1 d2 = body1 d ∧ body2 d2 = body2 d
             ∧ station1 d2 = station1 d ∧ station2 d2 = station2 d)
          ∧ shape (line d1) =
            Line (stationInGround (getBodyTransform s' (body1 d)) (station1 d))
                 (stationInGround (getBodyTransform s' (body2 d)) (station2 d))
          ∧ shape (line d2) =
            Line (stationInGround (getBodyTransform t' (body1 d)) (station1 d))
                 (stationInGround (getBodyTransform t' (body2 d)) (station2 d))
          ∧ actors (vtk w1) !! a = Some k1
          ∧ mapperInput k1 = Some (Some (getVTKPolyData (line d1)))
          ∧ actors (vtk w2) !! a = Some k2
          ∧ mapperInput k2 = Some (Some (getVTKPolyData (line d2)))
          ∧ (getBodyTransform t' (body2 d) = getBodyTransform s' (body2 d) ->
             ∃ p1 q1 p2, shape (line d1) = Line p1 p2 ∧ shape (line d2) = Line q1 p2
                         ∧ p1 = stationInGround (getBodyTransform s' (body1 d)) (station1 d)
                         ∧ q1 = stationInGround (getBodyTransform t' (body1 d)) (station1 d)).
Proof.
  intros HI Hlines Hs Hitems Ht Htitems.
  exists (reportedWorld s' w), (reportedWorld t' (reportedWorld s' w)).
  pose proof (reportedWorld_Inv s' w HI) as HI1.
  split; [| split].
  - apply report_returns; auto using Inv_Operable.
  - apply report_returns; auto using Inv_Operable, reportedWorld_validLines.
    rewrite reportedWorld_rep. exact Htitems.
  - intros i d Hd.
    destruct (reported_line_entry s' w i d HI Hd) as (a & k1 & Ha & Hd1 & Hk1 & Hm1).
    destruct (reported_line_entry t' _ i _ HI1 Hd1) as (a' & k2 & Ha' & Hd2 & Hk2 & Hm2).
    change (actor (stretched s' d)) with (actor d) in Ha'. rewrite Ha in Ha'.
    injection Ha' as <-.
    exists a, (stretched s' d), (stretched t' (stretched s' d)), k1, k2.
    split; [exact Ha |]. split; [exact Hd1 |]. split; [exact Hd2 |].
    split; [repeat split; exact Ha |]. split; [repeat split; exact Ha |].
    split; [cbn [stretched dyn_setLine line setEndpoints shape];
            rewrite !transformPoint_stationInGround; reflexivity |].
    split; [cbn [stretched dyn_setLine line setEndpoints shape body1 body2 station1 station2];
            rewrite !transformPoint_stationInGround; reflexivity |].
    split; [exact Hk1 |]. split; [exact Hm1 |]. split; [exact Hk2 |]. split; [exact Hm2 |].
    intros HB. eexists _, _, _.
    cbn [stretched dyn_setLine line setEndpoints shape body1 body2 station1 station2].
    rewrite !transformPoint_stationInGround, HB.
    split; [reflexivity |]. split; [reflexivity |]. split; reflexivity.
Qed.


(** ** Generations of ephemeral proxies *)

Lemma removeAll_cons p ps scene :
  removeAll (p :: ps) scene =
  removeAll ps (match p with Some a => filter (λ x, x ≠ a) scene | None => scene end).
Proof. reflexivity. Qed.

Lemma elem_of_removeAll ps scene x :
  x ∈ removeAll ps scene <-> x ∈ scene ∧ Some x ∉ ps.
Proof.
  revert scene. induction ps as [| p ps IH]; intros scene.
  - simpl. split; [intros Hx; split; [exact Hx | apply not_elem_of_nil] | tauto].
  - rewrite removeAll_cons, not_elem_of_cons.
    destruct p as [b |].
    + rewrite IH, list_elem_of_filter. split.
      * intros [[Hne Hin] Hps]. repeat split; [exact Hin | congruence | exact Hps].
      * intros [Hin [Hne Hps]]. repeat split; [congruence | exact Hin | exact Hps].
    + rewrite IH. split; [intros [? ?]; repeat split; auto; discriminate | tauto].
Qed.

(** In a well-formed world a live actor is owned by one of the stores. *)
Lemma Inv_live_owned w a k :
  Inv w -> actors (vtk w) !! a = Some k -> actorDeletes k = 0%nat ->
  Some a ∈ ownedActors (rep w).
Proof.
  intros (_ & _ & _ & _ & _ & _ & Hdead) Hk Hlive.
  destruct (decide (Some a ∈ ownedActors (rep w))) as [Hin | Hout]; [exact Hin |].
  pose proof (Hdead a k Hk Hout). lia.
Qed.

(** A report destroys the generation of ephemeral proxies it finds:
    each is released (once) and taken out of the scene. *)
Lemma reported_old_generation s w a :
  Inv w -> Some a ∈ ephemeralActors (rep w) ->
  ∃ k0 k, actors (vtk w) !! a = Some k0 ∧ actorDeletes k0 = 0%nat
          ∧ actors (vtk (reportedWorld s w)) !! a = Some k ∧ actorDeletes k = 1%nat
          ∧ outOfScene (reportedWorld s w) a.
Proof.
  intros HI Ha.
  assert (Hown : Some a ∈ ownedActors (rep w)).
  { unfold ownedActors. rewrite !elem_of_app. auto. }
  destruct (Inv_owned_fresh w _ HI Hown) as (a' & [= <-] & Hlt).
  destruct HI as (_ & _ & Hnd & Hlive & _).
  rewrite Forall_forall in Hlive. pose proof (Hlive _ Hown) as Hl. unfold liveActor in Hl.
  destruct (actors (vtk w) !! a) as [k0 |] eqn:Hk0; [| contradiction].
  unfold ownedActors in Hnd. apply NoDup_app in Hnd as (_ & _ & Hnd).
  apply NoDup_app in Hnd as (_ & _ & Hnd).
  destruct (reported_lookup_below s w a Hlt) as (f & Hlk & Hf).
  rewrite Hk0, (count_once _ _ Hnd Ha) in Hlk.
  destruct (Hf k0) as [Hd _].
  exists k0. eexists. repeat split; [exact Hl | exact Hlk | simpl; rewrite Hd, Hl; reflexivity |].
  intros rd r Hrd Hr. rewrite reportedWorld_rep in Hrd. cbn -[seq] in Hrd.
  rewrite (reportedWorld_renderers s w rd Hrd) in Hr.
  rewrite lookup_alter_eq in Hr.
  destruct (renderers (vtk w) !! rd) as [r0 |]; [| discriminate].
  injection Hr as <-. cbn -[seq]. rewrite elem_of_app, elem_of_removeAll.
  intros [[_ Hout] | Hin]; [contradiction |].
  apply list_elem_of_In, in_seq in Hin. lia.
Qed.

Lemma reportedWorld_ephemeralActors s w :
  ephemeralActors (rep (reportedWorld s w)) =
  map Some (seq (nextAddress (vtk w))
                (length (ephemeralGeometry (rep w) ++ contributedGeometry s))).
Proof. rewrite reportedWorld_rep. reflexivity. Qed.

Lemma reportedWorld_ephemeralGeometry s w : ephemeralGeometry (rep (reportedWorld s w)) = [].
Proof. rewrite reportedWorld_rep. reflexivity. Qed.

Lemma ownedActors_eq (r : VTKReporterRep) :
  ownedActors r = persistentActors r ++ dynamicActors r ++ ephemeralActors r.
Proof. reflexivity. Qed.

(** C3. In a well-formed world, two successive reports with nothing
    submitted in between and no geometry contributed by the system to the
    second both return, and: the first report destroys the generation of
    ephemeral proxies it finds and builds one proxy per queued item; the
    second destroys those in turn (each released exactly once and out of
    the scene) although its queue is empty, and builds none.  After each
    report every live proxy is owned by a store, so after the second one
    no ephemeral proxy is live: what lives belongs to the persistent or
    the rubber-band store. *)
Theorem one_ephemeral_generation w s s' t t' :
  Inv w ->
  validLines (rep w) ->
  realize s Stage_Position = Some s' ->
  validItems (ephemeralGeometry (rep w) ++ contributedGeometry s') ->
  realize t Stage_Position = Some t' ->
  contributedGeometry t' = [] ->
  ∃ w1 w2,
    report s w = Returns tt w1
    ∧ report t w1 = Returns tt w2
    ∧ (∀ a, Some a ∈ ephemeralActors (rep w) ->
         ∃ k, actors (vtk w1) !! a = Some k ∧ actorDeletes k = 1%nat ∧ outOfScene w1 a)
    ∧ length (ephemeralActors (rep w1)) =
      length (ephemeralGeometry (rep w) ++ contributedGeometry s')
    ∧ (∀ a k, actors (vtk w1) !! a = Some k -> actorDeletes k = 0%nat ->
         Some a ∈ ownedActors (rep w1))
    ∧ (∀ a, Some a ∈ ephemeralActors (rep w1) ->
         ∃ k1 k2, actors (vtk w1) !! a = Some k1 ∧ actorDeletes k1 = 0%nat
                  ∧ actors (vtk w2) !! a = Some k2 ∧ actorDeletes k2 = 1%nat
                  ∧ outOfScene w2 a)
    ∧ ephemeralActors (rep w2) = []
    ∧ (∀ a k, actors (vtk w2) !! a = Some k -> actorDeletes k = 0%nat ->
         Some a ∈ persistentActors (rep w2) ++ dynamicActors (rep w2)).
Proof.
  intros HI Hlines Hs Hitems Ht Hnone.
  pose proof (reportedWorld_Inv s' w HI) as HI1.
  pose proof (reportedWorld_validLines s' w Hlines) as Hlines1.
  pose proof (reportedWorld_ephemeralGeometry s' w) as Hq1.
  pose proof (reportedWorld_ephemeralActors s' w) as He1.
  pose proof (report_returns s s' w (Inv_Operable _ HI) Hlines Hs Hitems) as Hr1.
  pose proof (λ a, reported_old_generation s' w a HI) as Hold1.
  remember (reportedWorld s' w) as w1 eqn:Hw1. clear Hw1.
  assert (Hitems1 : validItems (ephemeralGeometry (rep w1) ++ contributedGeometry t')).
  { rewrite Hq1, Hnone. constructor. }
  pose proof (report_returns t t' w1 (Inv_Operable _ HI1) Hlines1 Ht Hitems1) as Hr2.
  pose proof (reportedWorld_Inv t' w1 HI1) as HI2.
  pose proof (λ a, reported_old_generation t' w1 a HI1) as Hold2.
  assert (Heph2 : ephemeralActors (rep (reportedWorld t' w1)) = []).
  { rewrite reportedWorld_ephemeralActors, Hq1, Hnone. reflexivity. }
  remember (reportedWorld t' w1) as w2 eqn:Hw2. clear Hw2.
  exists w1, w2.
  split; [exact Hr1 |]. split; [exact Hr2 |].
  split; [| split; [| split; [| split; [| split]]]].
  - intros a Ha. destruct (Hold1 a Ha) as (k0 & k & _ & _ & Hk & Hd & Hsc). eauto.
  - rewrite He1, length_map, length_seq. reflexivity.
  - intros a k. apply Inv_live_owned, HI1.
  - intros a Ha. apply (Hold2 a Ha).
  - exact Heph2.
  - intros a k Hk Hd. pose proof (Inv_live_owned _ a k HI2 Hk Hd) as Hown.
    rewrite ownedActors_eq, Heph2, app_nil_r in Hown. exact Hown.
Qed.

(** ** Style *)

Lemma styledActor_resolved g X c :
  resolvedStyle g c (styledActor (setTransform X g) c).
Proof. repeat split. Qed.

Lemma Operable_renderer w :
  Operable w -> ∃ rd r, renderer (rep w) = Some rd ∧ renderers (vtk w) !! rd = Some r.
Proof.
  intros (Hready & _). unfold Ready in Hready.
  destruct (renWin (rep w)); [| contradiction].
  destruct (renderer (rep w)) as [rd |]; [| contradiction].
  destruct Hready as [_ [r Hr]]. eauto.
Qed.

(** the code's tests and its encoder give what the spec asks for *)
Lemma resolvedStyle_specified g c k : resolvedStyle g c k -> specifiedStyle g c k.
Proof.
  intros (Hc & Ho & Hl & Hr). unfold specifiedStyle.
  rewrite Hc, Ho, Hl, Hr.
  unfold colorIsSet, opacityIsSet, lineThicknessIsSet, representationIsSet, Real_eqb.
  split; [destruct (Qeq_bool (vx (colorRGB g)) (-1)); reflexivity |].
  split; [destruct (Qeq_bool (opacity g) (-1)); reflexivity |].
  split; [destruct (Qeq_bool (lineThickness g) (-1)); reflexivity |].
  destruct (representation g); reflexivity.
Qed.

(** C4. Style is resolved when the proxy is made.  [addDecoration] on a
    body of the registry, and the display pass for each queued item,
    return and leave a new proxy whose colour, opacity, line width and
    representation are the descriptor's where the descriptor has them
    (is not -1), and otherwise the owning body's current default colour,
    1, 1 and surface (VTK's code 2; points are 0 and wireframe 1).  So a
    descriptor with colour (1,0,0) gets (1,0,0) whatever the body's
    colour, one with no colour on a body whose colour is (0,1,0) gets
    (0,1,0), and one with no opacity, no line width and no representation
    gets 1, 1 and 2. *)
Theorem style_resolved_at_creation w :
  Operable w ->
  (∀ body X_GD g b,
     vectorIndex (bodies (rep w)) body = Some b ->
     ∃ w' k, addDecoration body X_GD g w = Returns tt w'
             ∧ actors (vtk w') !! nextAddress (vtk w) = Some k
             ∧ specifiedStyle g (defaultColorRGB b) k)
  ∧ (∀ s, validItems (ephemeralGeometry (rep w)) ->
     ∃ w', displayEphemeralGeometry s w = Returns tt w'
           ∧ ∀ i g, ephemeralGeometry (rep w) !! i = Some g ->
               ∃ b k, vectorIndex (bodies (rep w)) (bodyId g) = Some b
                      ∧ ephemeralActors (rep w') !! i = Some (Some (nextAddress (vtk w) + i)%nat)
                      ∧ actors (vtk w') !! (nextAddress (vtk w) + i)%nat = Some k
                      ∧ specifiedStyle g (defaultColorRGB b) k)
  ∧ (∀ g c k, specifiedStyle g c k ->
       (colorRGB g = mkVec3 1 0 0 -> propColor k = mkVec3 1 0 0)
       ∧ (colorRGB g = Vec3_of (-1) -> c = mkVec3 0 1 0 -> propColor k = mkVec3 0 1 0)
       ∧ (opacity g = (-1)%Q -> propOpacity k = 1%Q)
       ∧ (opacity g = (1#2)%Q -> propOpacity k = (1#2)%Q)
       ∧ (lineThickness g = (-1)%Q -> propLineWidth k = 1%Q)
       ∧ (lineThickness g = 4%Q -> propLineWidth k = 4%Q)
       ∧ (representation g = DrawDefault -> propRepresentation k = 2)
       ∧ (representation g = DrawPoints -> propRepresentation k = 0)
       ∧ (representation g = DrawWireframe -> propRepresentation k = 1)
       ∧ (representation g = DrawSurface -> propRepresentation k = 2)).
Proof.
  intros HO. destruct (Operable_renderer w HO) as (rd & r & Hrd & Hr).
  destruct HO as (_ & Hlen & Hall & _).
  split; [| split].
  - intros body X_GD g b Hb.
    rewrite (addDecoration_returns w body X_GD g b rd r Hb Hrd Hr).
    eexists _, _. split; [reflexivity |]. split.
    + simpl. apply lookup_insert_eq.
    + apply resolvedStyle_specified, styledActor_resolved.
  - intros s Hvalid.
    unfold ownedActors in Hall. apply allocated_app in Hall as [_ Hall].
    apply allocated_app in Hall as [_ Hall].
    rewrite (displayEphemeralGeometry_returns s w rd Hrd (ex_intro _ r Hr) Hlen Hall Hvalid).
    eexists. split; [reflexivity |]. intros i g Hg.
    assert (Hgv : isBodyOfSystem (bodyId g) = true).
    { unfold validItems in Hvalid. rewrite Forall_forall in Hvalid.
      apply Hvalid. eapply list_elem_of_lookup_2, Hg. }
    destruct (isBodyOfSystem_index _ _ Hlen Hgv) as [b Hb].
    apply lookup_lt_Some in Hg as Hlt.
    exists b. eexists. split; [exact Hb |]. split; [| split].
    + unfold displayedWorld. cbn -[seq]. rewrite map_fmap, list_lookup_fmap.
      rewrite lookup_seq_lt by exact Hlt. reflexivity.
    + unfold displayedWorld. cbn -[seq]. rewrite lookup_insertFrom.
      rewrite decide_True by (rewrite length_map; lia).
      replace (nextAddress (vtk w) + i - nextAddress (vtk w))%nat with i by lia.
      rewrite map_fmap, list_lookup_fmap, Hg. reflexivity.
    + unfold builtActor. rewrite Hb. apply resolvedStyle_specified, styledActor_resolved.
  - intros g c k (Hcolor & Hop & Hlw & Hrp).
    split; [intros Hg; rewrite Hcolor, Hg; reflexivity |].
    split; [intros Hg ->; rewrite Hcolor, Hg; reflexivity |].
    split; [intros Hg; rewrite Hop, Hg; reflexivity |].
    split; [intros Hg; rewrite Hop, Hg; reflexivity |].
    split; [intros Hg; rewrite Hlw, Hg; reflexivity |].
    split; [intros Hg; rewrite Hlw, Hg; reflexivity |].
    repeat split; intros Hg; rewrite Hrp, Hg; reflexivity.
Qed.


(** ** Properties of the reporter object alone

    A predicate on the reporter's members is kept by the VTK calls, which
    only change the heap, and by a member update that keeps it. *)

Section RepPredicates.

Variable P : VTKReporterRep -> Prop.
Let PW (w : World) : Prop := P (rep w).

Lemma keeps_ret {A} (a : A) : hoare PW (mret a) (λ _, PW).
Proof. apply hoare_ret. Qed.

Lemma keeps_throw {A} e : hoare PW (throw (A := A) e) (λ _, PW).
Proof. intros w a w' _ Hrun. discriminate. Qed.

Lemma keeps_undefined {A} : hoare PW (undefined (A := A)) (λ _, PW).
Proof. intros w a w' _ Hrun. discriminate. Qed.

Lemma keeps_defined {A} (o : option A) : hoare PW (defined o) (λ _, PW).
Proof. destruct o; [apply keeps_ret | apply keeps_undefined]. Qed.

Lemma keeps_getRep : hoare PW getRep (λ _, PW).
Proof. intros w a w' HP [= _ <-]. exact HP. Qed.

Lemma keeps_modifyRep f : (∀ r, P r -> P (f r)) -> hoare PW (modifyRep f) (λ _, PW).
Proof. intros Hf w a w' HP [= _ <-]. apply Hf, HP. Qed.

Lemma keeps_vtkActor_New : hoare PW vtkActor_New (λ _, PW).
Proof. intros w a w' HP [= _ <-]. exact HP. Qed.

Lemma keeps_vtkRenderer_New : hoare PW vtkRenderer_New (λ _, PW).
Proof. intros w a w' HP [= _ <-]. exact HP. Qed.

Lemma keeps_vtkRenderWindow_New : hoare PW vtkRenderWindow_New (λ _, PW).
Proof. intros w a w' HP [= _ <-]. exact HP. Qed.

Lemma keeps_onActor p f : hoare PW (onActor p f) (λ _, PW).
Proof.
  intros w a w' HP. unfold onActor. destruct p as [h |]; [| discriminate].
  destruct (actors (vtk w) !! h); [| discriminate]. intros [= _ <-]. exact HP.
Qed.

Lemma keeps_onRenderer p f : hoare PW (onRenderer p f) (λ _, PW).
Proof.
  intros w a w' HP. unfold onRenderer. destruct p as [h |]; [| discriminate].
  destruct (renderers (vtk w) !! h); [| discriminate]. intros [= _ <-]. exact HP.
Qed.

Lemma keeps_onRenderWindow p f : hoare PW (onRenderWindow p f) (λ _, PW).
Proof.
  intros w a w' HP. unfold onRenderWindow. destruct p as [h |]; [| discriminate].
  destruct (renderWindows (vtk w) !! h); [| discriminate]. intros [= _ <-]. exact HP.
Qed.

Lemma keeps_mapper_SetInput p poly : hoare PW (mapper_SetInput p poly) (λ _, PW).
Proof.
  intros w a w' HP. unfold mapper_SetInput. destruct p as [h |]; [| discriminate].
  destruct (actors (vtk w) !! h) as [o |]; [| discriminate].
  destruct (mapperInput o); [| discriminate]. intros [= _ <-]. exact HP.
Qed.

Lemma keeps_realizeM s stage : hoare PW (realizeM s stage) (λ _, PW).
Proof. unfold realizeM. destruct (realize s stage); [apply keeps_ret | apply keeps_throw]. Qed.

Lemma keeps_getMobilizedBodyTransform s id :
  hoare PW (getMobilizedBodyTransform s id) (λ _, PW).
Proof.
  unfold getMobilizedBodyTransform.
  destruct (isBodyOfSystem id); [apply keeps_ret | apply keeps_throw].
Qed.

Lemma keeps_bind {A B} (m : M A) (f : A -> M B) :
  hoare PW m (λ _, PW) -> (∀ a, hoare PW (f a) (λ _, PW)) -> hoare PW (m ≫= f) (λ _, PW).
Proof. intros Hm Hf. eapply hoare_bind; [exact Hm | exact Hf]. Qed.

End RepPredicates.

(** the members an update must not touch for the camera flag to keep its
    value *)
Ltac keeps_rep :=
  repeat first
    [ apply keeps_ret | apply keeps_throw | apply keeps_undefined | apply keeps_defined
    | apply keeps_getRep | apply keeps_vtkActor_New | apply keeps_vtkRenderer_New
    | apply keeps_vtkRenderWindow_New | apply keeps_onActor | apply keeps_onRenderer
    | apply keeps_onRenderWindow | apply keeps_mapper_SetInput | apply keeps_realizeM
    | apply keeps_getMobilizedBodyTransform
    | apply keeps_modifyRep; intros []; cbv [flagIs]; simpl; solve [auto]
    | apply keeps_bind; [| intros ?]
    | apply hoare_forEach; intros ? _
    | apply hoare_if
    | match goal with |- hoare _ (match ?o with _ => _ end) _ => destruct o end
    | progress cbv zeta ].

Lemma keeps_getBody b id : hoare (λ w, flagIs b (rep w)) (getBody id) (λ _ w, flagIs b (rep w)).
Proof. unfold getBody. keeps_rep. Qed.

Lemma keeps_modifyBody b id f :
  hoare (λ w, flagIs b (rep w)) (modifyBody id f) (λ _ w, flagIs b (rep w)).
Proof. unfold modifyBody. pose proof (keeps_getBody b id). keeps_rep; auto. Qed.


(** *** Who sets the camera flag *)

Lemma keeps_zeroPointers b :
  hoare (λ w, flagIs b (rep w)) zeroPointers (λ _ w, flagIs b (rep w)).
Proof. unfold zeroPointers. keeps_rep. Qed.

Lemma keeps_setDefaultBodyColor b id rgb :
  hoare (λ w, flagIs b (rep w)) (setDefaultBodyColor id rgb) (λ _ w, flagIs b (rep w)).
Proof. apply keeps_modifyBody. Qed.

Lemma keeps_setBodyScale b id x :
  hoare (λ w, flagIs b (rep w)) (setBodyScale id x) (λ _ w, flagIs b (rep w)).
Proof. apply keeps_modifyBody. Qed.

Lemma keeps_getDefaultBodyColor b id :
  hoare (λ w, flagIs b (rep w)) (getDefaultBodyColor id) (λ _ w, flagIs b (rep w)).
Proof. unfold getDefaultBodyColor. pose proof (keeps_getBody b id). keeps_rep; auto. Qed.

Lemma keeps_addEphemeralDecoration b g :
  hoare (λ w, flagIs b (rep w)) (addEphemeralDecoration g) (λ _ w, flagIs b (rep w)).
Proof. unfold addEphemeralDecoration. keeps_rep. Qed.

Lemma keeps_disableDefaultGeometry b :
  hoare (λ w, flagIs b (rep w)) disableDefaultGeometry (λ _ w, flagIs b (rep w)).
Proof. unfold disableDefaultGeometry. keeps_rep. Qed.

Lemma keeps_AddActor b a :
  hoare (λ w, flagIs b (rep w)) (AddActor a) (λ _ w, flagIs b (rep w)).
Proof. unfold AddActor. keeps_rep. Qed.

Lemma keeps_RemoveActor b p :
  hoare (λ w, flagIs b (rep w)) (RemoveActor p) (λ _ w, flagIs b (rep w)).
Proof. unfold RemoveActor. keeps_rep. Qed.

Lemma keeps_colorOr b g fallback :
  hoare (λ w, flagIs b (rep w)) fallback (λ _ w, flagIs b (rep w)) ->
  hoare (λ w, flagIs b (rep w)) (colorOr g fallback) (λ _ w, flagIs b (rep w)).
Proof. intros Hf. unfold colorOr. keeps_rep. exact Hf. Qed.

(** [report] never sets the flag. *)
Lemma report_keeps_flag_clear s :
  hoare (λ w, flagIs false (rep w)) (report s) (λ _ w, flagIs false (rep w)).
Proof.
  pose proof (keeps_getBody false). pose proof (keeps_AddActor false).
  pose proof (keeps_RemoveActor false). pose proof (keeps_getDefaultBodyColor false).
  unfold report, setConfiguration, setRubberBandLine, displayEphemeralGeometry,
    displayEphemeralItem.
  keeps_rep; auto using keeps_colorOr.
Qed.

Lemma sets_flag_modifyRep :
  hoare (λ _, True) (modifyRep (rep_setCameraNeedsToBeReset true))
        (λ _ w, flagIs true (rep w)).
Proof. intros w a w' _ [= _ <-]. reflexivity. Qed.

Lemma addDecoration_sets_flag body X_GD g :
  hoare (λ _, True) (addDecoration body X_GD g) (λ _ w, flagIs true (rep w)).
Proof.
  unfold addDecoration.
  repeat (eapply hoare_bind with (Q := λ _ _, True); [intros ? ? ? _ _; exact I | intros ?]).
  apply sets_flag_modifyRep.
Qed.

Lemma addRubberBandLine_sets_flag b1 st1 b2 st2 g :
  hoare (λ _, True) (addRubberBandLine b1 st1 b2 st2 g) (λ _ w, flagIs true (rep w)).
Proof.
  unfold addRubberBandLine.
  repeat (eapply hoare_bind with (Q := λ _ _, True); [intros ? ? ? _ _; exact I | intros ?]).
  apply sets_flag_modifyRep.
Qed.

Lemma resetCamera_sets_flag : hoare (λ _, True) resetCamera (λ _ w, flagIs true (rep w)).
Proof. intros w a w' _ [= _ <-]. reflexivity. Qed.

Lemma keeps_addDecoration body X_GD g :
  hoare (λ w, flagIs true (rep w)) (addDecoration body X_GD g) (λ _ w, flagIs true (rep w)).
Proof.
  eapply hoare_conseq; [apply addDecoration_sets_flag | |].
  - intros w _. exact I.
  - intros a w Hw. exact Hw.
Qed.

(** The constructor leaves the flag set. *)
Lemma construct_sets_flag reporter :
  hoare (λ w, flagIs true (rep w)) (construct reporter) (λ _ w, flagIs true (rep w)).
Proof.
  pose proof (keeps_getBody true). pose proof (keeps_modifyBody true).
  pose proof (keeps_getDefaultBodyColor true). pose proof (keeps_setDefaultBodyColor true).
  pose proof (keeps_zeroPointers true). pose proof keeps_addDecoration.
  unfold construct, scaleBody, defaultGeometry.
  keeps_rep; auto.
Qed.

Lemma VTKReporterRep_new_sets_flag bodyScaleDefault reporter h w :
  VTKReporterRep_new bodyScaleDefault reporter h = Returns tt w -> flagIs true (rep w).
Proof. intros Hrun. eapply construct_sets_flag; [| exact Hrun]. reflexivity. Qed.


(** C10. [addEphemeralDecoration] returns having appended the descriptor
    to the pending queue and done nothing else: the heap (proxies, scene)
    is the same and so is every other member, the camera flag included.
    With the flag clear, a report that displays the submitted item returns
    with the flag still clear and without one more [ResetCamera] on the
    renderer.  The flag is set by [addDecoration], [addRubberBandLine],
    [resetCamera] and the constructor; the other operations leave a clear
    flag clear. *)
Theorem ephemeral_submission_only_enqueues g w :
  addEphemeralDecoration g w =
    Returns tt (mkWorld (rep_setEphemeralGeometry (ephemeralGeometry (rep w) ++ [g]) (rep w))
                        (vtk w))
  ∧ (∀ s s' rd r,
       Operable w -> validLines (rep w) ->
       realize s Stage_Position = Some s' ->
       validItems ((ephemeralGeometry (rep w) ++ [g]) ++ contributedGeometry s') ->
       cameraNeedsToBeReset (rep w) = false ->
       renderer (rep w) = Some rd -> renderers (vtk w) !! rd = Some r ->
       ∃ w2 r2, (addEphemeralDecoration g;; report s) w = Returns tt w2
                ∧ ephemeralActors (rep w2) !! 0%nat = Some (Some (nextAddress (vtk w)))
                ∧ cameraNeedsToBeReset (rep w2) = false
                ∧ renderers (vtk w2) !! rd = Some r2
                ∧ resetCameraCalls r2 = resetCameraCalls r)
  ∧ (hoare (λ _, True) resetCamera (λ _ w', flagIs true (rep w'))
     ∧ (∀ body X_GD g', hoare (λ _, True) (addDecoration body X_GD g')
                              (λ _ w', flagIs true (rep w')))
     ∧ (∀ b1 st1 b2 st2 g', hoare (λ _, True) (addRubberBandLine b1 st1 b2 st2 g')
                                  (λ _ w', flagIs true (rep w')))
     ∧ (∀ x reporter h w', VTKReporterRep_new x reporter h = Returns tt w' ->
                           flagIs true (rep w')))
  ∧ ((∀ s, hoare (λ w', flagIs false (rep w')) (report s) (λ _ w', flagIs false (rep w')))
     ∧ (∀ g', hoare (λ w', flagIs false (rep w')) (addEphemeralDecoration g')
                    (λ _ w', flagIs false (rep w')))
     ∧ (∀ id rgb, hoare (λ w', flagIs false (rep w')) (setDefaultBodyColor id rgb)
                        (λ _ w', flagIs false (rep w')))
     ∧ (∀ id x, hoare (λ w', flagIs false (rep w')) (setBodyScale id x)
                      (λ _ w', flagIs false (rep w')))).
Proof.
  split; [reflexivity |]. split; [| split].
  - intros s s' rd r HO Hlines Hs Hitems Hflag Hrd Hr.
    unfold mbind, M_bind. rewrite addEphemeralDecoration_returns.
    set (w1 := mkWorld (rep_setEphemeralGeometry (ephemeralGeometry (rep w) ++ [g]) (rep w))
                       (vtk w)).
    assert (HO1 : Operable w1) by exact HO.
    rewrite (report_returns s s' w1 HO1 Hlines Hs Hitems).
    eexists _, _. split; [reflexivity |]. split; [| split; [| split]].
    + rewrite reportedWorld_rep. cbn [ephemeralActors].
      rewrite map_fmap, list_lookup_fmap, lookup_seq_lt.
      * cbn [fmap option_fmap option_map]. rewrite Nat.add_0_r. reflexivity.
      * unfold w1. cbn [rep ephemeralGeometry rep_setEphemeralGeometry].
        rewrite !length_app. cbn [length]. lia.
    + rewrite reportedWorld_rep. reflexivity.
    + rewrite (reportedWorld_renderers s' w1 rd Hrd). rewrite lookup_alter_eq.
      change (renderers (vtk w1)) with (renderers (vtk w)). rewrite Hr. reflexivity.
    + cbn -[seq]. change (cameraNeedsToBeReset (rep w1)) with (cameraNeedsToBeReset (rep w)).
      rewrite Hflag. reflexivity.
  - split; [apply resetCamera_sets_flag |]. split; [apply addDecoration_sets_flag |].
    split; [apply addRubberBandLine_sets_flag |]. apply VTKReporterRep_new_sets_flag.
  - split; [apply report_keeps_flag_clear |]. split; [apply keeps_addEphemeralDecoration |].
    split; [apply keeps_setDefaultBodyColor | apply keeps_setBodyScale].
Qed.


(** ** Failure of a report *)

Lemma report_throws_at_realize s w :
  is_Some (renWin (rep w)) -> realize s Stage_Position = None ->
  report s w = Throws Exception_Realize w.
Proof.
  intros [win Hwin] Hs. unfold report, mbind, M_bind. simpl. rewrite Hwin.
  unfold realizeM. rewrite Hs. reflexivity.
Qed.

(** the rubber-band loop of [report] when the entry after [pre] names a
    body the system does not have: the entries of [pre] are stretched,
    then the lookup raises *)
Lemma stretchLoop_throws s w pre d post :
  dynamicGeom (rep w) = pre ++ d :: post ->
  Forall (λ d, isBodyOfSystem (body1 d) = true ∧ isBodyOfSystem (body2 d) = true) pre ->
  isBodyOfSystem (body1 d) && isBodyOfSystem (body2 d) = false ->
  Forall (hasMapper (vtk w)) (actor <$> pre) ->
  forEach (seq 0 (length (dynamicGeom (rep w)))) (λ i,
    r ← getRep;
    info ← defined (dynamicGeom r !! i);
    X_GB1 ← getMobilizedBodyTransform s (body1 info);
    X_GB2 ← getMobilizedBodyTransform s (body2 info);
    setRubberBandLine i (transformPoint X_GB1 (station1 info))
                        (transformPoint X_GB2 (station2 info))) w =
  Throws Exception_IndexOutOfRange (stretchedUpTo s (length pre) w).
Proof.
  intros Hds Hvalid Hbad Hmap.
  set (ds := dynamicGeom (rep w)) in *.
  set (W := λ k, mkWorld (rep_setDynamicGeom (map (stretched s) (take k ds) ++ drop k ds) (rep w))
                         (heap_setActors (remapAll s (take k ds) (actors (vtk w))) (vtk w))).
  assert (Hlen : length ds = (length pre + S (length post))%nat).
  { rewrite Hds, length_app. reflexivity. }
  assert (Hgen : ∀ j k, (k + j = length pre)%nat ->
            forEach (seq k (j + S (length post))) (λ i,
              r ← getRep;
              info ← defined (dynamicGeom r !! i);
              X_GB1 ← getMobilizedBodyTransform s (body1 info);
              X_GB2 ← getMobilizedBodyTransform s (body2 info);
              setRubberBandLine i (transformPoint X_GB1 (station1 info))
                                  (transformPoint X_GB2 (station2 info))) (W k) =
            Throws Exception_IndexOutOfRange (W (length pre))).
  { induction j as [| j IH]; intros k Hkj.
    - assert (k = length pre) by lia. subst k.
      assert (Hd : ds !! length pre = Some d).
      { rewrite Hds. rewrite lookup_app_r by lia. rewrite Nat.sub_diag. reflexivity. }
      assert (Hpre : length (map (stretched s) (take (length pre) ds)) = length pre).
      { rewrite length_map, length_take. lia. }
      cbn [Nat.add seq forEach]. unfold mbind at 1, M_bind at 1.
      unfold mbind at 1, M_bind at 1. unfold getRep at 1.
      unfold mbind at 1, M_bind at 1.
      replace (dynamicGeom (rep (W (length pre))) !! length pre) with (Some d)
        by (unfold W; simpl; rewrite lookup_prefix_drop by exact Hpre; symmetry; exact Hd).
      simpl. unfold getMobilizedBodyTransform.
      destruct (isBodyOfSystem (body1 d)); [| reflexivity].
      simpl in Hbad. rewrite Hbad.
      unfold mbind at 1, M_bind at 1. simpl. reflexivity.
    - assert (Hk : (k < length pre)%nat) by lia.
      destruct (lookup_lt_is_Some_2 _ _ Hk) as [e He].
      assert (Hd : ds !! k = Some e).
      { rewrite Hds. rewrite lookup_app_l by exact Hk. exact He. }
      assert (Hpre : length (map (stretched s) (take k ds)) = k).
      { rewrite length_map, length_take. lia. }
      assert (Hin : e ∈ pre) by (eapply list_elem_of_lookup_2, He).
      rewrite Forall_forall in Hvalid. destruct (Hvalid e Hin) as [Hb1 Hb2].
      assert (Hm : hasMapper (vtk w) (actor e)).
      { rewrite Forall_forall in Hmap. apply Hmap. apply list_elem_of_fmap. eauto. }
      destruct (actor e) as [a |] eqn:Ha; [| contradiction].
      assert (Hm' : hasMapper (vtk (W k)) (Some a)).
      { exact (hasMapper_remapAll s (take k ds) (vtk w) (Some a) Hm). }
      cbn [Nat.add seq forEach]. unfold mbind at 1, M_bind at 1.
      unfold mbind at 1, M_bind at 1. unfold getRep at 1.
      unfold mbind at 1, M_bind at 1.
      replace (dynamicGeom (rep (W k)) !! k) with (Some e)
        by (unfold W; simpl; rewrite lookup_prefix_drop by exact Hpre; symmetry; exact Hd).
      simpl.
      unfold getMobilizedBodyTransform. rewrite Hb1, Hb2.
      unfold mbind at 1, M_bind at 1. simpl. unfold mbind at 1, M_bind at 1. simpl.
      unfold setRubberBandLine. unfold mbind at 1, M_bind at 1. simpl.
      unfold mbind at 1, M_bind at 1.
      rewrite lookup_prefix_drop by exact Hpre. fold ds. rewrite Hd. simpl.
      unfold mbind at 1, M_bind at 1. simpl. rewrite Ha.
      rewrite mapper_SetInput_returns by exact Hm'.
      rewrite <- (IH (S k)) by lia. f_equal. unfold W. simpl.
      rewrite insert_prefix_drop by (assumption || lia).
      rewrite (take_S_r _ _ _ Hd), map_app. simpl.
      rewrite remapAll_snoc, Ha. reflexivity. }
  specialize (Hgen (length pre) 0%nat eq_refl).
  assert (HW0 : W 0%nat = w).
  { unfold W, ds. simpl. rewrite drop_0.
    destruct w as [r [ma mr mw n]]. destruct r. reflexivity. }
  rewrite HW0 in Hgen. rewrite Hlen. exact Hgen.
Qed.



Lemma stretchedUpTo_all s w :
  stretchedUpTo s (length (dynamicGeom (rep w))) w = stretchedWorld s w.
Proof.
  unfold stretchedUpTo, stretchedWorld. cbv zeta.
  rewrite firstn_all, drop_all, app_nil_r. reflexivity.
Qed.

(** [report] stops in the rubber-band loop *)
Lemma report_throws_at_line s s' w pre d post :
  Operable w ->
  realize s Stage_Position = Some s' ->
  dynamicGeom (rep w) = pre ++ d :: post ->
  Forall (λ d, isBodyOfSystem (body1 d) = true ∧ isBodyOfSystem (body2 d) = true) pre ->
  isBodyOfSystem (body1 d) && isBodyOfSystem (body2 d) = false ->
  report s w =
  Throws Exception_IndexOutOfRange (stretchedUpTo s' (length pre) (configuredWorld s' w)).
Proof.
  intros (Hready & Hlen & Hall & Hmap) Hs Hds Hvalid Hbad.
  unfold Ready in Hready.
  destruct (renWin (rep w)) as [win |] eqn:Hwin; [| contradiction].
  unfold ownedActors in Hall. apply allocated_app in Hall as [Hpers _].
  assert (Hmap1 : Forall (hasMapper (vtk (configuredWorld s' w))) (actor <$> pre)).
  { unfold dynamicActors in Hmap. rewrite Hds, fmap_app in Hmap.
    apply Forall_app in Hmap as [Hmap _].
    eapply Forall_impl; [exact Hmap |]. intros p Hp.
    apply hasMapper_configureBodies. exact Hp. }
  pose proof (stretchLoop_throws s' (configuredWorld s' w) pre d post Hds Hvalid Hbad Hmap1)
    as Hloop.
  unfold report, mbind at 1, M_bind at 1. simpl. rewrite Hwin.
  unfold mbind at 1, M_bind at 1, realizeM. rewrite Hs. simpl.
  unfold mbind at 1, M_bind at 1.
  rewrite (configuredWorld_returns s' w Hlen Hpers).
  unfold mbind at 1, M_bind at 1. unfold getRep at 1.
  unfold mbind at 1, M_bind at 1.
  rewrite Hloop. reflexivity.
Qed.

(** one turn of "in with the new" for an item whose body the system
    does not have: the actor has been created and stored when the lookup
    raises *)
Lemma displayEphemeralItem_throws s i w g :
  ephemeralGeometry (rep w) !! i = Some g ->
  isBodyOfSystem (bodyId g) = false ->
  displayEphemeralItem s i w =
  Throws Exception_IndexOutOfRange
    (mkWorld
       (rep_setEphemeralActors (<[i := Some (nextAddress (vtk w))]> (ephemeralActors (rep w)))
          (rep w))
       (mkHeap (<[nextAddress (vtk w) := newActor]> (actors (vtk w))) (renderers (vtk w))
               (renderWindows (vtk w)) (S (nextAddress (vtk w))))).
Proof.
  intros Hg Hbad.
  unfold displayEphemeralItem, mbind at 1, M_bind at 1. simpl.
  unfold mbind at 1, M_bind at 1. rewrite Hg. simpl.
  unfold mbind at 1, M_bind at 1. simpl.
  unfold mbind at 1, M_bind at 1. simpl.
  unfold mbind at 1, M_bind at 1, getMobilizedBodyTransform. rewrite Hbad. reflexivity.
Qed.

Lemma itemsDisplayed_step_at s w k rd g :
  renderer (rep w) = Some rd ->
  is_Some (renderers (vtk w) !! rd) ->
  length (bodies (rep w)) = getNBodies ->
  ephemeralGeometry (rep w) !! k = Some g ->
  isBodyOfSystem (bodyId g) = true ->
  length (ephemeralActors (rep w)) = length (ephemeralGeometry (rep w)) ->
  displayEphemeralItem s k (itemsDisplayed s w k) = Returns tt (itemsDisplayed s w (S k)).
Proof.
  intros Hrd Hr Hlen Hg Hgv Hsize.
  apply lookup_lt_Some in Hg as Hk.
  assert (Hpre : length (map (placedInGround s) (take k (ephemeralGeometry (rep w)))) = k).
  { rewrite length_map, length_take. lia. }
  assert (Hpre' : length (map Some (seq (nextAddress (vtk w)) k)) = k).
  { rewrite length_map, length_seq. reflexivity. }
  rewrite (displayEphemeralItem_returns s k _ g rd); cycle 1.
  { simpl. rewrite lookup_prefix_drop by exact Hpre. exact Hg. }
  { exact Hgv. }
  { intros _. simpl. apply isBodyOfSystem_index; assumption. }
  { simpl. exact Hrd. }
  { simpl. rewrite Hrd. apply is_Some_alter, Hr. }
  unfold itemsDisplayed. cbn -[seq take drop]. rewrite Hrd.
  rewrite insert_prefix_drop by (assumption || lia).
  rewrite insert_prefix_drop by (assumption || lia).
  rewrite (take_S_r _ _ _ Hg), !map_app. cbn -[seq take drop].
  rewrite insertFrom_snoc, length_map, length_take.
  rewrite Nat.min_l by lia.
  rewrite seq_S, map_app. cbn -[seq take drop].
  rewrite alter_alter_eq.
  unfold rep_setEphemeralGeometry, rep_setEphemeralActors. cbn -[seq take drop].
  do 3 f_equal; [| lia].
  apply alter_ext. intros r _. unfold renderer_AddActor. cbn -[seq].
  rewrite <- app_assoc. reflexivity.
Qed.

(** "in with the new" when the item after [pre] names a body the system
    does not have *)
Lemma itemLoop_throws s w rd pre g post :
  renderer (rep w) = Some rd ->
  is_Some (renderers (vtk w) !! rd) ->
  length (bodies (rep w)) = getNBodies ->
  ephemeralGeometry (rep w) = pre ++ g :: post ->
  validItems pre ->
  isBodyOfSystem (bodyId g) = false ->
  length (ephemeralActors (rep w)) = length (ephemeralGeometry (rep w)) ->
  forEach (seq 0 (length (ephemeralGeometry (rep w)))) (displayEphemeralItem s) w =
  Throws Exception_IndexOutOfRange
    (let wn := itemsDisplayed s w (length pre) in
     mkWorld
       (rep_setEphemeralActors
          (<[length pre := Some (nextAddress (vtk wn))]> (ephemeralActors (rep wn))) (rep wn))
       (mkHeap (<[nextAddress (vtk wn) := newActor]> (actors (vtk wn))) (renderers (vtk wn))
               (renderWindows (vtk wn)) (S (nextAddress (vtk wn))))).
Proof.
  intros Hrd Hr Hlen Hq Hvalid Hbad Hsize. cbv zeta.
  assert (HN : length (ephemeralGeometry (rep w)) = (length pre + S (length post))%nat).
  { rewrite Hq, length_app. reflexivity. }
  assert (Hgen : ∀ j k, (k + j = length pre)%nat ->
            forEach (seq k (j + S (length post))) (displayEphemeralItem s)
                    (itemsDisplayed s w k) =
            displayEphemeralItem s (length pre) (itemsDisplayed s w (length pre))).
  { induction j as [| j IH]; intros k Hkj.
    - assert (k = length pre) by lia. subst k.
      cbn [Nat.add seq forEach]. unfold mbind, M_bind.
      rewrite (displayEphemeralItem_throws s (length pre) _ g); [| | exact Hbad].
      + reflexivity.
      + simpl. rewrite lookup_prefix_drop
          by (rewrite length_map, length_take; lia).
        rewrite Hq, lookup_app_r, Nat.sub_diag by lia. reflexivity.
    - assert (Hk : (k < length pre)%nat) by lia.
      destruct (lookup_lt_is_Some_2 _ _ Hk) as [e He].
      assert (Hd : ephemeralGeometry (rep w) !! k = Some e).
      { rewrite Hq, lookup_app_l by exact Hk. exact He. }
      assert (Hev : isBodyOfSystem (bodyId e) = true).
      { unfold validItems in Hvalid. rewrite Forall_forall in Hvalid.
        apply Hvalid. eapply list_elem_of_lookup_2, He. }
      cbn [Nat.add seq forEach]. unfold mbind at 1, M_bind at 1.
      rewrite (itemsDisplayed_step_at s w k rd e) by assumption.
      apply IH. lia. }
  rewrite HN. rewrite <- (itemsDisplayed_0 s w) at 1.
  rewrite (Hgen (length pre) 0%nat eq_refl).
  apply (displayEphemeralItem_throws s (length pre) _ g); [| exact Hbad].
  simpl. rewrite lookup_prefix_drop by (rewrite length_map, length_take; lia).
  rewrite Hq, lookup_app_r, Nat.sub_diag by lia. reflexivity.
Qed.

(** the display pass stops at the item after [pre] *)
Lemma displayEphemeralGeometry_throws s w rd pre g post :
  renderer (rep w) = Some rd ->
  is_Some (renderers (vtk w) !! rd) ->
  length (bodies (rep w)) = getNBodies ->
  allocated (actors (vtk w)) (ephemeralActors (rep w)) ->
  ephemeralGeometry (rep w) = pre ++ g :: post ->
  validItems pre ->
  isBodyOfSystem (bodyId g) = false ->
  displayEphemeralGeometry s w =
  Throws Exception_IndexOutOfRange (displayedUpTo s (length pre) w).
Proof.
  intros Hrd Hr Hlen Hall Hq Hvalid Hbad.
  unfold displayEphemeralGeometry, mbind at 1, M_bind at 1. simpl.
  unfold mbind at 1, M_bind at 1.
  rewrite (releaseLoop_returns _ _ rd) by assumption.
  unfold mbind at 1, M_bind at 1. simpl.
  unfold mbind at 1, M_bind at 1.
  assert (Hcleared : clearedWorld w =
            mkWorld
              (rep_setEphemeralActors
                 (resizePointers (length (ephemeralGeometry (rep w))) (ephemeralActors (rep w)))
                 (rep w))
              (mkHeap (applyAll actor_Delete (ephemeralActors (rep w)) (actors (vtk w)))
                 (alter (λ r, mkRenderer (removeAll (ephemeralActors (rep w)) (sceneActors r))
                                         (resetCameraCalls r) (rendererDeletes r))
                        rd (renderers (vtk w)))
                 (renderWindows (vtk w)) (nextAddress (vtk w)))).
  { unfold clearedWorld. cbv zeta. rewrite Hrd. reflexivity. }
  rewrite <- Hcleared.
  pose proof (itemLoop_throws s (clearedWorld w) rd pre g post) as Hloop.
  change (ephemeralGeometry (rep (clearedWorld w))) with (ephemeralGeometry (rep w)) in Hloop.
  rewrite Hloop; [reflexivity | | | | | | |].
  - exact Hrd.
  - unfold clearedWorld. cbv zeta. cbn [vtk renderers]. rewrite Hrd. apply is_Some_alter, Hr.
  - exact Hlen.
  - exact Hq.
  - exact Hvalid.
  - exact Hbad.
  - apply length_resizePointers.
Qed.

(** [report] stops in the display pass *)
Lemma report_throws_at_item s s' w pre g post :
  Operable w ->
  realize s Stage_Position = Some s' ->
  validLines (rep w) ->
  ephemeralGeometry (rep w) ++ contributedGeometry s' = pre ++ g :: post ->
  validItems pre ->
  isBodyOfSystem (bodyId g) = false ->
  report s w =
  Throws Exception_IndexOutOfRange
    (displayedUpTo s' (length pre)
       (collectedWorld s' (stretchedWorld s' (configuredWorld s' w)))).
Proof.
  intros (Hready & Hlen & Hall & Hmap) Hrealize Hlines Hq Hvalid Hbad.
  unfold Ready in Hready.
  destruct (renWin (rep w)) as [win |] eqn:Hwin; [| contradiction].
  destruct (renderer (rep w)) as [rd |] eqn:Hrd; [| contradiction].
  destruct Hready as [Hwin' Hrd'].
  unfold ownedActors in Hall. apply allocated_app in Hall as [Hpers Hall].
  apply allocated_app in Hall as [Hdyn Heph].
  unfold report, mbind at 1, M_bind at 1. simpl. rewrite Hwin.
  unfold mbind at 1, M_bind at 1, realizeM. rewrite Hrealize. simpl.
  unfold mbind at 1, M_bind at 1.
  rewrite (configuredWorld_returns s' w Hlen Hpers).
  unfold mbind at 1, M_bind at 1. unfold getRep at 1.
  unfold mbind at 1, M_bind at 1.
  change (dynamicGeom (rep (configuredWorld s' w))) with (dynamicGeom (rep w)).
  pose proof (stretchLoop_returns s' (configuredWorld s' w)) as Hstretch.
  change (dynamicGeom (rep (configuredWorld s' w))) with (dynamicGeom (rep w)) in Hstretch.
  rewrite Hstretch; cycle 1.
  { exact Hlines. }
  { eapply Forall_impl; [exact Hmap |]. intros p. apply hasMapper_configureBodies. }
  clear Hstretch.
  unfold mbind at 1, M_bind at 1.
  rewrite collectLoop_returns.
  fold (contributedGeometry s').
  fold (collectedWorld s' (stretchedWorld s' (configuredWorld s' w))).
  unfold mbind at 1, M_bind at 1.
  rewrite (displayEphemeralGeometry_throws s' _ rd pre g post); [reflexivity | | | | | | |].
  - exact Hrd.
  - exact Hrd'.
  - exact Hlen.
  - simpl. apply allocated_remapAll, allocated_configureBodies, Heph.
  - exact Hq.
  - exact Hvalid.
  - exact Hbad.
Qed.

(** a failure of [report] is a failure of the [_WIN32] build too: the
    message loop is not reached *)
Lemma report_WIN32_throws msgs s w e w' :
  report s w = Throws e w' -> report_WIN32 msgs s w = Throws e w'.
Proof.
  intros Hrun. unfold report_WIN32, mbind, M_bind. simpl.
  destruct (renWin (rep w)) eqn:Hwin.
  - rewrite Hrun. reflexivity.
  - unfold report, mbind, M_bind in Hrun. simpl in Hrun. rewrite Hwin in Hrun.
    discriminate Hrun.
Qed.

(** C5 (as the code has it). A report runs its phases in order and
    nothing is rolled back.  When realizing the state raises, the raise
    comes before any change.  When the body ids stored with the lines and
    the queued items are valid, all phases complete.  When a rubber-band
    entry names a body the system does not have (as its first or its
    second body), the raise comes after the proxies of the bodies have
    been posed and the entries ahead of it rebuilt.  When a queued item
    names such a body, the raise comes after the bodies have been posed,
    all lines rebuilt, the contributed geometry queued, the previous
    generation of ephemeral proxies released and the items ahead of it
    displayed, with an actor already created for the item itself.  In
    each case the world at the raise is the one the phases so far have
    produced, and the [_WIN32] build raises in the same world. *)
Theorem report_failure_semantics s w :
  Operable w ->
  (realize s Stage_Position = None -> report s w = Throws Exception_Realize w)
  ∧ (∀ s', realize s Stage_Position = Some s' ->
       (validLines (rep w) ->
        validItems (ephemeralGeometry (rep w) ++ contributedGeometry s') ->
        report s w = Returns tt (reportedWorld s' w))
       ∧ (∀ pre d post,
            dynamicGeom (rep w) = pre ++ d :: post ->
            Forall (λ d, isBodyOfSystem (body1 d) = true ∧ isBodyOfSystem (body2 d) = true)
                   pre ->
            isBodyOfSystem (body1 d) && isBodyOfSystem (body2 d) = false ->
            report s w =
            Throws Exception_IndexOutOfRange
              (stretchedUpTo s' (length pre) (configuredWorld s' w)))
       ∧ (∀ pre g post,
            validLines (rep w) ->
            ephemeralGeometry (rep w) ++ contributedGeometry s' = pre ++ g :: post ->
            validItems pre ->
            isBodyOfSystem (bodyId g) = false ->
            report s w =
            Throws Exception_IndexOutOfRange
              (displayedUpTo s' (length pre)
                 (collectedWorld s' (stretchedWorld s' (configuredWorld s' w))))))
  ∧ (∀ msgs e w', report s w = Throws e w' -> report_WIN32 msgs s w = Throws e w').
Proof.
  intros HO. split; [| split].
  - apply report_throws_at_realize. destruct HO as (Hready & _). unfold Ready in Hready.
    destruct (renWin (rep w)); [eauto | contradiction].
  - intros s' Hs. split; [| split].
    + intros Hlines Hitems. apply report_returns; assumption.
    + intros pre d post. apply report_throws_at_line; assumption.
    + intros pre g post Hlines. apply report_throws_at_item; assumption.
  - intros msgs e w'. apply report_WIN32_throws.
Qed.

(** ** The stages a report collects *)

Lemma elem_of_stagesFromTo lo hi st : In st (stagesFromTo lo hi) <-> lo ≤ st ≤ hi.
Proof.
  unfold stagesFromTo. rewrite in_map_iff. split.
  - intros (k & <- & Hk). apply in_seq in Hk. lia.
  - intros Hst. exists (Z.to_nat (st - lo)). split; [lia |]. apply in_seq. lia.
Qed.

Lemma stagesFromTo_increasing lo hi : StronglySorted Z.lt (stagesFromTo lo hi).
Proof.
  unfold stagesFromTo. generalize (Z.to_nat (hi - lo + 1)) as n. generalize 0%nat as a.
  intros a n. revert a. induction n as [| n IH]; intros a; simpl; constructor.
  - apply IH.
  - apply List.Forall_forall. intros x Hx. apply in_map_iff in Hx as (k & <- & Hk).
    apply in_seq in Hk. lia.
Qed.

Lemma submitAll_returns l w :
  forEach l addEphemeralDecoration w =
  Returns tt (mkWorld (rep_setEphemeralGeometry (ephemeralGeometry (rep w) ++ l) (rep w))
                      (vtk w)).
Proof.
  revert w. induction l as [| g l IH]; intros w.
  - simpl. rewrite app_nil_r. destruct w as [r h]. destruct r. reflexivity.
  - cbn [forEach]. unfold mbind, M_bind. rewrite addEphemeralDecoration_returns, IH.
    simpl. rewrite <- app_assoc. reflexivity.
Qed.

(** C6 (as the code has it). On every report that completes, the system's
    geometry is collected once, before the display pass, for the stages
    from [Stage::Model] up to the stage realized in the state, in
    increasing order; the items join the pending queue as submitting them
    through [addEphemeralDecoration] would, each item of the queue gets
    its proxy, and the queue is left empty, so nothing is shown again by a
    later report.  Stages below [Stage::Model] are not visited:
    Topology-stage geometry is taken once, by the constructor, as
    persistent decoration. *)
Theorem report_collects_from_Model w s s' :
  Operable w ->
  validLines (rep w) ->
  realize s Stage_Position = Some s' ->
  validItems (ephemeralGeometry (rep w) ++ contributedGeometry s') ->
  (∀ st, In st (stagesFromTo Stage_Model (getSystemStage s')) <->
         Stage_Model ≤ st ≤ getSystemStage s')
  ∧ StronglySorted Z.lt (stagesFromTo Stage_Model (getSystemStage s'))
  ∧ contributedGeometry s' =
    concat (map (calcDecorativeGeometry s') (stagesFromTo Stage_Model (getSystemStage s')))
  ∧ ∃ wq w',
      forEach (contributedGeometry s') addEphemeralDecoration w = Returns tt wq
      ∧ ephemeralGeometry (rep wq) = ephemeralGeometry (rep w) ++ contributedGeometry s'
      ∧ report s w = Returns tt w'
      ∧ length (ephemeralActors (rep w')) = length (ephemeralGeometry (rep wq))
      ∧ (∀ i g, ephemeralGeometry (rep wq) !! i = Some g ->
           ephemeralActors (rep w') !! i = Some (Some (nextAddress (vtk w) + i)%nat)
           ∧ actors (vtk w') !! (nextAddress (vtk w) + i)%nat =
             Some (builtActor s' (bodies (rep w)) g))
      ∧ ephemeralGeometry (rep w') = [].
Proof.
  intros HO Hlines Hs Hitems.
  split; [intros st; apply elem_of_stagesFromTo |].
  split; [apply stagesFromTo_increasing |]. split; [reflexivity |].
  eexists _, (reportedWorld s' w). split; [apply submitAll_returns |].
  split; [reflexivity |]. split; [apply report_returns; assumption |].
  cbn [rep ephemeralGeometry rep_setEphemeralGeometry].
  split; [| split].
  - rewrite reportedWorld_rep. cbn [ephemeralActors]. rewrite length_map, length_seq.
    reflexivity.
  - intros i g Hg. split.
    + rewrite reportedWorld_rep. cbn [ephemeralActors].
      rewrite map_fmap, list_lookup_fmap, lookup_seq_lt; [reflexivity |].
      eapply lookup_lt_Some, Hg.
    + apply reported_lookup_new, Hg.
  - rewrite reportedWorld_rep. reflexivity.
Qed.


(** ** Teardown *)

Lemma applyAll_app f ps qs m : applyAll f (ps ++ qs) m = applyAll f qs (applyAll f ps m).
Proof. unfold applyAll. apply foldl_app. Qed.

Lemma forEach_onActor_of {X} (ptr : X -> option nat) f (l : list X) w :
  allocated (actors (vtk w)) (ptr <$> l) ->
  forEach l (λ x, onActor (ptr x) f) w =
  Returns tt (mkWorld (rep w) (heap_setActors (applyAll f (ptr <$> l) (actors (vtk w))) (vtk w))).
Proof.
  revert w. induction l as [| x l IH]; intros w Hall.
  - simpl. unfold heap_setActors. rewrite World_eta. reflexivity.
  - rewrite fmap_cons in Hall. apply Forall_cons in Hall as [Hp Hall].
    cbn [forEach]. unfold mbind at 1, M_bind at 1.
    destruct (ptr x) as [a |] eqn:Hx; [| contradiction].
    rewrite onActor_alter by exact Hp.
    rewrite IH by (apply allocated_alter, Hall).
    rewrite fmap_cons, Hx. reflexivity.
Qed.

Lemma forEach_bodies_onActor f (bs : list PerBodyInfo) w :
  allocated (actors (vtk w)) (mjoin (aList <$> bs)) ->
  forEach bs (λ b, forEach (aList b) (λ p, onActor p f)) w =
  Returns tt (mkWorld (rep w)
                (heap_setActors (applyAll f (mjoin (aList <$> bs)) (actors (vtk w))) (vtk w))).
Proof.
  revert w. induction bs as [| b bs IH]; intros w Hall.
  - simpl. unfold heap_setActors. rewrite World_eta. reflexivity.
  - rewrite fmap_cons in Hall. simpl in Hall. apply allocated_app in Hall as [Hb Hall].
    cbn [forEach]. unfold mbind at 1, M_bind at 1.
    rewrite forEach_onActor by exact Hb.
    rewrite IH by (apply allocated_applyAll, Hall).
    rewrite fmap_cons. simpl. rewrite applyAll_app. reflexivity.
Qed.

(** [deletePointers] on a reporter whose pointers are all valid. *)
Theorem deletePointers_returns w :
  Operable w -> deletePointers w = Returns tt (disposedWorld w).
Proof.
  intros (Hready & _ & Hall & _). unfold Ready in Hready.
  destruct (renWin (rep w)) as [win |] eqn:Hwin; [| contradiction].
  destruct (renderer (rep w)) as [rd |] eqn:Hrd; [| contradiction].
  destruct Hready as [Hwin' Hrd'].
  unfold ownedActors in Hall. apply allocated_app in Hall as [Hpers Hall].
  apply allocated_app in Hall as [Hdyn Heph].
  unfold deletePointers, mbind at 1, M_bind at 1. simpl.
  unfold mbind at 1, M_bind at 1.
  rewrite forEach_bodies_onActor by exact Hpers.
  unfold mbind at 1, M_bind at 1. simpl.
  unfold mbind at 1, M_bind at 1.
  rewrite (forEach_onActor_of actor) by (simpl; apply allocated_applyAll, Hdyn).
  unfold mbind at 1, M_bind at 1. simpl.
  unfold mbind at 1, M_bind at 1.
  rewrite (releaseLoop_returns _ _ rd);
    [| exact Hrd | exact Hrd' | simpl; apply allocated_applyAll, allocated_applyAll, Heph].
  unfold mbind at 1, M_bind at 1. simpl.
  unfold mbind at 1, M_bind at 1. simpl. rewrite Hrd, Hwin.
  unfold mbind at 1, M_bind at 1.
  rewrite onRenderer_alter by (simpl; apply is_Some_alter, Hrd').
  unfold mbind at 1, M_bind at 1.
  rewrite onRenderWindow_alter by exact Hwin'.
  unfold zeroPointers, modifyRep, disposedWorld. rewrite Hrd, Hwin. simpl.
  unfold ownedActors, persistentActors, dynamicActors. rewrite !applyAll_app.
  rewrite alter_alter_eq. reflexivity.
Qed.

Lemma hasMapper_released h qs rs ws n ps :
  Forall (hasMapper h) ps ->
  Forall (hasMapper (mkHeap (applyAll actor_Delete qs (actors h)) rs ws n)) ps.
Proof.
  intros Hps. eapply Forall_impl; [exact Hps |].
  intros [a |] Ha; [| exact Ha]. unfold hasMapper in *. simpl.
  rewrite lookup_applyAll. destruct (actors h !! a) as [k |]; [| contradiction].
  simpl. destruct (iter_Delete (length (filter (λ p, p = Some a) qs)) k) as (_ & _ & _ & ->).
  exact Ha.
Qed.

(** the proxies of a disposed reporter are still addressable: the heap
    keeps a released object, with its release count *)
Lemma Operable_after_disposal r r' h :
  Operable (mkWorld r h) ->
  ownedActors r' = ownedActors r -> renderer r' = renderer r -> renWin r' = renWin r ->
  Operable (mkWorld r (vtk (disposedWorld (mkWorld r' h)))).
Proof.
  intros (Hready & Hlen & Hall & Hmap) Ho Hrd Hwin. unfold Ready in Hready. simpl in Hready.
  destruct (renWin r) as [win |] eqn:Ewin; [| contradiction].
  destruct (renderer r) as [rd |] eqn:Erd; [| contradiction].
  destruct Hready as [Hw Hr].
  unfold Operable, Ready, disposedWorld. simpl. rewrite Ewin, Erd, Hrd, Hwin, Ho.
  split; [| split; [exact Hlen | split]].
  - split; apply is_Some_alter; assumption.
  - apply allocated_applyAll. exact Hall.
  - apply hasMapper_released. exact Hmap.
Qed.

Lemma ownedActors_disposed w : Forall (λ p, p = None) (ownedActors (rep (disposedWorld w))).
Proof.
  unfold disposedWorld, ownedActors, persistentActors, dynamicActors. simpl.
  rewrite !Forall_app. split; [| split].
  - apply Forall_forall. intros p Hp. apply list_elem_of_join in Hp as (l & Hp & Hl).
    apply list_elem_of_fmap in Hl as (b & -> & Hb).
    rewrite map_fmap in Hb. apply list_elem_of_fmap in Hb as (b' & -> & _).
    simpl in Hp. rewrite map_fmap in Hp. apply list_elem_of_fmap in Hp as (? & -> & _).
    reflexivity.
  - apply Forall_forall. intros p Hp. apply list_elem_of_fmap in Hp as (d & -> & Hd).
    rewrite map_fmap in Hd. apply list_elem_of_fmap in Hd as (d' & -> & _). reflexivity.
  - apply Forall_forall. intros p Hp. rewrite map_fmap in Hp.
    apply list_elem_of_fmap in Hp as (? & -> & _). reflexivity.
Qed.

(** X1. Teardown of a well-formed reporter runs to completion and releases
    every proxy the reporter ever created exactly once, the current
    ephemeral ones after taking them out of the scene; it releases the
    renderer and the window once and leaves every pointer null. *)
Theorem teardown_releases_once w :
  Inv w ->
  ∃ w', deletePointers w = Returns tt w'
    ∧ (∀ a, is_Some (actors (vtk w) !! a) <-> is_Some (actors (vtk w') !! a))
    ∧ (∀ a k, actors (vtk w') !! a = Some k -> actorDeletes k = 1%nat)
    ∧ (∀ rd r, renderer (rep w) = Some rd -> renderers (vtk w) !! rd = Some r ->
         ∃ r', renderers (vtk w') !! rd = Some r'
               ∧ rendererDeletes r' = S (rendererDeletes r)
               ∧ ∀ a, Some a ∈ ephemeralActors (rep w) -> a ∉ sceneActors r')
    ∧ (∀ win o, renWin (rep w) = Some win -> renderWindows (vtk w) !! win = Some o ->
         ∃ o', renderWindows (vtk w') !! win = Some o'
               ∧ windowDeletes o' = S (windowDeletes o))
    ∧ renWin (rep w') = None ∧ renderer (rep w') = None
    ∧ Forall (λ p, p = None) (ownedActors (rep w')).
Proof.
  intros HI. pose proof (Inv_Operable _ HI) as Hop.
  destruct HI as (_ & _ & Hnd & Hlive & _ & _ & Hdead).
  exists (disposedWorld w). split; [apply deletePointers_returns, Hop |].
  split; [| split; [| split; [| split; [| split; [| split]]]]].
  - intros a. unfold disposedWorld. simpl. rewrite lookup_applyAll.
    rewrite fmap_is_Some. reflexivity.
  - intros a k Hk. unfold disposedWorld in Hk. simpl in Hk.
    destruct (decide (Some a ∈ ownedActors (rep w))) as [Hin | Hout].
    + rewrite lookup_applyAll_once in Hk by assumption.
      rewrite Forall_forall in Hlive. specialize (Hlive _ Hin). unfold liveActor in Hlive.
      destruct (actors (vtk w) !! a) as [k0 |]; [| contradiction].
      simpl in Hk. injection Hk as <-. simpl. rewrite Hlive. reflexivity.
    + rewrite lookup_applyAll_notin in Hk by assumption.
      exact (Hdead _ _ Hk Hout).
  - intros rd r Hrd Hr. unfold disposedWorld. simpl. rewrite Hrd.
    rewrite lookup_alter_eq, Hr. simpl. eexists. split; [reflexivity |]. simpl.
    split; [reflexivity |]. intros a Ha Hin. apply elem_of_removeAll in Hin as [_ Hin].
    contradiction.
  - intros win o Hwin Ho. unfold disposedWorld. simpl. rewrite Hwin.
    rewrite lookup_alter_eq, Ho. simpl. eexists. split; reflexivity.
  - reflexivity.
  - reflexivity.
  - apply ownedActors_disposed.
Qed.

(** C8. Teardown releases every VTK resource the reporter holds, but a
    copy made through [clone] is shallow: it holds the very proxies,
    renderer and window of the original, and both destructors release
    them.  After the copy and then the original have been destroyed,
    every proxy has been released twice, not once. *)
Theorem clone_releases_proxies_twice w this :
  Inv w ->
  ∃ c h1 h2,
    VTKReporter_copy (Some (rep w)) this = Some c
    ∧ myHandle c = Some this
    ∧ ownedActors c = ownedActors (rep w)
    ∧ renderer c = renderer (rep w) ∧ renWin c = renWin (rep w)
    ∧ VTKReporter_destroy (Some c) (vtk w) = Some h1
    ∧ VTKReporter_destroy (Some (rep w)) h1 = Some h2
    ∧ (∀ a, Some a ∈ ownedActors (rep w) ->
         ∃ k, actors h2 !! a = Some k ∧ actorDeletes k = 2%nat)
    ∧ (∀ rd, renderer (rep w) = Some rd ->
         ∃ r0 r2, renderers (vtk w) !! rd = Some r0 ∧ renderers h2 !! rd = Some r2
                  ∧ rendererDeletes r2 = S (S (rendererDeletes r0)))
    ∧ (∀ win, renWin (rep w) = Some win ->
         ∃ o0 o2, renderWindows (vtk w) !! win = Some o0 ∧ renderWindows h2 !! win = Some o2
                  ∧ windowDeletes o2 = S (S (windowDeletes o0))).
Proof.
  intros HI. pose proof (Inv_Operable _ HI) as Hop.
  destruct HI as (Hready & _ & Hnd & Hlive & _).
  destruct w as [r h]. simpl in *.
  set (c := rep_setMyHandle (Some this) (clone r)).
  assert (Hc : Operable (mkWorld c h)).
  { destruct Hop as (H1 & H2 & H3 & H4). repeat split; assumption. }
  assert (Ho : Operable (mkWorld r (vtk (disposedWorld (mkWorld c h))))).
  { apply Operable_after_disposal; [exact Hop | reflexivity ..]. }
  exists c, (vtk (disposedWorld (mkWorld c h))),
         (vtk (disposedWorld (mkWorld r (vtk (disposedWorld (mkWorld c h)))))).
  split; [reflexivity |]. split; [reflexivity |]. split; [reflexivity |].
  split; [reflexivity |]. split; [reflexivity |].
  split. { unfold VTKReporter_destroy, destroyRep. rewrite deletePointers_returns by exact Hc.
           reflexivity. }
  split. { unfold VTKReporter_destroy, destroyRep. rewrite deletePointers_returns by exact Ho.
           reflexivity. }
  unfold Ready in Hready. simpl in Hready.
  destruct (renWin r) as [win |] eqn:Ewin; [| contradiction].
  destruct (renderer r) as [rd |] eqn:Erd; [| contradiction].
  destruct Hready as [[o0 Hw] [r0 Hr]].
  split; [| split].
  - intros a Ha. rewrite Forall_forall in Hlive. specialize (Hlive _ Ha).
    unfold liveActor in Hlive. simpl in Hlive.
    destruct (actors h !! a) as [k |] eqn:Hk; [| contradiction].
    unfold disposedWorld. simpl.
    change (ownedActors c) with (ownedActors r).
    rewrite !lookup_applyAll_once by assumption. rewrite Hk. simpl.
    eexists. split; [reflexivity |]. simpl. rewrite Hlive. reflexivity.
  - intros ? [= <-]. exists r0. unfold disposedWorld. simpl.
    change (renderer c) with (renderer r). change (ephemeralActors c) with (ephemeralActors r).
    rewrite Erd. rewrite !lookup_alter_eq, Hr. simpl. eexists. split; [reflexivity |].
    split; reflexivity.
  - intros ? [= <-]. exists o0. unfold disposedWorld. simpl.
    change (renWin c) with (renWin r). rewrite Ewin.
    rewrite !lookup_alter_eq, Hw. simpl. eexists. split; [reflexivity |].
    split; reflexivity.
Qed.

(** * The reporter from construction to teardown *)
(** ** Reporting, again and again *)

Lemma validItems_app l1 l2 : validItems (l1 ++ l2) <-> validItems l1 ∧ validItems l2.
Proof. apply Forall_app. Qed.

Lemma framesDrawn_reported s w :
  Ready w -> framesDrawn (reportedWorld s w) = S (framesDrawn w).
Proof.
  intros Hr. unfold Ready in Hr. unfold framesDrawn.
  rewrite reportedWorld_renderWindows, reportedWorld_rep. simpl.
  destruct (renWin (rep w)) as [win |]; [| contradiction].
  destruct (renderer (rep w)); [| contradiction].
  destruct Hr as [[o Ho] _]. rewrite lookup_alter_eq, Ho. reflexivity.
Qed.

Lemma windowReleases_reported s w :
  windowReleases (reportedWorld s w) = windowReleases w.
Proof.
  unfold windowReleases. rewrite reportedWorld_renderWindows, reportedWorld_rep.
  cbn [renWin]. destruct (renWin (rep w)) as [win |]; [| reflexivity].
  rewrite lookup_alter_eq. destruct (renderWindows (vtk w) !! win); reflexivity.
Qed.

(** the message loop when no [WM_QUIT] is waiting *)
Lemma processWindowMessages_other msgs w :
  WM_QUIT ∉ msgs -> processWindowMessages msgs w = Returns tt w.
Proof.
  induction msgs as [| m msgs IH]; intros Hq; [reflexivity |].
  destruct m.
  - exfalso. apply Hq. left.
  - simpl. apply IH. intros Hin. apply Hq. right. exact Hin.
Qed.

(** the message loop when a [WM_QUIT] is waiting: the window is released
    and forgotten *)
Lemma processWindowMessages_quit msgs w win o :
  WM_QUIT ∈ msgs -> renWin (rep w) = Some win -> renderWindows (vtk w) !! win = Some o ->
  processWindowMessages msgs w =
  Returns tt (mkWorld (rep_setRenWin None (rep w))
                (heap_setRenderWindows (<[win := window_Delete o]> (renderWindows (vtk w)))
                                       (vtk w))).
Proof.
  intros Hq Hwin Ho. induction msgs as [| m msgs IH]; [apply elem_of_nil in Hq; contradiction |].
  destruct m.
  - simpl. unfold mbind, M_bind, getRep, onRenderWindow. rewrite Hwin, Ho. reflexivity.
  - simpl. apply IH. apply elem_of_cons in Hq as [Heq | Hin]; [discriminate Heq | exact Hin].
Qed.

Lemma report_WIN32_disposed msgs s w :
  renWin (rep w) = None -> report_WIN32 msgs s w = Returns tt w.
Proof. intros Hw. unfold report_WIN32, mbind, M_bind. simpl. rewrite Hw. reflexivity. Qed.

Lemma reports_WIN32_disposed (frames : list (list Message * State)) w :
  renWin (rep w) = None ->
  forEach frames (λ f, report_WIN32 (fst f) (snd f)) w = Returns tt w.
Proof.
  intros Hw. induction frames as [| f frames IH]; [reflexivity |].
  cbn [forEach]. unfold mbind, M_bind. rewrite report_WIN32_disposed by exact Hw. exact IH.
Qed.

(** where no message loop is compiled in, or no message is waiting, the
    [_WIN32] build does what [report] does *)
Lemma report_WIN32_no_message s w : report_WIN32 [] s w = report s w.
Proof.
  unfold report_WIN32, mbind, M_bind. simpl.
  destruct (renWin (rep w)) eqn:Hwin.
  - destruct (report s w) as [[] w' | |]; reflexivity.
  - unfold report, mbind, M_bind. simpl. rewrite Hwin. reflexivity.
Qed.

(** X2. A well-formed reporter can report any sequence of reportable
    states, on either build: every report returns, and the body records
    and the rubber-band proxies stay as they were.  As long as no
    [WM_QUIT] has been drained (never, where the message loop is not
    compiled in), every report draws exactly one frame, keeps the window,
    leaves the queue empty and the camera request cleared, and leaves the
    reporter well-formed for the next report.  The report that drains a
    [WM_QUIT] draws its frame, then releases the window once and forgets
    it; every later report is a no-op and draws nothing. *)
Theorem reports_never_fail w (frames : list (list Message * State)) :
  Inv w -> validLines (rep w) -> validItems (ephemeralGeometry (rep w)) ->
  Forall (λ f, reportable (snd f)) frames ->
  ∃ w', forEach frames (λ f, report_WIN32 (fst f) (snd f)) w = Returns tt w'
    ∧ validLines (rep w')
    ∧ bodies (rep w') = bodies (rep w)
    ∧ dynamicActors (rep w') = dynamicActors (rep w)
    ∧ (Forall (λ f, WM_QUIT ∉ fst f) frames ->
         forEach (snd <$> frames) report w = Returns tt w'
         ∧ Inv w'
         ∧ framesDrawn w' = (framesDrawn w + length frames)%nat
         ∧ windowReleases w' = windowReleases w
         ∧ (frames ≠ [] ->
              ephemeralGeometry (rep w') = [] ∧ cameraNeedsToBeReset (rep w') = false))
    ∧ (∀ pre f post,
         frames = pre ++ f :: post ->
         Forall (λ f, WM_QUIT ∉ fst f) pre -> WM_QUIT ∈ fst f ->
         forEach (pre ++ [f]) (λ f, report_WIN32 (fst f) (snd f)) w = Returns tt w'
         ∧ renWin (rep w') = None
         ∧ ∀ win o, renWin (rep w) = Some win -> renderWindows (vtk w) !! win = Some o ->
             ∃ o', renderWindows (vtk w') !! win = Some o'
                   ∧ renderCalls o' = (renderCalls o + S (length pre))%nat
                   ∧ windowDeletes o' = S (windowDeletes o)).
Proof.
  intros HI HL HV Hss. revert w HI HL HV.
  induction Hss as [| [msgs s] frames Hs Hss IH]; intros w HI HL HV.
  - exists w. simpl. split; [reflexivity |]. split; [exact HL |].
    split; [reflexivity |]. split; [reflexivity |]. split.
    + intros _. split; [reflexivity |]. split; [exact HI |]. split; [lia |].
      split; [reflexivity |]. intros Hne. contradiction.
    + intros pre f post Hnil. destruct pre; discriminate Hnil.
  - cbn [snd] in Hs. unfold reportable in Hs.
    destruct (realize s Stage_Position) as [s' |] eqn:Hreal; [| contradiction].
    assert (Hrep : report s w = Returns tt (reportedWorld s' w)).
    { apply report_returns; [apply Inv_Operable, HI | exact HL | exact Hreal |].
      apply validItems_app. split; assumption. }
    pose proof (reportedWorld_Inv s' w HI) as HI1.
    pose proof (reportedWorld_validLines s' w HL) as HL1.
    pose proof (reportedWorld_rep s' w) as Hr1.
    pose proof (reportedWorld_renderWindows s' w) as Hw1.
    assert (Hfr : framesDrawn (reportedWorld s' w) = S (framesDrawn w)).
    { apply framesDrawn_reported. apply HI. }
    assert (Hwr : windowReleases (reportedWorld s' w) = windowReleases w).
    { apply windowReleases_reported. }
    pose proof HI as (Hready & _). unfold Ready in Hready.
    destruct (renWin (rep w)) as [win |] eqn:Hwin; [| contradiction].
    destruct (renderer (rep w)) as [rd |] eqn:Hrd; [| contradiction].
    destruct Hready as [[o Ho] _].
    assert (Hwin1 : renWin (rep (reportedWorld s' w)) = Some win).
    { rewrite Hr1. reflexivity. }
    assert (Ho1 : renderWindows (vtk (reportedWorld s' w)) !! win = Some (window_Render o)).
    { rewrite Hw1, lookup_alter_eq, Ho. reflexivity. }
    assert (Hb1 : bodies (rep (reportedWorld s' w)) = bodies (rep w)).
    { rewrite Hr1. reflexivity. }
    assert (Hd1 : dynamicActors (rep (reportedWorld s' w)) = dynamicActors (rep w)).
    { unfold dynamicActors. rewrite Hr1. simpl. rewrite <- list_fmap_compose. reflexivity. }
    assert (Hq1 : ephemeralGeometry (rep (reportedWorld s' w)) = []).
    { rewrite Hr1. reflexivity. }
    assert (Hc1 : cameraNeedsToBeReset (rep (reportedWorld s' w)) = false).
    { rewrite Hr1. reflexivity. }
    remember (reportedWorld s' w) as w1 eqn:Hw1def. clear Hw1def Hr1 Hw1.
    assert (Hstep : report_WIN32 msgs s w = processWindowMessages msgs w1).
    { unfold report_WIN32, mbind, M_bind. simpl. rewrite Hwin, Hrep. reflexivity. }
    destruct (decide (WM_QUIT ∈ msgs)) as [Hquit | Hquiet].
    + (* this report gives up the window *)
      pose proof (processWindowMessages_quit msgs w1 win _ Hquit Hwin1 Ho1) as Hloop.
      match type of Hloop with _ = Returns tt ?x => set (wq := x) in * end.
      assert (Hnone : renWin (rep wq) = None) by reflexivity.
      assert (Hrun : ∀ l, forEach ((msgs, s) :: l) (λ f, report_WIN32 (fst f) (snd f)) w
                          = Returns tt wq).
      { intros l. cbn [forEach fst snd]. unfold mbind, M_bind. rewrite Hstep, Hloop.
        apply reports_WIN32_disposed, Hnone. }
      exists wq. split; [apply Hrun |].
      split; [exact HL1 |]. split; [exact Hb1 |]. split; [exact Hd1 |]. split.
      * intros Hall. apply Forall_cons in Hall as [Hno _]. contradiction.
      * intros pre f post Heq Hpre Hf. destruct pre as [| f0 pre].
        -- simpl in Heq. injection Heq as <- _. split; [apply Hrun |].
           split; [exact Hnone |]. intros win' o' Hwin' Ho'.
           injection Hwin' as <-. rewrite Ho in Ho'. injection Ho' as <-.
           exists (window_Delete (window_Render o)). split.
           ++ unfold wq. simpl. apply lookup_insert_eq.
           ++ simpl. split; [lia | reflexivity].
        -- simpl in Heq. injection Heq as <- _.
           apply Forall_cons in Hpre as [Hno _]. contradiction.
    + (* the window is kept *)
      rewrite processWindowMessages_other in Hstep by exact Hquiet.
      destruct (IH w1 HI1 HL1) as (w2 & Hrun & HL2 & Hb & Hd & Hkeep & Hgive).
      { rewrite Hq1. constructor. }
      assert (Hrun' : forEach ((msgs, s) :: frames) (λ f, report_WIN32 (fst f) (snd f)) w
                      = Returns tt w2).
      { cbn [forEach fst snd]. unfold mbind at 1, M_bind at 1. rewrite Hstep. exact Hrun. }
      exists w2. split; [exact Hrun' |]. split; [exact HL2 |].
      split; [rewrite Hb; exact Hb1 |]. split; [rewrite Hd; exact Hd1 |]. split.
      * intros Hall. apply Forall_cons in Hall as [_ Hall].
        destruct (Hkeep Hall) as (Hplain & HI2 & Hf & Hrel & Hq).
        split. { cbn [fmap list_fmap forEach snd]. unfold mbind at 1, M_bind at 1.
                 rewrite Hrep. exact Hplain. }
        split; [exact HI2 |].
        split; [rewrite Hf, Hfr; simpl; lia |].
        split; [rewrite Hrel; exact Hwr |].
        intros _. destruct frames as [| f' frames'].
        -- simpl in Hplain. injection Hplain as <-. split; assumption.
        -- apply Hq. discriminate.
      * intros pre f post Heq Hpre Hf. destruct pre as [| f0 pre].
        -- simpl in Heq. injection Heq as <- _. contradiction.
        -- simpl in Heq. injection Heq as <- Heq.
           apply Forall_cons in Hpre as [_ Hpre].
           destruct (Hgive pre f post Heq Hpre Hf) as (Hrunq & Hnone & Hwindow).
           split. { cbn [app forEach fst snd]. unfold mbind at 1, M_bind at 1.
                    rewrite Hstep. exact Hrunq. }
           split; [exact Hnone |]. intros win' o' Hwin' Ho'.
           injection Hwin' as <-. rewrite Ho in Ho'. injection Ho' as <-.
           destruct (Hwindow win _ Hwin1 Ho1) as (o2 & Ho2 & Hcalls & Hdel).
           exists o2. split; [exact Ho2 |]. simpl in Hcalls, Hdel. simpl.
           split; [lia | exact Hdel].
Qed.


(** ** Registration *)

Lemma validBodyId_index w id : validBodyId w id -> is_Some (vectorIndex (bodies (rep w)) id).
Proof. intros Hid. apply vectorIndex_is_Some. exact Hid. Qed.

Lemma vectorIndex_insert_ne {A} (v : list A) (i j : Z) x :
  0 ≤ i -> j ≠ i -> vectorIndex (<[Z.to_nat i := x]> v) j = vectorIndex v j.
Proof.
  intros Hi Hne. unfold vectorIndex. destruct (0 <=? j) eqn:Hj; [| reflexivity].
  apply list_lookup_insert_ne. apply Z.leb_le in Hj. lia.
Qed.

Lemma vectorIndex_insert_eq {A} (v : list A) (i : Z) x :
  is_Some (vectorIndex v i) -> vectorIndex (<[Z.to_nat i := x]> v) i = Some x.
Proof.
  intros Hi. apply vectorIndex_is_Some in Hi. unfold vectorIndex.
  destruct (0 <=? i) eqn:Hle; [| apply Z.leb_gt in Hle; lia].
  apply list_lookup_insert_eq. lia.
Qed.

(** X3. Registering a decoration appends one proxy and one descriptor to the
    body's lists, at a fresh address, and adds the proxy to the end of
    the scene.  Nothing registered before is changed: the other bodies,
    the body's default colour and scale, the rubber-band and ephemeral
    stores and every existing actor are as they were, and the reporter
    stays well-formed. *)
Theorem decoration_registry_grows w body X_GD g :
  Inv w -> validBodyId w body ->
  ∃ w' b b',
    addDecoration body X_GD g w = Returns tt w'
    ∧ Inv w'
    ∧ vectorIndex (bodies (rep w)) body = Some b
    ∧ vectorIndex (bodies (rep w')) body = Some b'
    ∧ aList b' = aList b ++ [Some (nextAddress (vtk w))]
    ∧ gList b' = gList b ++ [setTransform (composeTransform X_GD (transform g)) g]
    ∧ defaultColorRGB b' = defaultColorRGB b ∧ scale b' = scale b
    ∧ (∀ j, j ≠ body -> vectorIndex (bodies (rep w')) j = vectorIndex (bodies (rep w)) j)
    ∧ dynamicGeom (rep w') = dynamicGeom (rep w)
    ∧ ephemeralGeometry (rep w') = ephemeralGeometry (rep w)
    ∧ ephemeralActors (rep w') = ephemeralActors (rep w)
    ∧ actors (vtk w) !! nextAddress (vtk w) = None
    ∧ (∀ a, a ≠ nextAddress (vtk w) -> actors (vtk w') !! a = actors (vtk w) !! a)
    ∧ scene w' = scene w ++ [nextAddress (vtk w)].
Proof.
  intros HI Hid.
  destruct (validBodyId_index _ _ Hid) as [b Hb].
  destruct (Inv_renderer _ HI) as (rd & r & Hrd & Hr).
  pose proof (addDecoration_returns w body X_GD g b rd r Hb Hrd Hr) as Hrun.
  cbv zeta in Hrun.
  eexists _, b, _. split; [exact Hrun |].
  split; [exact (addDecoration_Inv _ _ _ _ _ HI Hrun) |].
  split; [exact Hb |]. simpl.
  split; [apply vectorIndex_insert_eq; eauto |]. simpl.
  do 4 (split; [reflexivity |]).
  split. { intros j Hj. apply vectorIndex_insert_ne; [apply Hid | exact Hj]. }
  do 3 (split; [reflexivity |]).
  split.
  { destruct HI as (_ & _ & _ & _ & _ & Hfresh & _).
    destruct (actors (vtk w) !! nextAddress (vtk w)) eqn:E; [| reflexivity].
    apply Hfresh in E. lia. }
  split. { intros a Ha. apply lookup_insert_ne. congruence. }
  unfold scene. simpl. rewrite Hrd, lookup_insert_eq, Hr. reflexivity.
Qed.

(** X4. A default colour can be read back, recolours no existing proxy, and
    is the colour of the decorations registered afterwards that have
    none of their own. *)
Theorem default_color_round_trip w id rgb X_GD g :
  Inv w -> validBodyId w id -> colorIsSet g = false ->
  ∃ w1 w2 k,
    setDefaultBodyColor id rgb w = Returns tt w1
    ∧ getDefaultBodyColor id w1 = Returns rgb w1
    ∧ vtk w1 = vtk w
    ∧ (∀ j c, j ≠ id -> getDefaultBodyColor j w = Returns c w ->
              getDefaultBodyColor j w1 = Returns c w1)
    ∧ addDecoration id X_GD g w1 = Returns tt w2
    ∧ actors (vtk w2) !! nextAddress (vtk w) = Some k
    ∧ propColor k = rgb
    ∧ (∀ a k0, actors (vtk w) !! a = Some k0 -> actors (vtk w2) !! a = Some k0).
Proof.
  intros HI Hid Hg.
  destruct (validBodyId_index _ _ Hid) as [b Hb].
  destruct (Inv_renderer _ HI) as (rd & r & Hrd & Hr).
  set (w1 := mkWorld (rep_setBodies (<[Z.to_nat id := body_setColor rgb b]> (bodies (rep w)))
                                    (rep w)) (vtk w)).
  assert (Hset : setDefaultBodyColor id rgb w = Returns tt w1).
  { unfold setDefaultBodyColor. apply modifyBody_Some. exact Hb. }
  assert (Hb1 : vectorIndex (bodies (rep w1)) id = Some (body_setColor rgb b)).
  { simpl. apply vectorIndex_insert_eq. eauto. }
  pose proof (addDecoration_returns w1 id X_GD g _ rd r Hb1 Hrd Hr) as Hrun.
  cbv zeta in Hrun.
  eexists w1, _, _. split; [exact Hset |].
  split. { unfold getDefaultBodyColor, mbind, M_bind. rewrite (getBody_Some _ _ _ Hb1).
           reflexivity. }
  split; [reflexivity |].
  split.
  { intros j c Hj. unfold getDefaultBodyColor, mbind, M_bind, getBody, mbind, M_bind, getRep.
    simpl. rewrite vectorIndex_insert_ne by (apply Hid || exact Hj).
    destruct (vectorIndex (bodies (rep w)) j); simpl; [| discriminate].
    intros [= ->]. reflexivity. }
  split; [exact Hrun |]. simpl.
  split; [apply lookup_insert_eq |].
  split.
  { unfold styledActor, resolveColor. simpl.
    unfold colorIsSet in *. simpl. rewrite Hg. reflexivity. }
  intros a k0 Ha. rewrite lookup_insert_ne; [exact Ha |].
  intros <-. destruct HI as (_ & _ & _ & _ & _ & Hfresh & _). apply Hfresh in Ha. lia.
Qed.


(** ** Posing *)

Lemma iter_idempotent {A} (f : A -> A) n x :
  (∀ k, f (f k) = f k) -> Nat.iter (S n) f x = f x.
Proof.
  intros Hff. induction n as [| n IH]; [reflexivity |].
  change (f (Nat.iter (S n) f x) = f x). rewrite IH. apply Hff.
Qed.

Lemma iter_absorbed {A} (f g : A -> A) n x :
  (∀ k, f (g k) = f k) -> f (Nat.iter n g x) = f x.
Proof.
  intros Hfg. induction n as [| n IH]; [reflexivity |].
  simpl. rewrite Hfg. exact IH.
Qed.

Lemma applyAll_absorb f g ps m :
  (∀ k, f (g k) = f k) -> (∀ k, f (f k) = f k) ->
  applyAll f ps (applyAll g ps m) = applyAll f ps m.
Proof.
  intros Hfg Hff. apply map_eq. intros a. rewrite !lookup_applyAll.
  destruct (m !! a) as [k |]; [| reflexivity]. simpl. f_equal.
  destruct (length (filter (λ p, p = Some a) ps)) as [| n]; [reflexivity |].
  rewrite (iter_idempotent f n k Hff), (iter_idempotent f n _ Hff).
  apply (iter_absorbed f g (S n)). exact Hfg.
Qed.

(** X5. [setConfiguration] sets an absolute pose: it overwrites whatever
    pose the body's proxies had, so posing twice is posing once at the
    last transform.  It touches the proxies of that body only, and no
    member of the reporter. *)
Theorem posing_is_absolute w bodyNum X_GB Y_GB :
  Inv w -> validBodyId w bodyNum ->
  ∃ w' b,
    setConfiguration bodyNum X_GB w = Returns tt w'
    ∧ (setConfiguration bodyNum Y_GB;; setConfiguration bodyNum X_GB) w = Returns tt w'
    ∧ rep w' = rep w
    ∧ vectorIndex (bodies (rep w)) bodyNum = Some b
    ∧ allPosedAt (vtk w') X_GB (aList b)
    ∧ (∀ a, Some a ∉ aList b -> actors (vtk w') !! a = actors (vtk w) !! a).
Proof.
  intros HI Hid.
  destruct (validBodyId_index _ _ Hid) as [b Hb].
  assert (Hall : allocated (actors (vtk w)) (aList b)).
  { apply Inv_Operable in HI. destruct HI as (_ & _ & Ho & _).
    unfold ownedActors in Ho. apply allocated_app in Ho as [Hp _].
    eapply allocated_aList; eassumption. }
  pose proof (setConfiguration_returns w bodyNum X_GB b Hb Hall) as HX.
  pose proof (setConfiguration_returns w bodyNum Y_GB b Hb Hall) as HY.
  eexists _, b. split; [exact HX |].
  split.
  { unfold mbind at 1, M_bind at 1. rewrite HY.
    rewrite (setConfiguration_returns _ bodyNum X_GB b);
      [| exact Hb | simpl; apply allocated_applyAll, Hall].
    simpl. unfold heap_setActors. simpl. rewrite applyAll_absorb; reflexivity. }
  split; [reflexivity |]. split; [exact Hb |].
  split.
  - apply Forall_forall. intros p Hp.
    unfold allocated in Hall. rewrite Forall_forall in Hall. specialize (Hall _ Hp).
    destruct p as [a |]; [| contradiction]. destruct Hall as [k Hk].
    exists a, (configured X_GB k). split; [reflexivity |]. simpl.
    split.
    + rewrite (lookup_applyAll_idem (configured X_GB) (aList b) _ a);
        [| reflexivity | exact Hp].
      rewrite Hk. reflexivity.
    + apply configured_posedAt.
  - intros a Ha. simpl. apply lookup_applyAll_notin. exact Ha.
Qed.


(** ** Rubber-band lines and body ids *)

(** X6. [addRubberBandLine] stores the body ids it is given without
    looking at them.  Whatever the two ids are, the line is registered:
    the call returns, the reporter stays well-formed, the entry is stored
    as given behind the entries already there, and its proxy is a new
    actor at the end of the scene, in the line's colour (black when it
    has none), with a mapper that has no input yet.  The body records,
    the ephemeral stores, the window and every existing actor are as they
    were, and the camera request is set.  The stored ids are valid
    afterwards exactly when they were before and the two new ids are
    bodies of the system. *)
Theorem rubber_band_registration_unchecked w b1 st1 b2 st2 g :
  Inv w ->
  ∃ w' k,
    addRubberBandLine b1 st1 b2 st2 g w = Returns tt w'
    ∧ Inv w'
    ∧ dynamicGeom (rep w') =
      dynamicGeom (rep w) ++ [mkDyn (Some (nextAddress (vtk w))) g b1 b2 st1 st2]
    ∧ (validLines (rep w') <->
       validLines (rep w) ∧ isBodyOfSystem b1 = true ∧ isBodyOfSystem b2 = true)
    ∧ bodies (rep w') = bodies (rep w)
    ∧ ephemeralGeometry (rep w') = ephemeralGeometry (rep w)
    ∧ ephemeralActors (rep w') = ephemeralActors (rep w)
    ∧ cameraNeedsToBeReset (rep w') = true
    ∧ actors (vtk w) !! nextAddress (vtk w) = None
    ∧ actors (vtk w') !! nextAddress (vtk w) = Some k
    ∧ mapperInput k = Some None
    ∧ propColor k = (if Qeq_bool (vx (colorRGB g)) (-1) then mkVec3 0 0 0 else colorRGB g)
    ∧ actorDeletes k = 0%nat
    ∧ (∀ a, a ≠ nextAddress (vtk w) -> actors (vtk w') !! a = actors (vtk w) !! a)
    ∧ scene w' = scene w ++ [nextAddress (vtk w)]
    ∧ renderWindows (vtk w') = renderWindows (vtk w).
Proof.
  intros HI.
  destruct (Inv_renderer _ HI) as (rd & r & Hrd & Hr).
  pose proof (addRubberBandLine_returns w b1 st1 b2 st2 g rd r Hrd Hr) as Hrun.
  cbv zeta in Hrun.
  eexists _, (rubberBandActor g). split; [exact Hrun |].
  split; [exact (addRubberBandLine_Inv _ _ _ _ _ _ _ HI Hrun) |].
  split; [reflexivity |].
  split.
  { unfold validLines. simpl. rewrite Forall_app, Forall_singleton. simpl. tauto. }
  do 4 (split; [reflexivity |]).
  split.
  { destruct HI as (_ & _ & _ & _ & _ & Hfresh & _).
    destruct (actors (vtk w) !! nextAddress (vtk w)) eqn:E; [| reflexivity].
    apply Hfresh in E. lia. }
  split; [simpl; apply lookup_insert_eq |].
  split; [reflexivity |].
  split.
  { unfold rubberBandActor, resolveColor, colorIsSet, Real_eqb. simpl.
    destruct (Qeq_bool (vx (colorRGB g)) (-1)); reflexivity. }
  split; [reflexivity |].
  split. { intros a Ha. apply lookup_insert_ne. congruence. }
  split; [| reflexivity].
  unfold scene. simpl. rewrite Hrd, lookup_insert_eq, Hr. reflexivity.
Qed.


(** ** The camera *)

Lemma World_ext (w w' : World) :
  rep w = rep w' -> actors (vtk w) = actors (vtk w') ->
  renderers (vtk w) = renderers (vtk w') ->
  renderWindows (vtk w) = renderWindows (vtk w') ->
  nextAddress (vtk w) = nextAddress (vtk w') -> w = w'.
Proof.
  destruct w as [r [a rs ws n]], w' as [r' [a' rs' ws' n']]. simpl.
  intros -> -> -> -> ->. reflexivity.
Qed.

Lemma cameraResets_reported s w :
  Ready w ->
  cameraResets (reportedWorld s w) =
  if cameraNeedsToBeReset (rep w) then S (cameraResets w) else cameraResets w.
Proof.
  intros Hr. unfold Ready in Hr.
  destruct (renWin (rep w)); [| contradiction].
  destruct (renderer (rep w)) as [rd |] eqn:Hrd; [| contradiction].
  unfold cameraResets. rewrite (reportedWorld_renderers s w rd Hrd).
  rewrite reportedWorld_rep. cbn [renderer]. rewrite Hrd.
  destruct Hr as [_ [r Hrr]]. rewrite lookup_alter_eq, Hrr. simpl.
  destruct (cameraNeedsToBeReset (rep w)); reflexivity.
Qed.

(** X7. A request to reset the camera is carried out by the next report,
    once: [resetCamera] itself touches no VTK object, the report that
    follows calls [ResetCamera] exactly once and clears the request, and
    a report without a request calls it not at all.  Zooming to include
    all geometry resets the camera at once instead; after the next
    report the two ways have led to the same world. *)
Theorem camera_reset_is_deferred w s s' :
  Inv w -> validLines (rep w) ->
  realize s Stage_Position = Some s' ->
  validItems (ephemeralGeometry (rep w) ++ contributedGeometry s') ->
  cameraNeedsToBeReset (rep w) = false ->
  ∃ w0 w1 w2 wz,
    resetCamera w = Returns tt w0
    ∧ vtk w0 = vtk w
    ∧ report s w0 = Returns tt w1
    ∧ cameraResets w1 = S (cameraResets w)
    ∧ cameraNeedsToBeReset (rep w1) = false
    ∧ report s w = Returns tt w2
    ∧ cameraResets w2 = cameraResets w
    ∧ zoomCameraToIncludeAllGeometry w = Returns tt wz
    ∧ cameraResets wz = S (cameraResets w)
    ∧ rep wz = rep w
    ∧ report s wz = Returns tt w1.
Proof.
  intros HI HL Hs HV Hflag.
  pose proof (Inv_Operable _ HI) as Hop.
  destruct (Inv_renderer _ HI) as (rd & r & Hrd & Hr).
  set (w0 := mkWorld (rep_setCameraNeedsToBeReset true (rep w)) (vtk w)).
  set (wz := mkWorld (rep w)
               (heap_setRenderers (<[rd := renderer_ResetCamera r]> (renderers (vtk w)))
                                  (vtk w))).
  assert (Hop0 : Operable w0).
  { destruct Hop as (H1 & H2 & H3 & H4). repeat split; assumption. }
  assert (Hopz : Operable wz).
  { destruct Hop as (H1 & H2 & H3 & H4). split; [| repeat split; assumption].
    apply (Ready_same w wz); [reflexivity | reflexivity | | | exact H1].
    - intros a Ha. exact Ha.
    - intros a Ha. simpl. rewrite lookup_insert_is_Some. destruct (decide (rd = a)); auto. }
  assert (Hr0 : report s w0 = Returns tt (reportedWorld s' w0)).
  { apply report_returns; assumption. }
  assert (Hrw : report s w = Returns tt (reportedWorld s' w)).
  { apply report_returns; assumption. }
  assert (Hrz : report s wz = Returns tt (reportedWorld s' wz)).
  { apply report_returns; assumption. }
  assert (Hc0 : cameraResets (reportedWorld s' w0) = S (cameraResets w)).
  { rewrite cameraResets_reported by apply Hop0. reflexivity. }
  assert (Hcw : cameraResets (reportedWorld s' w) = cameraResets w).
  { rewrite cameraResets_reported by apply Hop. rewrite Hflag. reflexivity. }
  assert (Heq : reportedWorld s' wz = reportedWorld s' w0).
  { apply World_ext.
    - rewrite !reportedWorld_rep. reflexivity.
    - rewrite !reportedWorld_actors. reflexivity.
    - rewrite (reportedWorld_renderers s' wz rd Hrd), (reportedWorld_renderers s' w0 rd Hrd).
      simpl. rewrite Hflag. rewrite alter_insert_eq.
      rewrite <- (insert_id _ _ _ Hr) at 2. rewrite alter_insert_eq. reflexivity.
    - rewrite !reportedWorld_renderWindows. reflexivity.
    - rewrite !reportedWorld_nextAddress. reflexivity. }
  assert (Hf1 : cameraNeedsToBeReset (rep (reportedWorld s' w0)) = false).
  { rewrite reportedWorld_rep. reflexivity. }
  remember (reportedWorld s' w0) as w1 eqn:E1. clear E1.
  remember (reportedWorld s' w) as w2 eqn:E2. clear E2.
  exists w0, w1, w2, wz.
  split; [reflexivity |]. split; [reflexivity |]. split; [exact Hr0 |].
  split; [exact Hc0 |]. split; [exact Hf1 |]. split; [exact Hrw |]. split; [exact Hcw |].
  split.
  { unfold zoomCameraToIncludeAllGeometry, mbind, M_bind, getRep. rewrite Hrd.
    unfold onRenderer. rewrite Hr. reflexivity. }
  split. { unfold cameraResets. simpl. rewrite Hrd, lookup_insert_eq, Hr. reflexivity. }
  split; [reflexivity |]. rewrite Hrz, Heq. reflexivity.
Qed.

(** A reporter that has been torn down ignores camera requests as it
    ignores reports: zooming is a no-op, not a call through the null
    renderer. *)
Lemma zoom_after_disposal_is_noop w :
  renderer (rep w) = None -> zoomCameraToIncludeAllGeometry w = Returns tt w.
Proof.
  intros Hrd. unfold zoomCameraToIncludeAllGeometry, mbind, M_bind, getRep. rewrite Hrd.
  reflexivity.
Qed.

(** ** Construction *)

Lemma bind_step {A B} (m : M A) (f : A -> M B) w a w1 :
  m w = Returns a w1 -> (m ≫= f) w = f a w1.
Proof. intros Hm. unfold mbind, M_bind. rewrite Hm. reflexivity. Qed.

(** a loop whose invariant follows the items processed so far *)
Lemma forEach_indexed {X} (I : list X -> World -> Prop) (l : list X) (body : X -> M unit) :
  (∀ pre x post w, l = pre ++ x :: post -> I pre w ->
     ∃ w', body x w = Returns tt w' ∧ I (pre ++ [x]) w') ->
  ∀ w, I [] w -> ∃ w', forEach l body w = Returns tt w' ∧ I l w'.
Proof.
  intros Hbody.
  assert (Hgen : ∀ post pre w, l = pre ++ post -> I pre w ->
                   ∃ w', forEach post body w = Returns tt w' ∧ I l w').
  { induction post as [| x post IH]; intros pre w Hl Hpre.
    - rewrite app_nil_r in Hl. subst pre. exists w. split; [reflexivity | exact Hpre].
    - destruct (Hbody pre x post w Hl Hpre) as (w1 & Hx & H1).
      destruct (IH (pre ++ [x]) w1) as (w2 & Hrest & H2).
      + rewrite <- app_assoc. exact Hl.
      + exact H1.
      + exists w2. split; [| exact H2].
        cbn [forEach]. rewrite (bind_step _ _ _ _ _ Hx). exact Hrest. }
  intros w Hw. apply (Hgen l [] w); [reflexivity | exact Hw].
Qed.

Lemma forEach_invariant {X} (I : World -> Prop) (l : list X) (body : X -> M unit) :
  (∀ x w, x ∈ l -> I w -> ∃ w', body x w = Returns tt w' ∧ I w') ->
  ∀ w, I w -> ∃ w', forEach l body w = Returns tt w' ∧ I w'.
Proof.
  intros Hbody w Hw.
  apply (forEach_indexed (λ _, I) l body); [| exact Hw].
  intros pre x post w0 Hl H0. apply Hbody; [| exact H0].
  rewrite Hl. apply elem_of_app. right. apply elem_of_cons. left. reflexivity.
Qed.

Lemma grownFrom_refl w : grownFrom w w.
Proof.
  unfold grownFrom. repeat split; try reflexivity.
  rewrite Nat.sub_diag. simpl. rewrite app_nil_r. reflexivity.
Qed.

Lemma grownFrom_trans w1 w2 w3 : grownFrom w1 w2 -> grownFrom w2 w3 -> grownFrom w1 w3.
Proof.
  intros (A1 & A2 & A3 & A4 & A5 & A6 & A7 & A8 & A9 & A10 & A11 & A12 & A13)
         (B1 & B2 & B3 & B4 & B5 & B6 & B7 & B8 & B9 & B10 & B11 & B12 & B13).
  unfold grownFrom.
  split; [congruence |]. split; [congruence |]. split; [congruence |].
  split; [congruence |]. split; [congruence |]. split; [congruence |].
  split; [congruence |]. split; [congruence |]. split; [lia |].
  split. { intros a Ha. rewrite B10 by lia. apply A10, Ha. }
  split; [congruence |].
  split; [| congruence].
  rewrite B12, A12, <- app_assoc. f_equal.
  replace (nextAddress (vtk w3) - nextAddress (vtk w1))%nat
    with ((nextAddress (vtk w2) - nextAddress (vtk w1))
          + (nextAddress (vtk w3) - nextAddress (vtk w2)))%nat by lia.
  rewrite seq_app. do 2 f_equal. lia.
Qed.


Lemma Inv_validBodyId w i : Inv w -> isBodyOfSystem i = true -> validBodyId w i.
Proof.
  intros (_ & Hlen & _) Hi. unfold validBodyId. rewrite Hlen.
  unfold isBodyOfSystem in Hi. apply andb_true_iff in Hi as [H1 H2].
  apply Z.leb_le in H1. apply Z.ltb_lt in H2. lia.
Qed.

(** a body record is updated, its list of proxies kept *)
Lemma step_modifyBody w0 w i f :
  Inv w -> grownFrom w0 w -> isBodyOfSystem i = true -> (∀ b, aList (f b) = aList b) ->
  ∃ b w',
    vectorIndex (bodies (rep w)) i = Some b
    ∧ modifyBody i f w = Returns tt w'
    ∧ Inv w' ∧ grownFrom w0 w'
    ∧ bodies (rep w') = <[Z.to_nat i := f b]> (bodies (rep w))
    ∧ vtk w' = vtk w
    ∧ cameraNeedsToBeReset (rep w') = cameraNeedsToBeReset (rep w).
Proof.
  intros HI Hg Hi Hf.
  destruct (validBodyId_index _ _ (Inv_validBodyId _ _ HI Hi)) as [b Hb].
  pose proof (modifyBody_Some w i f b Hb) as Hrun.
  eexists b, _. split; [exact Hb |]. split; [exact Hrun |].
  split; [exact (modifyBody_Inv _ _ _ _ Hf HI Hrun) |].
  split; [| split; [reflexivity | split; reflexivity]].
  eapply grownFrom_trans; [exact Hg |].
  unfold grownFrom, cameraResets, scene, rendererReleases. simpl.
  repeat split; try reflexivity.
  rewrite Nat.sub_diag. simpl. rewrite app_nil_r. reflexivity.
Qed.

(** a decoration is registered *)
Lemma step_addDecoration w0 w body X_GD g :
  Inv w -> grownFrom w0 w -> isBodyOfSystem body = true ->
  ∃ b w',
    vectorIndex (bodies (rep w)) body = Some b
    ∧ addDecoration body X_GD g w = Returns tt w'
    ∧ Inv w' ∧ grownFrom w0 w'
    ∧ bodies (rep w') =
      <[Z.to_nat body := mkBody (aList b ++ [Some (nextAddress (vtk w))])
                                (gList b ++ [setTransform (composeTransform X_GD (transform g)) g])
                                (defaultColorRGB b) (scale b)]> (bodies (rep w))
    ∧ actors (vtk w') =
      <[nextAddress (vtk w) :=
          styledActor (setTransform (composeTransform X_GD (transform g)) g)
                      (defaultColorRGB b)]> (actors (vtk w))
    ∧ nextAddress (vtk w') = S (nextAddress (vtk w))
    ∧ cameraNeedsToBeReset (rep w') = true.
Proof.
  intros HI Hg Hi.
  destruct (validBodyId_index _ _ (Inv_validBodyId _ _ HI Hi)) as [b Hb].
  destruct (Inv_renderer _ HI) as (rd & r & Hrd & Hr).
  pose proof (addDecoration_returns w body X_GD g b rd r Hb Hrd Hr) as Hrun.
  cbv zeta in Hrun.
  eexists b, _. split; [exact Hb |]. split; [exact Hrun |].
  split; [exact (addDecoration_Inv _ _ _ _ _ HI Hrun) |].
  split; [| repeat split; reflexivity].
  eapply grownFrom_trans; [exact Hg |].
  unfold grownFrom, cameraResets, scene, rendererReleases. simpl.
  rewrite Hrd, lookup_insert_eq, Hr. simpl.
  repeat split; try reflexivity.
  - lia.
  - intros a Ha. apply lookup_insert_ne. lia.
  - replace (S (nextAddress (vtk w)) - nextAddress (vtk w))%nat with 1%nat by lia.
    reflexivity.
Qed.


Lemma colorsOf_insert w b' i (w' : World) :
  bodies (rep w') = <[i := b']> (bodies (rep w)) ->
  colorsOf w' = <[i := defaultColorRGB b']> (colorsOf w).
Proof. intros Hb. unfold colorsOf. rewrite Hb. apply list_fmap_insert. Qed.

Lemma colorsOf_insert_same w b b' i (w' : World) :
  vectorIndex (bodies (rep w)) i = Some b ->
  bodies (rep w') = <[Z.to_nat i := b']> (bodies (rep w)) ->
  defaultColorRGB b' = defaultColorRGB b ->
  colorsOf w' = colorsOf w.
Proof.
  intros Hb Hb' Hc. rewrite (colorsOf_insert w b' _ w' Hb'), Hc.
  apply list_insert_id. unfold colorsOf. rewrite list_lookup_fmap.
  apply vectorIndex_Some in Hb as [_ ->]. reflexivity.
Qed.

Lemma settingUp_getBody w1 cs w i :
  settingUp w1 cs w -> isBodyOfSystem i = true ->
  ∃ b, getBody i w = Returns b w ∧ vectorIndex (bodies (rep w)) i = Some b.
Proof.
  intros (HI & _) Hi.
  destruct (validBodyId_index _ _ (Inv_validBodyId _ _ HI Hi)) as [b Hb].
  exists b. split; [apply getBody_Some, Hb | exact Hb].
Qed.

Lemma settingUp_setScale w1 cs w i y :
  settingUp w1 cs w -> isBodyOfSystem i = true ->
  ∃ w', modifyBody i (body_setScale y) w = Returns tt w' ∧ settingUp w1 cs w'.
Proof.
  intros (HI & Hg & Hv & Hf & Hc) Hi.
  destruct (step_modifyBody w1 w i (body_setScale y) HI Hg Hi (λ _, eq_refl))
    as (b & w' & Hb & Hrun & HI' & Hg' & Hb' & Hv' & Hf').
  exists w'. split; [exact Hrun |].
  split; [exact HI' |]. split; [exact Hg' |]. split; [congruence |].
  split; [congruence |].
  rewrite <- Hc. eapply colorsOf_insert_same; [exact Hb | exact Hb' | reflexivity].
Qed.

Lemma settingUp_setColor w1 cs w i c :
  settingUp w1 cs w -> isBodyOfSystem i = true ->
  ∃ w', setDefaultBodyColor i c w = Returns tt w'
        ∧ settingUp w1 (<[Z.to_nat i := c]> cs) w'.
Proof.
  intros (HI & Hg & Hv & Hf & Hc) Hi.
  destruct (step_modifyBody w1 w i (body_setColor c) HI Hg Hi (λ _, eq_refl))
    as (b & w' & Hb & Hrun & HI' & Hg' & Hb' & Hv' & Hf').
  exists w'. split; [exact Hrun |].
  split; [exact HI' |]. split; [exact Hg' |]. split; [congruence |].
  split; [congruence |].
  rewrite <- Hc. apply (colorsOf_insert w _ _ w' Hb').
Qed.

Lemma decorating_getBody w1 cs w i :
  decorating w1 cs w -> isBodyOfSystem i = true ->
  ∃ b, getBody i w = Returns b w ∧ vectorIndex (bodies (rep w)) i = Some b.
Proof.
  intros (HI & _) Hi.
  destruct (validBodyId_index _ _ (Inv_validBodyId _ _ HI Hi)) as [b Hb].
  exists b. split; [apply getBody_Some, Hb | exact Hb].
Qed.

Lemma decorating_addDecoration w1 cs w body X_GD g :
  decorating w1 cs w -> isBodyOfSystem body = true ->
  ∃ w', addDecoration body X_GD g w = Returns tt w' ∧ decorating w1 cs w'.
Proof.
  intros (HI & Hg & Hf & Hc) Hi.
  destruct (step_addDecoration w1 w body X_GD g HI Hg Hi)
    as (b & w' & Hb & Hrun & HI' & Hg' & Hb' & _ & _ & Hf').
  exists w'. split; [exact Hrun |].
  split; [exact HI' |]. split; [exact Hg' |]. split; [exact Hf' |].
  rewrite <- Hc. eapply colorsOf_insert_same; [exact Hb | exact Hb' | reflexivity].
Qed.

(** an optional decoration *)
Lemma decorating_if w1 cs w (c : bool) (m : M unit) :
  decorating w1 cs w ->
  (c = true -> ∃ w', m w = Returns tt w' ∧ decorating w1 cs w') ->
  ∃ w', (if c then m else mret tt) w = Returns tt w' ∧ decorating w1 cs w'.
Proof.
  intros Hw Hm. destruct c; [apply Hm; reflexivity |].
  exists w. split; [reflexivity | exact Hw].
Qed.


Lemma settingUp_scaleBody w1 cs w i :
  settingUp w1 cs w -> isBodyOfSystem i = true ->
  isBodyOfSystem (getParentMobilizedBodyId i) = true ->
  ∃ w', scaleBody i w = Returns tt w'
        ∧ settingUp w1 (<[Z.to_nat i := if getParentMobilizedBodyId i =? GroundId
                                        then DefaultBaseBodyColor else DefaultBodyColor]> cs) w'.
Proof.
  intros Hw Hi Hp. unfold scaleBody. cbv zeta.
  set (c := if getParentMobilizedBodyId i =? GroundId
            then DefaultBaseBodyColor else DefaultBodyColor).
  assert (Hcol : ∃ w2, (if getParentMobilizedBodyId i =? GroundId
                        then setDefaultBodyColor i DefaultBaseBodyColor
                        else setDefaultBodyColor i DefaultBodyColor) w = Returns tt w2
                       ∧ settingUp w1 (<[Z.to_nat i := c]> cs) w2).
  { unfold c. destruct (getParentMobilizedBodyId i =? GroundId);
      apply settingUp_setColor; assumption. }
  destruct Hcol as (w2 & Hrun2 & Hw2). rewrite (bind_step _ _ _ _ _ Hrun2).
  destruct (settingUp_getBody _ _ _ i Hw2 Hi) as (bi & Hbi & _).
  rewrite (bind_step _ _ _ _ _ Hbi).
  assert (H3 : ∃ w3, (if Real_gtb (norm (T (getDefaultOutboardFrame i))) (scale bi)
                      then modifyBody i (body_setScale (norm (T (getDefaultOutboardFrame i))))
                      else mret tt) w2 = Returns tt w3
                     ∧ settingUp w1 (<[Z.to_nat i := c]> cs) w3).
  { destruct (Real_gtb _ _); [apply settingUp_setScale; assumption |].
    exists w2. split; [reflexivity | exact Hw2]. }
  destruct H3 as (w3 & Hrun3 & Hw3). rewrite (bind_step _ _ _ _ _ Hrun3).
  destruct (settingUp_getBody _ _ _ _ Hw3 Hp) as (bp & Hbp & _).
  rewrite (bind_step _ _ _ _ _ Hbp).
  destruct (Real_gtb (norm (T (getDefaultInboardFrame i))) (scale bp));
    [apply settingUp_setScale; assumption |].
  exists w3. split; [reflexivity | exact Hw3].
Qed.

Lemma decorating_defaultGeometry w1 cs w i :
  decorating w1 cs w -> isBodyOfSystem i = true ->
  (0 < i -> isBodyOfSystem (getParentMobilizedBodyId i) = true) ->
  ∃ w', defaultGeometry i w = Returns tt w' ∧ decorating w1 cs w'.
Proof.
  intros Hw Hi Hp. unfold defaultGeometry.
  destruct (decorating_getBody _ _ _ i Hw Hi) as (bi & Hbi & _).
  rewrite (bind_step _ _ _ _ _ Hbi). cbv zeta.
  destruct (decorating_addDecoration w1 cs w i Transform_id
              (setLineThickness 2 (DecorativeFrame (scale bi * (1 # 2)))) Hw Hi)
    as (w2 & Hrun2 & Hw2).
  rewrite (bind_step _ _ _ _ _ Hrun2).
  assert (Hjoint : ∃ w3,
    (if 0 <? i then
       bp ← getBody (getParentMobilizedBodyId i);
       (if negb (Vec3_eqb (T (getDefaultOutboardFrame i)) (Vec3_of 0))
           || negb (Mat33_eqb (R (getDefaultOutboardFrame i)) (Mat33_of 1)) then
          addDecoration i (getDefaultOutboardFrame i) (DecorativeFrame (scale bi * (1 # 4)));;
          (if negb (Vec3_eqb (T (getDefaultOutboardFrame i)) (Vec3_of 0))
           then addDecoration i Transform_id
                  (DecorativeLine (Vec3_of 0) (T (getDefaultOutboardFrame i)))
           else mret tt)
        else mret tt);;
       c ← getDefaultBodyColor i;
       addDecoration (getParentMobilizedBodyId i) (getDefaultInboardFrame i)
         (setColor c (DecorativeFrame (scale bp * (1 # 4))));;
       (if negb (Vec3_eqb (T (getDefaultInboardFrame i)) (Vec3_of 0))
        then addDecoration (getParentMobilizedBodyId i) Transform_id
               (DecorativeLine (Vec3_of 0) (T (getDefaultInboardFrame i)))
        else mret tt)
     else mret tt) w2 = Returns tt w3 ∧ decorating w1 cs w3).
  { destruct (0 <? i) eqn:Hpos; [| exists w2; split; [reflexivity | exact Hw2]].
    apply Z.ltb_lt in Hpos. specialize (Hp Hpos).
    destruct (decorating_getBody _ _ _ _ Hw2 Hp) as (bp & Hbp & _).
    rewrite (bind_step _ _ _ _ _ Hbp).
    assert (Hout : ∃ w4,
      (if negb (Vec3_eqb (T (getDefaultOutboardFrame i)) (Vec3_of 0))
          || negb (Mat33_eqb (R (getDefaultOutboardFrame i)) (Mat33_of 1)) then
         addDecoration i (getDefaultOutboardFrame i) (DecorativeFrame (scale bi * (1 # 4)));;
         (if negb (Vec3_eqb (T (getDefaultOutboardFrame i)) (Vec3_of 0))
          then addDecoration i Transform_id
                 (DecorativeLine (Vec3_of 0) (T (getDefaultOutboardFrame i)))
          else mret tt)
       else mret tt) w2 = Returns tt w4 ∧ decorating w1 cs w4).
    { apply decorating_if; [exact Hw2 |]. intros _.
      destruct (decorating_addDecoration w1 cs w2 i (getDefaultOutboardFrame i)
                  (DecorativeFrame (scale bi * (1 # 4))) Hw2 Hi) as (w4 & Hrun4 & Hw4).
      rewrite (bind_step _ _ _ _ _ Hrun4).
      apply decorating_if; [exact Hw4 |]. intros _.
      apply decorating_addDecoration; assumption. }
    destruct Hout as (w4 & Hrun4 & Hw4). rewrite (bind_step _ _ _ _ _ Hrun4).
    destruct (decorating_getBody _ _ _ i Hw4 Hi) as (bi' & Hbi' & _).
    assert (Hc : getDefaultBodyColor i w4 = Returns (defaultColorRGB bi') w4).
    { unfold getDefaultBodyColor. rewrite (bind_step _ _ _ _ _ Hbi'). reflexivity. }
    rewrite (bind_step _ _ _ _ _ Hc).
    destruct (decorating_addDecoration w1 cs w4 (getParentMobilizedBodyId i)
                (getDefaultInboardFrame i)
                (setColor (defaultColorRGB bi') (DecorativeFrame (scale bp * (1 # 4)))) Hw4 Hp)
      as (w5 & Hrun5 & Hw5).
    rewrite (bind_step _ _ _ _ _ Hrun5).
    apply decorating_if; [exact Hw5 |]. intros _.
    apply decorating_addDecoration; assumption. }
  destruct Hjoint as (w3 & Hrun3 & Hw3). rewrite (bind_step _ _ _ _ _ Hrun3).
  destruct (decorating_addDecoration w1 cs w3 i (Transform_at (getMassCenter i))
              (setRepresentation DrawPoints
                 (setColor Purple (DecorativeSphere (scale bi * (1 # 20))))) Hw3 Hi)
    as (w6 & Hrun6 & Hw6).
  rewrite (bind_step _ _ _ _ _ Hrun6).
  apply decorating_if; [exact Hw6 |]. intros _.
  apply decorating_addDecoration; assumption.
Qed.


Lemma join_replicate_nil {A} n : mjoin (replicate n ([] : list A)) = [].
Proof. induction n as [| n IH]; [reflexivity | exact IH]. Qed.

Lemma setupWorld_Inv x reporter h : vacantHeap h -> Inv (setupWorld x reporter h).
Proof.
  intros [Hfresh Hdead].
  assert (Hown : ownedActors (rep (setupWorld x reporter h)) = []).
  { unfold ownedActors, persistentActors, dynamicActors. simpl.
    rewrite fmap_replicate. simpl. rewrite join_replicate_nil. reflexivity. }
  unfold Inv. rewrite Hown.
  split; [| split; [| split; [| split; [| split; [| split]]]]].
  - unfold Ready. simpl. rewrite !lookup_insert_eq. split; eauto.
  - simpl. apply length_replicate.
  - constructor.
  - constructor.
  - constructor.
  - simpl. intros a k Ha. apply Hfresh in Ha. lia.
  - simpl. intros a k Ha _. exact (Hdead _ _ Ha).
Qed.

(** the straight-line start of the constructor *)
Lemma construct_setup x reporter h :
  systemTopologyHasBeenRealized = true ->
  construct reporter (mkWorld (initialMembers x) h) =
  (forEach (bodyIdsFrom 0 getNBodies) (λ i, modifyBody i (body_setScale x));;
   setDefaultBodyColor GroundId DefaultGroundBodyColor;;
   forEach (bodyIdsFrom 1 getNBodies) scaleBody;;
   (if negb (Real_eqb x 0)
    then forEach (bodyIdsFrom 0 getNBodies) defaultGeometry else mret tt);;
   forEach (calcDecorativeGeometry defaultState Stage_Topology)
           (λ g, addDecoration (bodyId g) Transform_id g);;
   r ← getRep;
   onRenderer (renderer r) renderer_ResetCamera;;
   onRenderWindow (renWin r) window_Render) (setupWorld x reporter h).
Proof.
  intros Htopo. unfold construct. rewrite Htopo. cbn [negb].
  unfold mbind at 1, M_bind at 1. cbn [modifyRep].
  unfold mbind at 1, M_bind at 1. cbn [zeroPointers modifyRep].
  unfold mbind at 1, M_bind at 1. cbn [vtkRenderWindow_New].
  unfold mbind at 1, M_bind at 1. cbn [modifyRep].
  unfold mbind at 1, M_bind at 1. cbn [vtkRenderer_New].
  unfold mbind at 1, M_bind at 1. cbn [modifyRep].
  unfold mbind at 1, M_bind at 1. unfold onRenderWindow at 1. simpl.
  rewrite lookup_insert_eq.
  unfold mbind at 1, M_bind at 1. cbn [modifyRep].
  unfold mbind at 1, M_bind at 1. unfold getRep at 1. simpl.
  rewrite length_replicate, insert_insert_eq. reflexivity.
Qed.


Lemma isBodyOfSystem_range i : isBodyOfSystem i = true <-> 0 ≤ i < Z.of_nat getNBodies.
Proof.
  unfold isBodyOfSystem. rewrite andb_true_iff, Z.leb_le, Z.ltb_lt. reflexivity.
Qed.

(** the default colours while the scaling pass runs: ground's set, and
    those of the bodies of [pre] *)
Lemma lookup_colored (c : MobilizedBodyId -> Vec3) (pre : list MobilizedBodyId)
    (cs0 : list Vec3) (j : nat) :
  Forall (λ i, 0 ≤ i) pre ->
  foldl (λ cs i, <[Z.to_nat i := c i]> cs) cs0 pre !! j =
  if decide (Z.of_nat j ∈ pre) then (λ _, c (Z.of_nat j)) <$> (cs0 !! j) else cs0 !! j.
Proof.
  intros Hpos. induction pre as [| x pre IH] using rev_ind.
  - cbn [foldl]. destruct (decide (Z.of_nat j ∈ [])) as [Hin | _];
      [inversion Hin | reflexivity].
  - apply Forall_app in Hpos as [Hpre Hx]. apply Forall_cons in Hx as [Hx _].
    rewrite foldl_app. cbn [foldl]. specialize (IH Hpre).
    assert (Hlen : ∀ l (cs : list Vec3),
              length (foldl (λ cs i, <[Z.to_nat i := c i]> cs) cs l) = length cs).
    { clear. induction l as [| y l IHl]; intros cs; [reflexivity |].
      simpl. rewrite IHl. apply length_insert. }
    destruct (decide (Z.of_nat j ∈ pre ++ [x])) as [Hin' | Hout'].
    + destruct (decide (Z.to_nat x = j)) as [<- | Hne].
      * rewrite Z2Nat.id by exact Hx.
        destruct (cs0 !! Z.to_nat x) as [c0 |] eqn:Hc0.
        -- rewrite list_lookup_insert_eq; [reflexivity |].
           rewrite Hlen. apply lookup_lt_Some in Hc0. exact Hc0.
        -- simpl. apply lookup_ge_None. rewrite length_insert, Hlen.
           apply lookup_ge_None in Hc0. exact Hc0.
      * rewrite list_lookup_insert_ne by exact Hne. rewrite IH.
        destruct (decide (Z.of_nat j ∈ pre)) as [Hin | Hout]; [reflexivity |].
        apply elem_of_app in Hin' as [Hin' | Hin']; [contradiction |].
        apply elem_of_cons in Hin' as [Heq | Hin']; [| inversion Hin'].
        exfalso. apply Hne. rewrite <- Heq. apply Nat2Z.id.
    + assert (Hne : Z.to_nat x ≠ j).
      { intros <-. apply Hout', elem_of_app. right. rewrite Z2Nat.id by exact Hx.
        apply elem_of_cons. left. reflexivity. }
      rewrite list_lookup_insert_ne by exact Hne. rewrite IH.
      destruct (decide (Z.of_nat j ∈ pre)) as [Hin | Hout]; [| reflexivity].
      exfalso. apply Hout', elem_of_app. left. exact Hin.
Qed.


Lemma lookup_bodyIdsFrom_0 n (j : nat) :
  bodyIdsFrom 0 n !! j = if decide (j < n)%nat then Some (Z.of_nat j) else None.
Proof.
  unfold bodyIdsFrom. rewrite map_fmap, list_lookup_fmap, Nat.sub_0_r.
  case_decide as Hj.
  - rewrite lookup_seq_lt by exact Hj. reflexivity.
  - rewrite lookup_seq_ge by lia. reflexivity.
Qed.

(** the default colours when the scaling pass is over *)
Lemma constructed_colors :
  (0 < getNBodies)%nat ->
  foldl (λ cs i, <[Z.to_nat i := if getParentMobilizedBodyId i =? GroundId
                                 then DefaultBaseBodyColor else DefaultBodyColor]> cs)
        (<[Z.to_nat GroundId := DefaultGroundBodyColor]> (replicate getNBodies Black))
        (bodyIdsFrom 1 getNBodies)
  = constructedColor <$> bodyIdsFrom 0 getNBodies.
Proof.
  intros Hn. apply list_eq. intros j.
  rewrite (lookup_colored (λ i, if getParentMobilizedBodyId i =? GroundId
                                then DefaultBaseBodyColor else DefaultBodyColor)).
  2: { apply Forall_forall. intros i Hi. apply elem_of_bodyIdsFrom in Hi. lia. }
  rewrite list_lookup_fmap, lookup_bodyIdsFrom_0.
  destruct (decide (j < getNBodies)%nat) as [Hj | Hj].
  - simpl. unfold constructedColor, GroundId.
    destruct (decide (Z.of_nat j ∈ bodyIdsFrom 1 getNBodies)) as [Hin | Hout].
    + apply elem_of_bodyIdsFrom in Hin.
      rewrite list_lookup_insert_ne by lia.
      rewrite lookup_replicate_2 by exact Hj. simpl.
      destruct (Z.of_nat j =? 0) eqn:E; [apply Z.eqb_eq in E; lia | reflexivity].
    + assert (j = 0%nat) as ->.
      { destruct j as [| j]; [reflexivity |]. exfalso. apply Hout.
        apply elem_of_bodyIdsFrom. lia. }
      rewrite list_lookup_insert_eq by (rewrite length_replicate; exact Hj).
      reflexivity.
  - simpl.
    assert (Hnone : (<[Z.to_nat GroundId := DefaultGroundBodyColor]>
                       (replicate getNBodies Black)) !! j = None).
    { apply lookup_ge_None. rewrite length_insert, length_replicate. lia. }
    rewrite Hnone. destruct (decide _); reflexivity.
Qed.


Lemma colorsOf_setupWorld x reporter h :
  colorsOf (setupWorld x reporter h) = replicate getNBodies Black.
Proof. unfold colorsOf. simpl. apply fmap_replicate. Qed.

Lemma decorates_grown w w' n g b b' (a : nat) :
  decorates w a g ->
  (a < nextAddress (vtk w))%nat ->
  vectorIndex (bodies (rep w)) n = Some b ->
  bodies (rep w') = <[Z.to_nat n := b']> (bodies (rep w)) ->
  (∀ p, p ∈ aList b -> p ∈ aList b') ->
  (∀ d, d ∈ gList b -> d ∈ gList b') ->
  defaultColorRGB b' = defaultColorRGB b ->
  (∀ c, (c < nextAddress (vtk w))%nat -> actors (vtk w') !! c = actors (vtk w) !! c) ->
  decorates w' a g.
Proof.
  intros (b0 & Hb0 & Ha & Hg & Hk) Hlt Hb Hb' HA HG HC Hact.
  assert (Hn : 0 ≤ n) by (apply vectorIndex_Some in Hb; tauto).
  destruct (decide (bodyId g = n)) as [He | Hne].
  - rewrite He in Hb0. rewrite Hb in Hb0. injection Hb0 as <-.
    exists b'. split.
    { rewrite Hb', He. apply vectorIndex_insert_eq. eauto. }
    split; [apply HA, Ha |]. split; [apply HG, Hg |].
    rewrite Hact by exact Hlt. rewrite HC. exact Hk.
  - exists b0. split.
    { rewrite Hb'. rewrite vectorIndex_insert_ne by assumption. exact Hb0. }
    split; [exact Ha |]. split; [exact Hg |].
    rewrite Hact by exact Hlt. exact Hk.
Qed.

(** The constructor on a well-formed system, in a vacant heap. *)
Lemma construct_returns x reporter h :
  wellFormedSystem -> vacantHeap h ->
  ∃ w' n3,
    VTKReporterRep_new x reporter h = Returns tt w'
    ∧ Inv w'
    ∧ myHandle (rep w') = reporter
    ∧ cameraNeedsToBeReset (rep w') = true
    ∧ defaultBodyScaleForAutoGeometry (rep w') = x
    ∧ dynamicGeom (rep w') = []
    ∧ ephemeralGeometry (rep w') = []
    ∧ ephemeralActors (rep w') = []
    ∧ renWin (rep w') = Some (nextAddress h)
    ∧ renderer (rep w') = Some (S (nextAddress h))
    ∧ framesDrawn w' = 1%nat
    ∧ cameraResets w' = 1%nat
    ∧ windowReleases w' = 0%nat
    ∧ rendererReleases w' = 0%nat
    ∧ scene w' = seq (S (S (nextAddress h))) (nextAddress (vtk w') - S (S (nextAddress h)))
    ∧ (∀ a, (a < S (S (nextAddress h)))%nat -> actors (vtk w') !! a = actors h !! a)
    ∧ colorsOf w' = constructedColor <$> bodyIdsFrom 0 getNBodies
    ∧ (S (S (nextAddress h)) ≤ n3)%nat
    ∧ (Real_eqb x 0 = true -> n3 = S (S (nextAddress h)))
    ∧ nextAddress (vtk w') =
      (n3 + length (calcDecorativeGeometry defaultState Stage_Topology))%nat
    ∧ (∀ k g, calcDecorativeGeometry defaultState Stage_Topology !! k = Some g ->
              decorates w' (n3 + k) g).
Proof.
  intros (Htopo & Hn & Hparents & Hitems) Hvac.
  set (w1 := setupWorld x reporter h).
  pose proof (setupWorld_Inv x reporter h Hvac) as HI1. fold w1 in HI1.
  unfold VTKReporterRep_new. rewrite construct_setup by exact Htopo. fold w1.
  assert (Hground : isBodyOfSystem GroundId = true).
  { apply isBodyOfSystem_range. unfold GroundId. lia. }
  (* the scales *)
  assert (S1 : settingUp w1 (colorsOf w1) w1).
  { split; [exact HI1 |]. split; [apply grownFrom_refl |].
    split; [reflexivity |]. split; reflexivity. }
  destruct (forEach_invariant (settingUp w1 (colorsOf w1)) (bodyIdsFrom 0 getNBodies)
              (λ i, modifyBody i (body_setScale x))) with (w := w1) as (w2 & Hrun2 & S2).
  { intros i w Hi Hw. apply settingUp_setScale; [exact Hw |].
    apply isBodyOfSystem_range. apply elem_of_bodyIdsFrom in Hi. lia. }
  { exact S1. }
  rewrite (bind_step _ _ _ _ _ Hrun2). clear Hrun2 S1.
  (* the colours *)
  destruct (settingUp_setColor w1 _ w2 GroundId DefaultGroundBodyColor S2 Hground)
    as (w3 & Hrun3 & S3).
  rewrite (bind_step _ _ _ _ _ Hrun3). clear Hrun3 S2.
  destruct (forEach_indexed
              (λ pre, settingUp w1
                 (foldl (λ cs i, <[Z.to_nat i := if getParentMobilizedBodyId i =? GroundId
                                                then DefaultBaseBodyColor
                                                else DefaultBodyColor]> cs)
                        (<[Z.to_nat GroundId := DefaultGroundBodyColor]> (colorsOf w1)) pre))
              (bodyIdsFrom 1 getNBodies) scaleBody) with (w := w3) as (w4 & Hrun4 & S4).
  { intros pre i post w Hl Hw.
    assert (Hi : i ∈ bodyIdsFrom 1 getNBodies).
    { rewrite Hl. apply elem_of_app. right. apply elem_of_cons. left. reflexivity. }
    destruct (settingUp_scaleBody w1 _ w i Hw) as (w' & Hrun & Hw').
    - apply isBodyOfSystem_range. apply elem_of_bodyIdsFrom in Hi. lia.
    - rewrite Forall_forall in Hparents. apply Hparents, Hi.
    - exists w'. split; [exact Hrun |]. rewrite foldl_app. exact Hw'. }
  { exact S3. }
  rewrite (bind_step _ _ _ _ _ Hrun4). clear Hrun4 S3.
  unfold w1 in S4 at 2. rewrite colorsOf_setupWorld, (constructed_colors Hn) in S4. fold w1 in S4.
  set (cs := constructedColor <$> bodyIdsFrom 0 getNBodies) in *.
  destruct S4 as (HI4 & Hg4 & Hv4 & Hf4 & Hc4).
  assert (D4 : decorating w1 cs w4).
  { split; [exact HI4 |]. split; [exact Hg4 |]. split; [exact Hf4 | exact Hc4]. }
  (* the default geometry *)
  assert (H5 : ∃ w5, (if negb (Real_eqb x 0)
                      then forEach (bodyIdsFrom 0 getNBodies) defaultGeometry
                      else mret tt) w4 = Returns tt w5
                     ∧ decorating w1 cs w5
                     ∧ (Real_eqb x 0 = true -> nextAddress (vtk w5) = nextAddress (vtk w1))).
  { destruct (Real_eqb x 0); simpl.
    - exists w4. split; [reflexivity |]. split; [exact D4 |]. intros _. rewrite Hv4.
      reflexivity.
    - destruct (forEach_invariant (decorating w1 cs) (bodyIdsFrom 0 getNBodies)
                  defaultGeometry) with (w := w4) as (w5 & Hrun5 & D5).
      + intros i w Hi Hw. apply elem_of_bodyIdsFrom in Hi.
        apply decorating_defaultGeometry; [exact Hw | |].
        * apply isBodyOfSystem_range. lia.
        * intros Hpos. rewrite Forall_forall in Hparents. apply Hparents.
          apply elem_of_bodyIdsFrom. lia.
      + exact D4.
      + exists w5. split; [exact Hrun5 |]. split; [exact D5 |]. discriminate. }
  destruct H5 as (w5 & Hrun5 & D5 & Hskip).
  rewrite (bind_step _ _ _ _ _ Hrun5). clear Hrun5 D4.
  (* the system's geometry *)
  set (n3 := nextAddress (vtk w5)) in *.
  destruct (forEach_indexed
              (λ pre w, decorating w1 cs w
                        ∧ nextAddress (vtk w) = (n3 + length pre)%nat
                        ∧ ∀ k g, pre !! k = Some g -> decorates w (n3 + k) g)
              (calcDecorativeGeometry defaultState Stage_Topology)
              (λ g, addDecoration (bodyId g) Transform_id g)) with (w := w5)
    as (w6 & Hrun6 & D6 & Hnext6 & Hdec6).
  { intros pre g post w Hl ((HI & Hg & Hf & Hc) & Hnext & Hdec).
    assert (Hvalid : isBodyOfSystem (bodyId g) = true).
    { unfold validItems in Hitems. rewrite Forall_forall in Hitems. apply Hitems.
      rewrite Hl. apply elem_of_app. right. apply elem_of_cons. left. reflexivity. }
    destruct (step_addDecoration w1 w (bodyId g) Transform_id g HI Hg Hvalid)
      as (b & w' & Hb & Hrun & HI' & Hg' & Hb' & Hact' & Hnext' & Hf').
    exists w'. split; [exact Hrun |]. split; [| split].
    - split; [exact HI' |]. split; [exact Hg' |]. split; [exact Hf' |].
      rewrite <- Hc. eapply colorsOf_insert_same; [exact Hb | exact Hb' | reflexivity].
    - rewrite Hnext', Hnext, length_app. simpl. lia.
    - intros k g' Hk.
      destruct (decide (k < length pre)%nat) as [Hlt | Hge].
      + rewrite lookup_app_l in Hk by exact Hlt.
        eapply (decorates_grown w w' (bodyId g)); [apply Hdec, Hk | lia | exact Hb | exact Hb'
                                                  | | | reflexivity |].
        * intros p Hp. simpl. apply elem_of_app. left. exact Hp.
        * intros d Hd. simpl. apply elem_of_app. left. exact Hd.
        * intros c Hc'. rewrite Hact'. apply lookup_insert_ne. lia.
      + rewrite lookup_app_r in Hk by lia.
        destruct (k - length pre)%nat as [| m] eqn:Hm; [| destruct m; discriminate].
        injection Hk as <-. assert (k = length pre) as -> by lia.
        eexists. split; [rewrite Hb'; apply vectorIndex_insert_eq; eauto |].
        simpl. rewrite <- Hnext.
        split; [apply elem_of_app; right; apply elem_of_cons; left; reflexivity |].
        split; [apply elem_of_app; right; apply elem_of_cons; left; reflexivity |].
        rewrite Hact'. apply lookup_insert_eq. }
  { split; [exact D5 |]. split; [simpl; lia |]. intros k g Hk. inversion Hk. }
  rewrite (bind_step _ _ _ _ _ Hrun6). clear Hrun6.
  (* the first frame *)
  destruct D6 as (HI6 & Hg6 & Hf6 & Hc6).
  destruct Hg6 as (G1 & G2 & G3 & G4 & G5 & G6 & G7 & G8 & G9 & G10 & G11 & G12 & G13).
  assert (Hrd : renderer (rep w6) = Some (S (nextAddress h))) by (rewrite G7; reflexivity).
  assert (Hwin : renWin (rep w6) = Some (nextAddress h)) by (rewrite G6; reflexivity).
  destruct (Inv_renderer _ HI6) as (rd & r & Hrd' & Hr).
  rewrite Hrd in Hrd'. injection Hrd' as <-.
  unfold mbind at 1, M_bind at 1, getRep at 1.
  unfold mbind at 1, M_bind at 1. rewrite Hrd, Hwin.
  unfold onRenderer at 1. rewrite Hr.
  unfold onRenderWindow. cbn [vtk renderWindows heap_setRenderers].
  rewrite G8. unfold w1 at 1. cbn [vtk setupWorld renderWindows]. rewrite lookup_insert_eq.
  eexists _, n3. split; [reflexivity |].
  split.
  { destruct HI6 as (H1 & H2 & H3 & H4 & H5 & H6 & H7).
    split; [| repeat split; assumption].
    unfold Ready. cbn [rep vtk renWin renderer renderWindows renderers heap_setRenderWindows
                       heap_setRenderers]. rewrite Hrd, Hwin, !lookup_insert_eq.
    split; eauto. }
  cbn [rep vtk].
  split; [rewrite G1; reflexivity |]. split; [exact Hf6 |].
  split; [rewrite G2; reflexivity |]. split; [rewrite G3; reflexivity |].
  split; [rewrite G4; reflexivity |]. split; [rewrite G5; reflexivity |].
  split; [exact Hwin |]. split; [exact Hrd |].
  split.
  { unfold framesDrawn. cbn [rep vtk renderWindows heap_setRenderWindows].
    rewrite Hwin, lookup_insert_eq. reflexivity. }
  split.
  { unfold cameraResets in *. cbn [rep vtk renderers heap_setRenderers heap_setRenderWindows].
    rewrite Hrd, lookup_insert_eq. rewrite Hrd, Hr in G11. simpl in G11. simpl.
    rewrite G11. unfold w1. simpl. rewrite lookup_insert_eq. reflexivity. }
  split.
  { unfold windowReleases. cbn [rep vtk renderWindows heap_setRenderWindows].
    rewrite Hwin, lookup_insert_eq. reflexivity. }
  split.
  { unfold rendererReleases in *.
    cbn [rep vtk renderers heap_setRenderers heap_setRenderWindows].
    rewrite Hrd, lookup_insert_eq. rewrite Hrd, Hr in G13. simpl in G13. simpl.
    rewrite G13. unfold w1. simpl. rewrite lookup_insert_eq. reflexivity. }
  split.
  { unfold scene in *. cbn [rep vtk renderers heap_setRenderers heap_setRenderWindows
                            nextAddress].
    rewrite Hrd, lookup_insert_eq. rewrite Hrd, Hr in G12. simpl in G12. simpl.
    rewrite G12. unfold w1. simpl. rewrite lookup_insert_eq. reflexivity. }
  split.
  { intros a Ha. cbn [actors heap_setRenderers heap_setRenderWindows].
    rewrite G10 by (unfold w1; simpl; lia). reflexivity. }
  split; [exact Hc6 |].
  split.
  { destruct D5 as (_ & G5' & _). unfold n3. apply G5'. }
  split.
  { intros Hx. exact (Hskip Hx). }
  split; [exact Hnext6 |].
  intros k g Hk. destruct (Hdec6 k g Hk) as (b & Hb & Ha & Hgl & Hact).
  exists b. repeat split; assumption.
Qed.


Lemma validLines_nil r : dynamicGeom r = [] -> validLines r.
Proof. intros Hd. unfold validLines. rewrite Hd. constructor. Qed.

Lemma constructor_requires_topology x reporter h :
  systemTopologyHasBeenRealized = false ->
  VTKReporterRep_new x reporter h = Throws Exception_Cant (mkWorld (initialMembers x) h).
Proof. intros Htopo. unfold VTKReporterRep_new, construct. rewrite Htopo. reflexivity. Qed.

(** X8. The constructor refuses a system whose topology has not been
    realized: it raises [Exception::Cant] before it creates the window,
    the renderer or any proxy.  Given a system whose topology has been
    realized and whose body ids are in range, and a heap with no live
    actor of another owner, it returns a well-formed reporter: owned by
    the handle it was given, with nothing pending and no rubber-band
    line, with a window and a renderer of its own at the first two free
    addresses, with every proxy it has created in the scene in creation
    order, and with the actors that were in the heap before untouched. *)
Theorem constructor_establishes_invariant x reporter h :
  vacantHeap h ->
  (systemTopologyHasBeenRealized = false ->
   VTKReporterRep_new x reporter h = Throws Exception_Cant (mkWorld (initialMembers x) h))
  ∧ (wellFormedSystem ->
     ∃ w',
       VTKReporterRep_new x reporter h = Returns tt w'
       ∧ Inv w' ∧ validLines (rep w')
       ∧ myHandle (rep w') = reporter
       ∧ defaultBodyScaleForAutoGeometry (rep w') = x
       ∧ dynamicGeom (rep w') = []
       ∧ ephemeralGeometry (rep w') = []
       ∧ ephemeralActors (rep w') = []
       ∧ renWin (rep w') = Some (nextAddress h)
       ∧ renderer (rep w') = Some (S (nextAddress h))
       ∧ scene w' = seq (S (S (nextAddress h)))
                        (nextAddress (vtk w') - S (S (nextAddress h)))
       ∧ (∀ a k, actors h !! a = Some k -> actors (vtk w') !! a = Some k)).
Proof.
  intros Hvac. split; [apply constructor_requires_topology |]. intros Hsys.
  destruct (construct_returns x reporter h Hsys Hvac)
    as (w' & n3 & Hrun & HI & Hh & Hf & Hx & Hd & Hg & Ha & Hw & Hr & Hfr & Hcr & Hwr & Hrr
        & Hsc & Hold & _).
  exists w'. split; [exact Hrun |]. split; [exact HI |].
  split; [apply validLines_nil, Hd |].
  do 8 (split; [assumption |]).
  intros a k Hk. rewrite Hold; [exact Hk |].
  destruct Hvac as [Hfresh _]. apply Hfresh in Hk. lia.
Qed.


(** X9. The constructor colours the bodies by their place in the tree:
    ground green, the bodies attached to ground red, every other body
    gray.  Each item the system contributes at the Topology stage gets a
    proxy of its own: the proxies of the items are live actors at
    consecutive addresses, in the order the system lists the items; the
    proxy of an item is owned by the item's body, is in the scene, shows
    the item's shape, and has the item's colour, or the default colour of
    the item's body when the item has none. *)
Theorem constructor_colors_bodies x reporter h :
  wellFormedSystem -> vacantHeap h ->
  ∃ w',
    VTKReporterRep_new x reporter h = Returns tt w'
    ∧ getDefaultBodyColor GroundId w' = Returns Green w'
    ∧ (∀ i, isBodyOfSystem i = true -> i ≠ GroundId ->
            getDefaultBodyColor i w' =
            Returns (if getParentMobilizedBodyId i =? GroundId then Red else Gray) w')
    ∧ ∃ first,
        ∀ k g, calcDecorativeGeometry defaultState Stage_Topology !! k = Some g ->
          ∃ b p,
            vectorIndex (bodies (rep w')) (bodyId g) = Some b
            ∧ Some (first + k)%nat ∈ aList b
            ∧ actors (vtk w') !! (first + k)%nat = Some p
            ∧ actorDeletes p = 0%nat
            ∧ mapperInput p = Some (Some (getVTKPolyData (placedOnBody g)))
            ∧ propColor p =
              (if Qeq_bool (vx (colorRGB g)) (-1)
               then (if bodyId g =? GroundId then Green
                     else if getParentMobilizedBodyId (bodyId g) =? GroundId then Red
                          else Gray)
               else colorRGB g)
            ∧ (first + k)%nat ∈ scene w'.
Proof.
  intros Hsys Hvac.
  destruct (construct_returns x reporter h Hsys Hvac)
    as (w' & n3 & Hrun & HI & Hh & Hf & Hx & Hd & Hg & Ha & Hw & Hr & Hfr & Hcr & Hwr & Hrr
        & Hsc & Hold & Hcol & Hn3 & Hskip & Hnext & Hdec).
  assert (Hcolor : ∀ i b, vectorIndex (bodies (rep w')) i = Some b ->
                          defaultColorRGB b = constructedColor i).
  { intros i b Hb. apply vectorIndex_Some in Hb as [Hi Hb].
    assert (Hl : colorsOf w' !! Z.to_nat i = Some (defaultColorRGB b)).
    { unfold colorsOf. rewrite list_lookup_fmap, Hb. reflexivity. }
    rewrite Hcol, list_lookup_fmap, lookup_bodyIdsFrom_0 in Hl.
    destruct (decide _); [| discriminate]. simpl in Hl. injection Hl as <-.
    rewrite Z2Nat.id by exact Hi. reflexivity. }
  assert (Hget : ∀ i, isBodyOfSystem i = true ->
                      getDefaultBodyColor i w' = Returns (constructedColor i) w').
  { intros i Hi.
    destruct (validBodyId_index _ _ (Inv_validBodyId _ _ HI Hi)) as [b Hb].
    unfold getDefaultBodyColor. rewrite (bind_step _ _ _ _ _ (getBody_Some _ _ _ Hb)).
    rewrite <- (Hcolor i b Hb). reflexivity. }
  exists w'. split; [exact Hrun |].
  split.
  { apply (Hget GroundId). apply isBodyOfSystem_range. destruct Hsys as (_ & Hn & _).
    unfold GroundId. lia. }
  split.
  { intros i Hi Hne. rewrite (Hget i Hi). unfold constructedColor.
    destruct (i =? GroundId) eqn:E; [apply Z.eqb_eq in E; contradiction | reflexivity]. }
  exists n3. intros k g Hk.
  destruct (Hdec k g Hk) as (b & Hb & Hal & Hgl & Hact).
  exists b, (styledActor (placedOnBody g) (defaultColorRGB b)).
  split; [exact Hb |]. split; [exact Hal |]. split; [exact Hact |].
  split; [reflexivity |]. split; [reflexivity |]. split.
  - rewrite (Hcolor _ _ Hb). unfold styledActor, resolveColor, placedOnBody, colorIsSet,
      Real_eqb, constructedColor. simpl.
    destruct (Qeq_bool (vx (colorRGB g)) (-1)); reflexivity.
  - rewrite Hsc. apply elem_of_seq. apply lookup_lt_Some in Hk. lia.
Qed.


(** X10. The constructor draws the first frame itself, after resetting the
    camera, and leaves the reset request set: the first report resets
    the camera once more before it draws the second frame. *)
Theorem constructor_draws_first_frame x reporter h s :
  wellFormedSystem -> vacantHeap h -> reportable s ->
  ∃ w' w'',
    VTKReporterRep_new x reporter h = Returns tt w'
    ∧ framesDrawn w' = 1%nat ∧ cameraResets w' = 1%nat
    ∧ cameraNeedsToBeReset (rep w') = true
    ∧ report s w' = Returns tt w''
    ∧ framesDrawn w'' = 2%nat ∧ cameraResets w'' = 2%nat
    ∧ cameraNeedsToBeReset (rep w'') = false.
Proof.
  intros Hsys Hvac Hs.
  destruct (construct_returns x reporter h Hsys Hvac)
    as (w' & n3 & Hrun & HI & Hh & Hf & Hx & Hd & Hg & Ha & Hw & Hr & Hfr & Hcr & _).
  unfold reportable in Hs. destruct (realize s Stage_Position) as [s' |] eqn:Hreal;
    [| contradiction].
  assert (Hrep : report s w' = Returns tt (reportedWorld s' w')).
  { apply report_returns; [apply Inv_Operable, HI | apply validLines_nil, Hd | exact Hreal |].
    rewrite Hg. exact Hs. }
  pose proof (framesDrawn_reported s' w' (proj1 HI)) as Hfr2.
  pose proof (cameraResets_reported s' w' (proj1 HI)) as Hcr2.
  rewrite Hf in Hcr2.
  pose proof (reportedWorld_rep s' w') as Hrep2.
  remember (reportedWorld s' w') as w'' eqn:E. clear E.
  exists w', w''. split; [exact Hrun |]. split; [exact Hfr |]. split; [exact Hcr |].
  split; [exact Hf |]. split; [exact Hrep |].
  split; [rewrite Hfr2, Hfr; reflexivity |]. split; [rewrite Hcr2, Hcr; reflexivity |].
  rewrite Hrep2. reflexivity.
Qed.

(** X11. With the default scale 0 the constructor generates no geometry of
    its own: the persistent proxies are exactly those of the items the
    system contributes at the Topology stage, one each, created and
    added to the scene in the order the system lists them, each in the
    lists of its item's body. *)
Theorem suppressed_default_geometry x reporter h :
  wellFormedSystem -> vacantHeap h -> Real_eqb x 0 = true ->
  ∃ w',
    VTKReporterRep_new x reporter h = Returns tt w'
    ∧ scene w' = seq (S (S (nextAddress h)))
                     (length (calcDecorativeGeometry defaultState Stage_Topology))
    ∧ persistentActors (rep w')
      ≡ₚ Some <$> seq (S (S (nextAddress h)))
                      (length (calcDecorativeGeometry defaultState Stage_Topology))
    ∧ ∀ k g, calcDecorativeGeometry defaultState Stage_Topology !! k = Some g ->
             decorates w' (S (S (nextAddress h)) + k) g.
Proof.
  intros Hsys Hvac Hzero.
  destruct (construct_returns x reporter h Hsys Hvac)
    as (w' & n3 & Hrun & HI & Hh & Hf & Hx & Hd & Hg & Ha & Hw & Hr & Hfr & Hcr & Hwr & Hrr
        & Hsc & Hold & Hcol & Hn3 & Hskip & Hnext & Hdec).
  specialize (Hskip Hzero). subst n3.
  set (items := calcDecorativeGeometry defaultState Stage_Topology) in *.
  set (base := S (S (nextAddress h))) in *.
  exists w'. split; [exact Hrun |].
  split. { rewrite Hsc, Hnext. f_equal. lia. }
  split; [| exact Hdec].
  assert (Hown : ownedActors (rep w') = persistentActors (rep w')).
  { unfold ownedActors, dynamicActors. rewrite Hd, Ha. simpl. apply app_nil_r. }
  apply NoDup_Permutation.
  - rewrite <- Hown. apply HI.
  - apply NoDup_fmap_2; [intros ? ? [= ->]; reflexivity | apply NoDup_seq].
  - intros p. split.
    + intros Hp. rewrite <- Hown in Hp.
      destruct (Inv_owned_fresh _ _ HI Hp) as (a & -> & Hlt).
      apply list_elem_of_fmap. exists a. split; [reflexivity |].
      apply elem_of_seq. split; [| lia].
      destruct (decide (base ≤ a)%nat) as [Hle | Hgt]; [exact Hle |]. exfalso.
      destruct HI as (_ & _ & _ & Hlive & _).
      rewrite Forall_forall in Hlive. specialize (Hlive _ Hp). unfold liveActor in Hlive.
      rewrite Hold in Hlive by lia.
      destruct (actors h !! a) as [k |] eqn:Hk; [| contradiction].
      destruct Hvac as [_ Hdead]. specialize (Hdead _ _ Hk). simpl in Hdead. lia.
    + intros Hp. apply list_elem_of_fmap in Hp as (a & -> & Ha').
      apply elem_of_seq in Ha' as [Hle Hlt].
      destruct (lookup_lt_is_Some_2 items (a - base)) as [g Hgk]; [lia |].
      destruct (Hdec _ g Hgk) as (b & Hb & Hal & _).
      replace (base + (a - base))%nat with a in Hal by lia.
      eapply aList_persistent; eassumption.
Qed.

(** ** The reporter in use *)

Lemma Inv_same_actors w w' :
  rep w' = rep w -> actors (vtk w') = actors (vtk w) ->
  nextAddress (vtk w') = nextAddress (vtk w) -> Ready w' -> Inv w -> Inv w'.
Proof.
  destruct w as [r [a rs ws n]], w' as [r' [a' rs' ws' n']]. simpl.
  intros -> -> -> Hr (H1 & H2 & H3 & H4 & H5 & H6 & H7).
  split; [exact Hr |]. repeat split; assumption.
Qed.

Lemma rendererReleases_reported s w :
  rendererReleases (reportedWorld s w) = rendererReleases w.
Proof.
  unfold rendererReleases. rewrite reportedWorld_rep. cbn [renderer].
  destruct (renderer (rep w)) as [rd |] eqn:Hrd; [| reflexivity].
  rewrite (reportedWorld_renderers s w rd Hrd), lookup_alter_eq.
  destruct (renderers (vtk w) !! rd); reflexivity.
Qed.

(** Every operation the caller is entitled to leaves the reporter in
    service, with the window and the renderer it had. *)
Lemma perform_inService w c :
  inService w -> admissible c ->
  ∃ w', perform c w = Returns tt w' ∧ inService w'
        ∧ renWin (rep w') = renWin (rep w) ∧ renderer (rep w') = renderer (rep w).
Proof.
  intros (HI & HL & HV & HW & HR) Hc.
  destruct (Inv_renderer _ HI) as (rd & r & Hrd & Hr).
  destruct c as [body X_GD g | b1 st1 b2 st2 g | g | bodyNum rgb | bodyNum x | | | | s];
    simpl in Hc; cbn [perform].
  - destruct (validBodyId_index _ _ (Inv_validBodyId _ _ HI Hc)) as [b Hb].
    pose proof (addDecoration_returns w body X_GD g b rd r Hb Hrd Hr) as Hrun.
    cbv zeta in Hrun. eexists. split; [exact Hrun |].
    split; [| split; reflexivity].
    split; [exact (addDecoration_Inv _ _ _ _ _ HI Hrun) |].
    split; [exact HL |]. split; [exact HV |].
    unfold windowReleases, rendererReleases in *. simpl. rewrite Hrd in *.
    rewrite lookup_insert_eq. rewrite Hr in HR. split; [exact HW | exact HR].
  - pose proof (addRubberBandLine_returns w b1 st1 b2 st2 g rd r Hrd Hr) as Hrun.
    cbv zeta in Hrun. eexists. split; [exact Hrun |].
    split; [| split; reflexivity].
    split; [exact (addRubberBandLine_Inv _ _ _ _ _ _ _ HI Hrun) |].
    split. { unfold validLines. simpl. apply Forall_app. split; [exact HL |].
             constructor; [exact Hc | constructor]. }
    split; [exact HV |].
    unfold windowReleases, rendererReleases in *. simpl. rewrite Hrd in *.
    rewrite lookup_insert_eq. rewrite Hr in HR. split; [exact HW | exact HR].
  - eexists. split; [apply addEphemeralDecoration_returns |].
    split; [| split; reflexivity].
    split; [eapply addEphemeralDecoration_Inv; [exact HI | apply addEphemeralDecoration_returns] |].
    split; [exact HL |].
    split. { simpl. apply validItems_app. split; [exact HV |]. constructor; [exact Hc |].
             constructor. }
    split; [exact HW | exact HR].
  - destruct (validBodyId_index _ _ (Inv_validBodyId _ _ HI Hc)) as [b Hb].
    pose proof (modifyBody_Some w bodyNum (body_setColor rgb) b Hb) as Hrun.
    eexists. split; [exact Hrun |]. split; [| split; reflexivity].
    split; [exact (modifyBody_Inv w _ bodyNum (body_setColor rgb) (λ _, eq_refl) HI Hrun) |].
    split; [exact HL |]. split; [exact HV |]. split; [exact HW | exact HR].
  - destruct (validBodyId_index _ _ (Inv_validBodyId _ _ HI Hc)) as [b Hb].
    pose proof (modifyBody_Some w bodyNum (body_setScale x) b Hb) as Hrun.
    eexists. split; [exact Hrun |]. split; [| split; reflexivity].
    split; [exact (modifyBody_Inv w _ bodyNum (body_setScale x) (λ _, eq_refl) HI Hrun) |].
    split; [exact HL |]. split; [exact HV |]. split; [exact HW | exact HR].
  - eexists. split; [reflexivity |]. split; [| split; reflexivity].
    split; [apply (Inv_same_pointers w); [reflexivity .. | exact HI] |].
    split; [exact HL |]. split; [exact HV |]. split; [exact HW | exact HR].
  - eexists. split; [reflexivity |]. split; [| split; reflexivity].
    split; [apply (Inv_same_pointers w); [reflexivity .. | exact HI] |].
    split; [exact HL |]. split; [exact HV |]. split; [exact HW | exact HR].
  - eexists. split.
    { unfold zoomCameraToIncludeAllGeometry, mbind, M_bind, getRep. rewrite Hrd.
      unfold onRenderer. rewrite Hr. reflexivity. }
    split; [| split; reflexivity].
    split.
    { apply (Inv_same_actors w); [reflexivity | reflexivity | reflexivity | | exact HI].
      apply (Ready_same w); [reflexivity | reflexivity | | | apply HI].
      - intros a Ha. exact Ha.
      - intros a Ha. simpl. rewrite lookup_insert_is_Some.
        destruct (decide (rd = a)); auto. }
    split; [exact HL |]. split; [exact HV |].
    unfold windowReleases, rendererReleases in *. simpl. rewrite Hrd in *.
    rewrite lookup_insert_eq. rewrite Hr in HR. split; [exact HW | exact HR].
  - unfold reportable in Hc.
    destruct (realize s Stage_Position) as [s' |] eqn:Hreal; [| contradiction].
    assert (Hrun : report s w = Returns tt (reportedWorld s' w)).
    { apply report_returns; [apply Inv_Operable, HI | exact HL | exact Hreal |].
      apply validItems_app. split; assumption. }
    pose proof (reportedWorld_Inv s' w HI) as HI1.
    pose proof (reportedWorld_validLines s' w HL) as HL1.
    pose proof (reportedWorld_rep s' w) as Hrep.
    pose proof (windowReleases_reported s' w) as HW1.
    pose proof (rendererReleases_reported s' w) as HR1.
    remember (reportedWorld s' w) as w1 eqn:E. clear E.
    exists w1. split; [exact Hrun |].
    split; [| rewrite Hrep; split; reflexivity].
    split; [exact HI1 |]. split; [exact HL1 |].
    split; [rewrite Hrep; constructor |].
    split; congruence.
Qed.

Lemma performAll_inService w cs :
  inService w -> Forall admissible cs ->
  ∃ w', forEach cs perform w = Returns tt w' ∧ inService w'
        ∧ renWin (rep w') = renWin (rep w) ∧ renderer (rep w') = renderer (rep w).
Proof.
  intros Hw Hcs. revert w Hw. induction Hcs as [| c cs Hc Hcs IH]; intros w Hw.
  - exists w. split; [reflexivity |]. split; [exact Hw |]. split; reflexivity.
  - destruct (perform_inService w c Hw Hc) as (w1 & Hrun1 & Hw1 & E1 & E2).
    destruct (IH w1 Hw1) as (w2 & Hrun2 & Hw2 & E3 & E4).
    exists w2. cbn [forEach]. rewrite (bind_step _ _ _ _ _ Hrun1).
    split; [exact Hrun2 |]. split; [exact Hw2 |]. split; congruence.
Qed.


Lemma disposed_actor w a k :
  Inv w -> actors (vtk (disposedWorld w)) !! a = Some k ->
  actorDeletes k = 1%nat ∧ (a < nextAddress (vtk w))%nat.
Proof.
  intros (_ & _ & Hnd & Hlive & _ & Hfresh & Hdead) Hk.
  unfold disposedWorld in Hk. simpl in Hk.
  destruct (decide (Some a ∈ ownedActors (rep w))) as [Hin | Hout].
  - rewrite lookup_applyAll_once in Hk by assumption.
    rewrite Forall_forall in Hlive. specialize (Hlive _ Hin). unfold liveActor in Hlive.
    destruct (actors (vtk w) !! a) as [k0 |] eqn:Hk0; [| contradiction].
    simpl in Hk. injection Hk as <-. simpl. rewrite Hlive.
    split; [reflexivity | exact (Hfresh _ _ Hk0)].
  - rewrite lookup_applyAll_notin in Hk by assumption.
    split; [exact (Hdead _ _ Hk Hout) | exact (Hfresh _ _ Hk)].
Qed.

(** X12. A reporter constructed for a well-formed system, used in any way
    the caller is entitled to and then destroyed never fails, and
    releases exactly once every proxy it has created on the way, its
    window and its renderer.  The heap it leaves is vacant again: the
    next reporter can be constructed in it. *)
Theorem every_resource_released_once x reporter h cs :
  wellFormedSystem -> vacantHeap h -> Forall admissible cs ->
  ∃ w',
    lifetime reporter cs (mkWorld (initialMembers x) h) = Returns tt w'
    ∧ (∀ a k, actors (vtk w') !! a = Some k -> actorDeletes k = 1%nat)
    ∧ (∃ o, renderWindows (vtk w') !! nextAddress h = Some o ∧ windowDeletes o = 1%nat)
    ∧ (∃ r, renderers (vtk w') !! S (nextAddress h) = Some r ∧ rendererDeletes r = 1%nat)
    ∧ renWin (rep w') = None ∧ renderer (rep w') = None
    ∧ Forall (λ p, p = None) (ownedActors (rep w'))
    ∧ vacantHeap (vtk w').
Proof.
  intros Hsys Hvac Hcs.
  destruct (construct_returns x reporter h Hsys Hvac)
    as (w1 & n3 & Hrun1 & HI1 & _ & _ & _ & Hd1 & Hg1 & _ & Hw1 & Hr1 & _ & _ & Hwr1 & Hrr1 & _).
  assert (S1 : inService w1).
  { split; [exact HI1 |]. split; [apply validLines_nil, Hd1 |].
    split; [rewrite Hg1; constructor |]. split; assumption. }
  destruct (performAll_inService w1 cs S1 Hcs) as (w2 & Hrun2 & S2 & Ew & Er).
  destruct S2 as (HI2 & _ & _ & Hwr2 & Hrr2).
  rewrite Hw1 in Ew. rewrite Hr1 in Er.
  pose proof (deletePointers_returns w2 (Inv_Operable _ HI2)) as Hrun3.
  exists (disposedWorld w2). split.
  { unfold lifetime. unfold VTKReporterRep_new in Hrun1.
    rewrite (bind_step _ _ _ _ _ Hrun1), (bind_step _ _ _ _ _ Hrun2). exact Hrun3. }
  split. { intros a k Hk. exact (proj1 (disposed_actor w2 a k HI2 Hk)). }
  pose proof (proj1 HI2) as Hready. unfold Ready in Hready. rewrite Ew, Er in Hready.
  destruct Hready as [[o Ho] [r Hr]].
  split.
  { unfold windowReleases in Hwr2. rewrite Ew, Ho in Hwr2. simpl in Hwr2.
    unfold disposedWorld. simpl. rewrite Ew, lookup_alter_eq, Ho. simpl.
    eexists. split; [reflexivity |]. simpl. rewrite Hwr2. reflexivity. }
  split.
  { unfold rendererReleases in Hrr2. rewrite Er, Hr in Hrr2. simpl in Hrr2.
    unfold disposedWorld. simpl. rewrite Er, lookup_alter_eq, Hr. simpl.
    eexists. split; [reflexivity |]. simpl. rewrite Hrr2. reflexivity. }
  split; [reflexivity |]. split; [reflexivity |].
  split; [apply ownedActors_disposed |].
  split.
  - intros a k Hk. exact (proj2 (disposed_actor w2 a k HI2 Hk)).
  - intros a k Hk. exact (proj1 (disposed_actor w2 a k HI2 Hk)).
Qed.


(** ** Representation codes *)

Lemma resolved_representation_recognized g :
  convertToVTKRepresentation (resolveRepresentation g) = VTK_POINTS
  ∨ convertToVTKRepresentation (resolveRepresentation g) = VTK_WIREFRAME
  ∨ convertToVTKRepresentation (resolveRepresentation g) = VTK_SURFACE.
Proof.
  unfold resolveRepresentation, representationIsSet.
  destruct (representation g); simpl; auto.
Qed.

Lemma recognized_applyAll f ps (m : gmap nat vtkActor) :
  (∀ k, recognized k -> recognized (f k)) ->
  map_Forall (λ _, recognized) m -> map_Forall (λ _, recognized) (applyAll f ps m).
Proof.
  intros Hf Hm a k Hk. rewrite lookup_applyAll in Hk.
  destruct (m !! a) as [k0 |] eqn:Hk0; [| discriminate]. simpl in Hk. injection Hk as <-.
  specialize (Hm _ _ Hk0). simpl in Hm.
  induction (length (filter (λ p, p = Some a) ps)) as [| n IH]; [exact Hm |].
  simpl. apply Hf, IH.
Qed.

Lemma recognized_configureBodies s bs ids (m : gmap nat vtkActor) :
  map_Forall (λ _, recognized) m ->
  map_Forall (λ _, recognized) (configureBodies s bs ids m).
Proof.
  revert m. induction ids as [| i ids IH]; intros m Hm; [exact Hm |].
  unfold configureBodies. cbn [foldl]. apply IH.
  apply recognized_applyAll; [| exact Hm]. intros k Hk. exact Hk.
Qed.

Lemma recognized_remapAll s ds (m : gmap nat vtkActor) :
  map_Forall (λ _, recognized) m -> map_Forall (λ _, recognized) (remapAll s ds m).
Proof.
  revert m. induction ds as [| d ds IH]; intros m Hm; [exact Hm |].
  unfold remapAll. cbn [foldl]. apply IH.
  destruct (actor d) as [a |]; [| exact Hm].
  intros b k Hk. rewrite lookup_alter in Hk. case_decide as Hd.
  - subst b. destruct (m !! a) as [k0 |] eqn:Hk0; [| discriminate].
    simpl in Hk. injection Hk as <-. exact (Hm _ _ Hk0).
  - exact (Hm _ _ Hk).
Qed.

Lemma recognized_insertFrom n l (m : gmap nat vtkActor) :
  Forall recognized l -> map_Forall (λ _, recognized) m ->
  map_Forall (λ _, recognized) (insertFrom n l m).
Proof.
  revert n m. induction l as [| k l IH]; intros n m Hl Hm; [exact Hm |].
  apply Forall_cons in Hl as [Hk Hl]. simpl. apply IH; [exact Hl |].
  apply map_Forall_insert_2; assumption.
Qed.

Lemma styledActor_recognized g c : recognized (styledActor g c).
Proof. unfold recognized. simpl. apply resolved_representation_recognized. Qed.

Lemma rubberBandActor_recognized g : recognized (rubberBandActor g).
Proof. unfold recognized. simpl. apply resolved_representation_recognized. Qed.

(** X13. No actor ever carries the code [-1]: every proxy the reporter
    creates is given one of VTK's three representation codes, a
    descriptor that asks for the default being drawn as a surface, and
    no operation changes the code of an actor afterwards.  The
    [default:] branch of [convertToVTKRepresentation] is never taken. *)
Theorem representation_always_recognized w c w' :
  inService w -> admissible c ->
  map_Forall (λ _, recognized) (actors (vtk w)) ->
  perform c w = Returns tt w' ->
  map_Forall (λ _, recognized) (actors (vtk w')).
Proof.
  intros (HI & HL & HV & _) Hc Hrec Hrun.
  destruct (Inv_renderer _ HI) as (rd & r & Hrd & Hr).
  destruct c as [body X_GD g | b1 st1 b2 st2 g | g | bodyNum rgb | bodyNum x | | | | s];
    simpl in Hc; cbn [perform] in Hrun.
  - destruct (validBodyId_index _ _ (Inv_validBodyId _ _ HI Hc)) as [b Hb].
    rewrite (addDecoration_returns w body X_GD g b rd r Hb Hrd Hr) in Hrun.
    injection Hrun as <-. simpl.
    apply map_Forall_insert_2; [apply styledActor_recognized | exact Hrec].
  - rewrite (addRubberBandLine_returns w b1 st1 b2 st2 g rd r Hrd Hr) in Hrun.
    injection Hrun as <-. simpl.
    apply map_Forall_insert_2; [apply rubberBandActor_recognized | exact Hrec].
  - rewrite addEphemeralDecoration_returns in Hrun. injection Hrun as <-. exact Hrec.
  - destruct (validBodyId_index _ _ (Inv_validBodyId _ _ HI Hc)) as [b Hb].
    unfold setDefaultBodyColor in Hrun. rewrite (modifyBody_Some _ _ _ _ Hb) in Hrun.
    injection Hrun as <-. exact Hrec.
  - destruct (validBodyId_index _ _ (Inv_validBodyId _ _ HI Hc)) as [b Hb].
    unfold setBodyScale in Hrun. rewrite (modifyBody_Some _ _ _ _ Hb) in Hrun.
    injection Hrun as <-. exact Hrec.
  - injection Hrun as <-. exact Hrec.
  - injection Hrun as <-. exact Hrec.
  - unfold zoomCameraToIncludeAllGeometry, mbind, M_bind, getRep in Hrun.
    rewrite Hrd in Hrun. unfold onRenderer in Hrun. rewrite Hr in Hrun.
    injection Hrun as <-. exact Hrec.
  - unfold reportable in Hc.
    destruct (realize s Stage_Position) as [s' |] eqn:Hreal; [| contradiction].
    rewrite (report_returns s s' w) in Hrun;
      [| apply Inv_Operable, HI | exact HL | exact Hreal
       | apply validItems_app; split; assumption].
    injection Hrun as <-. rewrite reportedWorld_actors.
    apply recognized_insertFrom.
    + apply Forall_forall. intros k Hk. rewrite map_fmap in Hk.
      apply list_elem_of_fmap in Hk as (g & -> & _). apply styledActor_recognized.
    + apply recognized_applyAll; [intros k Hk; exact Hk |].
      apply recognized_remapAll, recognized_configureBodies, Hrec.
Qed.


(** ** Handles *)

(** X14. Assigning to a handle releases what the handle held, once, and
    touches nothing else in the heap; the handle becomes the owner of a
    rep that holds the very proxies, window and renderer of the source,
    or becomes empty when the source is empty. *)
Theorem assignment_releases_destination dst src this h :
  Operable (mkWorld dst h) -> NoDup (ownedActors dst) ->
  ∃ h',
    VTKReporter_assign (Some dst) src this h = Some (VTKReporter_copy src this, h')
    ∧ (∀ a, Some a ∈ ownedActors dst -> actors h' !! a = actor_Delete <$> actors h !! a)
    ∧ (∀ a, Some a ∉ ownedActors dst -> actors h' !! a = actors h !! a)
    ∧ nextAddress h' = nextAddress h
    ∧ isOwnerHandle (VTKReporter_copy src this) this = true
    ∧ isEmptyHandle (VTKReporter_copy src this) = isEmptyHandle src
    ∧ (∀ r, src = Some r ->
         ∃ c, VTKReporter_copy src this = Some c
              ∧ ownedActors c = ownedActors r
              ∧ renWin c = renWin r ∧ renderer c = renderer r
              ∧ bodies c = bodies r ∧ dynamicGeom c = dynamicGeom r).
Proof.
  intros Hop Hnd.
  pose proof (deletePointers_returns _ Hop) as Hrun.
  exists (vtk (disposedWorld (mkWorld dst h))). split.
  { unfold VTKReporter_assign, VTKReporter_destroy, destroyRep. rewrite Hrun. reflexivity. }
  split. { intros a Ha. unfold disposedWorld. simpl. apply lookup_applyAll_once; assumption. }
  split. { intros a Ha. unfold disposedWorld. simpl. apply lookup_applyAll_notin, Ha. }
  split; [reflexivity |].
  split. { destruct src as [r |]; [| reflexivity]. simpl. apply bool_decide_eq_true.
           reflexivity. }
  split. { destruct src; reflexivity. }
  intros r ->. eexists. split; [reflexivity |]. repeat split.
Qed.

End Proofs.

(** * The worked system

    The theorems above at the chain [ground -> A -> B]. *)

#[local] Existing Instances chain_simtk chain_vtk chain_system.

Ltac decided := apply (bool_decide_unpack _); vm_compute; reflexivity.

Lemma decoration_follows_body_witness :
  (Inv chain_decorated
   ∧ validLines (rep chain_decorated)
   ∧ validBodyId chain_decorated 1
   ∧ realize chain_state Stage_Position = Some chain_realized
   ∧ validItems (ephemeralGeometry (rep chain_decorated) ++ contributedGeometry chain_realized)
   ∧ ∃ w1 w2 k0 k k',
       addDecoration 1 (Transform_at (mkVec3 0 2 0)) (DecorativeSphere (1#10)) chain_decorated
       = Returns tt w1
       ∧ report chain_state w1 = Returns tt w2
       ∧ actors (vtk w1) !! 4%nat = Some k0 ∧ position k0 = mkVec3 0 0 0
       ∧ actors (vtk w2) !! 3%nat = Some k
       ∧ position k = mkVec3 3 (-1) 0 ∧ orientation k = (mkVec3 0 0 0, [])
       ∧ actors (vtk w2) !! 4%nat = Some k'
       ∧ position k' = mkVec3 3 (-1) 0 ∧ orientation k' = (mkVec3 0 0 0, []))
  ∧ (Inv chain_world
     ∧ validLines (rep chain_world)
     ∧ validBodyId chain_world GroundId
     ∧ validItems (ephemeralGeometry (rep chain_world) ++ contributedGeometry chain_realized)
     ∧ (groundUntouched chain_world ∧ groundIsReference chain_realized)
     ∧ ∃ w1 w2 bi,
         addDecoration GroundId Transform_id (DecorativeSphere (1#10)) chain_world = Returns tt w1
         ∧ report chain_state w1 = Returns tt w2
         ∧ vectorIndex (bodies (rep w2)) GroundId = Some bi
         ∧ Some (nextAddress (vtk chain_world)) ∈ aList bi
         ∧ allPosedAt (vtk w2) (getBodyTransform chain_realized GroundId) (aList bi)
         ∧ ∀ (i : MobilizedBodyId) bi', 1 ≤ i -> vectorIndex (bodies (rep w2)) i = Some bi' ->
             allPosedAt (vtk w2) (getBodyTransform chain_realized i) (aList bi')).
Proof.
  assert (HR : realize chain_state Stage_Position = Some chain_realized) by reflexivity.
  split.
  - assert (HI : Inv chain_decorated) by decided.
    assert (HL : validLines (rep chain_decorated)) by decided.
    assert (HB : validBodyId chain_decorated 1).
    { unfold validBodyId. replace (length (bodies (rep chain_decorated))) with 3%nat
        by reflexivity. lia. }
    assert (HV : validItems (ephemeralGeometry (rep chain_decorated)
                               ++ contributedGeometry chain_realized)) by decided.
    repeat (split; [assumption |]).
    destruct (decoration_follows_body (mbs := chain_system) chain_decorated 1 (Transform_at (mkVec3 0 2 0))
                (DecorativeSphere (1#10)) chain_state chain_realized HI HL HB HR HV)
      as (w1 & w2 & bi & Hadd & Hrep & Hbi & Hin & Hposed & _).
    { intros Hg. discriminate Hg. }
    pose proof Hadd as E1. vm_compute in E1. injection E1 as E1. subst w1.
    pose proof Hrep as E2. vm_compute in E2. injection E2 as E2. subst w2.
    vm_compute in Hbi. injection Hbi as Hbi. subst bi.
    cbn [aList] in Hposed.
    apply Forall_cons in Hposed as [(a & k & Ha & Hk & Hpos & Hor) Hposed].
    apply Forall_cons in Hposed as [(a' & k' & Ha' & Hk' & Hpos' & Hor') _].
    injection Ha as <-. injection Ha' as <-.
    eexists _, _, _, k, k'.
    split; [exact Hadd |]. split; [exact Hrep |].
    split; [vm_compute; reflexivity |]. split; [reflexivity |].
    split; [exact Hk |]. split; [exact Hpos |]. split; [exact Hor |].
    split; [exact Hk' |]. split; [exact Hpos' | exact Hor'].
  - assert (HI : Inv chain_world) by decided.
    assert (HL : validLines (rep chain_world)) by decided.
    assert (HB : validBodyId chain_world GroundId)
      by (vm_compute; split; [discriminate | reflexivity]).
    assert (HV : validItems (ephemeralGeometry (rep chain_world)
                               ++ contributedGeometry chain_realized)) by decided.
    assert (HG : groundUntouched chain_world ∧ groundIsReference chain_realized).
    { split.
      - vm_compute. repeat constructor.
      - vm_compute. split; reflexivity. }
    repeat (split; [assumption |]).
    exact (decoration_follows_body chain_world GroundId Transform_id (DecorativeSphere (1#10))
             chain_state chain_realized HI HL HB HR HV (λ _, HG)).
Defined.

Lemma one_ephemeral_generation_witness :
  Inv chain_reported
  ∧ validLines (rep chain_reported)
  ∧ realize chain_state Stage_Position = Some chain_realized
  ∧ validItems (ephemeralGeometry (rep chain_reported) ++ contributedGeometry chain_realized)
  ∧ realize chain_retracted Stage_Position = Some chain_retracted_realized
  ∧ contributedGeometry chain_retracted_realized = []
  ∧ ∃ w1 w2,
      report chain_state chain_reported = Returns tt w1
      ∧ report chain_retracted w1 = Returns tt w2
      ∧ (∀ a, Some a ∈ ephemeralActors (rep chain_reported) ->
           ∃ k, actors (vtk w1) !! a = Some k ∧ actorDeletes k = 1%nat ∧ outOfScene w1 a)
      ∧ length (ephemeralActors (rep w1)) =
        length (ephemeralGeometry (rep chain_reported) ++ contributedGeometry chain_realized)
      ∧ (∀ a k, actors (vtk w1) !! a = Some k -> actorDeletes k = 0%nat ->
           Some a ∈ ownedActors (rep w1))
      ∧ (∀ a, Some a ∈ ephemeralActors (rep w1) ->
           ∃ k1 k2, actors (vtk w1) !! a = Some k1 ∧ actorDeletes k1 = 0%nat
                    ∧ actors (vtk w2) !! a = Some k2 ∧ actorDeletes k2 = 1%nat
                    ∧ outOfScene w2 a)
      ∧ ephemeralActors (rep w2) = []
      ∧ (∀ a k, actors (vtk w2) !! a = Some k -> actorDeletes k = 0%nat ->
           Some a ∈ persistentActors (rep w2) ++ dynamicActors (rep w2)).
Proof.
  assert (HI : Inv chain_reported) by decided.
  assert (HL : validLines (rep chain_reported)) by decided.
  assert (HR : realize chain_state Stage_Position = Some chain_realized) by reflexivity.
  assert (HV : validItems (ephemeralGeometry (rep chain_reported)
                             ++ contributedGeometry chain_realized)) by decided.
  assert (HR' : realize chain_retracted Stage_Position = Some chain_retracted_realized)
    by reflexivity.
  assert (HE : contributedGeometry chain_retracted_realized = []) by reflexivity.
  repeat (split; [assumption |]).
  exact (one_ephemeral_generation chain_reported chain_state chain_realized
           chain_retracted chain_retracted_realized HI HL HR HV HR' HE).
Defined.

Lemma style_resolved_at_creation_witness :
  Operable chain_reported
  ∧ Operable chain_queued
  ∧ validItems (ephemeralGeometry (rep chain_queued))
  ∧ getDefaultBodyColor GroundId chain_reported = Returns (mkVec3 0 1 0) chain_reported
  ∧ getDefaultBodyColor 2 chain_queued = Returns (mkVec3 (1#2) (1#2) (1#2)) chain_queued
  ∧ (∃ w' k, addDecoration GroundId Transform_id chain_styled chain_reported = Returns tt w'
             ∧ actors (vtk w') !! nextAddress (vtk chain_reported) = Some k
             ∧ propColor k = mkVec3 1 0 0 ∧ propOpacity k = (1#2)%Q
             ∧ propLineWidth k = 4%Q ∧ propRepresentation k = 1)
  ∧ (∃ w' k, addDecoration GroundId Transform_id (DecorativeSphere (1#10)) chain_reported
             = Returns tt w'
             ∧ actors (vtk w') !! nextAddress (vtk chain_reported) = Some k
             ∧ propColor k = mkVec3 0 1 0 ∧ propOpacity k = 1%Q
             ∧ propLineWidth k = 1%Q ∧ propRepresentation k = 2)
  ∧ (∃ w' k0 k1,
       displayEphemeralGeometry chain_realized chain_queued = Returns tt w'
       ∧ ephemeralActors (rep w') !! 0%nat = Some (Some (nextAddress (vtk chain_queued) + 0)%nat)
       ∧ actors (vtk w') !! (nextAddress (vtk chain_queued) + 0)%nat = Some k0
       ∧ propColor k0 = mkVec3 1 0 0 ∧ propOpacity k0 = (1#2)%Q
       ∧ propLineWidth k0 = 4%Q ∧ propRepresentation k0 = 1
       ∧ ephemeralActors (rep w') !! 1%nat = Some (Some (nextAddress (vtk chain_queued) + 1)%nat)
       ∧ actors (vtk w') !! (nextAddress (vtk chain_queued) + 1)%nat = Some k1
       ∧ propColor k1 = mkVec3 (1#2) (1#2) (1#2) ∧ propOpacity k1 = 1%Q
       ∧ propLineWidth k1 = 1%Q ∧ propRepresentation k1 = 2).
Proof.
  assert (HO : Operable chain_reported) by decided.
  assert (HQ : Operable chain_queued) by decided.
  assert (HV : validItems (ephemeralGeometry (rep chain_queued))) by decided.
  assert (HG : getDefaultBodyColor GroundId chain_reported
               = Returns (mkVec3 0 1 0) chain_reported) by reflexivity.
  assert (HB : getDefaultBodyColor 2 chain_queued
               = Returns (mkVec3 (1#2) (1#2) (1#2)) chain_queued) by reflexivity.
  repeat (split; [assumption |]).
  destruct (style_resolved_at_creation (mbs := chain_system) chain_reported HO)
    as (Hadd & _ & _).
  destruct (style_resolved_at_creation (mbs := chain_system) chain_queued HQ)
    as (_ & Hdisplay & _).
  split; [| split].
  - edestruct (Hadd GroundId Transform_id chain_styled)
      as (w' & k & Hrun & Hk & Hc & Ho & Hl & Hr); [vm_compute; reflexivity |].
    exists w', k. repeat split; assumption.
  - edestruct (Hadd GroundId Transform_id (DecorativeSphere (1#10)))
      as (w' & k & Hrun & Hk & Hc & Ho & Hl & Hr); [vm_compute; reflexivity |].
    exists w', k. repeat split; assumption.
  - destruct (Hdisplay chain_realized HV) as (w' & Hrun & Hitems).
    destruct (Hitems 0%nat chain_styled eq_refl)
      as (b0 & k0 & Hb0 & Hp0 & Hk0 & Hc0 & Ho0 & Hl0 & Hr0).
    destruct (Hitems 1%nat chain_sphere eq_refl)
      as (b1 & k1 & Hb1 & Hp1 & Hk1 & Hc1 & Ho1 & Hl1 & Hr1).
    vm_compute in Hb0. injection Hb0 as <-.
    vm_compute in Hb1. injection Hb1 as <-.
    exists w', k0, k1. repeat split; assumption.
Defined.

Lemma report_collects_from_Model_witness :
  Operable chain_lined
  ∧ validLines (rep chain_lined)
  ∧ realize chain_state Stage_Position = Some chain_realized
  ∧ validItems (ephemeralGeometry (rep chain_lined) ++ contributedGeometry chain_realized)
  ∧ (∀ st, In st (stagesFromTo Stage_Model (getSystemStage chain_realized)) <->
           Stage_Model ≤ st ≤ getSystemStage chain_realized)
  ∧ StronglySorted Z.lt (stagesFromTo Stage_Model (getSystemStage chain_realized))
  ∧ contributedGeometry chain_realized =
    concat (map (calcDecorativeGeometry chain_realized)
                (stagesFromTo Stage_Model (getSystemStage chain_realized)))
  ∧ ∃ wq w',
      forEach (contributedGeometry chain_realized) addEphemeralDecoration chain_lined
      = Returns tt wq
      ∧ ephemeralGeometry (rep wq)
        = ephemeralGeometry (rep chain_lined) ++ contributedGeometry chain_realized
      ∧ report chain_state chain_lined = Returns tt w'
      ∧ length (ephemeralActors (rep w')) = length (ephemeralGeometry (rep wq))
      ∧ (∀ i g, ephemeralGeometry (rep wq) !! i = Some g ->
           ephemeralActors (rep w') !! i = Some (Some (nextAddress (vtk chain_lined) + i)%nat)
           ∧ actors (vtk w') !! (nextAddress (vtk chain_lined) + i)%nat =
             Some (builtActor chain_realized (bodies (rep chain_lined)) g))
      ∧ ephemeralGeometry (rep w') = [].
Proof.
  assert (HO : Operable chain_lined) by decided.
  assert (HL : validLines (rep chain_lined)) by decided.
  assert (HR : realize chain_state Stage_Position = Some chain_realized) by reflexivity.
  assert (HV : validItems (ephemeralGeometry (rep chain_lined)
                             ++ contributedGeometry chain_realized)) by decided.
  repeat (split; [assumption |]).
  exact (report_collects_from_Model chain_lined chain_state chain_realized HO HL HR HV).
Defined.

Lemma registry_operations_unchecked_witness :
  ¬ validBodyId chain_world 3
  ∧ (∀ rgb, setDefaultBodyColor 3 rgb chain_world = Undefined)
  ∧ getDefaultBodyColor 3 chain_world = Undefined
  ∧ (∀ x, setBodyScale 3 x chain_world = Undefined)
  ∧ (∀ X_GD g, addDecoration 3 X_GD g chain_world = Undefined).
Proof.
  assert (HB : ¬ validBodyId chain_world 3).
  { unfold validBodyId. replace (length (bodies (rep chain_world))) with 3%nat by reflexivity.
    lia. }
  split; [assumption |].
  exact (registry_operations_unchecked chain_world 3 HB).
Defined.

Lemma report_after_disposal_is_noop_witness :
  renWin (rep chain_disposed) = None
  ∧ report chain_moved chain_disposed = Returns tt chain_disposed.
Proof.
  assert (HD : renWin (rep chain_disposed) = None) by reflexivity.
  split; [assumption |].
  exact (report_after_disposal_is_noop chain_moved chain_disposed HD).
Defined.

Lemma clone_releases_proxies_twice_witness :
  Inv chain_reported
  ∧ ∃ c h1 h2,
      VTKReporter_copy (Some (rep chain_reported)) 200 = Some c
      ∧ myHandle c = Some 200%nat
      ∧ ownedActors c = ownedActors (rep chain_reported)
      ∧ renderer c = renderer (rep chain_reported) ∧ renWin c = renWin (rep chain_reported)
      ∧ VTKReporter_destroy (Some c) (vtk chain_reported) = Some h1
      ∧ VTKReporter_destroy (Some (rep chain_reported)) h1 = Some h2
      ∧ (∀ a, Some a ∈ ownedActors (rep chain_reported) ->
           ∃ k, actors h2 !! a = Some k ∧ actorDeletes k = 2%nat)
      ∧ (∀ rd, renderer (rep chain_reported) = Some rd ->
           ∃ r0 r2, renderers (vtk chain_reported) !! rd = Some r0
                    ∧ renderers h2 !! rd = Some r2
                    ∧ rendererDeletes r2 = S (S (rendererDeletes r0)))
      ∧ (∀ win, renWin (rep chain_reported) = Some win ->
           ∃ o0 o2, renderWindows (vtk chain_reported) !! win = Some o0
                    ∧ renderWindows h2 !! win = Some o2
                    ∧ windowDeletes o2 = S (S (windowDeletes o0))).
Proof.
  assert (HI : Inv chain_reported) by decided.
  split; [assumption |].
  exact (clone_releases_proxies_twice chain_reported 200 HI).
Defined.

(** C5, the claim as written fails: the report of a reporter that holds
    a rubber-band line from body 7 raises after the transform phase has
    moved the proxy of body A. *)
Lemma report_not_atomic :
  ¬ atomicReport chain_state chain_misaddressed
  ∧ ∃ w' k k',
      report chain_state chain_misaddressed = Throws Exception_IndexOutOfRange w'
      ∧ actors (vtk chain_misaddressed) !! 3%nat = Some k
      ∧ actors (vtk w') !! 3%nat = Some k'
      ∧ position k = mkVec3 0 0 0
      ∧ position k' = mkVec3 3 (-1) 0.
Proof.
  split.
  - intros [[w' H] | [e H]].
    + vm_compute in H. discriminate H.
    + apply (f_equal (λ o, match o with
                           | Throws _ w => position <$> actors (vtk w) !! 3%nat
                           | _ => None
                           end)) in H.
      vm_compute in H. discriminate H.
  - eexists _, _, _. split; [vm_compute; reflexivity |].
    split; [vm_compute; reflexivity |]. split; [vm_compute; reflexivity |].
    split; reflexivity.
Qed.

(** C6, the claim as written fails: the chain contributes a brick at
    the Topology stage, which lies between the lowest stage and the
    realized one, yet a report displays the sphere of the Position stage
    only. *)
Lemma topology_stage_not_collected :
  In Stage_Topology (stagesFromLowest chain_realized)
  ∧ concat (map (calcDecorativeGeometry chain_realized) (stagesFromLowest chain_realized))
    = [chain_brick; chain_sphere]
  ∧ ∃ w' a k,
      report chain_state chain_lined = Returns tt w'
      ∧ ephemeralActors (rep w') = [Some a]
      ∧ actors (vtk w') !! a = Some k
      ∧ mapperInput k
        = Some (Some (getVTKPolyData
                        (setTransform (getBodyTransform chain_realized 2) chain_sphere))).
Proof.
  split; [vm_compute; tauto |]. split; [reflexivity |].
  eexists _, _, _. split; [vm_compute; reflexivity |]. split; [reflexivity |].
  split; vm_compute; reflexivity.
Qed.

(** C7, the claim as written fails: body 3 is not a body of the chain,
    and setting its default colour raises no error: the behaviour is
    undefined. *)
Lemma unchecked_body_id_raises_nothing :
  setDefaultBodyColor 3 (mkVec3 1 0 0) chain_world = Undefined
  ∧ ¬ ∃ e w', setDefaultBodyColor 3 (mkVec3 1 0 0) chain_world = Throws e w'.
Proof.
  split; [reflexivity |]. intros (e & w' & H). vm_compute in H. discriminate H.
Qed.


(** * The further theorems at the worked system *)

Lemma teardown_releases_once_witness :
  Inv chain_reported
  ∧ ∃ w', deletePointers chain_reported = Returns tt w'
          ∧ (∀ a k, actors (vtk w') !! a = Some k -> actorDeletes k = 1%nat)
          ∧ renWin (rep w') = None ∧ renderer (rep w') = None
          ∧ Forall (λ p, p = None) (ownedActors (rep w')).
Proof.
  assert (HI : Inv chain_reported) by decided.
  split; [exact HI |].
  destruct (teardown_releases_once (mbs := chain_system) chain_reported HI)
    as (w' & Hrun & _ & Hdead & _ & _ & Hwin & Hrd & Hnull).
  exists w'. repeat (split; [assumption |]); assumption.
Defined.

Lemma reports_never_fail_witness :
  Inv chain_lined ∧ validLines (rep chain_lined)
  ∧ validItems (ephemeralGeometry (rep chain_lined))
  ∧ Forall (λ f, reportable (snd f)) chain_quiet_frames
  ∧ Forall (λ f, reportable (snd f)) chain_frames
  ∧ Forall (λ f, WM_QUIT ∉ fst f) chain_quiet_frames
  ∧ WM_QUIT ∈ fst chain_closing_frame
  ∧ renWin (rep chain_lined) = Some 0%nat
  ∧ (∃ w', forEach chain_quiet_frames (λ f, report_WIN32 (fst f) (snd f)) chain_lined
           = Returns tt w'
           ∧ forEach [chain_state; chain_moved] report chain_lined = Returns tt w'
           ∧ Inv w'
           ∧ framesDrawn w' = (framesDrawn chain_lined + 2)%nat
           ∧ windowReleases w' = 0%nat)
  ∧ (∃ w' o o',
       forEach chain_frames (λ f, report_WIN32 (fst f) (snd f)) chain_lined = Returns tt w'
       ∧ forEach (chain_quiet_frames ++ [chain_closing_frame])
                 (λ f, report_WIN32 (fst f) (snd f)) chain_lined = Returns tt w'
       ∧ renWin (rep w') = None
       ∧ renderWindows (vtk chain_lined) !! 0%nat = Some o
       ∧ renderWindows (vtk w') !! 0%nat = Some o'
       ∧ renderCalls o' = (renderCalls o + 3)%nat
       ∧ windowDeletes o' = 1%nat).
Proof.
  assert (HI : Inv chain_lined) by decided.
  assert (HL : validLines (rep chain_lined)) by decided.
  assert (HV : validItems (ephemeralGeometry (rep chain_lined))) by decided.
  assert (HS : Forall (λ f, reportable (snd f)) chain_quiet_frames) by decided.
  assert (HS' : Forall (λ f, reportable (snd f)) chain_frames) by decided.
  assert (HQ : Forall (λ f, WM_QUIT ∉ fst f) chain_quiet_frames) by decided.
  assert (HC : WM_QUIT ∈ fst chain_closing_frame) by decided.
  assert (HW : renWin (rep chain_lined) = Some 0%nat) by reflexivity.
  repeat (split; [assumption |]).
  split.
  - destruct (reports_never_fail (mbs := chain_system) chain_lined chain_quiet_frames
                HI HL HV HS) as (w' & Hrun & _ & _ & _ & Hquiet & _).
    destruct (Hquiet HQ) as (Hplain & HI' & Hf & Hrel & _).
    exists w'. split; [exact Hrun |]. split; [exact Hplain |]. split; [exact HI' |].
    split; [exact Hf |]. rewrite Hrel. vm_compute. reflexivity.
  - destruct (reports_never_fail (mbs := chain_system) chain_lined chain_frames
                HI HL HV HS') as (w' & Hrun & _ & _ & _ & _ & Hclosed).
    destruct (Hclosed chain_quiet_frames chain_closing_frame [([], chain_state)]
                eq_refl HQ HC) as (Hrun' & Hnone & Hwindow).
    edestruct (Hwindow 0%nat) as (o' & Ho' & Hcalls & Hdel);
      [exact HW | vm_compute; reflexivity |].
    eexists w', _, o'. split; [exact Hrun |]. split; [exact Hrun' |]. split; [exact Hnone |].
    split; [vm_compute; reflexivity |]. split; [exact Ho' |]. split; [exact Hcalls |].
    exact Hdel.
Defined.

Lemma decoration_registry_grows_witness :
  Inv chain_reported ∧ validBodyId chain_reported 2
  ∧ ∃ w', addDecoration 2 Transform_id (DecorativeSphere (1#5)) chain_reported = Returns tt w'
          ∧ Inv w'
          ∧ scene w' = scene chain_reported ++ [nextAddress (vtk chain_reported)].
Proof.
  assert (HI : Inv chain_reported) by decided.
  assert (HB : validBodyId chain_reported 2) by (vm_compute; split; [discriminate | reflexivity]).
  repeat (split; [assumption |]).
  destruct (decoration_registry_grows (mbs := chain_system) chain_reported 2 Transform_id (DecorativeSphere (1#5))
              HI HB) as (w' & b & b' & Hrun & HI' & H).
  exists w'. split; [exact Hrun |]. split; [exact HI' |]. apply H.
Defined.

Lemma default_color_round_trip_witness :
  Inv chain_lined ∧ validBodyId chain_lined 1
  ∧ colorIsSet (DecorativeSphere (1#5)) = false
  ∧ ∃ w1 w2 k,
      setDefaultBodyColor 1 (mkVec3 0 0 1) chain_lined = Returns tt w1
      ∧ getDefaultBodyColor 1 w1 = Returns (mkVec3 0 0 1) w1
      ∧ addDecoration 1 Transform_id (DecorativeSphere (1#5)) w1 = Returns tt w2
      ∧ actors (vtk w2) !! nextAddress (vtk chain_lined) = Some k
      ∧ propColor k = mkVec3 0 0 1.
Proof.
  assert (HI : Inv chain_lined) by decided.
  assert (HB : validBodyId chain_lined 1) by (vm_compute; split; [discriminate | reflexivity]).
  assert (HC : colorIsSet (DecorativeSphere (1#5)) = false) by reflexivity.
  repeat (split; [assumption |]).
  destruct (default_color_round_trip (mbs := chain_system) chain_lined 1 (mkVec3 0 0 1) Transform_id
              (DecorativeSphere (1#5)) HI HB HC)
    as (w1 & w2 & k & H1 & H2 & _ & _ & H3 & H4 & H5 & _).
  exists w1, w2, k. repeat (split; [assumption |]); assumption.
Defined.

Lemma posing_is_absolute_witness :
  Inv chain_lined ∧ validBodyId chain_lined 1
  ∧ ∃ w', setConfiguration 1 (Transform_at (mkVec3 5 (-1) 0)) chain_lined
          = Returns tt w'
          ∧ (setConfiguration 1 (Transform_at (mkVec3 3 (-1) 0));;
             setConfiguration 1 (Transform_at (mkVec3 5 (-1) 0))) chain_lined
            = Returns tt w'.
Proof.
  assert (HI : Inv chain_lined) by decided.
  assert (HB : validBodyId chain_lined 1) by (vm_compute; split; [discriminate | reflexivity]).
  repeat (split; [assumption |]).
  destruct (posing_is_absolute (mbs := chain_system) chain_lined 1 (Transform_at (mkVec3 5 (-1) 0))
              (Transform_at (mkVec3 3 (-1) 0)) HI HB) as (w' & b & H1 & H2 & _).
  exists w'. split; assumption.
Defined.

Lemma rubber_band_registration_unchecked_witness :
  Inv chain_lined
  ∧ validLines (rep chain_lined)
  ∧ isBodyOfSystem 7 = false
  ∧ ∃ w' k,
      addRubberBandLine 1 (Vec3_of 0) 7 (Vec3_of 0) (DecorativeLine (Vec3_of 0) (Vec3_of 1))
                        chain_lined = Returns tt w'
      ∧ Inv w'
      ∧ ¬ validLines (rep w')
      ∧ dynamicGeom (rep w') =
        dynamicGeom (rep chain_lined)
        ++ [mkDyn (Some 5%nat) (DecorativeLine (Vec3_of 0) (Vec3_of 1)) 1 7
              (Vec3_of 0) (Vec3_of 0)]
      ∧ actors (vtk w') !! 5%nat = Some k
      ∧ mapperInput k = Some None
      ∧ propColor k = mkVec3 0 0 0
      ∧ scene w' = scene chain_lined ++ [5%nat].
Proof.
  assert (HI : Inv chain_lined) by decided.
  assert (HL : validLines (rep chain_lined)) by decided.
  assert (HB : isBodyOfSystem 7 = false) by reflexivity.
  repeat (split; [assumption |]).
  destruct (rubber_band_registration_unchecked (mbs := chain_system) chain_lined
              1 (Vec3_of 0) 7 (Vec3_of 0) (DecorativeLine (Vec3_of 0) (Vec3_of 1)) HI)
    as (w' & k & Hrun & HI' & Hds & Hvalid & _ & _ & _ & _ & _ & Hk & Hm & Hc & _ & _ & Hsc & _).
  exists w', k. split; [exact Hrun |]. split; [exact HI' |].
  split.
  { intros Hv. apply Hvalid in Hv as (_ & _ & Hv). discriminate Hv. }
  split; [exact Hds |]. split; [exact Hk |]. split; [exact Hm |]. split; [exact Hc |].
  exact Hsc.
Defined.

Lemma camera_reset_is_deferred_witness :
  Inv chain_reported ∧ validLines (rep chain_reported)
  ∧ realize chain_moved Stage_Position = Some chain_moved_realized
  ∧ validItems (ephemeralGeometry (rep chain_reported)
                  ++ contributedGeometry chain_moved_realized)
  ∧ cameraNeedsToBeReset (rep chain_reported) = false
  ∧ ∃ w0 w1 wz,
      resetCamera chain_reported = Returns tt w0
      ∧ report chain_moved w0 = Returns tt w1
      ∧ cameraResets w1 = S (cameraResets chain_reported)
      ∧ zoomCameraToIncludeAllGeometry chain_reported = Returns tt wz
      ∧ report chain_moved wz = Returns tt w1.
Proof.
  assert (HI : Inv chain_reported) by decided.
  assert (HL : validLines (rep chain_reported)) by decided.
  assert (HR : realize chain_moved Stage_Position = Some chain_moved_realized) by reflexivity.
  assert (HV : validItems (ephemeralGeometry (rep chain_reported)
                             ++ contributedGeometry chain_moved_realized)) by decided.
  assert (HF : cameraNeedsToBeReset (rep chain_reported) = false) by reflexivity.
  repeat (split; [assumption |]).
  destruct (camera_reset_is_deferred (mbs := chain_system) chain_reported chain_moved chain_moved_realized
              HI HL HR HV HF)
    as (w0 & w1 & w2 & wz & H1 & _ & H2 & H3 & _ & _ & _ & H4 & _ & _ & H5).
  exists w0, w1, wz. repeat (split; [assumption |]); assumption.
Defined.

Lemma constructor_establishes_invariant_witness :
  vacantHeap emptyHeap ∧ wellFormedSystem
  ∧ ∃ w', VTKReporterRep_new 1 (Some 100%nat) emptyHeap = Returns tt w'
          ∧ Inv w'
          ∧ renWin (rep w') = Some 0%nat ∧ renderer (rep w') = Some 1%nat.
Proof.
  assert (HV : vacantHeap emptyHeap) by decided.
  assert (HS : wellFormedSystem) by decided.
  repeat (split; [assumption |]).
  destruct (proj2 (constructor_establishes_invariant (mbs := chain_system) 1 (Some 100%nat) emptyHeap HV) HS)
    as (w' & H1 & H2 & _ & _ & _ & _ & _ & _ & H3 & H4 & _).
  exists w'. repeat (split; [assumption |]); assumption.
Defined.

Lemma constructor_colors_bodies_witness :
  wellFormedSystem ∧ vacantHeap emptyHeap
  ∧ calcDecorativeGeometry defaultState Stage_Topology = [chain_brick]
  ∧ ∃ w' first b p,
      VTKReporterRep_new 1 (Some 100%nat) emptyHeap = Returns tt w'
      ∧ getDefaultBodyColor GroundId w' = Returns (mkVec3 0 1 0) w'
      ∧ getDefaultBodyColor 1 w' = Returns (mkVec3 1 0 0) w'
      ∧ getDefaultBodyColor 2 w' = Returns (mkVec3 (1#2) (1#2) (1#2)) w'
      ∧ vectorIndex (bodies (rep w')) GroundId = Some b
      ∧ Some (first + 0)%nat ∈ aList b
      ∧ actors (vtk w') !! (first + 0)%nat = Some p
      ∧ actorDeletes p = 0%nat
      ∧ mapperInput p = Some (Some (getVTKPolyData (placedOnBody chain_brick)))
      ∧ propColor p = mkVec3 0 1 0
      ∧ (first + 0)%nat ∈ scene w'.
Proof.
  assert (HS : wellFormedSystem) by decided.
  assert (HV : vacantHeap emptyHeap) by decided.
  assert (HT : calcDecorativeGeometry defaultState Stage_Topology = [chain_brick])
    by reflexivity.
  repeat (split; [assumption |]).
  destruct (constructor_colors_bodies (mbs := chain_system) 1 (Some 100%nat) emptyHeap HS HV)
    as (w' & H1 & H2 & H3 & first & Hitems).
  destruct (Hitems 0%nat chain_brick eq_refl) as (b & p & Hb & Hown & Hp & Hlive & Hm & Hc & Hsc).
  exists w', first, b, p. split; [exact H1 |]. split; [exact H2 |].
  split; [exact (H3 1 eq_refl ltac:(discriminate)) |].
  split; [exact (H3 2 eq_refl ltac:(discriminate)) |].
  split; [exact Hb |]. split; [exact Hown |]. split; [exact Hp |]. split; [exact Hlive |].
  split; [exact Hm |]. split; [exact Hc | exact Hsc].
Defined.

Lemma constructor_draws_first_frame_witness :
  wellFormedSystem ∧ vacantHeap emptyHeap ∧ reportable chain_state
  ∧ ∃ w' w'',
      VTKReporterRep_new 1 (Some 100%nat) emptyHeap = Returns tt w'
      ∧ cameraResets w' = 1%nat
      ∧ report chain_state w' = Returns tt w''
      ∧ cameraResets w'' = 2%nat.
Proof.
  assert (HS : wellFormedSystem) by decided.
  assert (HV : vacantHeap emptyHeap) by decided.
  assert (HR : reportable chain_state) by decided.
  repeat (split; [assumption |]).
  destruct (constructor_draws_first_frame (mbs := chain_system) 1 (Some 100%nat) emptyHeap chain_state HS HV HR)
    as (w' & w'' & H1 & _ & H2 & _ & H3 & _ & H4 & _).
  exists w', w''. repeat (split; [assumption |]); assumption.
Defined.

Lemma suppressed_default_geometry_witness :
  wellFormedSystem ∧ vacantHeap emptyHeap ∧ Real_eqb 0 0 = true
  ∧ ∃ w', VTKReporterRep_new 0 (Some 100%nat) emptyHeap = Returns tt w'
          ∧ scene w' = [2%nat]
          ∧ decorates w' 2 chain_brick.
Proof.
  assert (HS : wellFormedSystem) by decided.
  assert (HV : vacantHeap emptyHeap) by decided.
  assert (HZ : Real_eqb 0 0 = true) by reflexivity.
  repeat (split; [assumption |]).
  destruct (suppressed_default_geometry (mbs := chain_system) 0 (Some 100%nat) emptyHeap HS HV HZ)
    as (w' & H1 & H2 & _ & H3).
  exists w'. split; [exact H1 |]. split; [exact H2 |]. exact (H3 0%nat chain_brick eq_refl).
Defined.

Lemma every_resource_released_once_witness :
  wellFormedSystem ∧ vacantHeap emptyHeap
  ∧ Forall admissible chain_session
  ∧ ∃ w', lifetime (Some 100%nat) chain_session (mkWorld (initialMembers 1) emptyHeap)
          = Returns tt w'
          ∧ (∀ a k, actors (vtk w') !! a = Some k -> actorDeletes k = 1%nat)
          ∧ vacantHeap (vtk w').
Proof.
  assert (HS : wellFormedSystem) by decided.
  assert (HV : vacantHeap emptyHeap) by decided.
  assert (HC : Forall admissible chain_session) by decided.
  repeat (split; [assumption |]).
  destruct (every_resource_released_once (mbs := chain_system) 1 (Some 100%nat) emptyHeap chain_session HS HV HC)
    as (w' & H1 & H2 & _ & _ & _ & _ & _ & H3).
  exists w'. split; [exact H1 |]. split; [exact H2 | exact H3].
Defined.

Lemma representation_always_recognized_witness :
  inService chain_lined ∧ admissible (Report chain_state)
  ∧ map_Forall (λ _, recognized) (actors (vtk chain_lined))
  ∧ perform (Report chain_state) chain_lined = Returns tt chain_reported
  ∧ map_Forall (λ _, recognized) (actors (vtk chain_reported)).
Proof.
  assert (HS : inService chain_lined) by decided.
  assert (HA : admissible (Report chain_state)) by decided.
  assert (HM : map_Forall (λ _, recognized) (actors (vtk chain_lined))) by decided.
  assert (HR : perform (Report chain_state) chain_lined = Returns tt chain_reported)
    by (vm_compute; reflexivity).
  repeat (split; [assumption |]).
  exact (representation_always_recognized (mbs := chain_system) chain_lined (Report chain_state) chain_reported
           HS HA HM HR).
Defined.

Lemma assignment_releases_destination_witness :
  Operable (mkWorld (rep chain_reported) (vtk chain_reported))
  ∧ NoDup (ownedActors (rep chain_reported))
  ∧ ∃ h', VTKReporter_assign (Some (rep chain_reported)) None 200 (vtk chain_reported)
          = Some (None, h')
          ∧ ∀ a, Some a ∈ ownedActors (rep chain_reported) ->
                 actors h' !! a = actor_Delete <$> actors (vtk chain_reported) !! a.
Proof.
  assert (HO : Operable (mkWorld (rep chain_reported) (vtk chain_reported))) by decided.
  assert (HN : NoDup (ownedActors (rep chain_reported))) by decided.
  repeat (split; [assumption |]).
  destruct (assignment_releases_destination (mbs := chain_system) (rep chain_reported) None 200 (vtk chain_reported)
              HO HN) as (h' & H1 & H2 & _).
  exists h'. split; [exact H1 | exact H2].
Defined.

(** * The second worked system

    The theorems on rubber-band lines and on failing reports at the two
    sliders, where A can move without B and a state can fail to be
    realized. *)

#[local] Remove Hints chain_system : typeclass_instances.
#[local] Existing Instance slider_system.

Lemma rubber_band_lines_track_bodies_witness :
  Inv slider_lined
  ∧ validLines (rep slider_lined)
  ∧ realize slider_state Stage_Position = Some slider_realized
  ∧ validItems (ephemeralGeometry (rep slider_lined) ++ contributedGeometry slider_realized)
  ∧ realize slider_moved Stage_Position = Some slider_moved_realized
  ∧ validItems (contributedGeometry slider_moved_realized)
  ∧ getBodyTransform slider_moved_realized 1 ≠ getBodyTransform slider_realized 1
  ∧ getBodyTransform slider_moved_realized 2 = getBodyTransform slider_realized 2
  ∧ ∃ w1 w2 d1 d2 k1 k2 p1 q1 p2,
      report slider_state slider_lined = Returns tt w1
      ∧ report slider_moved w1 = Returns tt w2
      ∧ dynamicGeom (rep w1) !! 0%nat = Some d1
      ∧ dynamicGeom (rep w2) !! 0%nat = Some d2
      ∧ actor d1 = Some 4%nat ∧ actor d2 = Some 4%nat
      ∧ shape (line d1) = Line (mkVec3 3 (-1) 0) (mkVec3 4 (-3) 0)
      ∧ shape (line d2) = Line (mkVec3 5 (-1) 0) (mkVec3 4 (-3) 0)
      ∧ actors (vtk w1) !! 4%nat = Some k1
      ∧ mapperInput k1 = Some (Some (getVTKPolyData (line d1)))
      ∧ actors (vtk w2) !! 4%nat = Some k2
      ∧ mapperInput k2 = Some (Some (getVTKPolyData (line d2)))
      ∧ shape (line d1) = Line p1 p2 ∧ shape (line d2) = Line q1 p2
      ∧ p1 = mkVec3 3 (-1) 0 ∧ q1 = mkVec3 5 (-1) 0.
Proof.
  assert (HI : Inv slider_lined) by decided.
  assert (HL : validLines (rep slider_lined)) by decided.
  assert (HR : realize slider_state Stage_Position = Some slider_realized) by reflexivity.
  assert (HV : validItems (ephemeralGeometry (rep slider_lined)
                             ++ contributedGeometry slider_realized)) by decided.
  assert (HR' : realize slider_moved Stage_Position = Some slider_moved_realized)
    by reflexivity.
  assert (HV' : validItems (contributedGeometry slider_moved_realized)) by decided.
  assert (HA : getBodyTransform slider_moved_realized 1 ≠ getBodyTransform slider_realized 1)
    by (intros HA; discriminate HA).
  assert (HB : getBodyTransform slider_moved_realized 2 = getBodyTransform slider_realized 2)
    by reflexivity.
  repeat (split; [assumption |]).
  destruct (rubber_band_lines_track_bodies (mbs := slider_system) slider_lined
              slider_state slider_realized slider_moved slider_moved_realized
              HI HL HR HV HR' HV') as (w1 & w2 & Hr1 & Hr2 & Hlines).
  edestruct (Hlines 0%nat) as (a & d1 & d2 & k1 & k2 & Ha & Hd1 & Hd2 & Hs1 & Hs2
                               & Hsh1 & Hsh2 & Hk1 & Hm1 & Hk2 & Hm2 & Honly);
    [vm_compute; reflexivity |].
  vm_compute in Ha. injection Ha as <-.
  destruct (Honly HB) as (p1 & q1 & p2 & Hp & Hq & Hp1 & Hq1).
  exists w1, w2, d1, d2, k1, k2, p1, q1, p2.
  split; [exact Hr1 |]. split; [exact Hr2 |]. split; [exact Hd1 |]. split; [exact Hd2 |].
  split; [apply Hs1 |]. split; [apply Hs2 |].
  split; [exact Hsh1 |]. split; [exact Hsh2 |].
  split; [exact Hk1 |]. split; [exact Hm1 |]. split; [exact Hk2 |]. split; [exact Hm2 |].
  split; [exact Hp |]. split; [exact Hq |]. split; [exact Hp1 | exact Hq1].
Defined.

Lemma report_failure_semantics_witness :
  (* a state that cannot be realized: nothing is changed, on either build *)
  (Operable slider_lined
   ∧ realize slider_derailed Stage_Position = None
   ∧ report slider_derailed slider_lined = Throws Exception_Realize slider_lined
   ∧ report_WIN32 [WM_QUIT] slider_derailed slider_lined
     = Throws Exception_Realize slider_lined)
  (* valid ids throughout: the report completes *)
  ∧ (realize slider_state Stage_Position = Some slider_realized
     ∧ validLines (rep slider_lined)
     ∧ validItems (ephemeralGeometry (rep slider_lined) ++ contributedGeometry slider_realized)
     ∧ report slider_state slider_lined
       = Returns tt (reportedWorld slider_realized slider_lined))
  (* the second line runs to body 7: A and B are posed and the first line
     is rebuilt when the report raises *)
  ∧ (Operable slider_mislined
     ∧ ∃ w' kA kB k4 k5 d0 d1,
         report slider_state slider_mislined = Throws Exception_IndexOutOfRange w'
         ∧ actors (vtk w') !! 2%nat = Some kA ∧ position kA = mkVec3 3 (-1) 0
         ∧ actors (vtk w') !! 3%nat = Some kB ∧ position kB = mkVec3 4 (-2) 0
         ∧ dynamicGeom (rep w') = [d0; d1]
         ∧ shape (line d0) = Line (mkVec3 3 (-1) 0) (mkVec3 4 (-3) 0)
         ∧ shape (line d1) = Line (mkVec3 0 0 0) (mkVec3 1 1 1)
         ∧ actors (vtk w') !! 4%nat = Some k4
         ∧ mapperInput k4 = Some (Some (getVTKPolyData (line d0)))
         ∧ actors (vtk w') !! 5%nat = Some k5 ∧ mapperInput k5 = Some None
         ∧ cameraNeedsToBeReset (rep w') = true
         ∧ cameraResets w' = cameraResets slider_mislined
         ∧ framesDrawn w' = framesDrawn slider_mislined)
  (* the second pending item is on body 9: the bodies are posed, the line
     is rebuilt, the old ephemeral proxy (actor 5) is released and out of
     the scene, the first item is displayed (actor 6) and a bare actor
     has been created for the second (actor 7) when the report raises *)
  ∧ (Operable slider_misqueued
     ∧ validLines (rep slider_misqueued)
     ∧ ephemeralActors (rep slider_misqueued) = [Some 5%nat]
     ∧ scene slider_misqueued = [2; 3; 4; 5]%nat
     ∧ ∃ w' kA d0 k5 k6,
         report slider_state slider_misqueued = Throws Exception_IndexOutOfRange w'
         ∧ actors (vtk w') !! 2%nat = Some kA ∧ position kA = mkVec3 3 (-1) 0
         ∧ dynamicGeom (rep w') = [d0]
         ∧ shape (line d0) = Line (mkVec3 3 (-1) 0) (mkVec3 4 (-3) 0)
         ∧ actors (vtk w') !! 5%nat = Some k5 ∧ actorDeletes k5 = 1%nat
         ∧ ephemeralActors (rep w') = [Some 6%nat; Some 7%nat]
         ∧ actors (vtk w') !! 6%nat = Some k6 ∧ propColor k6 = mkVec3 1 0 0
         ∧ actors (vtk w') !! 7%nat = Some newActor
         ∧ scene w' = [2; 3; 4; 6]%nat
         ∧ length (ephemeralGeometry (rep w')) = 2%nat
         ∧ cameraNeedsToBeReset (rep w') = cameraNeedsToBeReset (rep slider_misqueued)
         ∧ framesDrawn w' = framesDrawn slider_misqueued).
Proof.
  assert (HO : Operable slider_lined) by decided.
  assert (HN : realize slider_derailed Stage_Position = None) by reflexivity.
  assert (HR : realize slider_state Stage_Position = Some slider_realized) by reflexivity.
  assert (HL : validLines (rep slider_lined)) by decided.
  assert (HV : validItems (ephemeralGeometry (rep slider_lined)
                             ++ contributedGeometry slider_realized)) by decided.
  assert (HM : Operable slider_mislined) by decided.
  assert (HQ : Operable slider_misqueued) by decided.
  assert (HLQ : validLines (rep slider_misqueued)) by decided.
  split; [| split; [| split]].
  - destruct (report_failure_semantics (mbs := slider_system) slider_derailed slider_lined HO)
      as (Hnone & _ & Hwin).
    split; [exact HO |]. split; [exact HN |]. split; [exact (Hnone HN) |].
    apply Hwin. exact (Hnone HN).
  - destruct (report_failure_semantics (mbs := slider_system) slider_state slider_lined HO)
      as (_ & Hsome & _).
    destruct (Hsome slider_realized HR) as (Hvalid & _).
    split; [exact HR |]. split; [exact HL |]. split; [exact HV |]. exact (Hvalid HL HV).
  - destruct (report_failure_semantics (mbs := slider_system) slider_state slider_mislined HM)
      as (_ & Hsome & _).
    destruct (Hsome slider_realized HR) as (_ & Hline & _).
    pose proof (Hline [mkDyn (Some 4%nat) (DecorativeLine (Vec3_of 0) (Vec3_of 1)) 1 2
                         (Vec3_of 0) (mkVec3 0 (-1) 0)]
                      (mkDyn (Some 5%nat) (DecorativeLine (Vec3_of 0) (Vec3_of 1)) 1 7
                         (Vec3_of 0) (Vec3_of 0)) []) as Hrun.
    assert (HE : dynamicGeom (rep slider_mislined)
                 = [mkDyn (Some 4%nat) (DecorativeLine (Vec3_of 0) (Vec3_of 1)) 1 2
                      (Vec3_of 0) (mkVec3 0 (-1) 0)]
                   ++ [mkDyn (Some 5%nat) (DecorativeLine (Vec3_of 0) (Vec3_of 1)) 1 7
                         (Vec3_of 0) (Vec3_of 0)]) by (vm_compute; reflexivity).
    specialize (Hrun HE).
    split; [exact HM |].
    eexists _, _, _, _, _, _, _. split.
    { apply Hrun; [repeat constructor | reflexivity]. }
    repeat (match goal with |- _ ∧ _ => split; [vm_compute; reflexivity |] end).
    vm_compute; reflexivity.
  - destruct (report_failure_semantics (mbs := slider_system) slider_state slider_misqueued HQ)
      as (_ & Hsome & _).
    destruct (Hsome slider_realized HR) as (_ & _ & Hitem).
    pose proof (Hitem [chain_sphere]
                  (mkGeom (Sphere (1#10)) Transform_id (Vec3_of (-1)) (-1) (-1) DrawDefault 9%Z)
                  [] HLQ) as Hrun.
    assert (HE : ephemeralGeometry (rep slider_misqueued) ++ contributedGeometry slider_realized
                 = [chain_sphere]
                   ++ [mkGeom (Sphere (1#10)) Transform_id (Vec3_of (-1)) (-1) (-1)
                         DrawDefault 9%Z]) by (vm_compute; reflexivity).
    specialize (Hrun HE).
    split; [exact HQ |]. split; [exact HLQ |].
    split; [vm_compute; reflexivity |]. split; [vm_compute; reflexivity |].
    eexists _, _, _, _, _. split.
    { apply Hrun; [repeat constructor | reflexivity]. }
    repeat (match goal with |- _ ∧ _ => split; [vm_compute; reflexivity |] end).
    vm_compute; reflexivity.
Defined.
